(** * WorldMind OS backend: job orchestration and oracle signal relay

    A shallow embedding of the Python backend (workers, oracle routes,
    oracle service, scraping and social services, database models) and
    the properties of its ingestion, job and signal pipeline.

    Conventions of the embedding:
    - SQL tables are lists of rows in insertion order; a table accepts
      every row unless the model class declares a constraint;
    - [datetime.utcnow()] is an explicit timestamp argument;
    - an exception is the [Err] case of [Result];
    - JSON columns and extracted payloads are Python values ([pyval]);
      a [str] is a string of code points below 256, and its UTF-8
      bytes are what is hashed;
    - external collaborators (page extraction, analysis engine, the
      web3 provider) are arguments of the operation that calls them. *)

From Stdlib Require Import List String Ascii ZArith Bool Lia DecimalString.
From Stdlib Require Import Permutation Sorted QArith.
From Stdlib Require OrderedTypeEx.
Import ListNotations.

Set Warnings "-register-all".
Local Open Scope string_scope.
Local Open Scope Z_scope.

(* ================================================================== *)
(** ** Python values and exceptions *)

Module Py.

(** [try]/[except Exception as e]: a computation returns a value or
    raises with a message ([str(e)]). *)
Inductive Result (A : Type) : Type :=
| Ok (a : A)
| Err (msg : string).
Arguments Ok {A} a.
Arguments Err {A} msg.

Definition bind {A B} (r : Result A) (k : A -> Result B) : Result B :=
  match r with
  | Ok a => k a
  | Err m => Err m
  end.

(** JSON-like Python values. A float is carried by its [repr]
    literal, a dict by its items in insertion order. *)
Inductive pyval : Type :=
| PNone
| PBool (b : bool)
| PInt (z : Z)
| PFloat (lit : string)
| PStr (s : string)
| PList (l : list pyval)
| PDict (d : list (string * pyval)).

Definition pydict : Type := list (string * pyval).

(** [d.get(k)] *)
Fixpoint dict_get (d : pydict) (k : string) : pyval :=
  match d with
  | [] => PNone
  | (k', v) :: d' => if String.eqb k' k then v else dict_get d' k
  end.

(** [k in d] *)
Fixpoint dict_mem (d : pydict) (k : string) : bool :=
  match d with
  | [] => false
  | (k', _) :: d' => String.eqb k' k || dict_mem d' k
  end.

Fixpoint dict_remove (d : pydict) (k : string) : pydict :=
  match d with
  | [] => []
  | (k', v) :: d' =>
      if String.eqb k' k then dict_remove d' k else (k', v) :: dict_remove d' k
  end.

(** [d[k] = v]: an existing key keeps its position, a new key goes
    last. *)
Fixpoint dict_set (d : pydict) (k : string) (v : pyval) : pydict :=
  match d with
  | [] => [(k, v)]
  | (k', v') :: d' =>
      if String.eqb k' k then (k, v) :: d' else (k', v') :: dict_set d' k v
  end.

Definition str_of_Z (z : Z) : string := NilZero.string_of_int (Z.to_int z).

Definition hex_digit (n : Z) : ascii :=
  match n with
  | 0 => "0" | 1 => "1" | 2 => "2" | 3 => "3" | 4 => "4" | 5 => "5"
  | 6 => "6" | 7 => "7" | 8 => "8" | 9 => "9" | 10 => "a" | 11 => "b"
  | 12 => "c" | 13 => "d" | 14 => "e" | _ => "f"
  end%char.

Definition code (c : ascii) : Z := Z.of_N (N_of_ascii c).

Fixpoint contains_char (c : ascii) (s : string) : bool :=
  match s with
  | EmptyString => false
  | String c' s' => Ascii.eqb c c' || contains_char c s'
  end.

(** Text is a [str] of code points below 256, one per character.
    [c.isprintable()] for such a code point: the controls (below 32
    and from 127 to 159), the no-break space (160) and the soft
    hyphen (173) are not printable. *)
Definition printable (n : Z) : bool :=
  (32 <=? n) && negb ((127 <=? n) && (n <=? 160)) && negb (n =? 173).

(** [repr] of one character of a [str] inside quotes [q]: the quote
    and the backslash are escaped, then tab, newline and return, then
    every code point that is not printable, as [\xNN]. *)
Definition repr_char (q c : ascii) : string :=
  let n := code c in
  if Ascii.eqb c q || Ascii.eqb c "\"%char then String "\"%char (String c "")
  else if n =? 9 then "\t"
  else if n =? 10 then "\n"
  else if n =? 13 then "\r"
  else if negb (printable n) then
    String "\"%char (String "x"%char
      (String (hex_digit (n / 16)) (String (hex_digit (n mod 16)) "")))
  else String c "".

(** [s.encode()]: the UTF-8 bytes of the text, one byte per
    character of the result; a code point from 128 up takes two
    bytes. *)
Fixpoint encode (s : string) : string :=
  match s with
  | EmptyString => ""
  | String c s' =>
      let n := code c in
      if n <? 128 then String c (encode s')
      else String (ascii_of_N (Z.to_N (192 + n / 64)))
             (String (ascii_of_N (Z.to_N (128 + n mod 64))) (encode s'))
  end.

Fixpoint repr_chars (q : ascii) (s : string) : string :=
  match s with
  | EmptyString => ""
  | String c s' => repr_char q c ++ repr_chars q s'
  end.

Definition squote : ascii := "'"%char.
Definition dquote : ascii := Ascii.ascii_of_nat 34.

(** [repr(s)] for a [str]: single quotes unless the text has a
    single quote and no double quote. *)
Definition repr_str (s : string) : string :=
  let q := if contains_char squote s && negb (contains_char dquote s)
           then dquote else squote in
  String q (repr_chars q s ++ String q "").

Fixpoint join (sep : string) (l : list string) : string :=
  match l with
  | [] => ""
  | [x] => x
  | x :: l' => x ++ sep ++ join sep l'
  end.

(** [repr(v)], which is also [str(v)] for containers. *)
Fixpoint repr (v : pyval) : string :=
  match v with
  | PNone => "None"
  | PBool true => "True"
  | PBool false => "False"
  | PInt z => str_of_Z z
  | PFloat lit => lit
  | PStr s => repr_str s
  | PList l => "[" ++ join ", " (map repr l) ++ "]"
  | PDict d =>
      "{" ++ join ", " (map (fun kv => repr_str (fst kv) ++ ": " ++ repr (snd kv)) d)
          ++ "}"
  end.

(** [repr] of a [(key, value)] tuple, as yielded by [dict.items()]. *)
Definition repr_item (kv : string * pyval) : string :=
  "(" ++ repr_str (fst kv) ++ ", " ++ repr (snd kv) ++ ")".

(** [sorted(d.items())]: the keys of a dict are distinct, so the
    tuples are ordered by key (code point order) alone. *)
Fixpoint insert_item {A} (kv : string * A) (l : list (string * A))
  : list (string * A) :=
  match l with
  | [] => [kv]
  | kv' :: l' =>
      if String.leb (fst kv) (fst kv') then kv :: kv' :: l'
      else kv' :: insert_item kv l'
  end.

Fixpoint sorted_items {A} (d : list (string * A)) : list (string * A) :=
  match d with
  | [] => []
  | kv :: d' => insert_item kv (sorted_items d')
  end.

(** The order of [sorted] on the items of a dict: by key. *)
Definition key_le {A} (x y : string * A) : Prop :=
  String.leb (fst x) (fst y) = true.

(** [str(list_of_tuples)] *)
Definition str_items (l : list (string * pyval)) : string :=
  "[" ++ join ", " (map repr_item l) ++ "]".

(** Truth value of a value ([if v:], [not v]). A float is carried by
    its [repr], which is [0.0] or [-0.0] for a zero. *)
Definition truthy (v : pyval) : bool :=
  match v with
  | PNone => false
  | PBool b => b
  | PInt z => negb (z =? 0)
  | PFloat lit => negb (String.eqb lit "0.0" || String.eqb lit "-0.0")
  | PStr s => negb (String.eqb s "")
  | PList l => match l with [] => false | _ => true end
  | PDict d => match d with [] => false | _ => true end
  end.

(** [type(v).__name__] *)
Definition type_name (v : pyval) : string :=
  match v with
  | PNone => "NoneType"
  | PBool _ => "bool"
  | PInt _ => "int"
  | PFloat _ => "float"
  | PStr _ => "str"
  | PList _ => "list"
  | PDict _ => "dict"
  end.

(** What [len(v)] counts and [for x in v] yields: the items of a
    list, the characters of a [str], the keys of a dict; the
    [TypeError] of [len] for a value without a length. *)
Definition elements (v : pyval) : Result (list pyval) :=
  match v with
  | PList l => Ok l
  | PStr s => Ok (map (fun c => PStr (String c "")) (list_ascii_of_string s))
  | PDict d => Ok (map (fun kv => PStr (fst kv)) d)
  | _ => Err ("object of type '" ++ type_name v ++ "' has no len()")
  end.

(** Truth value of an optional string ([if tx_hash:]). *)
Definition truthy_opt_str (o : option string) : bool :=
  match o with
  | Some s => negb (String.eqb s "")
  | None => false
  end.

(** [x in strs] *)
Definition str_in (x : string) (l : list string) : bool :=
  existsb (String.eqb x) l.

Definition opt_str_in (x : option string) (l : list string) : bool :=
  match x with
  | Some s => str_in s l
  | None => false
  end.

Definition opt_str_eqb (a b : option string) : bool :=
  match a, b with
  | Some x, Some y => String.eqb x y
  | None, None => true
  | _, _ => false
  end.

End Py.
Export Py.

(* ================================================================== *)
(** ** [hashlib.sha256(...).hexdigest()] (FIPS 180-4) *)

Module Sha256.

Definition mask32 : Z := 0xFFFFFFFF.
Definition w32 (x : Z) : Z := Z.land x mask32.
Definition add32 (x y : Z) : Z := w32 (x + y).
Definition rotr (n x : Z) : Z :=
  Z.lor (Z.shiftr x n) (w32 (Z.shiftl x (32 - n))).
Definition shr (n x : Z) : Z := Z.shiftr x n.
Definition not32 (x : Z) : Z := Z.lxor x mask32.

Definition Ch (x y z : Z) : Z := Z.lxor (Z.land x y) (Z.land (not32 x) z).
Definition Maj (x y z : Z) : Z :=
  Z.lxor (Z.lxor (Z.land x y) (Z.land x z)) (Z.land y z).
Definition Sigma0 (x : Z) : Z := Z.lxor (Z.lxor (rotr 2 x) (rotr 13 x)) (rotr 22 x).
Definition Sigma1 (x : Z) : Z := Z.lxor (Z.lxor (rotr 6 x) (rotr 11 x)) (rotr 25 x).
Definition sigma0 (x : Z) : Z := Z.lxor (Z.lxor (rotr 7 x) (rotr 18 x)) (shr 3 x).
Definition sigma1 (x : Z) : Z := Z.lxor (Z.lxor (rotr 17 x) (rotr 19 x)) (shr 10 x).

(** The constants are derived as the standard defines them: from
    the first 64 primes, the first 32 bits of the fractional parts of
    their cube roots ([K]) and, for the first 8, of their square roots
    ([H0]). *)
Definition is_prime (n : Z) : bool :=
  (1 <? n)
  && forallb (fun d => negb (n mod Z.of_nat d =? 0))
             (filter (fun d => Z.of_nat d * Z.of_nat d <=? n) (seq 2 16)).

Definition primes64 : list Z :=
  filter is_prime (map Z.of_nat (seq 2 310)).

(** Integer cube root by bisection, with [lo]^3 <= n < [hi]^3. *)
Fixpoint cube_root_between (fuel : nat) (lo hi n : Z) : Z :=
  match fuel with
  | O => lo
  | S fuel' =>
      let mid := (lo + hi) / 2 in
      if mid =? lo then lo
      else if mid * mid * mid <=? n then cube_root_between fuel' mid hi n
      else cube_root_between fuel' lo mid n
  end.

Definition cube_root (n : Z) : Z := cube_root_between 64 0 (2 ^ 36) n.

Definition K : list Z :=
  map (fun q => w32 (cube_root (q * 2 ^ 96))) primes64.

Definition H0 : list Z :=
  map (fun q => w32 (Z.sqrt (q * 2 ^ 64))) (firstn 8 primes64).

(** Padding: a 1 bit, zeros up to 56 mod 64, the bit length on 8
    bytes, big endian. *)
Definition be_bytes (n : nat) (x : Z) : list Z :=
  map (fun i => Z.land (Z.shiftr x (8 * Z.of_nat i)) 0xFF) (rev (seq 0 n)).

Definition pad (msg : list Z) : list Z :=
  let len := Z.of_nat (List.length msg) in
  let zeros := Z.to_nat ((55 - len) mod 64) in
  (msg ++ [0x80] ++ repeat 0 zeros ++ be_bytes 8 (8 * len))%list.

Fixpoint words_of_bytes (fuel : nat) (bs : list Z) : list Z :=
  match fuel, bs with
  | S fuel', b0 :: b1 :: b2 :: b3 :: bs' =>
      (Z.shiftl b0 24 + Z.shiftl b1 16 + Z.shiftl b2 8 + b3)
        :: words_of_bytes fuel' bs'
  | _, _ => []
  end.

(** Message schedule: [win] holds the last 16 words, oldest first. *)
Fixpoint schedule (n : nat) (win : list Z) : list Z :=
  match n with
  | O => []
  | S n' =>
      let w := add32 (add32 (sigma1 (nth 14 win 0)) (nth 9 win 0))
                     (add32 (sigma0 (nth 1 win 0)) (nth 0 win 0)) in
      w :: schedule n' (tl win ++ [w])%list
  end.

Definition round (st : list Z) (kw : Z * Z) : list Z :=
  match st with
  | [a; b; c; d; e; f; g; h] =>
      let t1 := add32 (add32 (add32 h (Sigma1 e)) (add32 (Ch e f g) (fst kw)))
                      (snd kw) in
      let t2 := add32 (Sigma0 a) (Maj a b c) in
      [add32 t1 t2; a; b; c; add32 d t1; e; f; g]
  | _ => st
  end.

Definition compress (h : list Z) (block : list Z) : list Z :=
  let w := (block ++ schedule 48 block)%list in
  let st := fold_left round (combine K w) h in
  map (fun p => add32 (fst p) (snd p)) (combine h st).

Fixpoint blocks (fuel : nat) (ws : list Z) (h : list Z) : list Z :=
  match fuel, ws with
  | S fuel', _ :: _ => blocks fuel' (skipn 16 ws) (compress h (firstn 16 ws))
  | _, _ => h
  end.

Definition hex_of_word (w : Z) : string :=
  string_of_list_ascii
    (map (fun i => hex_digit (Z.land (Z.shiftr w (4 * Z.of_nat i)) 0xF))
         (rev (seq 0 8))).

Definition bytes_of_string (s : string) : list Z :=
  map code (list_ascii_of_string s).

Definition digest_words (msg : list Z) : list Z :=
  let p := pad msg in
  let ws := words_of_bytes (List.length p) p in
  blocks (List.length ws) ws H0.

Definition hexdigest (s : string) : string :=
  String.concat "" (map hex_of_word (digest_words (bytes_of_string s))).

End Sha256.

(* ================================================================== *)
(** ** Database models (backend_models.py) *)

Module Source.
Record t : Type := mk {
  id : Z;
  name : string;
  type : string;                (* 'web', 'social', 'custom' *)
  platform : option string;
  config : pydict;
  enabled : bool
}.
End Source.

Module RawEvent.
(** [content_hash] is [Column(String(64), index=True)]: indexed,
    nullable, and not declared unique. *)
Record t : Type := mk {
  id : Z;
  source_id : Z;
  platform : string;
  raw_json : pydict;
  content_hash : option string;
  dedup_flag : bool;
  fetched_at : Z
}.

(** The arguments of the constructor call in the worker; [id],
    [dedup_flag] and [fetched_at] are filled in on insert. *)
Record init : Type := mk_init {
  i_source_id : Z;
  i_platform : string;
  i_raw_json : pydict;
  i_content_hash : option string
}.
End RawEvent.

Module Dataset.
Record t : Type := mk {
  id : Z;
  name : string;
  source_ids : option (list Z);
  row_count : Z;
  last_refreshed_at : option Z
}.

Definition refreshed (d : t) (now : Z) (rows : Z) : t :=
  mk (id d) (name d) (source_ids d) rows (Some now).
End Dataset.

Module AnalysisResult.
Record t : Type := mk {
  id : Z;
  dataset_id : Z;
  category : string;
  metrics : pydict;
  insights : pyval;
  recommendations : pyval;
  quality_score : pyval;
  severity : option string;     (* 'low', 'medium', 'high', 'critical' *)
  created_at : Z
}.

(** One entry of the list returned by the analysis service. *)
Record fields : Type := mk_fields {
  f_dataset_id : Z;
  f_category : string;
  f_metrics : pydict;
  f_insights : pyval;
  f_recommendations : pyval;
  f_quality_score : pyval;
  f_severity : option string
}.
End AnalysisResult.

Module Job.
Record t : Type := mk {
  id : Z;
  type : string;                (* 'scrape', 'aggregate', 'analyze', 'oracle_signal' *)
  status : string;              (* 'pending', 'running', 'completed', 'failed' *)
  input_data : pyval;
  output_data : pyval;
  progress : Q;
  error_message : option string;
  created_at : Z;
  started_at : option Z;
  completed_at : option Z
}.

Definition set_status (j : t) (s : string) : t :=
  mk (id j) (type j) s (input_data j) (output_data j) (progress j)
     (error_message j) (created_at j) (started_at j) (completed_at j).
Definition set_started_at (j : t) (ts : Z) : t :=
  mk (id j) (type j) (status j) (input_data j) (output_data j) (progress j)
     (error_message j) (created_at j) (Some ts) (completed_at j).
Definition set_completed_at (j : t) (ts : Z) : t :=
  mk (id j) (type j) (status j) (input_data j) (output_data j) (progress j)
     (error_message j) (created_at j) (started_at j) (Some ts).
Definition set_progress (j : t) (p : Q) : t :=
  mk (id j) (type j) (status j) (input_data j) (output_data j) p
     (error_message j) (created_at j) (started_at j) (completed_at j).
Definition set_output_data (j : t) (o : pyval) : t :=
  mk (id j) (type j) (status j) (input_data j) o (progress j)
     (error_message j) (created_at j) (started_at j) (completed_at j).
Definition set_error_message (j : t) (e : string) : t :=
  mk (id j) (type j) (status j) (input_data j) (output_data j) (progress j)
     (Some e) (created_at j) (started_at j) (completed_at j).
End Job.

Module OracleSignal.
(** [analysis_result_id] is a plain foreign key: the class declares
    no unique constraint on it, and [AnalysisResult.oracle_signals]
    is a one-to-many relationship. *)
Record t : Type := mk {
  id : Z;
  analysis_result_id : Z;
  severity : string;
  signal_type : option string;
  payload : pyval;
  status : string;              (* 'pending', 'sent', 'failed' *)
  tx_hash : option string;
  tx_status : option string;
  created_at : Z;
  sent_at : option Z
}.
End OracleSignal.

(** The persistent state: the six tables, and the Redis queue
    ['oracle'] of [(job_id, analysis_result_id)] tasks. *)
Record DB : Type := mkDB {
  sources : list Source.t;
  raw_events : list RawEvent.t;
  datasets : list Dataset.t;
  analysis_results : list AnalysisResult.t;
  jobs : list Job.t;
  oracle_signals : list OracleSignal.t;
  oracle_queue : list (Z * Z)
}.

Definition set_raw_events (db : DB) (x : list RawEvent.t) : DB :=
  mkDB (sources db) x (datasets db) (analysis_results db) (jobs db)
       (oracle_signals db) (oracle_queue db).
Definition set_datasets (db : DB) (x : list Dataset.t) : DB :=
  mkDB (sources db) (raw_events db) x (analysis_results db) (jobs db)
       (oracle_signals db) (oracle_queue db).
Definition set_analysis_results (db : DB) (x : list AnalysisResult.t) : DB :=
  mkDB (sources db) (raw_events db) (datasets db) x (jobs db)
       (oracle_signals db) (oracle_queue db).
Definition set_jobs (db : DB) (x : list Job.t) : DB :=
  mkDB (sources db) (raw_events db) (datasets db) (analysis_results db) x
       (oracle_signals db) (oracle_queue db).
Definition set_oracle_signals (db : DB) (x : list OracleSignal.t) : DB :=
  mkDB (sources db) (raw_events db) (datasets db) (analysis_results db) (jobs db)
       x (oracle_queue db).
Definition set_oracle_queue (db : DB) (x : list (Z * Z)) : DB :=
  mkDB (sources db) (raw_events db) (datasets db) (analysis_results db) (jobs db)
       (oracle_signals db) x.

(** Primary keys are drawn from a sequence: above every id in use. *)
Definition next_id (ids : list Z) : Z := 1 + fold_right Z.max 0 ids.

(** [db.query(M).filter(M.id == x).first()] *)
Definition query_job (db : DB) (x : Z) : option Job.t :=
  find (fun j => Job.id j =? x) (jobs db).
Definition query_source (db : DB) (x : Z) : option Source.t :=
  find (fun s => Source.id s =? x) (sources db).
Definition query_dataset (db : DB) (x : Z) : option Dataset.t :=
  find (fun d => Dataset.id d =? x) (datasets db).
Definition query_analysis (db : DB) (x : Z) : option AnalysisResult.t :=
  find (fun a => AnalysisResult.id a =? x) (analysis_results db).
Definition query_signal (db : DB) (x : Z) : option OracleSignal.t :=
  find (fun s => OracleSignal.id s =? x) (oracle_signals db).

(** [db.query(OracleSignal).filter(OracleSignal.analysis_result_id == x).first()] *)
Definition query_signal_for (db : DB) (x : Z) : option OracleSignal.t :=
  find (fun s => OracleSignal.analysis_result_id s =? x) (oracle_signals db).

(** Committing a loaded and modified row: the row with its id is
    replaced. *)
Definition update_job (db : DB) (j : Job.t) : DB :=
  set_jobs db (map (fun x => if Job.id x =? Job.id j then j else x) (jobs db)).
Definition update_signal (db : DB) (s : OracleSignal.t) : DB :=
  set_oracle_signals db
    (map (fun x => if OracleSignal.id x =? OracleSignal.id s then s else x)
         (oracle_signals db)).
Definition update_dataset (db : DB) (d : Dataset.t) : DB :=
  set_datasets db
    (map (fun x => if Dataset.id x =? Dataset.id d then d else x) (datasets db)).

(** [db.add(row); db.commit()]: the tables take the new row as it is;
    none of [raw_events], [analysis_results], [jobs], [oracle_signals]
    has a constraint that could refuse it. *)
Definition add_raw_event (now : Z) (db : DB) (e : RawEvent.init) : DB :=
  set_raw_events db
    (raw_events db ++
     [RawEvent.mk (next_id (map RawEvent.id (raw_events db)))
        (RawEvent.i_source_id e) (RawEvent.i_platform e) (RawEvent.i_raw_json e)
        (RawEvent.i_content_hash e) false now])%list.

Definition add_analysis_result (now : Z) (db : DB) (f : AnalysisResult.fields) : DB :=
  set_analysis_results db
    (analysis_results db ++
     [AnalysisResult.mk (next_id (map AnalysisResult.id (analysis_results db)))
        (AnalysisResult.f_dataset_id f) (AnalysisResult.f_category f)
        (AnalysisResult.f_metrics f) (AnalysisResult.f_insights f)
        (AnalysisResult.f_recommendations f) (AnalysisResult.f_quality_score f)
        (AnalysisResult.f_severity f) now])%list.

(** [Job(type=..., status='pending', input_data=...)], added and
    committed; the new row is returned as [db.refresh] loads it. *)
Definition add_job (now : Z) (db : DB) (type : string) (input_data : pyval)
  : DB * Job.t :=
  let j := Job.mk (next_id (map Job.id (jobs db))) type "pending" input_data
                  PNone 0%Q None now None None in
  (set_jobs db (jobs db ++ [j])%list, j).

Definition add_oracle_signal (now : Z) (db : DB) (analysis_result_id : Z)
    (severity : string) (signal_type : string) (payload : pyval) (status : string)
  : DB * OracleSignal.t :=
  let s := OracleSignal.mk (next_id (map OracleSignal.id (oracle_signals db)))
             analysis_result_id severity (Some signal_type) payload status
             None None now None in
  (set_oracle_signals db (oracle_signals db ++ [s])%list, s).

(** The state a sequence of commits ends in. *)
Definition final (db : DB) (trace : list DB) : DB := last trace db.

(** The statuses a job shows in a sequence of committed states. *)
Definition job_statuses (job_id : Z) (trace : list DB) : list string :=
  flat_map (fun db => match query_job db job_id with
                      | Some j => [Job.status j]
                      | None => []
                      end) trace.

(** A sequence of observed statuses without its repeated observations. *)
Fixpoint collapse (l : list string) : list string :=
  match l with
  | [] => []
  | x :: l' =>
      match collapse l' with
      | [] => [x]
      | y :: r => if String.eqb x y then y :: r else x :: y :: r
      end
  end.

(** [subsequence l m]: [l] is obtained from [m] by dropping elements. *)
Fixpoint subsequence (l m : list string) : bool :=
  match l, m with
  | [], _ => true
  | _ :: _, [] => false
  | x :: l', y :: m' =>
      if String.eqb x y then subsequence l' m' else subsequence l m'
  end.

(** The signals that refer to an analysis result. *)
Definition signals_for (db : DB) (analysis_result_id : Z) : list OracleSignal.t :=
  filter (fun s => OracleSignal.analysis_result_id s =? analysis_result_id)
         (oracle_signals db).

(* ================================================================== *)
(** ** Configuration (backend_config.py) *)

Record Settings : Type := mkSettings {
  ORACLE_ENABLED : bool;
  CHAIN_ID : Z;
  MAX_RETRIES : Z;
  JOB_TIMEOUT : Z
}.

(** The options of [SessionLocal], declared in [app.core.db]. *)
Record SessionConfig : Type := mkSessionConfig {
  autoflush : bool
}.

(* ================================================================== *)
(** ** Content hashes of the extraction services *)

Module ScrapingService.

(** [_generate_hash]: SHA-256 of [str(sorted(data.items()))]. *)
Definition _generate_hash (data : pydict) : string :=
  let content_str := str_items (sorted_items data) in
  Sha256.hexdigest (encode content_str).

(** [fetch_web_page] after the request: [extracted] is what
    [_extract_with_selectors] or [_auto_extract] returned for the
    page (or the error of the request), [utcnow] the text of
    [datetime.utcnow().isoformat()]. *)
Definition fetch_web_page (extracted : Result pydict) (url utcnow : string)
  : Result pydict :=
  bind extracted (fun extracted =>
    let extracted := dict_set extracted "url" (PStr url) in
    let extracted := dict_set extracted "fetched_at" (PStr utcnow) in
    let extracted :=
      dict_set extracted "content_hash" (PStr (_generate_hash extracted)) in
    Ok extracted).

End ScrapingService.

Module SocialService.

Definition hash_fields : list string := ["id"; "platform"].

(** [_generate_hash]: SHA-256 of the [str] of the dict of the stable
    fields ([id], [platform]) that the data has. *)
Definition _generate_hash (data : pydict) : string :=
  let content_str :=
    repr (PDict (map (fun k => (k, dict_get data k))
                     (filter (dict_mem data) hash_fields))) in
  Sha256.hexdigest (encode content_str).

End SocialService.

(* ================================================================== *)
(** ** Background workers (backend_workers.py) *)

Module Workers.

(** The extraction helpers [_extract_web_data] and
    [_extract_social_data], run to completion on a source. *)
Record Extractors : Type := mkExtractors {
  _extract_web_data : Source.t -> Result (list pydict);
  _extract_social_data : Source.t -> Result (list pydict)
}.

(** [AnalysisService().analyze_dataset] *)
Definition Analyzer : Type :=
  Z -> list RawEvent.t -> option (list string)
  -> Result (list AnalysisResult.fields).

(** [data.get('content_hash')]: the hex digest that the extractors
    put there, or [None]. *)
Definition content_hash_of (data : pydict) : option string :=
  match dict_get data "content_hash" with
  | PStr h => Some h
  | _ => None
  end.

Definition has_hash (h : option string) (e : RawEvent.t) : bool :=
  opt_str_eqb (RawEvent.content_hash e) h.
Definition has_hash_init (h : option string) (e : RawEvent.init) : bool :=
  opt_str_eqb (RawEvent.i_content_hash e) h.

(** One turn of the loop that stores raw events: the query for an
    existing row with the hash sees the committed rows, and the rows
    added earlier in the loop when the session flushes before a
    query. The state is the rows added so far and [new_events]. *)
Definition store_step (cfg : SessionConfig) (committed : list RawEvent.t)
    (source_id : Z) (platform : string)
    (st : list RawEvent.init * Z) (data : pydict) : list RawEvent.init * Z :=
  let '(added, new_events) := st in
  let content_hash := content_hash_of data in
  let existing :=
    existsb (has_hash content_hash) committed
    || (autoflush cfg && existsb (has_hash_init content_hash) added) in
  if negb existing then
    ((added ++ [RawEvent.mk_init source_id platform data content_hash])%list,
     new_events + 1)
  else (added, new_events).

Definition store_loop (cfg : SessionConfig) (committed : list RawEvent.t)
    (source_id : Z) (platform : string) (extracted_data : list pydict)
  : list RawEvent.init * Z :=
  fold_left (store_step cfg committed source_id platform) extracted_data ([], 0).

(** [db.commit()] after the loop: the added rows are inserted. *)
Definition commit_events (now : Z) (db : DB) (added : list RawEvent.init) : DB :=
  fold_left (add_raw_event now) added db.

Definition fail_job (t1 : Z) (db : DB) (job : Job.t) (e : string) : DB :=
  update_job db
    (Job.set_completed_at (Job.set_error_message (Job.set_status job "failed") e) t1).

(** [process_scraping_job]: the states it commits, in order. *)
Definition process_scraping_job (cfg : SessionConfig) (ext : Extractors)
    (t0 t1 : Z) (db : DB) (job_id source_id : Z) : list DB :=
  match query_job db job_id with
  | None => []
  | Some job =>
      let job := Job.set_progress
                   (Job.set_started_at (Job.set_status job "running") t0) 0%Q in
      let db1 := update_job db job in
      let body : Result (list DB) :=
        match query_source db1 source_id with
        | None => Err ("Source " ++ str_of_Z source_id ++ " not found")
        | Some source =>
            bind (if String.eqb (Source.type source) "web"
                  then _extract_web_data ext source
                  else if String.eqb (Source.type source) "social"
                  then _extract_social_data ext source
                  else Ok [])
              (fun extracted_data =>
                 let job := Job.set_progress job (1 # 2)%Q in
                 let db2 := update_job db1 job in
                 let platform := match Source.platform source with
                                 | Some p => if String.eqb p "" then "web" else p
                                 | None => "web"
                                 end in
                 let '(added, new_events) :=
                   store_loop cfg (raw_events db2) source_id platform
                              extracted_data in
                 let db3 := commit_events t1 db2 added in
                 let job := Job.set_progress job 1%Q in
                 let job := Job.set_status job "completed" in
                 let job := Job.set_completed_at job t1 in
                 let n := Z.of_nat (List.length extracted_data) in
                 let job := Job.set_output_data job
                              (PDict [("events_extracted", PInt n);
                                      ("new_events", PInt new_events);
                                      ("duplicates_filtered", PInt (n - new_events))]) in
                 let db4 := update_job db3 job in
                 Ok [db2; db3; db4])
        end in
      match body with
      | Ok trace => db1 :: trace
      | Err e => [db1; fail_job t1 db1 job e]
      end
  end.

Definition in_sources (ids : option (list Z)) (e : RawEvent.t) : bool :=
  match ids with
  | Some l => existsb (Z.eqb (RawEvent.source_id e)) l
  | None => false
  end.

(** [process_analysis_job] *)
Definition process_analysis_job (analyze : Analyzer) (t0 t1 : Z) (db : DB)
    (job_id dataset_id : Z) (categories : option (list string)) : list DB :=
  match query_job db job_id with
  | None => []
  | Some job =>
      let job := Job.set_progress
                   (Job.set_started_at (Job.set_status job "running") t0) 0%Q in
      let db1 := update_job db job in
      (* the [try] block: the states committed, the job object as
         it stands, and the exception raised, if any *)
      let '(trace, job, raised) :=
        match query_dataset db1 dataset_id with
        | None =>
            ([], job, Some ("Dataset " ++ str_of_Z dataset_id ++ " not found"))
        | Some dataset =>
            let raw := filter (in_sources (Dataset.source_ids dataset))
                              (raw_events db1) in
            match raw with
            | [] =>
                ([], job,
                 Some ("No data found for dataset " ++ str_of_Z dataset_id))
            | _ :: _ =>
                let job := Job.set_progress job (1 # 5)%Q in
                let db2 := update_job db1 job in
                match analyze dataset_id raw categories with
                | Err e => ([db2], job, Some e)
                | Ok results =>
                    let job := Job.set_progress job (4 # 5)%Q in
                    let db3 := update_job db2 job in
                    let db4 := fold_left (add_analysis_result t1) results db3 in
                    let db4 := update_dataset db4
                                 (Dataset.refreshed dataset t1
                                    (Z.of_nat (List.length raw))) in
                    let job := Job.set_progress job 1%Q in
                    let job := Job.set_status job "completed" in
                    let job := Job.set_completed_at job t1 in
                    let job := Job.set_output_data job
                      (PDict [("analyses_created",
                               PInt (Z.of_nat (List.length results)));
                              ("categories",
                               PList (map (fun r => PStr (AnalysisResult.f_category r))
                                          results))]) in
                    ([db2; db3; db4; update_job db4 job], job, None)
                end
            end
        end in
      match raised with
      | None => db1 :: trace
      | Some e => (db1 :: trace ++ [fail_job t1 (final db1 trace) job e])%list
      end
  end.

(** [process_oracle_job]: the placeholder of the relay worker. It
    takes no web3 provider and reads no signal. *)
Definition process_oracle_job (settings : Settings) (t0 t1 : Z) (db : DB)
    (job_id analysis_result_id : Z) : list DB :=
  match query_job db job_id with
  | None => []
  | Some job =>
      let job := Job.set_started_at (Job.set_status job "running") t0 in
      let db1 := update_job db job in
      match query_analysis db1 analysis_result_id with
      | None =>
          [db1; fail_job t1 db1 job
                  ("Analysis result " ++ str_of_Z analysis_result_id ++ " not found")]
      | Some analysis =>
          let job := Job.set_status job "completed" in
          let job := Job.set_completed_at job t1 in
          let job := Job.set_output_data job
                       (PDict [("signal_sent", PBool (ORACLE_ENABLED settings))]) in
          [db1; update_job db1 job]
      end
  end.

End Workers.

(* ================================================================== *)
(** ** Oracle routes (backend_routes_oracle.py) *)

Module RoutesOracle.

(** A handler returns its response or raises an [HTTPException]. *)
Inductive HTTPResult (A : Type) : Type :=
| Return (a : A)
| HTTPException (status_code : Z) (detail : string).
Arguments Return {A} a.
Arguments HTTPException {A} status_code detail.

Record Response : Type := mkResponse {
  r_signal_id : Z;
  r_job_id : Z;
  r_status : string;
  r_message : string
}.

(** [enqueue_oracle_job] *)
Definition enqueue_oracle_job (db : DB) (job_id analysis_result_id : Z) : DB :=
  set_oracle_queue db (oracle_queue db ++ [(job_id, analysis_result_id)])%list.

Definition severity_text (o : option string) : string :=
  match o with
  | Some s => s
  | None => "None"
  end.

(** [create_oracle_signal]: the states it produces, in order (commit
    of the signal, commit of the job, enqueue), and its outcome. *)
Definition create_oracle_signal (settings : Settings) (now : Z) (db : DB)
    (analysis_result_id : Z) : list DB * HTTPResult Response :=
  if negb (ORACLE_ENABLED settings) then
    ([], HTTPException 503 "Oracle service is not enabled")
  else
    match query_analysis db analysis_result_id with
    | None =>
        ([], HTTPException 404
               ("Analysis result " ++ str_of_Z analysis_result_id ++ " not found"))
    | Some analysis =>
        match AnalysisResult.severity analysis with
        | Some severity =>
            if negb (str_in severity ["high"; "critical"]) then
              ([], HTTPException 400
                     ("Analysis severity '" ++ severity
                      ++ "' is not high enough for oracle signal"))
            else
              match query_signal_for db analysis_result_id with
              | Some _ =>
                  ([], HTTPException 400
                         ("Oracle signal already exists for analysis "
                          ++ str_of_Z analysis_result_id))
              | None =>
                  let payload :=
                    PDict [("dataset_id", PInt (AnalysisResult.dataset_id analysis));
                           ("category", PStr (AnalysisResult.category analysis));
                           ("quality_score", AnalysisResult.quality_score analysis);
                           ("metrics_summary",
                            PDict (firstn 5 (AnalysisResult.metrics analysis)))] in
                  let '(db1, oracle_signal) :=
                    add_oracle_signal now db analysis_result_id severity "alert"
                                      payload "pending" in
                  let '(db2, job) :=
                    add_job now db1 "oracle_signal"
                      (PDict [("oracle_signal_id", PInt (OracleSignal.id oracle_signal));
                              ("analysis_result_id", PInt analysis_result_id)]) in
                  let db3 := enqueue_oracle_job db2 (Job.id job) analysis_result_id in
                  ([db1; db2; db3],
                   Return (mkResponse (OracleSignal.id oracle_signal) (Job.id job)
                             "pending"
                             "Oracle signal created and queued for transmission"))
              end
        | None =>
            ([], HTTPException 400
                   ("Analysis severity '" ++ severity_text None
                    ++ "' is not high enough for oracle signal"))
        end
    end.

Definition reset_signal (s : OracleSignal.t) : OracleSignal.t :=
  OracleSignal.mk (OracleSignal.id s) (OracleSignal.analysis_result_id s)
    (OracleSignal.severity s) (OracleSignal.signal_type s) (OracleSignal.payload s)
    "pending" None None (OracleSignal.created_at s) None.

(** [retry_oracle_signal]: the states it produces, in order (commit
    of the reset signal, commit of the new job, enqueue), and its
    outcome. *)
Definition retry_oracle_signal (settings : Settings) (now : Z) (db : DB)
    (signal_id : Z) : list DB * HTTPResult Response :=
  if negb (ORACLE_ENABLED settings) then
    ([], HTTPException 503 "Oracle service is not enabled")
  else
    match query_signal db signal_id with
    | None =>
        ([], HTTPException 404
               ("Oracle signal " ++ str_of_Z signal_id ++ " not found"))
    | Some signal =>
        if negb (str_in (OracleSignal.status signal) ["failed"; "pending"]) then
          ([], HTTPException 400
                 ("Cannot retry signal with status '"
                  ++ OracleSignal.status signal ++ "'"))
        else
          let signal := reset_signal signal in
          let db1 := update_signal db signal in
          let '(db2, job) :=
            add_job now db1 "oracle_signal"
              (PDict [("oracle_signal_id", PInt (OracleSignal.id signal));
                      ("analysis_result_id",
                       PInt (OracleSignal.analysis_result_id signal))]) in
          let db3 := enqueue_oracle_job db2 (Job.id job)
                       (OracleSignal.analysis_result_id signal) in
          ([db1; db2; db3],
           Return (mkResponse (OracleSignal.id signal) (Job.id job) "pending"
                     "Oracle signal retry queued"))
    end.

End RoutesOracle.

(* ================================================================== *)
(** ** Oracle service (oracle_service.py) *)

Module OracleService.

Record SignalData : Type := mkSignalData {
  analysis_id : Z;
  severity_level : Z;
  timestamp : Z;
  metrics_hash : string
}.

(** The transaction dict built for [submitSignal]. *)
Record Transaction : Type := mkTransaction {
  tx_to : string;
  tx_analysisId : Z;
  tx_severityLevel : Z;
  tx_timestamp : Z;
  tx_metricsHash : string;      (* hex digits after the '0x' prefix *)
  tx_from : string;
  tx_nonce : Z;
  tx_gas : Z;
  tx_gasPrice : Z;
  tx_chainId : Z
}.

(** The web3 provider: each call answers or raises. [contract] is
    [w3.eth.contract(address=..., abi=...)]; [submit_signal] is the
    making of the call object, [bytes.fromhex] of the hash digits and
    [contract.functions.submitSignal(...)] on the four arguments;
    [build_transaction] is its [build_transaction({...})]. The
    receipt call yields [receipt['status']], or raises when the wait
    times out. *)
Record Web3 : Type := mkWeb3 {
  keccak_text : string -> string;
  contract : string -> Result unit;
  get_transaction_count : string -> Result Z;
  submit_signal : Z -> Z -> Z -> string -> Result unit;
  gas_price : Result Z;
  build_transaction : Transaction -> Result unit;
  sign_transaction : Transaction -> string -> Result string;
  send_raw_transaction : string -> Result string;
  wait_for_transaction_receipt : string -> Z -> Result Z
}.

Record t : Type := mk {
  private_key : string;
  guardian_address : string;
  chain_id : Z;
  w3 : option Web3;
  account : option string       (* the address of the signing account *)
}.

(** The severity map of [_prepare_signal] and its [get(severity, 1)]. *)
Definition severity_map : list (string * Z) :=
  [("low", 1); ("medium", 2); ("high", 3); ("critical", 4)].

Fixpoint map_get (m : list (string * Z)) (k : string) (default : Z) : Z :=
  match m with
  | [] => default
  | (k', v) :: m' => if String.eqb k' k then v else map_get m' k default
  end.

(** [json.dumps(v, sort_keys=True)], with its default
    [ensure_ascii]: the quote and the backslash are escaped, the
    short escapes are used where there is one, and every other
    character outside of space to tilde is written [\u00NN]. *)
Definition json_char (c : ascii) : string :=
  let n := code c in
  if n =? 34 then String "\"%char (String c "")
  else if n =? 92 then String c (String c "")
  else if n =? 10 then "\n"
  else if n =? 13 then "\r"
  else if n =? 9 then "\t"
  else if n =? 8 then "\b"
  else if n =? 12 then "\f"
  else if (n <? 32) || (127 <=? n) then
    "\u00" ++ String (hex_digit (n / 16)) (String (hex_digit (n mod 16)) "")
  else String c "".

Fixpoint json_chars (s : string) : string :=
  match s with
  | EmptyString => ""
  | String c s' => json_char c ++ json_chars s'
  end.

Definition json_str (s : string) : string :=
  String dquote (json_chars s ++ String dquote "").

Fixpoint json_dumps (v : pyval) : string :=
  match v with
  | PNone => "null"
  | PBool true => "true"
  | PBool false => "false"
  | PInt z => str_of_Z z
  | PFloat lit => lit
  | PStr s => json_str s
  | PList l => "[" ++ join ", " (map json_dumps l) ++ "]"
  | PDict d =>
      "{" ++ join ", "
               (map (fun kv => json_str (fst kv) ++ ": " ++ snd kv)
                    (sorted_items (map (fun kv => (fst kv, json_dumps (snd kv))) d)))
          ++ "}"
  end.

Definition _hash_metrics (self : t) (metrics : pydict) : string :=
  let metrics_str := json_dumps (PDict metrics) in
  match w3 self with
  | Some w => keccak_text w metrics_str
  | None => ""
  end.

Definition _prepare_signal (self : t) (now : Z) (analysis_id : Z)
    (severity : string) (metrics : pydict) : SignalData :=
  mkSignalData analysis_id (map_get severity_map severity 1) now
               (_hash_metrics self metrics).

Definition drop2 (s : string) : string :=
  match s with
  | String _ (String _ r) => r
  | _ => ""
  end.

(** [_build_transaction]: the contract object, the nonce, the call
    object, the gas price and the transaction, in the order in which
    the source evaluates them; the first that raises ends it. *)
Definition _build_transaction (self : t) (w : Web3) (address : string)
    (signal_data : SignalData) : Result Transaction :=
  bind (contract w (guardian_address self)) (fun _ =>
  bind (get_transaction_count w address) (fun nonce =>
  bind (submit_signal w (analysis_id signal_data) (severity_level signal_data)
                      (timestamp signal_data)
                      (drop2 (metrics_hash signal_data))) (fun _ =>
  bind (gas_price w) (fun price =>
    let tx := mkTransaction (guardian_address self)
                (analysis_id signal_data) (severity_level signal_data)
                (timestamp signal_data) (drop2 (metrics_hash signal_data))
                address nonce 200000 price (chain_id self) in
    bind (build_transaction w tx) (fun _ => Ok tx))))).

Definition log_error (e : string) : string :=
  "Error sending signal to blockchain: " ++ e.

(** [send_signal]: the transaction hash or [None], and the lines it
    logs. Every exception of the body is caught inside. *)
Definition send_signal (self : t) (now : Z) (analysis_result_id : Z)
    (severity : string) (metrics : pydict) : option string * list string :=
  match w3 self, account self with
  | Some w, Some address =>
      let signal_data :=
        _prepare_signal self now analysis_result_id severity metrics in
      match _build_transaction self w address signal_data with
      | Err e => (None, [log_error e])
      | Ok tx =>
          match sign_transaction w tx (private_key self) with
          | Err e => (None, [log_error e])
          | Ok signed_tx =>
              match send_raw_transaction w signed_tx with
              | Err e => (None, [log_error e])
              | Ok tx_hash_hex =>
                  let sent := "Signal sent to blockchain: " ++ tx_hash_hex in
                  match wait_for_transaction_receipt w tx_hash_hex 120 with
                  | Err e => (None, [sent; log_error e])
                  | Ok status =>
                      if status =? 1 then
                        (Some tx_hash_hex,
                         [sent; "Transaction confirmed: " ++ tx_hash_hex])
                      else
                        (None, [sent; "Transaction failed: " ++ tx_hash_hex])
                  end
              end
          end
      end
  | _, _ =>
      (None, ["Web3 not initialized - skipping blockchain transmission"])
  end.

(** What the session does in one pass of the monitor: each of its
    calls may raise (the message is given), keyed by the id of the
    signal being processed. *)
Record Session : Type := mkSession {
  query_signals_raises : option string;
  query_analysis_raises : Z -> option string;
  commit_raises : Z -> option string
}.

Definition mark_sent (s : OracleSignal.t) (tx_hash : string) (now : Z)
  : OracleSignal.t :=
  OracleSignal.mk (OracleSignal.id s) (OracleSignal.analysis_result_id s)
    (OracleSignal.severity s) (OracleSignal.signal_type s) (OracleSignal.payload s)
    "sent" (Some tx_hash) (Some "confirmed") (OracleSignal.created_at s) (Some now).

Definition mark_failed (s : OracleSignal.t) : OracleSignal.t :=
  OracleSignal.mk (OracleSignal.id s) (OracleSignal.analysis_result_id s)
    (OracleSignal.severity s) (OracleSignal.signal_type s) (OracleSignal.payload s)
    "failed" (OracleSignal.tx_hash s) (OracleSignal.tx_status s)
    (OracleSignal.created_at s) (OracleSignal.sent_at s).

(** [if tx_hash: ... else: ...]: the signal as the loop body leaves
    it for the value that [send_signal] returned. *)
Definition settle (signal : OracleSignal.t) (tx_hash : option string) (now : Z)
  : OracleSignal.t :=
  match tx_hash with
  | Some h => if String.eqb h "" then mark_failed signal
              else mark_sent signal h now
  | None => mark_failed signal
  end.

(** The body of the [for] loop of [monitor_and_send] for one signal:
    the database and the log after it, and the exception that leaves
    the loop, if one is raised. *)
Definition monitor_signal (self : t) (session : Session) (now : Z)
    (db : DB) (log : list string) (signal : OracleSignal.t)
  : DB * list string * option string :=
  match query_analysis_raises session (OracleSignal.id signal) with
  | Some e => (db, log, Some e)
  | None =>
      match query_analysis db (OracleSignal.analysis_result_id signal) with
      | None => (db, log, None)
      | Some analysis =>
          let sent :=
            send_signal self now (AnalysisResult.id analysis)
                        (OracleSignal.severity signal)
                        (AnalysisResult.metrics analysis) in
          let log := (log ++ snd sent)%list in
          let signal := settle signal (fst sent) now in
          match commit_raises session (OracleSignal.id signal) with
          | Some e => (db, log, Some e)
          | None => (update_signal db signal, log, None)
          end
      end
  end.

(** The exception that the loop body raises for a signal, if any. *)
Definition raises_on (session : Session) (db : DB) (signal : OracleSignal.t)
  : option string :=
  match query_analysis_raises session (OracleSignal.id signal) with
  | Some e => Some e
  | None =>
      match query_analysis db (OracleSignal.analysis_result_id signal) with
      | None => None
      | Some _ => commit_raises session (OracleSignal.id signal)
      end
  end.

Fixpoint monitor_signals (self : t) (session : Session) (now : Z)
    (db : DB) (log : list string) (signals : list OracleSignal.t)
  : DB * list string * option string :=
  match signals with
  | [] => (db, log, None)
  | signal :: rest =>
      match monitor_signal self session now db log signal with
      | (db', log', None) => monitor_signals self session now db' log' rest
      | (db', log', Some e) => (db', log', Some e)
      end
  end.

Definition is_pending_alert (s : OracleSignal.t) : bool :=
  String.eqb (OracleSignal.status s) "pending"
  && str_in (OracleSignal.severity s) ["high"; "critical"].

Definition log_loop_error (e : string) : string :=
  "Error in monitoring loop: " ++ e.

(** One turn of the [while True] loop: the [try] block with the
    query and the [for] loop, and the [except] that logs. *)
Definition monitor_pass (self : t) (session : Session) (now : Z)
    (st : DB * list string) : DB * list string :=
  let '(db, log) := st in
  match query_signals_raises session with
  | Some e => (db, (log ++ [log_loop_error e])%list)
  | None =>
      let pending_signals := filter is_pending_alert (oracle_signals db) in
      match monitor_signals self session now db log pending_signals with
      | (db', log', None) => (db', log')
      | (db', log', Some e) =>
          (db', (log' ++ [log_loop_error e])%list)
      end
  end.

(** [monitor_and_send], cut after [passes] turns of its endless
    loop; turn [i] runs with the session behaviour and clock
    [env i]. *)
Fixpoint monitor_and_send (self : t) (env : nat -> Session * Z)
    (passes : nat) (i : nat) (st : DB * list string) : DB * list string :=
  match passes with
  | O => st
  | S passes' =>
      monitor_and_send self env passes' (S i)
        (monitor_pass self (fst (env i)) (snd (env i)) st)
  end.

End OracleService.

(* ================================================================== *)
(** ** Runs of the workers *)

(** [worker_run db job_id trace]: [trace] is what one of the three
    worker functions commits when it is called on [job_id] in [db]. *)
Inductive worker_run (db : DB) (job_id : Z) : list DB -> Prop :=
| run_scraping (cfg : SessionConfig) (ext : Workers.Extractors) (t0 t1 : Z)
    (source_id : Z) :
    worker_run db job_id
      (Workers.process_scraping_job cfg ext t0 t1 db job_id source_id)
| run_analysis (analyze : Workers.Analyzer) (t0 t1 : Z) (dataset_id : Z)
    (categories : option (list string)) :
    worker_run db job_id
      (Workers.process_analysis_job analyze t0 t1 db job_id dataset_id categories)
| run_oracle (settings : Settings) (t0 t1 : Z) (analysis_result_id : Z) :
    worker_run db job_id
      (Workers.process_oracle_job settings t0 t1 db job_id analysis_result_id).

(** What the loop keeps true of the rows it has added: their number
    is [new_events], each has a hash that no committed row has, and,
    when the session flushes before a query, their hashes are
    distinct. *)
Definition loop_invariant (cfg : SessionConfig) (committed : list RawEvent.t)
    (seen : nat) (st : list RawEvent.init * Z) : Prop :=
  snd st = Z.of_nat (List.length (fst st))
  /\ (List.length (fst st) <= seen)%nat
  /\ (forall e, In e (fst st) ->
      ~ In (RawEvent.i_content_hash e) (map RawEvent.content_hash committed))
  /\ (autoflush cfg = true -> NoDup (map RawEvent.i_content_hash (fst st))).

(* ================================================================== *)
(** ** Sample data *)

Module Examples.

Definition settings_on : Settings := mkSettings true 1 3 3600.
Definition settings_off : Settings := mkSettings false 1 3 3600.

Definition critical_analysis : AnalysisResult.t :=
  AnalysisResult.mk 1 1 "sentiment" [("sentiment_score", PFloat "-0.9")]
    PNone PNone (PFloat "0.35") (Some "critical") 100.

Definition low_analysis : AnalysisResult.t :=
  AnalysisResult.mk 2 1 "trends" [("trend", PStr "flat")]
    PNone PNone (PFloat "0.9") (Some "low") 100.

(** Two analysis results, nothing else. *)
Definition db_analyses : DB :=
  mkDB [] [] [] [critical_analysis; low_analysis] [] [] [].

Definition signal_for_critical (status : string) (tx_hash : option string)
  : OracleSignal.t :=
  OracleSignal.mk 1 1 "critical" (Some "alert") PNone status tx_hash
    (match tx_hash with Some _ => Some "confirmed" | None => None end)
    100 (match tx_hash with Some _ => Some 150 | None => None end).

Definition relay_job (status : string) : Job.t :=
  Job.mk 1 "oracle_signal" status
    (PDict [("oracle_signal_id", PInt 1); ("analysis_result_id", PInt 1)])
    PNone 0%Q None 100 None None.

(** The critical analysis with its signal and relay job. *)
Definition db_signal (signal_status job_status : string) : DB :=
  mkDB [] [] [] [critical_analysis; low_analysis] [relay_job job_status]
       [signal_for_critical signal_status None] [(1, 1)].

(** A web3 provider that accepts every call and answers the wait
    for the receipt with [receipt]. *)
Definition web3_with_receipt (receipt : Result Z) : OracleService.Web3 :=
  OracleService.mkWeb3
    (fun _ => "0x5f")
    (fun _ => Ok tt)
    (fun _ => Ok 7)
    (fun _ _ _ _ => Ok tt)
    (Ok 20)
    (fun _ => Ok tt)
    (fun tx _ => Ok ("signed-" ++ str_of_Z (OracleService.tx_analysisId tx)))
    (fun raw => Ok ("0xhash-of-" ++ raw))
    (fun _ _ => receipt).

Definition service (receipt : Result Z) : OracleService.t :=
  OracleService.mk "key" "0xguardian" 1 (Some (web3_with_receipt receipt))
                   (Some "0xoracle").

(** The oracle service in simulation mode: no web3 connection. *)
Definition service_offline : OracleService.t :=
  OracleService.mk "" "" 1 None None.

(** A fetched page as [fetch_web_page] returns it. *)
Definition page : pydict :=
  [("title", PStr "Example Domain");
   ("url", PStr "https://example.org");
   ("fetched_at", PStr "2024-01-01T00:00:00.000001");
   ("content_hash",
    PStr "3b1f054a59ff1ecd0dd5e47ef1559a8775e88c45838417bd28b5b06681d213d5")].

(** The same page fetched five minutes later. *)
Definition page_later : pydict :=
  [("title", PStr "Example Domain");
   ("url", PStr "https://example.org");
   ("fetched_at", PStr "2024-01-01T00:05:00.000002");
   ("content_hash",
    PStr "7f90b2d56f4639111f4f7e0179a3ea5b83d969086490743cf61b67cc342d044b")].

Definition web_source : Source.t :=
  Source.mk 1 "example" "web" None [("urls", PList [PStr "https://example.org"])]
            true.

(** No raw event stored yet. *)
Definition db_no_events : DB := mkDB [web_source] [] [] [] [] [] [].

Definition high_analysis : AnalysisResult.t :=
  AnalysisResult.mk 3 1 "engagement" [("engagement_rate", PFloat "0.02")]
    PNone PNone (PFloat "0.5") (Some "high") 100.

(** Two pending signals, for the critical and for the high analysis
    result, in the order of their ids. *)
Definition first_signal : OracleSignal.t :=
  OracleSignal.mk 1 1 "critical" (Some "alert") PNone "pending" None None 100 None.
Definition second_signal : OracleSignal.t :=
  OracleSignal.mk 2 3 "high" (Some "alert") PNone "pending" None None 101 None.

Definition db_two_signals : DB :=
  mkDB [] [] [] [critical_analysis; low_analysis; high_analysis] []
       [first_signal; second_signal] [].

(** A session whose commit raises while signal 1 is processed. *)
Definition commit_fails_on_first : OracleService.Session :=
  OracleService.mkSession None (fun _ => None)
    (fun k => if k =? 1 then Some "connection lost" else None).

(** A session in which no call raises. *)
Definition healthy : OracleService.Session :=
  OracleService.mkSession None (fun _ => None) (fun _ => None).

End Examples.

(* ================================================================== *)
(** ** Requests and extraction of the scraping service *)

Module ScrapingHttp.

(** What one [client.get(url)] followed by [raise_for_status()] does:
    it answers, raises an [httpx.HTTPError], or raises something
    else. *)
Inductive Attempt : Type :=
| Response (text : string)
| HTTPError (msg : string)
| OtherError (msg : string).

(** The calls of [asyncio.sleep]: the rate limit delay before each
    request, and the backoff of [2 ** retries] seconds before a
    retry. *)
Inductive Sleep : Type :=
| RateLimitDelay
| Backoff (seconds : Z).

(** [_make_request(url, retries)], with [left] the retries that are
    still allowed, [MAX_RETRIES - retries]: the test
    [retries < MAX_RETRIES] is [left] being positive. [client n] is
    what the [n]-th request for the url does, counted from 0. *)
Fixpoint request_from (client : nat -> Attempt) (left retries : nat)
  : Result string * list Sleep :=
  match client retries with
  | Response text => (Ok text, [RateLimitDelay])
  | OtherError e => (Err e, [RateLimitDelay])
  | HTTPError e =>
      match left with
      | O => (Err e, [RateLimitDelay])
      | S left' =>
          let '(r, sleeps) := request_from client left' (S retries) in
          (r, RateLimitDelay :: Backoff (2 ^ Z.of_nat retries) :: sleeps)
      end
  end.

Definition _make_request (settings : Settings) (client : nat -> Attempt)
  : Result string * list Sleep :=
  request_from client (Z.to_nat (MAX_RETRIES settings)) 0.

(** The number of requests made, and the seconds of backoff slept. *)
Definition requests_made (sleeps : list Sleep) : nat :=
  List.length (filter (fun s => match s with RateLimitDelay => true | _ => false end)
                      sleeps).

Definition backoff_seconds (sleeps : list Sleep) : Z :=
  fold_right (fun s acc => match s with Backoff n => n + acc | _ => acc end) 0 sleeps.

(** The world of the scraper: the requests of each url, the message
    of the [TypeError] that [client.get] raises for a url that is not
    a [str], the texts of the elements that [soup.select] finds in a
    page for a selector (or the exception it raises), what
    [_auto_extract] finds in a page, and the clock. *)
Record Web : Type := mkWeb {
  client_get : string -> nat -> Attempt;
  invalid_url : pyval -> string;
  select : string -> pyval -> Result (list string);
  auto_extract : string -> string -> pydict;
  utcnow : string -> string
}.

(** [_extract_with_selectors]: one entry per field, in the order of
    [selectors.items()]; the text of the element, the list of texts
    when several match, [None] when none does. *)
Definition _extract_with_selectors (select : pyval -> Result (list string))
    (selectors : pydict) : Result pydict :=
  fold_left
    (fun acc fs =>
       bind acc (fun extracted =>
       bind (select (snd fs)) (fun texts =>
         Ok (dict_set extracted (fst fs)
               (match texts with
                | [] => PNone
                | [text] => PStr text
                | _ => PList (map PStr texts)
                end)))))
    selectors (Ok []).

(** [fetch_web_page(url, selectors)], the whole method: the request,
    the extraction, then the stamping and hashing. The url and the
    selectors are values of the source's config. *)
Definition fetch_web_page (settings : Settings) (web : Web) (url : pyval)
    (selectors : pyval) : Result pydict :=
  match url with
  | PStr u =>
      match fst (_make_request settings (client_get web u)) with
      | Err e => Err e
      | Ok text =>
          let extracted :=
            if truthy selectors then
              match selectors with
              | PDict d => _extract_with_selectors (select web text) d
              | _ => Err ("'" ++ type_name selectors
                          ++ "' object has no attribute 'items'")
              end
            else Ok (auto_extract web text u) in
          ScrapingService.fetch_web_page extracted u (utcnow web u)
      end
  | _ => Err (invalid_url web url)
  end.

(** [bulk_fetch(urls)]: every url is fetched without selectors, the
    fetches that raised are left out. *)
Definition bulk_fetch (settings : Settings) (web : Web) (urls : list pyval)
  : list pydict :=
  flat_map (fun url => match fetch_web_page settings web url PNone with
                       | Ok result => [result]
                       | Err _ => []
                       end) urls.

(** [_extract_web_data] of the workers, for the values of [urls] and
    [selectors] in the source's config. [urls[0]] of a dict, whose
    keys are strings, raises [KeyError(0)]. *)
Definition _extract_web_data (settings : Settings) (web : Web)
    (urls selectors : pyval) : Result (list pydict) :=
  if negb (truthy urls) then Ok []
  else
    bind (elements urls) (fun items =>
      match items with
      | [url] =>
          match urls with
          | PDict _ => Err "0"
          | _ => bind (fetch_web_page settings web url selectors)
                      (fun result => Ok [result])
          end
      | _ => Ok (bulk_fetch settings web items)
      end).

(** The extraction helpers of the workers over this world; the social
    fetchers are left as they come. *)
Definition extractors (settings : Settings) (web : Web)
    (social : Source.t -> Result (list pydict)) : Workers.Extractors :=
  Workers.mkExtractors
    (fun source =>
       _extract_web_data settings web
         (dict_get (Source.config source) "urls")
         (dict_get (Source.config source) "selectors"))
    social.

End ScrapingHttp.

(* ================================================================== *)
(** ** Records of the social service *)

Module SocialRecords.

(** [item['content_hash'] = self._generate_hash(item)], the last step
    of every fetcher of the social service. *)
Definition with_content_hash (item : pydict) : pydict :=
  dict_set item "content_hash" (PStr (SocialService._generate_hash item)).

End SocialRecords.

(* ================================================================== *)
(** ** Job routes (backend_routes_jobs.py) *)

Module RoutesJobs.

(** [delete_job] *)
Definition delete_job (db : DB) (job_id : Z) : DB * RoutesOracle.HTTPResult unit :=
  match query_job db job_id with
  | None =>
      (db, RoutesOracle.HTTPException 404
             ("Job with ID " ++ str_of_Z job_id ++ " not found"))
  | Some job =>
      if str_in (Job.status job) ["running"; "pending"] then
        (db, RoutesOracle.HTTPException 400 "Cannot delete running or pending jobs")
      else
        (set_jobs db (filter (fun j => negb (Job.id j =? Job.id job)) (jobs db)),
         RoutesOracle.Return tt)
  end.

Definition seconds_per_day : Z := 86400.

(** The rows that [cleanup_old_jobs] deletes: terminal, and created
    before the cutoff. *)
Definition is_old_terminal (cutoff : Z) (j : Job.t) : bool :=
  str_in (Job.status j) ["completed"; "failed"] && (Job.created_at j <? cutoff).

(** [cleanup_old_jobs(days_old)]: [None] when the query parameter is
    outside [Query(ge=1, le=90)] and the handler is not run; else the
    database after the delete, [deleted_count] and the cutoff (times
    in seconds). *)
Definition cleanup_old_jobs (now : Z) (db : DB) (days_old : Z)
  : option (DB * Z * Z) :=
  if (1 <=? days_old) && (days_old <=? 90) then
    let cutoff := now - days_old * seconds_per_day in
    let deleted_count :=
      Z.of_nat (List.length (filter (is_old_terminal cutoff) (jobs db))) in
    Some (set_jobs db (filter (fun j => negb (is_old_terminal cutoff j)) (jobs db)),
          deleted_count, cutoff)
  else None.

End RoutesJobs.

(* ================================================================== *)
(** ** Triggers of extraction and analysis (backend_routes_sources.py,
       backend_routes_analysis.py) *)

Module RoutesTriggers.

(** [trigger_extraction]: the state committed, the tasks put on the
    scraping queue, and the outcome. *)
Definition trigger_extraction (now : Z) (db : DB) (source_id : Z)
  : list DB * list (Z * Z) * RoutesOracle.HTTPResult Job.t :=
  match query_source db source_id with
  | None =>
      ([], [], RoutesOracle.HTTPException 404
                 ("Source with ID " ++ str_of_Z source_id ++ " not found"))
  | Some source =>
      if negb (Source.enabled source) then
        ([], [], RoutesOracle.HTTPException 400
                   ("Source '" ++ Source.name source ++ "' is disabled"))
      else
        let '(db1, job) :=
          add_job now db "scrape" (PDict [("source_id", PInt source_id)]) in
        ([db1], [(Job.id job, source_id)], RoutesOracle.Return job)
  end.

(** [trigger_all_extractions]: one job per enabled source, added in a
    single commit, then enqueued in that order. *)
Definition trigger_all_extractions (now : Z) (db : DB)
  : list DB * list (Z * Z) * RoutesOracle.HTTPResult (list Job.t) :=
  match filter Source.enabled (sources db) with
  | [] => ([], [], RoutesOracle.HTTPException 404 "No enabled sources found")
  | enabled =>
      let '(db1, created) :=
        fold_left
          (fun st source =>
             let '(d, js) := st in
             let '(d', j) :=
               add_job now d "scrape" (PDict [("source_id", PInt (Source.id source))]) in
             (d', (js ++ [(j, Source.id source)])%list))
          enabled (db, []) in
      ([db1], map (fun js => (Job.id (fst js), snd js)) created,
       RoutesOracle.Return (map fst created))
  end.

(** [trigger_analysis]: the state committed, the tasks put on the
    analysis queue ([job_id], [dataset_id], [categories]), and the
    job id returned. *)
Definition trigger_analysis (now : Z) (db : DB) (dataset_id : Z)
    (categories : option (list string))
  : list DB * list (Z * Z * option (list string)) * RoutesOracle.HTTPResult Z :=
  match query_dataset db dataset_id with
  | None =>
      ([], [], RoutesOracle.HTTPException 404
                 ("Dataset " ++ str_of_Z dataset_id ++ " not found"))
  | Some _ =>
      let '(db1, job) :=
        add_job now db "analyze"
          (PDict [("dataset_id", PInt dataset_id);
                  ("categories",
                   match categories with
                   | Some cs => PList (map PStr cs)
                   | None => PNone
                   end)]) in
      ([db1], [(Job.id job, dataset_id, categories)], RoutesOracle.Return (Job.id job))
  end.

End RoutesTriggers.

(* ================================================================== *)
(** ** Observations on traces *)

(** The progress a job shows in a sequence of committed states. *)
Definition job_progresses (job_id : Z) (trace : list DB) : list Q :=
  flat_map (fun db => match query_job db job_id with
                      | Some j => [Job.progress j]
                      | None => []
                      end) trace.

(** A list of rationals that never goes down. *)
Fixpoint nondecreasing (l : list Q) : bool :=
  match l with
  | x :: ((y :: _) as l') => Qle_bool x y && nondecreasing l'
  | _ => true
  end.


(** The rows a job shows in a sequence of committed states. *)
Definition job_rows (job_id : Z) (trace : list DB) : list Job.t :=
  flat_map (fun db => match query_job db job_id with
                      | Some j => [j]
                      | None => []
                      end) trace.

(** [source.platform or 'web'] *)
Definition platform_or_web (source : Source.t) : string :=
  match Source.platform source with
  | Some p => if String.eqb p "" then "web" else p
  | None => "web"
  end.

(** What [process_scraping_job] extracts for a source: by its type,
    through one of the helpers, or nothing. *)
Definition extracted_for (ext : Workers.Extractors) (source : Source.t)
  : Result (list pydict) :=
  if String.eqb (Source.type source) "web" then Workers._extract_web_data ext source
  else if String.eqb (Source.type source) "social"
       then Workers._extract_social_data ext source
       else Ok [].

(** A state differs from another only in the row of one job (and in
    raw events, analysis results and datasets, which the workers
    write): same job ids, same rows of the other jobs, same sources,
    signals and queue. *)
Definition same_but_job (job_id : Z) (db d : DB) : Prop :=
  map Job.id (jobs d) = map Job.id (jobs db)
  /\ (forall k, k <> job_id -> query_job d k = query_job db k)
  /\ sources d = sources db
  /\ oracle_signals d = oracle_signals db
  /\ oracle_queue d = oracle_queue db.


(* ================================================================== *)
(** ** More sample data *)

Module Samples.

Definition scrape_job : Job.t :=
  Job.mk 1 "scrape" "pending" (PDict [("source_id", PInt 1)]) PNone 0%Q None 100
         None None.

(** A web source with its pending scraping job. *)
Definition db_scrape : DB :=
  mkDB [Examples.web_source] [] [] [] [scrape_job] [] [].

(** Extraction helpers that return the page, the page fetched later,
    and the first page again. *)
Definition three_pages : Workers.Extractors :=
  Workers.mkExtractors
    (fun _ => Ok [Examples.page; Examples.page_later; Examples.page])
    (fun _ => Ok []).

(** Extraction helpers that raise. *)
Definition unreachable : Workers.Extractors :=
  Workers.mkExtractors (fun _ => Err "connection refused")
                       (fun _ => Err "connection refused").

Definition flushing : SessionConfig := mkSessionConfig true.

End Samples.


Module SamplesAnalysis.

Definition event (id source_id : Z) : RawEvent.t :=
  RawEvent.mk id source_id "web" Examples.page None false 90.

Definition dataset : Dataset.t := Dataset.mk 1 "news" (Some [1; 2]) 0 None.

Definition analyze_job : Job.t :=
  Job.mk 1 "analyze" "pending" (PDict [("dataset_id", PInt 1)]) PNone 0%Q None 100
         None None.

(** A dataset over sources 1 and 2, three raw events of which two
    belong to it, and its pending analysis job. *)
Definition db_dataset : DB :=
  mkDB [] [event 1 1; event 2 3; event 3 2] [dataset] [] [analyze_job] [] [].

(** The same without raw events. *)
Definition db_no_data : DB := mkDB [] [] [dataset] [] [analyze_job] [] [].

Definition result (category : string) (severity : string) : AnalysisResult.fields :=
  AnalysisResult.mk_fields 1 category [] PNone PNone (PFloat "0.4") (Some severity).

(** An analysis service that returns two results. *)
Definition two_results : Workers.Analyzer :=
  fun _ _ _ => Ok [result "profiling" "critical"; result "sentiment" "low"].

Definition crashing : Workers.Analyzer := fun _ _ _ => Err "division by zero".

End SamplesAnalysis.


(** A run of one of the two workers that report progress. *)
Inductive progress_run (db : DB) (job_id : Z) : list DB -> Prop :=
| progress_scraping (cfg : SessionConfig) (ext : Workers.Extractors) (t0 t1 : Z)
    (source_id : Z) :
    progress_run db job_id
      (Workers.process_scraping_job cfg ext t0 t1 db job_id source_id)
| progress_analysis (analyze : Workers.Analyzer) (t0 t1 : Z) (dataset_id : Z)
    (categories : option (list string)) :
    progress_run db job_id
      (Workers.process_analysis_job analyze t0 t1 db job_id dataset_id categories).

(** The progress of a job row is between 0 and 1, and is 1 exactly
    when the status is completed. *)
Definition progress_fits_status (j : Job.t) : bool :=
  Qle_bool 0 (Job.progress j) && Qle_bool (Job.progress j) 1
  && Bool.eqb (Qeq_bool (Job.progress j) 1) (String.eqb (Job.status j) "completed").


(** Between two states only the rows of the oracle signals differ,
    and their ids are the same. *)
Definition only_signals_changed (db db' : DB) : Prop :=
  sources db' = sources db
  /\ raw_events db' = raw_events db
  /\ datasets db' = datasets db
  /\ analysis_results db' = analysis_results db
  /\ jobs db' = jobs db
  /\ oracle_queue db' = oracle_queue db
  /\ map OracleSignal.id (oracle_signals db')
     = map OracleSignal.id (oracle_signals db).

(** A session in which no call raises. *)
Definition raises_nothing (session : OracleService.Session) : Prop :=
  OracleService.query_signals_raises session = None
  /\ (forall k, OracleService.query_analysis_raises session k = None)
  /\ (forall k, OracleService.commit_raises session k = None).


Module SamplesWeb.

(** A site that answers the third request of every url, after two
    HTTP errors. *)
Definition flaky : ScrapingHttp.Web :=
  ScrapingHttp.mkWeb
    (fun _ n => if (n <? 2)%nat then ScrapingHttp.HTTPError "503 Service Unavailable"
                else ScrapingHttp.Response "<title>Example Domain</title>")
    (fun _ => "Invalid type for url")
    (fun _ _ => Ok [])
    (fun _ _ => [("title", PStr "Example Domain")])
    (fun _ => "2024-01-01T00:00:00.000001").

(** A site that fails every request. *)
Definition down : ScrapingHttp.Web :=
  ScrapingHttp.mkWeb
    (fun _ _ => ScrapingHttp.HTTPError "503 Service Unavailable")
    (fun _ => "Invalid type for url")
    (fun _ _ => Ok [])
    (fun _ _ => [])
    (fun _ => "2024-01-01T00:00:00.000001").

Definition two_urls_source : Source.t :=
  Source.mk 1 "two pages" "web" None
    [("urls", PList [PStr "https://a.example"; PStr "https://b.example"])] true.

Definition db_two_urls : DB :=
  mkDB [two_urls_source] [] [] [] [Samples.scrape_job] [] [].

End SamplesWeb.


Module SamplesCustom.

(** A source of a type the worker has no extraction for, with its
    pending job. *)
Definition custom_source : Source.t :=
  Source.mk 1 "partner feed" "custom" None [] true.

Definition db_custom : DB :=
  mkDB [custom_source] [] [] [] [Samples.scrape_job] [] [].

End SamplesCustom.


Module SamplesJobs.

Definition old_completed : Job.t :=
  Job.mk 1 "scrape" "completed" (PDict [("source_id", PInt 1)]) PNone 1%Q None 0
         (Some 10) (Some 20).

Definition old_running : Job.t :=
  Job.mk 2 "analyze" "running" (PDict [("dataset_id", PInt 1)]) PNone (1 # 2)%Q None 0
         (Some 10) None.

Definition recent_failed : Job.t :=
  Job.mk 3 "scrape" "failed" (PDict [("source_id", PInt 1)]) PNone 0%Q
         (Some "connection refused") 900000 (Some 900010) (Some 900020).

Definition archive_source : Source.t :=
  Source.mk 2 "archive" "web" None [("urls", PList [PStr "https://example.net"])]
            false.

Definition news_source : Source.t :=
  Source.mk 3 "news" "social" (Some "reddit") [("subreddit", PStr "news")] true.

(** Three jobs: one finished long ago, one still running since then,
    one that failed in the last hours; an enabled, a disabled and
    another enabled source. *)
Definition db_jobs : DB :=
  mkDB [Examples.web_source; archive_source; news_source] [] [] []
       [old_completed; old_running; recent_failed] [] [].

End SamplesJobs.


Module SamplesOrphan.

(** A pending critical signal whose analysis result is not in the
    database. *)
Definition db_orphan : DB :=
  mkDB [] [] [] [] [] [Examples.signal_for_critical "pending" None] [].

End SamplesOrphan.


(** What [send_signal] logs when the loop body of the monitor calls
    it for a signal: nothing when the analysis result is missing and
    the body goes on to the next signal. *)
Definition attempt_log (self : OracleService.t) (now : Z) (db : DB)
    (signal : OracleSignal.t) : list string :=
  match query_analysis db (OracleSignal.analysis_result_id signal) with
  | Some analysis =>
      snd (OracleService.send_signal self now (AnalysisResult.id analysis)
             (OracleSignal.severity signal) (AnalysisResult.metrics analysis))
  | None => []
  end.


(** The constructor arguments that a stored raw event was made from. *)
Definition init_of_row (e : RawEvent.t) : RawEvent.init :=
  RawEvent.mk_init (RawEvent.source_id e) (RawEvent.platform e)
                   (RawEvent.raw_json e) (RawEvent.content_hash e).

Module SamplesRuns.

Definition second_job : Job.t :=
  Job.mk 2 "scrape" "pending" (PDict [("source_id", PInt 1)]) PNone 0%Q None 200
         None None.

(** A web source with two pending scraping jobs, no raw event yet. *)
Definition db_two_jobs : DB :=
  mkDB [Examples.web_source] [] [] [] [Samples.scrape_job; second_job] [] [].

(** Extraction helpers that return the page, and the page as it is
    fetched later. *)
Definition one_page : Workers.Extractors :=
  Workers.mkExtractors (fun _ => Ok [Examples.page]) (fun _ => Ok []).

Definition page_again : Workers.Extractors :=
  Workers.mkExtractors (fun _ => Ok [Examples.page_later; Examples.page])
                       (fun _ => Ok []).

End SamplesRuns.


(* ================================================================== *)
(** ** The system: the database, the queues and the operations on them *)

(** The database with the [scraping] and [analysis] queues of the
    workers; the [oracle] queue is the [oracle_queue] of the database.
    A task is the arguments that were enqueued. *)
Record System : Type := mkSystem {
  store : DB;
  scraping_queue : list (Z * Z);
  analysis_queue : list (Z * Z * option (list string))
}.

(** [step sys commits sys']: one operation on [sys] commits the
    states [commits], in order, and leaves [sys']. The operations are
    the handlers that create jobs and enqueue their tasks, the three
    worker functions, each run on a task that it takes from its queue
    (a run may be cut short, by [job_timeout] or a crash: then only
    the first commits of the function happen), the handlers that
    delete jobs, a pass of the monitor, and the operations that write
    neither a job nor a queue. *)
Inductive step (sys : System) : list DB -> System -> Prop :=
| step_trigger_extraction (now source_id : Z) commits tasks outcome :
    RoutesTriggers.trigger_extraction now (store sys) source_id
    = (commits, tasks, outcome) ->
    step sys commits
      (mkSystem (final (store sys) commits)
                (scraping_queue sys ++ tasks) (analysis_queue sys))
| step_trigger_all_extractions (now : Z) commits tasks outcome :
    RoutesTriggers.trigger_all_extractions now (store sys)
    = (commits, tasks, outcome) ->
    step sys commits
      (mkSystem (final (store sys) commits)
                (scraping_queue sys ++ tasks) (analysis_queue sys))
| step_trigger_analysis (now dataset_id : Z) (categories : option (list string))
    commits tasks outcome :
    RoutesTriggers.trigger_analysis now (store sys) dataset_id categories
    = (commits, tasks, outcome) ->
    step sys commits
      (mkSystem (final (store sys) commits)
                (scraping_queue sys) (analysis_queue sys ++ tasks))
| step_create_oracle_signal (settings : Settings) (now analysis_result_id : Z) :
    let commits :=
      fst (RoutesOracle.create_oracle_signal settings now (store sys)
             analysis_result_id) in
    step sys commits
      (mkSystem (final (store sys) commits)
                (scraping_queue sys) (analysis_queue sys))
| step_retry_oracle_signal (settings : Settings) (now signal_id : Z) :
    let commits :=
      fst (RoutesOracle.retry_oracle_signal settings now (store sys) signal_id) in
    step sys commits
      (mkSystem (final (store sys) commits)
                (scraping_queue sys) (analysis_queue sys))
| step_scraping_worker (cfg : SessionConfig) (ext : Workers.Extractors)
    (t0 t1 job_id source_id : Z) (before after : list (Z * Z)) (cut : nat) :
    scraping_queue sys = (before ++ (job_id, source_id) :: after)%list ->
    let commits :=
      firstn cut (Workers.process_scraping_job cfg ext t0 t1 (store sys)
                    job_id source_id) in
    step sys commits
      (mkSystem (final (store sys) commits) (before ++ after) (analysis_queue sys))
| step_analysis_worker (analyze : Workers.Analyzer) (t0 t1 job_id dataset_id : Z)
    (categories : option (list string))
    (before after : list (Z * Z * option (list string))) (cut : nat) :
    analysis_queue sys
    = (before ++ (job_id, dataset_id, categories) :: after)%list ->
    let commits :=
      firstn cut (Workers.process_analysis_job analyze t0 t1 (store sys)
                    job_id dataset_id categories) in
    step sys commits
      (mkSystem (final (store sys) commits) (scraping_queue sys) (before ++ after))
| step_oracle_worker (settings : Settings) (t0 t1 job_id analysis_result_id : Z)
    (before after : list (Z * Z)) (cut : nat) :
    oracle_queue (store sys)
    = (before ++ (job_id, analysis_result_id) :: after)%list ->
    let taken := set_oracle_queue (store sys) (before ++ after) in
    let commits :=
      taken :: firstn cut (Workers.process_oracle_job settings t0 t1 taken
                             job_id analysis_result_id) in
    step sys commits
      (mkSystem (final (store sys) commits)
                (scraping_queue sys) (analysis_queue sys))
| step_delete_job (job_id : Z) :
    let db' := fst (RoutesJobs.delete_job (store sys) job_id) in
    step sys [db'] (mkSystem db' (scraping_queue sys) (analysis_queue sys))
| step_cleanup_old_jobs (now days_old : Z) db' deleted_count cutoff :
    RoutesJobs.cleanup_old_jobs now (store sys) days_old
    = Some (db', deleted_count, cutoff) ->
    step sys [db'] (mkSystem db' (scraping_queue sys) (analysis_queue sys))
| step_monitor_pass (self : OracleService.t) (session : OracleService.Session)
    (now : Z) (log : list string) :
    let db' := fst (OracleService.monitor_pass self session now (store sys, log)) in
    step sys [db'] (mkSystem db' (scraping_queue sys) (analysis_queue sys))
| step_other (db' : DB) :
    jobs db' = jobs (store sys) ->
    oracle_queue db' = oracle_queue (store sys) ->
    step sys [db'] (mkSystem db' (scraping_queue sys) (analysis_queue sys)).

(** A sequence of operations, with the states committed on the way. *)
Inductive run : System -> list DB -> System -> Prop :=
| run_done (sys : System) : run sys [] sys
| run_step (sys sys' sys'' : System) (commits more : list DB) :
    step sys commits sys' ->
    run sys' more sys'' ->
    run sys (commits ++ more)%list sys''.

(** The ids of the jobs whose task waits in a queue. *)
Definition queued_ids (sys : System) : list Z :=
  (map fst (scraping_queue sys)
   ++ map (fun task => fst (fst task)) (analysis_queue sys)
   ++ map fst (oracle_queue (store sys)))%list.

(** The status that a job id shows in a state, if a row has it. *)
Definition status_at (job_id : Z) (db : DB) : option string :=
  option_map Job.status (query_job db job_id).

Definition known_status (s : string) : Prop :=
  s = "pending" \/ s = "running" \/ s = "completed" \/ s = "failed".

(** A state of the system as the operations leave it: job ids are
    distinct (the primary key), every status is one of the four, and
    the tasks in the queues are those of distinct jobs, all pending.
    The empty system is such a state. *)
Definition consistent (sys : System) : Prop :=
  NoDup (map Job.id (jobs (store sys)))
  /\ Forall (fun j => known_status (Job.status j)) (jobs (store sys))
  /\ NoDup (queued_ids sys)
  /\ (forall k, In k (queued_ids sys) -> status_at k (store sys) = Some "pending").

(** The moves of a status between two states that follow one another:
    none; a new row, pending; pending to running; running to
    completed or failed; a completed or failed row deleted. *)
Definition may_follow (a b : option string) : Prop :=
  a = b
  \/ (a = None /\ b = Some "pending")
  \/ (a = Some "pending" /\ b = Some "running")
  \/ (a = Some "running" /\ (b = Some "completed" \/ b = Some "failed"))
  \/ ((a = Some "completed" \/ a = Some "failed") /\ b = None).

Fixpoint moves_allowed (obs : list (option string)) : Prop :=
  match obs with
  | a :: ((b :: _) as rest) => may_follow a b /\ moves_allowed rest
  | _ => True
  end.

(** The lifetimes of a job id in a sequence of observations: the
    statuses shown between two states without a row of that id. *)
Fixpoint lifetimes (obs : list (option string)) : list (list string) :=
  match obs with
  | [] => [[]]
  | None :: rest => [] :: lifetimes rest
  | Some s :: rest =>
      match lifetimes rest with
      | life :: others => (s :: life) :: others
      | [] => [[s]]
      end
  end.

(** The statuses of a lifetime, without repetitions, are a
    subsequence of pending, running, completed or of pending, running,
    failed. *)
Definition lawful (statuses : list string) : bool :=
  subsequence (collapse statuses) ["pending"; "running"; "completed"]
  || subsequence (collapse statuses) ["pending"; "running"; "failed"].

Module SamplesSystem.

(** A system with one enabled web source and nothing else. *)
Definition fresh : System := mkSystem Examples.db_no_events [] [].

End SamplesSystem.


(* ================================================================== *)
(** * Properties *)

Example sha256_constants :
  List.length Sha256.K = 64%nat
  /\ nth 0 Sha256.K 0 = 0x428a2f98
  /\ nth 63 Sha256.K 0 = 0xc67178f2
  /\ nth 0 Sha256.H0 0 = 0x6a09e667
  /\ nth 7 Sha256.H0 0 = 0x5be0cd19.
Proof. vm_compute. repeat split. Qed.

Example sha256_abc :
  Sha256.hexdigest "abc"
  = "ba7816bf8f01cfea414140de5dae2223b00361a396177a9cb410ff61f20015ad".
Proof. vm_compute. reflexivity. Qed.

Example sha256_empty :
  Sha256.hexdigest ""
  = "e3b0c44298fc1c149afbf4c8996fb92427ae41e4649b934ca495991b7852b855".
Proof. vm_compute. reflexivity. Qed.

Example sha256_two_blocks :
  Sha256.hexdigest "abcdbcdecdefdefgefghfghighijhijkijkljklmklmnlmnomnopnopq"
  = "248d6a61d20638b8e5c026930c3e6039a33ce45964ff2167f6ecedd419db06c1".
Proof. vm_compute. reflexivity. Qed.

Example repr_examples :
  repr (PDict [("id", PStr "tweet_1"); ("platform", PStr "twitter")])
  = "{'id': 'tweet_1', 'platform': 'twitter'}"
  /\ repr_str "it's" = String dquote ("it's" ++ String dquote "")
  /\ str_items (sorted_items [("url", PStr "u"); ("title", PNone)])
     = "[('title', None), ('url', 'u')]".
Proof. vm_compute. repeat split. Qed.

#[local] Arguments String.eqb : simpl never.
#[local] Arguments String.append : simpl never.
#[local] Arguments str_of_Z : simpl never.

(* ------------------------------------------------------------------ *)
(** ** Lookups after updates *)

Lemma eqb_in_pair (x a b : string) :
  str_in x [a; b] = true <-> x = a \/ x = b.
Proof.
  unfold str_in; simpl.
  destruct (String.eqb_spec x a), (String.eqb_spec x b); simpl;
    intuition congruence.
Qed.

Lemma find_key {A} (key : A -> Z) (l : list A) (k : Z) (x : A) :
  find (fun y => key y =? k) l = Some x -> key x = k.
Proof.
  intros H. apply find_some in H. destruct H as [_ H].
  apply Z.eqb_eq. exact H.
Qed.

(** Replacing the row of a key: a lookup of that key finds the new
    row, a lookup of another key is unchanged. *)
Lemma find_update {A} (key : A -> Z) (l : list A) (k : Z) (old new : A) :
  find (fun y => key y =? k) l = Some old ->
  key new = k ->
  find (fun y => key y =? k)
       (map (fun y => if key y =? key new then new else y) l) = Some new.
Proof.
  intros Hfind Hnew. rewrite Hnew.
  induction l as [|y l IH]; cbn [find map] in *; [discriminate Hfind|].
  destruct (key y =? k) eqn:E.
  - cbn [find]. rewrite Hnew, Z.eqb_refl. reflexivity.
  - cbn [find]. rewrite E. apply IH. exact Hfind.
Qed.

Lemma find_update_other {A} (key : A -> Z) (l : list A) (k : Z) (new : A) :
  key new <> k ->
  find (fun y => key y =? k)
       (map (fun y => if key y =? key new then new else y) l)
  = find (fun y => key y =? k) l.
Proof.
  intros Hne.
  induction l as [|y l IH]; cbn [find map]; [reflexivity|].
  destruct (key y =? key new) eqn:E.
  - apply Z.eqb_eq in E.
    assert (E1 : (key new =? k) = false) by (apply Z.eqb_neq; exact Hne).
    assert (E2 : (key y =? k) = false) by (rewrite E; exact E1).
    rewrite E1, E2. exact IH.
  - destruct (key y =? k); [reflexivity | exact IH].
Qed.

Lemma query_job_update (db : DB) (job_id : Z) (old new : Job.t) :
  query_job db job_id = Some old ->
  Job.id new = job_id ->
  query_job (update_job db new) job_id = Some new.
Proof. intros H E. exact (find_update Job.id (jobs db) job_id old new H E). Qed.

Lemma query_signal_update (db : DB) (signal_id : Z) (old new : OracleSignal.t) :
  query_signal db signal_id = Some old ->
  OracleSignal.id new = signal_id ->
  query_signal (update_signal db new) signal_id = Some new.
Proof.
  intros H E.
  exact (find_update OracleSignal.id (oracle_signals db) signal_id old new H E).
Qed.

Lemma next_id_above (ids : list Z) (x : Z) : In x ids -> x < next_id ids.
Proof.
  unfold next_id. induction ids as [|y ids IH]; cbn [fold_right In].
  - intros [].
  - intros [-> | Hin]; [lia | specialize (IH Hin); lia].
Qed.

Lemma next_id_fresh (ids : list Z) : ~ In (next_id ids) ids.
Proof. intros Hin. apply next_id_above in Hin. lia. Qed.

(* ------------------------------------------------------------------ *)
(** ** Wire payload of a ledger transaction *)

Lemma map_get_absent (m : list (string * Z)) (k : string) (default : Z) :
  ~ In k (map fst m) -> OracleService.map_get m k default = default.
Proof.
  induction m as [|[k' v] m IH]; intros Hk; cbn [OracleService.map_get].
  - reflexivity.
  - destruct (String.eqb_spec k' k) as [E|_].
    + exfalso. apply Hk. left. exact E.
    + apply IH. intros Hin. apply Hk. right. exact Hin.
Qed.

(** C10. For every severity string outside low, medium, high and
    critical, [_prepare_signal] builds a payload (it does not reject)
    whose [severity_level] is 1, the ordinal of 'low'. *)
Theorem C10_unknown_severity_maps_to_one
    (self : OracleService.t) (now analysis_id : Z) (severity : string)
    (metrics : pydict) :
  ~ In severity ["low"; "medium"; "high"; "critical"] ->
  OracleService.severity_level
    (OracleService._prepare_signal self now analysis_id severity metrics) = 1
  /\ OracleService.severity_level
       (OracleService._prepare_signal self now analysis_id severity metrics)
     = OracleService.severity_level
         (OracleService._prepare_signal self now analysis_id "low" metrics).
Proof.
  intros Hout.
  assert (H1 : OracleService.map_get OracleService.severity_map severity 1 = 1).
  { apply map_get_absent. exact Hout. }
  unfold OracleService._prepare_signal; cbn [OracleService.severity_level].
  rewrite H1. split; reflexivity.
Qed.

Lemma C10_unknown_severity_witness :
  OracleService.severity_level
    (OracleService._prepare_signal
       (OracleService.mk "key" "0xguardian" 1 None None) 1700000000 7 "urgent" [])
  = 1.
Proof.
  apply (C10_unknown_severity_maps_to_one
           (OracleService.mk "key" "0xguardian" 1 None None) 1700000000 7 "urgent" []).
  simpl. intros [H|[H|[H|[H|[]]]]]; discriminate H.
Defined.

(* ------------------------------------------------------------------ *)
(** ** Signal gate: [create_oracle_signal] *)

Lemma find_snoc {A} (f : A -> bool) (l : list A) (x : A) :
  find f l = None -> find f (l ++ [x]) = if f x then Some x else None.
Proof.
  induction l as [|y l IH]; cbn [find app]; intros H.
  - reflexivity.
  - destruct (f y); [discriminate H | apply IH; exact H].
Qed.

Lemma filter_none {A} (f : A -> bool) (l : list A) :
  find f l = None -> filter f l = [].
Proof.
  induction l as [|y l IH]; cbn [find filter]; intros H.
  - reflexivity.
  - destruct (f y); [discriminate H | apply IH; exact H].
Qed.

Lemma NoDup_snoc {A} (l : list A) (x : A) :
  NoDup l -> ~ In x l -> NoDup (l ++ [x]).
Proof.
  induction l as [|y l IH]; intros Hnd Hx; cbn [app].
  - constructor; [intros [] | constructor].
  - inversion Hnd as [|? ? Hy Hl]; subst. constructor.
    + intros Hin. apply in_app_or in Hin. destruct Hin as [Hin|[E|[]]].
      * exact (Hy Hin).
      * apply Hx. left. symmetry. exact E.
    + apply IH; [exact Hl | intros Hin; apply Hx; right; exact Hin].
Qed.

Lemma no_signal_for_not_in (db : DB) (x : Z) :
  query_signal_for db x = None ->
  ~ In x (map OracleSignal.analysis_result_id (oracle_signals db)).
Proof.
  unfold query_signal_for. intros Hnone Hin.
  apply in_map_iff in Hin. destruct Hin as [s [Hs Hin]].
  pose proof (find_none _ _ Hnone s Hin) as Hf. cbn beta in Hf.
  rewrite Hs, Z.eqb_refl in Hf. discriminate Hf.
Qed.

(** The shape of a successful creation: one commit adds the signal,
    one adds the job, then the job is enqueued. *)
Lemma create_oracle_signal_accepts
    (settings : Settings) (now : Z) (db : DB) (x : Z)
    (analysis : AnalysisResult.t) (severity : string) :
  ORACLE_ENABLED settings = true ->
  query_analysis db x = Some analysis ->
  AnalysisResult.severity analysis = Some severity ->
  str_in severity ["high"; "critical"] = true ->
  query_signal_for db x = None ->
  exists payload input,
    let s := snd (add_oracle_signal now db x severity "alert" payload "pending") in
    let db1 := fst (add_oracle_signal now db x severity "alert" payload "pending") in
    let j := snd (add_job now db1 "oracle_signal" input) in
    let db2 := fst (add_job now db1 "oracle_signal" input) in
    RoutesOracle.create_oracle_signal settings now db x
    = ([db1; db2; RoutesOracle.enqueue_oracle_job db2 (Job.id j) x],
       RoutesOracle.Return
         (RoutesOracle.mkResponse (OracleSignal.id s) (Job.id j) "pending"
            "Oracle signal created and queued for transmission")).
Proof.
  intros Hen Ha Hsev Hin Hnone.
  unfold RoutesOracle.create_oracle_signal.
  rewrite Hen, Ha, Hsev, Hin, Hnone. cbn [negb].
  eexists. eexists. reflexivity.
Qed.

(** A creation that changes the state adds exactly one signal, whose
    severity is that of the analysis, high or critical. *)
Lemma create_oracle_signal_cases
    (settings : Settings) (now : Z) (db : DB) (x : Z) :
  (fst (RoutesOracle.create_oracle_signal settings now db x) = []
   /\ exists code detail,
        snd (RoutesOracle.create_oracle_signal settings now db x)
        = RoutesOracle.HTTPException code detail)
  \/ (exists analysis severity s,
        query_analysis db x = Some analysis
        /\ AnalysisResult.severity analysis = Some severity
        /\ (severity = "high" \/ severity = "critical")
        /\ query_signal_for db x = None
        /\ OracleSignal.severity s = severity
        /\ OracleSignal.analysis_result_id s = x
        /\ OracleSignal.status s = "pending"
        /\ oracle_signals
             (final db (fst (RoutesOracle.create_oracle_signal settings now db x)))
           = (oracle_signals db ++ [s])%list).
Proof.
  unfold RoutesOracle.create_oracle_signal.
  destruct (ORACLE_ENABLED settings); cbn [negb].
  2:{ left. split; [reflexivity | do 2 eexists; reflexivity]. }
  destruct (query_analysis db x) as [analysis|] eqn:Ha.
  2:{ left. split; [reflexivity | do 2 eexists; reflexivity]. }
  destruct (AnalysisResult.severity analysis) as [severity|] eqn:Hsev.
  2:{ left. split; [reflexivity | do 2 eexists; reflexivity]. }
  destruct (str_in severity ["high"; "critical"]) eqn:Hin; cbn [negb].
  2:{ left. split; [reflexivity | do 2 eexists; reflexivity]. }
  destruct (query_signal_for db x) eqn:Hnone.
  { left. split; [reflexivity | do 2 eexists; reflexivity]. }
  right. apply eqb_in_pair in Hin.
  eexists analysis, severity, _. repeat split; try reflexivity; try assumption.
Qed.

(** C5. For an analysis result whose severity is not high or critical,
    [create_oracle_signal] changes nothing, so creates no signal, and
    raises; and whatever the severity, a signal row that the call
    creates has severity high or critical. *)
Theorem C5_no_signal_below_high
    (settings : Settings) (now : Z) (db : DB) (analysis_result_id : Z)
    (analysis : AnalysisResult.t) :
  query_analysis db analysis_result_id = Some analysis ->
  (AnalysisResult.severity analysis <> Some "high" ->
   AnalysisResult.severity analysis <> Some "critical" ->
   fst (RoutesOracle.create_oracle_signal settings now db analysis_result_id) = []
   /\ final db (fst (RoutesOracle.create_oracle_signal settings now db
                       analysis_result_id)) = db
   /\ exists code detail,
        snd (RoutesOracle.create_oracle_signal settings now db analysis_result_id)
        = RoutesOracle.HTTPException code detail)
  /\ (forall s,
        In s (oracle_signals
                (final db (fst (RoutesOracle.create_oracle_signal settings now db
                                  analysis_result_id)))) ->
        ~ In s (oracle_signals db) ->
        (OracleSignal.severity s = "high" \/ OracleSignal.severity s = "critical")
        /\ AnalysisResult.severity analysis = Some (OracleSignal.severity s)).
Proof.
  intros Ha.
  destruct (create_oracle_signal_cases settings now db analysis_result_id)
    as [[Htr [code [detail Hr]]] | [a [sev [s H]]]].
  - split.
    + intros _ _. rewrite Htr. repeat split; eauto.
    + intros s Hin Hnew. rewrite Htr in Hin. contradiction.
  - destruct H as [Ha' [Hsev [Hhc [_ [Hs [_ [_ Hsig]]]]]]].
    rewrite Ha in Ha'. injection Ha' as <-.
    split.
    + intros Hh Hc. exfalso. destruct Hhc as [-> | ->]; [apply Hh | apply Hc]; exact Hsev.
    + intros s' Hin Hnew. rewrite Hsig in Hin.
      apply in_app_or in Hin. destruct Hin as [Hin | [<- | []]]; [contradiction|].
      rewrite Hs. split; [exact Hhc | exact Hsev].
Qed.

Lemma C5_no_signal_below_high_witness :
  fst (RoutesOracle.create_oracle_signal Examples.settings_on 200
         Examples.db_analyses 2) = []
  /\ final Examples.db_analyses
       (fst (RoutesOracle.create_oracle_signal Examples.settings_on 200
               Examples.db_analyses 2)) = Examples.db_analyses
  /\ exists code detail,
       snd (RoutesOracle.create_oracle_signal Examples.settings_on 200
              Examples.db_analyses 2)
       = RoutesOracle.HTTPException code detail.
Proof.
  apply (C5_no_signal_below_high Examples.settings_on 200 Examples.db_analyses 2
           Examples.low_analysis).
  - reflexivity.
  - simpl. discriminate.
  - simpl. discriminate.
Defined.

(** C2, as stated, fails twice. The [oracle_signals] table takes a
    second signal for the analysis result of an existing one (the
    uniqueness is not a constraint of the store); and with the oracle
    flag off, two creations for a critical analysis result create no
    signal at all, each rejected with 503 and not because a signal
    exists. *)
Lemma C2_counterexample :
  (let db1 := fst (add_oracle_signal 200 Examples.db_analyses 1 "critical" "alert"
                     PNone "pending") in
   let db2 := fst (add_oracle_signal 201 db1 1 "critical" "alert" PNone "pending") in
   List.length (signals_for db2 1) = 2%nat)
  /\ (let first := RoutesOracle.create_oracle_signal Examples.settings_off 200
                     Examples.db_analyses 1 in
      let db1 := final Examples.db_analyses (fst first) in
      let second := RoutesOracle.create_oracle_signal Examples.settings_off 201 db1 1 in
      signals_for (final db1 (fst second)) 1 = []
      /\ snd second
         = RoutesOracle.HTTPException 503 "Oracle service is not enabled").
Proof. vm_compute. repeat split. Qed.

(** C2, amended. With the oracle flag on and the requests handled one
    after the other: [create_oracle_signal] keeps "at most one signal
    per analysis result" (its query before the insert does, not the
    table); and two creations for an analysis result of severity high
    or critical that has no signal yet create exactly one signal, the
    second being rejected with 400 because the signal exists. *)
Theorem C2_one_signal_per_analysis
    (settings : Settings) (now1 now2 : Z) (db : DB) (analysis_result_id : Z) :
  ORACLE_ENABLED settings = true ->
  let first := RoutesOracle.create_oracle_signal settings now1 db analysis_result_id in
  let db1 := final db (fst first) in
  let second := RoutesOracle.create_oracle_signal settings now2 db1 analysis_result_id in
  (NoDup (map OracleSignal.analysis_result_id (oracle_signals db)) ->
   NoDup (map OracleSignal.analysis_result_id (oracle_signals db1)))
  /\ (forall analysis,
        query_analysis db analysis_result_id = Some analysis ->
        AnalysisResult.severity analysis = Some "high"
        \/ AnalysisResult.severity analysis = Some "critical" ->
        query_signal_for db analysis_result_id = None ->
        (exists response, snd first = RoutesOracle.Return response)
        /\ List.length (signals_for db1 analysis_result_id) = 1%nat
        /\ fst second = []
        /\ snd second
           = RoutesOracle.HTTPException 400
               ("Oracle signal already exists for analysis "
                ++ str_of_Z analysis_result_id)
        /\ List.length (signals_for (final db1 (fst second)) analysis_result_id)
           = 1%nat).
Proof.
  intros Hen first db1 second. split.
  - intros Hnd. subst db1 first.
    destruct (create_oracle_signal_cases settings now1 db analysis_result_id)
      as [[Htr _] | [a [sev [s H]]]].
    + rewrite Htr. exact Hnd.
    + destruct H as [_ [_ [_ [Hnone [_ [Hid [_ Hsig]]]]]]].
      rewrite Hsig, map_app. cbn [map]. apply NoDup_snoc; [exact Hnd|].
      rewrite Hid. apply no_signal_for_not_in. exact Hnone.
  - intros analysis Ha Hsev Hnone.
    assert (Hs : exists sev, AnalysisResult.severity analysis = Some sev
                             /\ str_in sev ["high"; "critical"] = true).
    { destruct Hsev as [E|E]; eexists; (split; [exact E|]);
        apply eqb_in_pair; [left | right]; reflexivity. }
    destruct Hs as [sev [Hsev' Hin]].
    destruct (create_oracle_signal_accepts settings now1 db analysis_result_id
                analysis sev Hen Ha Hsev' Hin Hnone) as [payload [input Hfirst]].
    cbn zeta in Hfirst.
    assert (Hsig : oracle_signals db1
                   = (oracle_signals db
                      ++ [snd (add_oracle_signal now1 db analysis_result_id sev
                                 "alert" payload "pending")])%list).
    { subst db1 first. rewrite Hfirst. reflexivity. }
    assert (Han : query_analysis db1 analysis_result_id = Some analysis).
    { subst db1 first. rewrite Hfirst. exact Ha. }
    assert (Hfor : query_signal_for db1 analysis_result_id
                   = Some (snd (add_oracle_signal now1 db analysis_result_id sev
                                  "alert" payload "pending"))).
    { unfold query_signal_for. rewrite Hsig.
      rewrite find_snoc by exact Hnone.
      cbn [add_oracle_signal snd OracleSignal.analysis_result_id].
      rewrite Z.eqb_refl. reflexivity. }
    assert (Hcount : List.length (signals_for db1 analysis_result_id) = 1%nat).
    { unfold signals_for. rewrite Hsig, filter_app.
      rewrite (filter_none _ _ Hnone).
      cbn [add_oracle_signal snd filter OracleSignal.analysis_result_id app].
      rewrite Z.eqb_refl. reflexivity. }
    assert (Hsecond : second
                      = ([], RoutesOracle.HTTPException 400
                               ("Oracle signal already exists for analysis "
                                ++ str_of_Z analysis_result_id))).
    { subst second. unfold RoutesOracle.create_oracle_signal.
      rewrite Hen, Han, Hsev', Hin, Hfor. reflexivity. }
    split; [subst first; rewrite Hfirst; eexists; reflexivity|].
    split; [exact Hcount|].
    rewrite Hsecond. cbn [fst snd final last].
    repeat split. exact Hcount.
Qed.

Lemma C2_one_signal_per_analysis_witness :
  List.length
    (signals_for
       (final Examples.db_analyses
          (fst (RoutesOracle.create_oracle_signal Examples.settings_on 200
                  Examples.db_analyses 1))) 1) = 1%nat
  /\ fst (RoutesOracle.create_oracle_signal Examples.settings_on 201
            (final Examples.db_analyses
               (fst (RoutesOracle.create_oracle_signal Examples.settings_on 200
                       Examples.db_analyses 1))) 1) = [].
Proof.
  pose proof (C2_one_signal_per_analysis Examples.settings_on 200 201
                Examples.db_analyses 1 eq_refl) as H.
  cbv zeta in H. destruct H as [_ H].
  destruct (H Examples.critical_analysis eq_refl (or_intror eq_refl) eq_refl)
    as [_ [Hone [Hnil _]]].
  split; [exact Hone | exact Hnil].
Defined.

(* ------------------------------------------------------------------ *)
(** ** Retry of a signal: [retry_oracle_signal] *)

(** C6, as stated, fails when the oracle flag is off: the retry of a
    failed signal is refused with 503 and nothing is reset or
    enqueued. *)
Lemma C6_counterexample :
  OracleSignal.status (Examples.signal_for_critical "failed" None) = "failed"
  /\ query_signal (Examples.db_signal "failed" "failed") 1
     = Some (Examples.signal_for_critical "failed" None)
  /\ RoutesOracle.retry_oracle_signal Examples.settings_off 300
       (Examples.db_signal "failed" "failed") 1
     = ([], RoutesOracle.HTTPException 503 "Oracle service is not enabled").
Proof. vm_compute. repeat split. Qed.

(** The retry of an existing signal when the oracle flag is on. *)
Lemma retry_with_flag_on
    (settings : Settings) (now : Z) (db : DB) (signal_id : Z)
    (signal : OracleSignal.t) :
  ORACLE_ENABLED settings = true ->
  query_signal db signal_id = Some signal ->
  let out := RoutesOracle.retry_oracle_signal settings now db signal_id in
  ((exists response, snd out = RoutesOracle.Return response)
   <-> (OracleSignal.status signal = "failed"
        \/ OracleSignal.status signal = "pending"))
  /\ (OracleSignal.status signal = "failed"
      \/ OracleSignal.status signal = "pending" ->
      exists db1 db2 db3 signal' job,
        fst out = [db1; db2; db3]
        /\ query_signal db1 signal_id = Some signal'
        /\ OracleSignal.status signal' = "pending"
        /\ OracleSignal.tx_hash signal' = None
        /\ OracleSignal.tx_status signal' = None
        /\ OracleSignal.sent_at signal' = None
        /\ jobs db1 = jobs db
        /\ oracle_queue db1 = oracle_queue db
        /\ jobs db2 = (jobs db ++ [job])%list
        /\ Job.status job = "pending"
        /\ Job.type job = "oracle_signal"
        /\ ~ In (Job.id job) (map Job.id (jobs db))
        /\ oracle_signals db2 = oracle_signals db1
        /\ oracle_queue db2 = oracle_queue db
        /\ jobs db3 = jobs db2
        /\ oracle_signals db3 = oracle_signals db1
        /\ oracle_queue db3
           = (oracle_queue db
              ++ [(Job.id job, OracleSignal.analysis_result_id signal)])%list)
  /\ (~ (OracleSignal.status signal = "failed"
         \/ OracleSignal.status signal = "pending") ->
      fst out = []
      /\ snd out
         = RoutesOracle.HTTPException 400
             ("Cannot retry signal with status '"
              ++ OracleSignal.status signal ++ "'")).
Proof.
  intros Hen Hq out. subst out.
  unfold RoutesOracle.retry_oracle_signal. rewrite Hen, Hq. cbn [negb].
  destruct (str_in (OracleSignal.status signal) ["failed"; "pending"]) eqn:Hin;
    cbn [negb fst snd].
  - apply eqb_in_pair in Hin. split; [|split].
    + split; [intros _; exact Hin | intros _; eexists; reflexivity].
    + intros _.
      exists (update_signal db (RoutesOracle.reset_signal signal)).
      eexists. eexists. exists (RoutesOracle.reset_signal signal). eexists.
      split; [reflexivity|].
      split.
      { apply (query_signal_update db signal_id signal); [exact Hq|].
        cbn [RoutesOracle.reset_signal OracleSignal.id].
        exact (find_key OracleSignal.id _ _ _ Hq). }
      repeat (split; [reflexivity|]).
      split; [|repeat split; reflexivity].
      cbn [add_job snd Job.id update_signal set_oracle_signals jobs].
      apply next_id_fresh.
    + intros Hnot. contradiction.
  - assert (Hnot : ~ (OracleSignal.status signal = "failed"
                      \/ OracleSignal.status signal = "pending")).
    { intros H. apply eqb_in_pair in H. rewrite H in Hin. discriminate Hin. }
    split; [|split].
    + split; [intros [r Hr]; discriminate Hr | intros H; contradiction].
    + intros H. contradiction.
    + intros _. split; reflexivity.
Qed.


(** C6, amended. With the oracle flag on, the retry of an existing
    signal is accepted exactly when its status is failed or pending.
    An accepted retry first commits the signal with status pending and
    [tx_hash], [tx_status] and [sent_at] cleared, the jobs and the
    queue being as before; then commits a new pending job of type
    oracle_signal under a fresh id; then enqueues that job. A refused
    retry changes nothing; the retry of a signal that does not exist
    is refused with 404. With the flag off every retry, whatever the
    signal and its status, is refused with 503 and nothing is
    committed or enqueued. *)
Theorem C6_retry_resets_then_enqueues
    (settings : Settings) (now : Z) (db : DB) (signal_id : Z) :
  let out := RoutesOracle.retry_oracle_signal settings now db signal_id in
  (ORACLE_ENABLED settings = false ->
   out = ([], RoutesOracle.HTTPException 503 "Oracle service is not enabled"))
  /\ (ORACLE_ENABLED settings = true ->
      query_signal db signal_id = None ->
      out = ([], RoutesOracle.HTTPException 404
                   ("Oracle signal " ++ str_of_Z signal_id ++ " not found")))
  /\ (ORACLE_ENABLED settings = true ->
      forall signal,
        query_signal db signal_id = Some signal ->
        ((exists response, snd out = RoutesOracle.Return response)
         <-> (OracleSignal.status signal = "failed"
              \/ OracleSignal.status signal = "pending"))
        /\ (OracleSignal.status signal = "failed"
            \/ OracleSignal.status signal = "pending" ->
            exists db1 db2 db3 signal' job,
              fst out = [db1; db2; db3]
              /\ query_signal db1 signal_id = Some signal'
              /\ OracleSignal.status signal' = "pending"
              /\ OracleSignal.tx_hash signal' = None
              /\ OracleSignal.tx_status signal' = None
              /\ OracleSignal.sent_at signal' = None
              /\ jobs db1 = jobs db
              /\ oracle_queue db1 = oracle_queue db
              /\ jobs db2 = (jobs db ++ [job])%list
              /\ Job.status job = "pending"
              /\ Job.type job = "oracle_signal"
              /\ ~ In (Job.id job) (map Job.id (jobs db))
              /\ oracle_signals db2 = oracle_signals db1
              /\ oracle_queue db2 = oracle_queue db
              /\ jobs db3 = jobs db2
              /\ oracle_signals db3 = oracle_signals db1
              /\ oracle_queue db3
                 = (oracle_queue db
                    ++ [(Job.id job, OracleSignal.analysis_result_id signal)])%list)
        /\ (~ (OracleSignal.status signal = "failed"
               \/ OracleSignal.status signal = "pending") ->
            fst out = []
            /\ snd out
               = RoutesOracle.HTTPException 400
                   ("Cannot retry signal with status '"
                    ++ OracleSignal.status signal ++ "'"))).
Proof.
  intros out. split; [|split].
  - intros Hoff. subst out. unfold RoutesOracle.retry_oracle_signal.
    rewrite Hoff. reflexivity.
  - intros Hon Hq. subst out. unfold RoutesOracle.retry_oracle_signal.
    rewrite Hon, Hq. reflexivity.
  - intros Hon signal Hq.
    exact (retry_with_flag_on settings now db signal_id signal Hon Hq).
Qed.

Lemma C6_retry_resets_then_enqueues_witness :
  (exists response,
     snd (RoutesOracle.retry_oracle_signal Examples.settings_on 300
            (Examples.db_signal "failed" "failed") 1)
     = RoutesOracle.Return response)
  /\ RoutesOracle.retry_oracle_signal Examples.settings_off 300
       (Examples.db_signal "failed" "failed") 1
     = ([], RoutesOracle.HTTPException 503 "Oracle service is not enabled").
Proof.
  split.
  - destruct (C6_retry_resets_then_enqueues Examples.settings_on 300
                (Examples.db_signal "failed" "failed") 1) as [_ [_ Hon]].
    destruct (Hon eq_refl (Examples.signal_for_critical "failed" None) eq_refl)
      as [Hiff _].
    apply Hiff. left. reflexivity.
  - destruct (C6_retry_resets_then_enqueues Examples.settings_off 300
                (Examples.db_signal "failed" "failed") 1) as [Hoff _].
    apply Hoff. reflexivity.
Defined.

(* ------------------------------------------------------------------ *)
(** ** Job statuses committed by the workers *)

Lemma jobs_commit_events (now : Z) (added : list RawEvent.init) (db : DB) :
  jobs (Workers.commit_events now db added) = jobs db.
Proof.
  unfold Workers.commit_events. revert db.
  induction added as [|e added IH]; intros db; cbn [fold_left].
  - reflexivity.
  - rewrite IH. reflexivity.
Qed.

Lemma jobs_add_analysis_results (now : Z) (results : list AnalysisResult.fields)
    (db : DB) :
  jobs (fold_left (add_analysis_result now) results db) = jobs db.
Proof.
  revert db. induction results as [|r results IH]; intros db; cbn [fold_left].
  - reflexivity.
  - rewrite IH. reflexivity.
Qed.

Lemma query_job_same_jobs (db db' : DB) (job_id : Z) :
  jobs db' = jobs db -> query_job db' job_id = query_job db job_id.
Proof. unfold query_job. intros ->. reflexivity. Qed.

Lemma job_statuses_cons (job_id : Z) (db : DB) (trace : list DB) (j : Job.t) :
  query_job db job_id = Some j ->
  job_statuses job_id (db :: trace) = Job.status j :: job_statuses job_id trace.
Proof. intros H. cbn [job_statuses flat_map]. rewrite H. reflexivity. Qed.

(** The statuses that a worker commits for its job, whatever the
    status it found: running one or more times, then completed or
    failed. *)
Lemma worker_statuses (db : DB) (job_id : Z) (job : Job.t) (trace : list DB) :
  query_job db job_id = Some job ->
  worker_run db job_id trace ->
  exists (k : nat) (last_status : string),
    job_statuses job_id trace = (repeat "running" (S k) ++ [last_status])%list
    /\ (last_status = "completed" \/ last_status = "failed").
Proof.
  intros Hq Hrun.
  pose proof (find_key Job.id _ _ _ Hq) as Hid.
  destruct Hrun as [cfg ext t0 t1 source_id
                   | analyze t0 t1 dataset_id categories
                   | settings t0 t1 analysis_result_id].
  - (* process_scraping_job *)
    unfold Workers.process_scraping_job. rewrite Hq.
    set (job1 := Job.set_progress
                   (Job.set_started_at (Job.set_status job "running") t0) 0%Q).
    assert (H1 : query_job (update_job db job1) job_id = Some job1)
      by (apply (query_job_update db job_id job); [exact Hq | exact Hid]).
    destruct (query_source (update_job db job1) source_id) as [source|].
    2:{ exists 0%nat, "failed". split; [|right; reflexivity].
        rewrite (job_statuses_cons _ _ _ _ H1).
        erewrite job_statuses_cons
          by (apply (query_job_update _ job_id job1); [exact H1 | exact Hid]).
        reflexivity. }
    match goal with
    | |- context [bind ?r _] => destruct r as [extracted_data | msg]
    end; cbn [bind].
    2:{ exists 0%nat, "failed". split; [|right; reflexivity].
        rewrite (job_statuses_cons _ _ _ _ H1).
        erewrite job_statuses_cons
          by (apply (query_job_update _ job_id job1); [exact H1 | exact Hid]).
        reflexivity. }
    match goal with
    | |- context [Workers.store_loop ?c ?r ?s ?pl ?d] =>
        destruct (Workers.store_loop c r s pl d) as [added new_events]
    end.
    set (job2 := Job.set_progress job1 (1 # 2)%Q).
    assert (H2 : query_job (update_job (update_job db job1) job2) job_id = Some job2)
      by (apply (query_job_update _ job_id job1); [exact H1 | exact Hid]).
    assert (H3 : query_job (Workers.commit_events t1
                              (update_job (update_job db job1) job2) added) job_id
                 = Some job2).
    { rewrite (query_job_same_jobs _ _ _ (jobs_commit_events t1 added _)).
      exact H2. }
    exists 2%nat, "completed". split; [|left; reflexivity].
    rewrite (job_statuses_cons _ _ _ _ H1).
    rewrite (job_statuses_cons _ _ _ _ H2).
    rewrite (job_statuses_cons _ _ _ _ H3).
    erewrite job_statuses_cons
      by (apply (query_job_update _ job_id job2); [exact H3 | exact Hid]).
    reflexivity.
  - (* process_analysis_job *)
    unfold Workers.process_analysis_job. rewrite Hq.
    set (job1 := Job.set_progress
                   (Job.set_started_at (Job.set_status job "running") t0) 0%Q).
    assert (H1 : query_job (update_job db job1) job_id = Some job1)
      by (apply (query_job_update db job_id job); [exact Hq | exact Hid]).
    destruct (query_dataset (update_job db job1) dataset_id) as [dataset|].
    2:{ exists 0%nat, "failed". split; [|right; reflexivity].
        cbn [app final last].
        rewrite (job_statuses_cons _ _ _ _ H1).
        erewrite job_statuses_cons
          by (apply (query_job_update _ job_id job1); [exact H1 | exact Hid]).
        reflexivity. }
    destruct (filter (Workers.in_sources (Dataset.source_ids dataset))
                     (raw_events (update_job db job1))) as [|ev raw].
    { exists 0%nat, "failed". split; [|right; reflexivity].
      cbn [app final last].
      rewrite (job_statuses_cons _ _ _ _ H1).
      erewrite job_statuses_cons
        by (apply (query_job_update _ job_id job1); [exact H1 | exact Hid]).
      reflexivity. }
    set (job2 := Job.set_progress job1 (1 # 5)%Q).
    assert (H2 : query_job (update_job (update_job db job1) job2) job_id = Some job2)
      by (apply (query_job_update _ job_id job1); [exact H1 | exact Hid]).
    destruct (analyze dataset_id (ev :: raw) categories) as [results | e].
    2:{ exists 1%nat, "failed". split; [|right; reflexivity].
        cbn [app final last].
        rewrite (job_statuses_cons _ _ _ _ H1).
        rewrite (job_statuses_cons _ _ _ _ H2).
        erewrite job_statuses_cons
          by (apply (query_job_update _ job_id job2); [exact H2 | exact Hid]).
        reflexivity. }
    set (job3 := Job.set_progress job2 (4 # 5)%Q).
    set (db3 := update_job (update_job (update_job db job1) job2) job3).
    assert (H3 : query_job db3 job_id = Some job3)
      by (apply (query_job_update _ job_id job2); [exact H2 | exact Hid]).
    set (db4 := update_dataset (fold_left (add_analysis_result t1) results db3) _).
    assert (H4 : query_job db4 job_id = Some job3).
    { rewrite (query_job_same_jobs db3 db4); [exact H3|].
      subst db4. unfold update_dataset. cbn [jobs set_datasets].
      apply jobs_add_analysis_results. }
    exists 3%nat, "completed". split; [|left; reflexivity].
    rewrite (job_statuses_cons _ _ _ _ H1).
    rewrite (job_statuses_cons _ _ _ _ H2).
    rewrite (job_statuses_cons _ _ _ _ H3).
    rewrite (job_statuses_cons _ _ _ _ H4).
    erewrite job_statuses_cons
      by (apply (query_job_update _ job_id job3); [exact H4 | exact Hid]).
    reflexivity.
  - (* process_oracle_job *)
    unfold Workers.process_oracle_job. rewrite Hq.
    set (job1 := Job.set_started_at (Job.set_status job "running") t0).
    assert (H1 : query_job (update_job db job1) job_id = Some job1)
      by (apply (query_job_update db job_id job); [exact Hq | exact Hid]).
    destruct (query_analysis (update_job db job1) analysis_result_id).
    + exists 0%nat, "completed". split; [|left; reflexivity].
      rewrite (job_statuses_cons _ _ _ _ H1).
      erewrite job_statuses_cons
        by (apply (query_job_update _ job_id job1); [exact H1 | exact Hid]).
      reflexivity.
    + exists 0%nat, "failed". split; [|right; reflexivity].
      rewrite (job_statuses_cons _ _ _ _ H1).
      erewrite job_statuses_cons
        by (apply (query_job_update _ job_id job1); [exact H1 | exact Hid]).
      reflexivity.
Qed.

Lemma collapse_running (k : nat) (x : string) :
  x = "completed" \/ x = "failed" ->
  collapse (repeat "running" (S k) ++ [x]) = ["running"; x].
Proof.
  intros Hx. induction k as [|k IH].
  - destruct Hx as [-> | ->]; reflexivity.
  - change (repeat "running" (S (S k)) ++ [x])%list
      with ("running" :: (repeat "running" (S k) ++ [x]))%list.
    cbn [collapse]. rewrite IH. reflexivity.
Qed.

(** The worker functions do not look at the status they find: called
    on a job that is already completed, one would commit running
    again and then a terminal status. No operation of the system does
    that: a worker is run on the task of a job that was just created,
    once. *)
Remark worker_sets_running_unchecked :
  query_job (Examples.db_signal "sent" "completed") 1
  = Some (Examples.relay_job "completed")
  /\ job_statuses 1
       (Workers.process_oracle_job Examples.settings_on 400 401
          (Examples.db_signal "sent" "completed") 1 1)
     = ["running"; "completed"].
Proof. vm_compute. repeat split. Qed.

(* ------------------------------------------------------------------ *)
(** ** The loop body of the monitor *)

Lemma settle_id (signal : OracleSignal.t) (tx_hash : option string) (now : Z) :
  OracleSignal.id (OracleService.settle signal tx_hash now) = OracleSignal.id signal.
Proof.
  unfold OracleService.settle.
  destruct tx_hash as [h|]; [destruct (String.eqb h "")|]; reflexivity.
Qed.

Lemma settle_status (signal : OracleSignal.t) (tx_hash : option string) (now : Z) :
  OracleSignal.status (OracleService.settle signal tx_hash now) = "sent"
  \/ OracleSignal.status (OracleService.settle signal tx_hash now) = "failed".
Proof.
  unfold OracleService.settle.
  destruct tx_hash as [h|]; [destruct (String.eqb h "")|];
    [right | left | right]; reflexivity.
Qed.

(** The body for a signal whose analysis result exists, when the
    session does not raise: the settled signal is committed. *)
Lemma monitor_signal_committed
    (self : OracleService.t) (session : OracleService.Session) (now : Z)
    (db : DB) (log : list string) (signal : OracleSignal.t)
    (analysis : AnalysisResult.t) :
  OracleService.query_analysis_raises session (OracleSignal.id signal) = None ->
  OracleService.commit_raises session (OracleSignal.id signal) = None ->
  query_analysis db (OracleSignal.analysis_result_id signal) = Some analysis ->
  let sent := OracleService.send_signal self now (AnalysisResult.id analysis)
                (OracleSignal.severity signal) (AnalysisResult.metrics analysis) in
  OracleService.monitor_signal self session now db log signal
  = (update_signal db (OracleService.settle signal (fst sent) now),
     (log ++ snd sent)%list, None).
Proof.
  intros Hqa Hc Ha sent. unfold OracleService.monitor_signal.
  rewrite Hqa, Ha. fold sent. rewrite settle_id, Hc. reflexivity.
Qed.

(* ------------------------------------------------------------------ *)
(** ** The relay worker and the oracle flag *)

(** What [process_oracle_job] commits for a job it finds. *)
Lemma process_oracle_job_trace
    (settings : Settings) (t0 t1 : Z) (db : DB) (job_id analysis_result_id : Z)
    (job : Job.t) :
  query_job db job_id = Some job ->
  let job1 := Job.set_started_at (Job.set_status job "running") t0 in
  let db1 := update_job db job1 in
  Workers.process_oracle_job settings t0 t1 db job_id analysis_result_id
  = [db1;
     match query_analysis db analysis_result_id with
     | Some _ =>
         update_job db1
           (Job.set_output_data
              (Job.set_completed_at (Job.set_status job1 "completed") t1)
              (PDict [("signal_sent", PBool (ORACLE_ENABLED settings))]))
     | None =>
         Workers.fail_job t1 db1 job1
           ("Analysis result " ++ str_of_Z analysis_result_id ++ " not found")
     end].
Proof.
  intros Hq job1 db1. unfold Workers.process_oracle_job. rewrite Hq.
  fold job1. fold db1.
  change (query_analysis db1 analysis_result_id)
    with (query_analysis db analysis_result_id).
  destruct (query_analysis db analysis_result_id); reflexivity.
Qed.

(** C8, as stated, fails: with the oracle flag off, signal creation
    for a critical analysis result is refused with 503 and no signal
    row is created. *)
Lemma C8_counterexample :
  ORACLE_ENABLED Examples.settings_off = false
  /\ AnalysisResult.severity Examples.critical_analysis = Some "critical"
  /\ RoutesOracle.create_oracle_signal Examples.settings_off 200
       Examples.db_analyses 1
     = ([], RoutesOracle.HTTPException 503 "Oracle service is not enabled")
  /\ oracle_signals
       (final Examples.db_analyses
          (fst (RoutesOracle.create_oracle_signal Examples.settings_off 200
                  Examples.db_analyses 1))) = [].
Proof. vm_compute. repeat split. Qed.

(** C8, amended. With the oracle flag off: signal creation is refused
    with 503 and changes nothing; the relay worker, which calls no
    web3 provider in any case, changes no signal and completes its job
    with [signal_sent] false when the analysis result exists. The
    monitor does not read the flag: when its web3 provider is not
    initialised, it marks the pending signal it processes as failed. *)
Theorem C8_flag_off
    (settings : Settings) :
  ORACLE_ENABLED settings = false ->
  (forall now db analysis_result_id,
     RoutesOracle.create_oracle_signal settings now db analysis_result_id
     = ([], RoutesOracle.HTTPException 503 "Oracle service is not enabled"))
  /\ (forall t0 t1 db job_id analysis_result_id job analysis,
        query_job db job_id = Some job ->
        query_analysis db analysis_result_id = Some analysis ->
        let trace :=
          Workers.process_oracle_job settings t0 t1 db job_id analysis_result_id in
        Forall (fun d => oracle_signals d = oracle_signals db
                         /\ oracle_queue d = oracle_queue db) trace
        /\ exists job',
             query_job (final db trace) job_id = Some job'
             /\ Job.status job' = "completed"
             /\ Job.output_data job' = PDict [("signal_sent", PBool false)])
  /\ (forall self session now db log signal analysis,
        OracleService.w3 self = None \/ OracleService.account self = None ->
        OracleService.query_analysis_raises session (OracleSignal.id signal) = None ->
        OracleService.commit_raises session (OracleSignal.id signal) = None ->
        query_analysis db (OracleSignal.analysis_result_id signal) = Some analysis ->
        OracleService.monitor_signal self session now db log signal
        = (update_signal db (OracleService.mark_failed signal),
           (log ++ ["Web3 not initialized - skipping blockchain transmission"])%list,
           None)).
Proof.
  intros Hoff. split; [|split].
  - intros now db x. unfold RoutesOracle.create_oracle_signal.
    rewrite Hoff. reflexivity.
  - intros t0 t1 db job_id x job analysis Hq Ha trace. subst trace.
    rewrite (process_oracle_job_trace settings t0 t1 db job_id x job Hq).
    cbv zeta. rewrite Ha, Hoff.
    pose proof (find_key Job.id _ _ _ Hq) as Hid.
    split.
    + repeat constructor.
    + eexists. split.
      { cbn [final last].
        apply (query_job_update _ job_id
                 (Job.set_started_at (Job.set_status job "running") t0)).
        - apply (query_job_update db job_id job); [exact Hq | exact Hid].
        - exact Hid. }
      split; reflexivity.
  - intros self session now db log signal analysis Hw Hqa Hc Ha.
    rewrite (monitor_signal_committed self session now db log signal analysis
               Hqa Hc Ha).
    assert (Hsend : OracleService.send_signal self now (AnalysisResult.id analysis)
                      (OracleSignal.severity signal) (AnalysisResult.metrics analysis)
                    = (None,
                       ["Web3 not initialized - skipping blockchain transmission"])).
    { unfold OracleService.send_signal.
      destruct Hw as [Hw | Hw]; rewrite Hw; [reflexivity|].
      destruct (OracleService.w3 self); reflexivity. }
    rewrite Hsend. reflexivity.
Qed.

Lemma C8_flag_off_witness :
  RoutesOracle.create_oracle_signal Examples.settings_off 200 Examples.db_analyses 1
  = ([], RoutesOracle.HTTPException 503 "Oracle service is not enabled").
Proof.
  destruct (C8_flag_off Examples.settings_off eq_refl) as [H _].
  exact (H 200 Examples.db_analyses 1).
Defined.

(* ------------------------------------------------------------------ *)
(** ** Relay: [send_signal], the monitor and the relay worker *)

(** [send_signal] returns a transaction hash exactly when web3 is
    initialised, building, signing and submitting succeed, and the
    receipt arrives with status 1. *)
Lemma send_signal_some
    (self : OracleService.t) (now analysis_result_id : Z) (severity : string)
    (metrics : pydict) (h : string) :
  fst (OracleService.send_signal self now analysis_result_id severity metrics)
  = Some h
  <-> exists w address tx signed_tx,
        OracleService.w3 self = Some w
        /\ OracleService.account self = Some address
        /\ OracleService._build_transaction self w address
             (OracleService._prepare_signal self now analysis_result_id severity
                metrics) = Ok tx
        /\ OracleService.sign_transaction w tx (OracleService.private_key self)
           = Ok signed_tx
        /\ OracleService.send_raw_transaction w signed_tx = Ok h
        /\ OracleService.wait_for_transaction_receipt w h 120 = Ok 1.
Proof.
  unfold OracleService.send_signal. split.
  - destruct (OracleService.w3 self) as [w|]; [|discriminate].
    destruct (OracleService.account self) as [address|]; [|discriminate].
    destruct (OracleService._build_transaction self w address _) as [tx|]
      eqn:Hb; [|discriminate].
    destruct (OracleService.sign_transaction w tx _) as [signed_tx|]
      eqn:Hs; [|discriminate].
    destruct (OracleService.send_raw_transaction w signed_tx) as [hx|]
      eqn:Hr; [|discriminate].
    destruct (OracleService.wait_for_transaction_receipt w hx 120) as [status|]
      eqn:Hw; [|discriminate].
    destruct (status =? 1) eqn:Hst; [|discriminate].
    cbn [fst]. intros E. injection E as <-.
    apply Z.eqb_eq in Hst. subst status.
    exists w, address, tx, signed_tx. repeat split; assumption.
  - intros [w [address [tx [signed_tx [Hw3 [Hacc [Hb [Hs [Hr Hw]]]]]]]]].
    rewrite Hw3, Hacc, Hb, Hs, Hr, Hw. reflexivity.
Qed.

(** C3, as stated, fails on both relay paths. The relay worker marks
    its job completed and leaves the signal pending, whether the
    ledger would time out or confirm; the monitor updates the signal
    (failed on a timeout, sent on a confirmed receipt) and leaves the
    job pending. *)
Lemma C3_counterexample :
  (let db := Examples.db_signal "pending" "pending" in
   let after_worker :=
     final db (Workers.process_oracle_job Examples.settings_on 400 401 db 1 1) in
   option_map Job.status (query_job after_worker 1) = Some "completed"
   /\ option_map OracleSignal.status (query_signal after_worker 1) = Some "pending"
   /\ option_map OracleSignal.tx_hash (query_signal after_worker 1) = Some None)
  /\ (let db := Examples.db_signal "pending" "pending" in
      let after_monitor :=
        fst (OracleService.monitor_pass (Examples.service (Err "timeout"))
               Examples.healthy 400 (db, [])) in
      option_map OracleSignal.status (query_signal after_monitor 1) = Some "failed"
      /\ option_map Job.status (query_job after_monitor 1) = Some "pending")
  /\ (let db := Examples.db_signal "pending" "pending" in
      let after_monitor :=
        fst (OracleService.monitor_pass (Examples.service (Ok 1))
               Examples.healthy 400 (db, [])) in
      option_map OracleSignal.status (query_signal after_monitor 1) = Some "sent"
      /\ option_map Job.status (query_job after_monitor 1) = Some "pending").
Proof. vm_compute. repeat split. Qed.

(** C3, amended. In the monitor, for a signal whose analysis result
    exists and with a session that does not raise: when [send_signal]
    returns a transaction hash (web3 initialised, build, sign and
    submit succeeded, receipt of status 1), the signal becomes sent
    with [tx_hash], [tx_status] confirmed and [sent_at] set; when it
    returns none (any failure of these steps, a receipt of another
    status, a timeout), the signal becomes failed. The monitor changes
    no job. The relay worker changes no signal and calls no ledger: it
    completes its job when the analysis result exists and fails it
    with the error text when it does not. *)
Theorem C3_relay_outcomes
    (self : OracleService.t) (session : OracleService.Session) (now : Z)
    (db : DB) (log : list string) (signal : OracleSignal.t)
    (analysis : AnalysisResult.t) :
  query_signal db (OracleSignal.id signal) = Some signal ->
  OracleService.query_analysis_raises session (OracleSignal.id signal) = None ->
  OracleService.commit_raises session (OracleSignal.id signal) = None ->
  query_analysis db (OracleSignal.analysis_result_id signal) = Some analysis ->
  let out := OracleService.monitor_signal self session now db log signal in
  let db' := fst (fst out) in
  let sent := fst (OracleService.send_signal self now (AnalysisResult.id analysis)
                     (OracleSignal.severity signal)
                     (AnalysisResult.metrics analysis)) in
  (snd out = None
   /\ jobs db' = jobs db
   /\ (forall h, sent = Some h -> h <> "" ->
       exists signal',
         query_signal db' (OracleSignal.id signal) = Some signal'
         /\ OracleSignal.status signal' = "sent"
         /\ OracleSignal.tx_hash signal' = Some h
         /\ OracleSignal.tx_status signal' = Some "confirmed"
         /\ OracleSignal.sent_at signal' = Some now)
   /\ (sent = None ->
       exists signal',
         query_signal db' (OracleSignal.id signal) = Some signal'
         /\ OracleSignal.status signal' = "failed"))
  /\ (forall h,
        sent = Some h
        <-> exists w address tx signed_tx,
              OracleService.w3 self = Some w
              /\ OracleService.account self = Some address
              /\ OracleService._build_transaction self w address
                   (OracleService._prepare_signal self now
                      (AnalysisResult.id analysis) (OracleSignal.severity signal)
                      (AnalysisResult.metrics analysis)) = Ok tx
              /\ OracleService.sign_transaction w tx
                   (OracleService.private_key self) = Ok signed_tx
              /\ OracleService.send_raw_transaction w signed_tx = Ok h
              /\ OracleService.wait_for_transaction_receipt w h 120 = Ok 1)
  /\ (forall settings t0 t1 job_id analysis_result_id job,
        query_job db job_id = Some job ->
        let trace :=
          Workers.process_oracle_job settings t0 t1 db job_id analysis_result_id in
        Forall (fun d => oracle_signals d = oracle_signals db) trace
        /\ exists job',
             query_job (final db trace) job_id = Some job'
             /\ match query_analysis db analysis_result_id with
                | Some _ => Job.status job' = "completed"
                | None =>
                    Job.status job' = "failed"
                    /\ Job.error_message job'
                       = Some ("Analysis result " ++ str_of_Z analysis_result_id
                               ++ " not found")
                end).
Proof.
  intros Hqs Hqa Hc Ha out db' sent.
  split; [|split].
  - subst db' out.
    rewrite (monitor_signal_committed self session now db log signal analysis
               Hqa Hc Ha).
    fold sent. cbn [fst snd].
    split; [reflexivity|]. split; [reflexivity|]. split.
    + intros h E Hne. rewrite E.
      exists (OracleService.mark_sent signal h now). split.
      * unfold OracleService.settle.
        destruct (String.eqb_spec h "") as [E0 | _]; [contradiction|].
        apply (query_signal_update db _ signal); [exact Hqs | reflexivity].
      * repeat split; reflexivity.
    + intros E. rewrite E.
      exists (OracleService.mark_failed signal). split.
      * apply (query_signal_update db _ signal); [exact Hqs | reflexivity].
      * reflexivity.
  - intros h. subst sent. apply send_signal_some.
  - intros settings t0 t1 job_id x job Hq trace. subst trace.
    rewrite (process_oracle_job_trace settings t0 t1 db job_id x job Hq).
    cbv zeta. pose proof (find_key Job.id _ _ _ Hq) as Hid.
    assert (H1 : query_job
                   (update_job db (Job.set_started_at (Job.set_status job "running") t0))
                   job_id
                 = Some (Job.set_started_at (Job.set_status job "running") t0))
      by (apply (query_job_update db job_id job); [exact Hq | exact Hid]).
    destruct (query_analysis db x) as [a|].
    + split; [repeat constructor|].
      eexists. split.
      { cbn [final last].
        apply (query_job_update _ job_id _ _ H1). exact Hid. }
      reflexivity.
    + split; [repeat constructor|].
      eexists. split.
      { cbn [final last]. unfold Workers.fail_job.
        apply (query_job_update _ job_id _ _ H1). exact Hid. }
      split; reflexivity.
Qed.

Lemma C3_relay_outcomes_witness :
  exists signal',
    query_signal
      (fst (fst (OracleService.monitor_signal (Examples.service (Err "timeout"))
                   Examples.healthy 400 (Examples.db_signal "pending" "pending") []
                   (Examples.signal_for_critical "pending" None)))) 1
    = Some signal'
    /\ OracleSignal.status signal' = "failed".
Proof.
  destruct (C3_relay_outcomes (Examples.service (Err "timeout")) Examples.healthy
              400 (Examples.db_signal "pending" "pending") []
              (Examples.signal_for_critical "pending" None)
              Examples.critical_analysis eq_refl eq_refl eq_refl eq_refl)
    as [[_ [_ [_ H]]] _].
  exact (H eq_refl).
Defined.

(* ------------------------------------------------------------------ *)
(** ** One pass of the monitor *)

Lemma find_nodup_key {A} (key : A -> Z) (l : list A) (x : A) :
  NoDup (map key l) -> In x l -> find (fun y => key y =? key x) l = Some x.
Proof.
  induction l as [|y l IH]; cbn [map find In]; intros Hnd Hin; [contradiction|].
  inversion Hnd as [|? ? Hy Hl]; subst.
  destruct Hin as [-> | Hin].
  - rewrite Z.eqb_refl. reflexivity.
  - destruct (key y =? key x) eqn:E.
    + exfalso. apply Z.eqb_eq in E. apply Hy. rewrite E.
      apply in_map. exact Hin.
    + apply IH; assumption.
Qed.

(** Selected rows keep distinct keys. *)
Lemma distinct_keys_filter {Row Key} (keep : Row -> bool) (key : Row -> Key)
    (rows : list Row) :
  NoDup (map key rows) -> NoDup (map key (filter keep rows)).
Proof.
  intros Hnd. induction rows as [|r rows IH]; cbn [map filter]; [constructor|].
  cbn [map] in Hnd. inversion Hnd as [|? ? Hr Hrows]; subst.
  destruct (keep r); cbn [map]; [|apply IH; exact Hrows].
  constructor; [|apply IH; exact Hrows].
  intros Hin. apply Hr. apply in_map_iff in Hin.
  destruct Hin as [z [Hz Hin]]. apply filter_In in Hin.
  rewrite <- Hz. apply in_map. apply Hin.
Qed.

Lemma map_id_update (l : list OracleSignal.t) (s : OracleSignal.t) :
  map OracleSignal.id
      (map (fun x => if OracleSignal.id x =? OracleSignal.id s then s else x) l)
  = map OracleSignal.id l.
Proof.
  induction l as [|y l IH]; cbn [map]; [reflexivity|].
  rewrite IH. destruct (OracleSignal.id y =? OracleSignal.id s) eqn:E;
    [|reflexivity].
  apply Z.eqb_eq in E. rewrite E. reflexivity.
Qed.

Lemma query_analysis_same (db db' : DB) (x : Z) :
  analysis_results db' = analysis_results db ->
  query_analysis db' x = query_analysis db x.
Proof. unfold query_analysis. intros ->. reflexivity. Qed.

Lemma raises_on_same (session : OracleService.Session) (db db' : DB)
    (s : OracleSignal.t) :
  analysis_results db' = analysis_results db ->
  OracleService.raises_on session db' s = OracleService.raises_on session db s.
Proof.
  intros H. unfold OracleService.raises_on.
  rewrite (query_analysis_same db db' _ H). reflexivity.
Qed.

(** The loop body in one equation: it raises what [raises_on] says;
    it commits the settled signal when nothing is raised and the
    analysis result exists, and leaves the database as it is
    otherwise. *)
Lemma monitor_signal_spec
    (self : OracleService.t) (session : OracleService.Session) (now : Z)
    (db : DB) (log : list string) (s : OracleSignal.t) :
  exists lines,
    OracleService.monitor_signal self session now db log s
    = (match OracleService.raises_on session db s,
             query_analysis db (OracleSignal.analysis_result_id s) with
       | None, Some a =>
           update_signal db
             (OracleService.settle s
                (fst (OracleService.send_signal self now (AnalysisResult.id a)
                        (OracleSignal.severity s) (AnalysisResult.metrics a))) now)
       | _, _ => db
       end,
       (log ++ lines)%list,
       OracleService.raises_on session db s).
Proof.
  unfold OracleService.monitor_signal, OracleService.raises_on.
  destruct (OracleService.query_analysis_raises session (OracleSignal.id s)) as [e|].
  { exists []. rewrite app_nil_r. reflexivity. }
  destruct (query_analysis db (OracleSignal.analysis_result_id s)) as [a|].
  2:{ exists []. rewrite app_nil_r. reflexivity. }
  rewrite settle_id.
  exists (snd (OracleService.send_signal self now (AnalysisResult.id a)
                 (OracleSignal.severity s) (AnalysisResult.metrics a))).
  destruct (OracleService.commit_raises session (OracleSignal.id s)); reflexivity.
Qed.

Lemma monitor_signals_app
    (self : OracleService.t) (session : OracleService.Session) (now : Z)
    (l1 l2 : list OracleSignal.t) :
  forall db log,
    OracleService.monitor_signals self session now db log (l1 ++ l2)
    = match OracleService.monitor_signals self session now db log l1 with
      | (db1, log1, None) =>
          OracleService.monitor_signals self session now db1 log1 l2
      | (db1, log1, Some e) => (db1, log1, Some e)
      end.
Proof.
  induction l1 as [|s l1 IH]; intros db log;
    cbn [app OracleService.monitor_signals]; [reflexivity|].
  destruct (OracleService.monitor_signal self session now db log s)
    as [[db1 log1] [e|]]; [reflexivity | apply IH].
Qed.

(** A run of the loop over signals for which nothing is raised. *)
Lemma monitor_signals_healthy
    (self : OracleService.t) (session : OracleService.Session) (now : Z)
    (l : list OracleSignal.t) :
  forall db log,
    (forall s, In s l -> OracleService.raises_on session db s = None) ->
    exists db' lines,
      OracleService.monitor_signals self session now db log l
      = (db', (log ++ lines)%list, None)
      /\ analysis_results db' = analysis_results db
      /\ jobs db' = jobs db
      /\ map OracleSignal.id (oracle_signals db')
         = map OracleSignal.id (oracle_signals db)
      /\ (forall k, ~ In k (map OracleSignal.id l) ->
          query_signal db' k = query_signal db k)
      /\ (NoDup (map OracleSignal.id l) ->
          forall s a,
            In s l ->
            query_analysis db (OracleSignal.analysis_result_id s) = Some a ->
            query_signal db (OracleSignal.id s) <> None ->
            query_signal db' (OracleSignal.id s)
            = Some (OracleService.settle s
                      (fst (OracleService.send_signal self now (AnalysisResult.id a)
                              (OracleSignal.severity s) (AnalysisResult.metrics a)))
                      now)).
Proof.
  induction l as [|s l IH]; intros db log Hok.
  - exists db, []. cbn [OracleService.monitor_signals]. rewrite app_nil_r.
    repeat split; try reflexivity. intros _ s a [].
  - cbn [OracleService.monitor_signals].
    destruct (monitor_signal_spec self session now db log s) as [lines1 Hs].
    rewrite Hs, (Hok s (or_introl eq_refl)).
    set (db1 := match query_analysis db (OracleSignal.analysis_result_id s) with
                | Some a =>
                    update_signal db
                      (OracleService.settle s
                         (fst (OracleService.send_signal self now
                                 (AnalysisResult.id a) (OracleSignal.severity s)
                                 (AnalysisResult.metrics a))) now)
                | None => db
                end).
    assert (Han : analysis_results db1 = analysis_results db)
      by (subst db1; destruct (query_analysis db _); reflexivity).
    assert (Hjobs : jobs db1 = jobs db)
      by (subst db1; destruct (query_analysis db _); reflexivity).
    assert (Hids : map OracleSignal.id (oracle_signals db1)
                   = map OracleSignal.id (oracle_signals db)).
    { subst db1. destruct (query_analysis db _); [|reflexivity].
      unfold update_signal. cbn [oracle_signals set_oracle_signals].
      apply map_id_update. }
    assert (Hother : forall k, k <> OracleSignal.id s ->
                               query_signal db1 k = query_signal db k).
    { intros k Hk. subst db1. destruct (query_analysis db _); [|reflexivity].
      unfold query_signal, update_signal. cbn [oracle_signals set_oracle_signals].
      apply find_update_other. rewrite settle_id. intros E. apply Hk.
      symmetry. exact E. }
    destruct (IH db1 (log ++ lines1)%list) as [db' [lines2 [Hrun H]]].
    { intros s' Hin. rewrite (raises_on_same session db db1 s' Han).
      apply Hok. right. exact Hin. }
    destruct H as [Han' [Hjobs' [Hids' [Hother' Hdone']]]].
    exists db', (lines1 ++ lines2)%list.
    rewrite app_assoc. split; [exact Hrun|].
    split; [rewrite Han'; exact Han|].
    split; [rewrite Hjobs'; exact Hjobs|].
    split; [rewrite Hids'; exact Hids|].
    split.
    + intros k Hk. cbn [map In] in Hk.
      rewrite Hother' by (intros Hin; apply Hk; right; exact Hin).
      apply Hother. intros E. apply Hk. left. symmetry. exact E.
    + intros Hnd s0 a Hin Ha Hrow. cbn [map] in Hnd.
      inversion Hnd as [|? ? Hhead Hrest]; subst.
      destruct Hin as [<- | Hin].
      * rewrite Hother' by exact Hhead.
        subst db1. rewrite Ha.
        destruct (query_signal db (OracleSignal.id s)) as [old|] eqn:Hold;
          [|contradiction].
        apply (query_signal_update db _ old); [exact Hold | apply settle_id].
      * assert (Hne : OracleSignal.id s0 <> OracleSignal.id s).
        { intros E. apply Hhead. rewrite <- E. apply in_map. exact Hin. }
        apply (Hdone' Hrest s0 a Hin).
        -- rewrite (query_analysis_same db db1 _ Han). exact Ha.
        -- rewrite (Hother _ Hne). exact Hrow.
Qed.

(** C9, as stated, fails: when the commit raises while the first of
    two pending signals is processed, the pass logs the error and
    ends; the second signal is not attempted in that pass and its row
    is as before, still pending. *)
Lemma C9_counterexample :
  filter OracleService.is_pending_alert (oracle_signals Examples.db_two_signals)
  = [Examples.first_signal; Examples.second_signal]
  /\ (let out := OracleService.monitor_pass (Examples.service (Ok 1))
                   Examples.commit_fails_on_first 400
                   (Examples.db_two_signals, []) in
      query_signal (fst out) 2 = Some Examples.second_signal
      /\ OracleSignal.status Examples.second_signal = "pending"
      /\ last (snd out) "" = "Error in monitoring loop: connection lost").
Proof. vm_compute. repeat split. Qed.

(** The log after the loop body: the lines of [send_signal] are
    added when the body reaches the call, that is when the query of
    the analysis result does not raise. *)
Lemma monitor_signal_log
    (self : OracleService.t) (session : OracleService.Session) (now : Z)
    (db : DB) (log : list string) (s : OracleSignal.t) :
  snd (fst (OracleService.monitor_signal self session now db log s))
  = (log ++ match OracleService.query_analysis_raises session (OracleSignal.id s)
            with
            | Some _ => []
            | None => attempt_log self now db s
            end)%list.
Proof.
  unfold OracleService.monitor_signal, attempt_log.
  destruct (OracleService.query_analysis_raises session (OracleSignal.id s)) as [e|].
  { cbn [fst snd]. rewrite app_nil_r. reflexivity. }
  destruct (query_analysis db (OracleSignal.analysis_result_id s)) as [a|].
  2:{ cbn [fst snd]. rewrite app_nil_r. reflexivity. }
  destruct (OracleService.commit_raises session _); reflexivity.
Qed.

Lemma attempt_log_same (self : OracleService.t) (now : Z) (db db' : DB)
    (s : OracleSignal.t) :
  analysis_results db' = analysis_results db ->
  attempt_log self now db' s = attempt_log self now db s.
Proof.
  intros H. unfold attempt_log. rewrite (query_analysis_same db db' _ H).
  reflexivity.
Qed.

(** The log after a run of the loop over signals for which nothing
    is raised: the lines of [send_signal] for each, in order. *)
Lemma monitor_signals_log
    (self : OracleService.t) (session : OracleService.Session) (now : Z)
    (l : list OracleSignal.t) :
  forall db log,
    (forall s, In s l -> OracleService.raises_on session db s = None) ->
    snd (fst (OracleService.monitor_signals self session now db log l))
    = (log ++ flat_map (attempt_log self now db) l)%list.
Proof.
  induction l as [|s l IH]; intros db log Hok.
  - cbn [OracleService.monitor_signals flat_map fst snd]. rewrite app_nil_r.
    reflexivity.
  - cbn [OracleService.monitor_signals flat_map].
    pose proof (monitor_signal_log self session now db log s) as Hlog.
    destruct (monitor_signal_spec self session now db log s) as [lines Hs].
    pose proof (Hok s (or_introl eq_refl)) as Hnone.
    rewrite Hnone in Hs. rewrite Hs in Hlog |- *. cbn [fst snd] in Hlog.
    assert (Hq : OracleService.query_analysis_raises session (OracleSignal.id s)
                 = None).
    { unfold OracleService.raises_on in Hnone.
      destruct (OracleService.query_analysis_raises session (OracleSignal.id s));
        [discriminate Hnone | reflexivity]. }
    rewrite Hq in Hlog. rewrite Hlog.
    set (db1 := match query_analysis db (OracleSignal.analysis_result_id s) with
                | Some a => _
                | None => db
                end).
    assert (Han : analysis_results db1 = analysis_results db).
    { subst db1. destruct (query_analysis db _); reflexivity. }
    rewrite IH.
    + rewrite <- app_assoc. f_equal. f_equal.
      apply flat_map_ext. intros s'. apply attempt_log_same. exact Han.
    + intros s' Hin. rewrite (raises_on_same session db db1 s' Han).
      apply Hok. right. exact Hin.
Qed.

(** C9, amended. A failure inside [send_signal] is caught there and
    only settles that signal as failed. An exception raised by the
    loop body outside [send_signal] (by the query of the analysis
    result or by the commit) is logged and ends the pass: the signals
    before it were attempted; the row of the signal at which it was
    raised, and the rows of those after it, are as before, still
    pending. The log tells which calls of [send_signal] were made: one
    for each signal before it, none for the signals after it, and for
    the signal at which it was raised none when the query raised, one
    when the commit raised: then the transaction was submitted
    although the row does not say so. The monitoring loop goes on: in
    the next pass, if the session raises nothing, [send_signal] is
    called for them, again for the one whose commit had raised. *)
Theorem C9_exception_ends_pass_not_loop
    (self : OracleService.t) (session : OracleService.Session) (now : Z)
    (db : DB) (log : list string)
    (before : list OracleSignal.t) (bad : OracleSignal.t)
    (after : list OracleSignal.t) (e : string) :
  NoDup (map OracleSignal.id (oracle_signals db)) ->
  OracleService.query_signals_raises session = None ->
  filter OracleService.is_pending_alert (oracle_signals db)
  = (before ++ bad :: after)%list ->
  (forall s, In s before -> OracleService.raises_on session db s = None) ->
  OracleService.raises_on session db bad = Some e ->
  let out := OracleService.monitor_pass self session now (db, log) in
  (exists lines,
     snd out = (log ++ lines ++ [OracleService.log_loop_error e])%list)
  /\ (forall s, In s (bad :: after) ->
      query_signal (fst out) (OracleSignal.id s) = Some s
      /\ OracleSignal.status s = "pending")
  /\ (forall s a,
        In s before ->
        query_analysis db (OracleSignal.analysis_result_id s) = Some a ->
        exists s',
          query_signal (fst out) (OracleSignal.id s) = Some s'
          /\ (OracleSignal.status s' = "sent" \/ OracleSignal.status s' = "failed"))
  /\ (forall env i session2 now2,
        env i = (session, now) ->
        env (S i) = (session2, now2) ->
        OracleService.query_signals_raises session2 = None ->
        (forall k, OracleService.query_analysis_raises session2 k = None) ->
        (forall k, OracleService.commit_raises session2 k = None) ->
        let out2 := OracleService.monitor_and_send self env 2 i (db, log) in
        forall s a,
          In s (bad :: after) ->
          query_analysis db (OracleSignal.analysis_result_id s) = Some a ->
          exists s',
            query_signal (fst out2) (OracleSignal.id s) = Some s'
            /\ (OracleSignal.status s' = "sent"
                \/ OracleSignal.status s' = "failed"))
  /\ snd out
     = (log ++ flat_map (attempt_log self now db) before
            ++ match OracleService.query_analysis_raises session
                       (OracleSignal.id bad) with
               | Some _ => []
               | None => attempt_log self now db bad
               end
            ++ [OracleService.log_loop_error e])%list.
Proof.
  intros Hnd Hq Hpending Hbefore Hbad out.
  (* the pending signals are rows of the table, with distinct ids *)
  assert (Hnd_p : NoDup (map OracleSignal.id (before ++ bad :: after))).
  { rewrite <- Hpending. apply distinct_keys_filter. exact Hnd. }
  assert (Hrow : forall s, In s (before ++ bad :: after) ->
                           query_signal db (OracleSignal.id s) = Some s
                           /\ OracleService.is_pending_alert s = true).
  { intros s Hin. rewrite <- Hpending in Hin. apply filter_In in Hin.
    destruct Hin as [Hin Hp]. split; [|exact Hp].
    apply find_nodup_key; assumption. }
  rewrite map_app in Hnd_p.
  assert (Hnd_b : NoDup (map OracleSignal.id before))
    by (apply NoDup_app_remove_r in Hnd_p; exact Hnd_p).
  assert (Hdisj : forall s, In s (bad :: after) ->
                            ~ In (OracleSignal.id s) (map OracleSignal.id before)).
  { intros s Hin Hin'.
    apply (in_map OracleSignal.id) in Hin.
    revert Hin' Hin. clear - Hnd_p.
    induction (map OracleSignal.id before) as [|k ks IH]; [intros []|].
    cbn [app] in Hnd_p. inversion Hnd_p as [|? ? Hk Hks]; subst.
    intros [<- | Hin'] Hin.
    - apply Hk. apply in_or_app. right. exact Hin.
    - exact (IH Hks Hin' Hin). }
  (* the first pass *)
  destruct (monitor_signals_healthy self session now before db log Hbefore)
    as [db1 [lines1 [Hrun1 [Han1 [Hjobs1 [Hids1 [Hother1 Hdone1]]]]]]].
  destruct (monitor_signal_spec self session now db1 (log ++ lines1)%list bad)
    as [lines2 Hspec].
  rewrite (raises_on_same session db db1 bad Han1), Hbad in Hspec.
  assert (Hout : out = (db1, (log ++ (lines1 ++ lines2)
                              ++ [OracleService.log_loop_error e])%list)).
  { subst out. unfold OracleService.monitor_pass. rewrite Hq, Hpending.
    rewrite monitor_signals_app, Hrun1.
    cbn [OracleService.monitor_signals]. rewrite Hspec.
    rewrite !app_assoc. reflexivity. }
  assert (Hkept : forall s, In s (bad :: after) ->
                            query_signal db1 (OracleSignal.id s) = Some s
                            /\ OracleSignal.status s = "pending").
  { intros s Hin. rewrite (Hother1 _ (Hdisj s Hin)).
    destruct (Hrow s) as [Hr Hp]; [apply in_or_app; right; exact Hin|].
    split; [exact Hr|].
    unfold OracleService.is_pending_alert in Hp.
    apply andb_true_iff in Hp. destruct Hp as [Hp _].
    apply String.eqb_eq. exact Hp. }
  split; [|split; [|split; [|split]]].
  - rewrite Hout. eexists. reflexivity.
  - rewrite Hout. exact Hkept.
  - intros s a Hin Ha. rewrite Hout. cbn [fst].
    eexists. split; [|apply settle_status].
    apply (Hdone1 Hnd_b s a Hin Ha).
    destruct (Hrow s) as [Hr _]; [apply in_or_app; left; exact Hin|].
    rewrite Hr. discriminate.
  - intros env i session2 now2 Hi HSi Hq2 Hqa2 Hc2 out2 s a Hin Ha.
    assert (Hout2 : out2 = OracleService.monitor_pass self session2 now2 out).
    { subst out2 out. cbn [OracleService.monitor_and_send].
      rewrite Hi, HSi. reflexivity. }
    rewrite Hout2, Hout. unfold OracleService.monitor_pass. rewrite Hq2.
    destruct (monitor_signals_healthy self session2 now2
                (filter OracleService.is_pending_alert (oracle_signals db1)) db1
                (log ++ (lines1 ++ lines2) ++ [OracleService.log_loop_error e])%list)
      as [db2 [lines3 [Hrun2 [_ [_ [_ [_ Hdone2]]]]]]].
    { intros s' _. unfold OracleService.raises_on.
      rewrite Hqa2, Hc2. destruct (query_analysis db1 _); reflexivity. }
    rewrite Hrun2. cbn [fst].
    destruct (Hkept s Hin) as [Hr Hst].
    eexists. split; [|apply settle_status].
    apply (Hdone2 (distinct_keys_filter _ _ _
                     (eq_ind_r (fun l => NoDup l) Hnd Hids1)) s a).
    + apply filter_In. split.
      * unfold query_signal in Hr. apply find_some in Hr. apply Hr.
      * destruct (Hrow s) as [_ Hp]; [apply in_or_app; right; exact Hin|].
        exact Hp.
    + rewrite (query_analysis_same db db1 _ Han1). exact Ha.
    + rewrite Hr. discriminate.
  - rewrite Hout. cbn [snd].
    pose proof (monitor_signals_log self session now before db log Hbefore)
      as Hlog1.
    rewrite Hrun1 in Hlog1. cbn [fst snd] in Hlog1.
    apply app_inv_head in Hlog1.
    pose proof (monitor_signal_log self session now db1 (log ++ lines1)%list bad)
      as Hlog2.
    rewrite Hspec in Hlog2. cbn [fst snd] in Hlog2.
    apply app_inv_head in Hlog2.
    rewrite Hlog1, Hlog2, (attempt_log_same self now db db1 bad Han1).
    rewrite <- !app_assoc. reflexivity.
Qed.

Lemma C9_exception_ends_pass_not_loop_witness :
  let out := OracleService.monitor_pass (Examples.service (Ok 1))
               Examples.commit_fails_on_first 400 (Examples.db_two_signals, []) in
  query_signal (fst out) 2 = Some Examples.second_signal
  /\ OracleSignal.status Examples.second_signal = "pending"
  /\ query_signal (fst out) 1 = Some Examples.first_signal
  /\ snd out
     = (attempt_log (Examples.service (Ok 1)) 400 Examples.db_two_signals
          Examples.first_signal
        ++ [OracleService.log_loop_error "connection lost"])%list.
Proof.
  intros out.
  destruct (C9_exception_ends_pass_not_loop (Examples.service (Ok 1))
              Examples.commit_fails_on_first 400 Examples.db_two_signals []
              [] Examples.first_signal [Examples.second_signal] "connection lost")
    as [_ [H [_ [_ Hlog]]]].
  - cbn. repeat constructor; cbn; intuition discriminate.
  - reflexivity.
  - reflexivity.
  - intros s [].
  - reflexivity.
  - split; [|split; [|split]].
    + apply (H Examples.second_signal). right. left. reflexivity.
    + apply (H Examples.second_signal). right. left. reflexivity.
    + apply (H Examples.first_signal). left. reflexivity.
    + exact Hlog.
Defined.

(* ------------------------------------------------------------------ *)
(** ** Dedup on insert: the loop that stores raw events *)

Lemma opt_str_eqb_eq (a b : option string) : opt_str_eqb a b = true <-> a = b.
Proof.
  destruct a as [x|], b as [y|]; cbn [opt_str_eqb];
    try (split; [discriminate | discriminate]); [|split; reflexivity].
  rewrite String.eqb_eq. split; [intros ->; reflexivity | intros E; injection E; auto].
Qed.

Lemma no_row_with_hash (h : option string) (rows : list RawEvent.t) :
  existsb (Workers.has_hash h) rows = false
  <-> ~ In h (map RawEvent.content_hash rows).
Proof.
  induction rows as [|r rows IH]; cbn [existsb map In].
  - split; [intros _ [] | reflexivity].
  - rewrite orb_false_iff, IH. unfold Workers.has_hash at 1.
    split.
    + intros [Hr Hrows] [E | Hin]; [|exact (Hrows Hin)].
      rewrite E in Hr. rewrite (proj2 (opt_str_eqb_eq h h) eq_refl) in Hr.
      discriminate Hr.
    + intros Hnot. split.
      * destruct (opt_str_eqb (RawEvent.content_hash r) h) eqn:E; [|reflexivity].
        exfalso. apply Hnot. left. apply opt_str_eqb_eq. exact E.
      * intros Hin. apply Hnot. right. exact Hin.
Qed.

Lemma no_added_with_hash (h : option string) (added : list RawEvent.init) :
  existsb (Workers.has_hash_init h) added = false
  <-> ~ In h (map RawEvent.i_content_hash added).
Proof.
  induction added as [|r added IH]; cbn [existsb map In].
  - split; [intros _ [] | reflexivity].
  - rewrite orb_false_iff, IH. unfold Workers.has_hash_init at 1.
    split.
    + intros [Hr Hrows] [E | Hin]; [|exact (Hrows Hin)].
      rewrite E in Hr. rewrite (proj2 (opt_str_eqb_eq h h) eq_refl) in Hr.
      discriminate Hr.
    + intros Hnot. split.
      * destruct (opt_str_eqb (RawEvent.i_content_hash r) h) eqn:E; [|reflexivity].
        exfalso. apply Hnot. left. apply opt_str_eqb_eq. exact E.
      * intros Hin. apply Hnot. right. exact Hin.
Qed.

Lemma store_step_invariant (cfg : SessionConfig) (committed : list RawEvent.t)
    (source_id : Z) (platform : string) (seen : nat)
    (st : list RawEvent.init * Z) (data : pydict) :
  loop_invariant cfg committed seen st ->
  loop_invariant cfg committed (S seen)
    (Workers.store_step cfg committed source_id platform st data).
Proof.
  destruct st as [added n]. intros [Hn [Hlen [Hnew Hnd]]]. cbn [fst snd] in *.
  unfold Workers.store_step.
  destruct (existsb (Workers.has_hash (Workers.content_hash_of data)) committed)
    eqn:Hc; cbn [orb negb].
  { repeat split; cbn [fst snd]; auto. }
  destruct (autoflush cfg) eqn:Haf; cbn [andb].
  - destruct (existsb (Workers.has_hash_init (Workers.content_hash_of data)) added)
      eqn:Ha; cbn [negb].
    { repeat split; cbn [fst snd]; auto. }
    repeat split; cbn [fst snd].
    + rewrite length_app, Nat2Z.inj_add, Hn. reflexivity.
    + rewrite length_app. cbn [List.length]. lia.
    + intros e Hin. apply in_app_or in Hin. destruct Hin as [Hin | [<- | []]].
      * exact (Hnew e Hin).
      * cbn [RawEvent.i_content_hash]. apply no_row_with_hash. exact Hc.
    + intros _. rewrite map_app. cbn [map RawEvent.i_content_hash].
      apply NoDup_snoc; [apply Hnd; reflexivity|].
      apply no_added_with_hash. exact Ha.
  - cbn [negb]. repeat split; cbn [fst snd].
    + rewrite length_app, Nat2Z.inj_add, Hn. reflexivity.
    + rewrite length_app. cbn [List.length]. lia.
    + intros e Hin. apply in_app_or in Hin. destruct Hin as [Hin | [<- | []]].
      * exact (Hnew e Hin).
      * cbn [RawEvent.i_content_hash]. apply no_row_with_hash. exact Hc.
    + intros E. rewrite Haf in E. discriminate E.
Qed.

Lemma store_fold_invariant (cfg : SessionConfig) (committed : list RawEvent.t)
    (source_id : Z) (platform : string) (extracted_data : list pydict) :
  forall seen st,
    loop_invariant cfg committed seen st ->
    loop_invariant cfg committed (seen + List.length extracted_data)
      (fold_left (Workers.store_step cfg committed source_id platform)
                 extracted_data st).
Proof.
  induction extracted_data as [|data rest IH]; intros seen st Hinv;
    cbn [fold_left List.length].
  - rewrite Nat.add_0_r. exact Hinv.
  - rewrite <- Nat.add_succ_comm. apply IH.
    apply store_step_invariant. exact Hinv.
Qed.

Lemma hashes_commit_events (now : Z) (added : list RawEvent.init) :
  forall db,
    map RawEvent.content_hash (raw_events (Workers.commit_events now db added))
    = (map RawEvent.content_hash (raw_events db)
       ++ map RawEvent.i_content_hash added)%list.
Proof.
  unfold Workers.commit_events.
  induction added as [|e added IH]; intros db; cbn [fold_left map].
  - rewrite app_nil_r. reflexivity.
  - rewrite IH. unfold add_raw_event.
    cbn [raw_events set_raw_events]. rewrite map_app. cbn [map RawEvent.content_hash].
    rewrite <- app_assoc. reflexivity.
Qed.

(** C1, as stated, fails: the check is a query followed by an insert
    in the worker, and the table has no unique constraint on
    [content_hash]. Two runs of the loop that both query before either
    commits (two workers on the same page) both add the record, and
    both commits are accepted: two rows with one hash. Each of the two
    is what a run of [process_scraping_job] does on the state it
    reads: started on the same state for two jobs, both runs insert
    the page. *)
Lemma C1_counterexample :
  let cfg := mkSessionConfig true in
  let db := Examples.db_no_events in
  let added1 := fst (Workers.store_loop cfg (raw_events db) 1 "web" [Examples.page]) in
  let added2 := fst (Workers.store_loop cfg (raw_events db) 1 "web" [Examples.page]) in
  let db' := Workers.commit_events 501 (Workers.commit_events 500 db added1) added2 in
  let jobs := SamplesRuns.db_two_jobs in
  let inserted job_id :=
    map init_of_row
      (raw_events
         (final jobs (Workers.process_scraping_job cfg SamplesRuns.one_page
                        400 500 jobs job_id 1))) in
  map RawEvent.content_hash (raw_events db')
  = [Some "3b1f054a59ff1ecd0dd5e47ef1559a8775e88c45838417bd28b5b06681d213d5";
     Some "3b1f054a59ff1ecd0dd5e47ef1559a8775e88c45838417bd28b5b06681d213d5"]
  /\ map RawEvent.id (raw_events db') = [1; 2]
  /\ raw_events jobs = raw_events db
  /\ inserted 1 = added1
  /\ inserted 2 = added2.
Proof. vm_compute. repeat split. Qed.

(** Without a flush before the query, the loop does not see the rows
    it added itself: a record that comes twice in one extraction is
    added twice. With the flush it is added once. *)
Example in_batch_duplicates :
  Workers.store_loop (mkSessionConfig false) [] 1 "web"
    [Examples.page; Examples.page]
  = ([RawEvent.mk_init 1 "web" Examples.page (Workers.content_hash_of Examples.page);
      RawEvent.mk_init 1 "web" Examples.page (Workers.content_hash_of Examples.page)],
     2)
  /\ Workers.store_loop (mkSessionConfig true) [] 1 "web"
       [Examples.page; Examples.page]
     = ([RawEvent.mk_init 1 "web" Examples.page
           (Workers.content_hash_of Examples.page)], 1).
Proof. vm_compute. split; reflexivity. Qed.


(* ------------------------------------------------------------------ *)
(** ** Content hashes *)

Lemma leb_trans (a b c : string) :
  String.leb a b = true -> String.leb b c = true -> String.leb a c = true.
Proof.
  unfold String.leb.
  destruct (String.compare a b) eqn:Hab; [| |discriminate];
    (destruct (String.compare b c) eqn:Hbc; [| |discriminate]); intros _ _.
  - apply String.compare_eq_iff in Hab, Hbc. subst.
    pose proof (proj2 (OrderedTypeEx.String_as_OT.cmp_eq c c) eq_refl) as H.
    unfold OrderedTypeEx.String_as_OT.cmp in H. rewrite H. reflexivity.
  - apply String.compare_eq_iff in Hab. subst. rewrite Hbc. reflexivity.
  - apply String.compare_eq_iff in Hbc. subst. rewrite Hab. reflexivity.
  - apply OrderedTypeEx.String_as_OT.cmp_lt in Hab, Hbc.
    pose proof (OrderedTypeEx.String_as_OT.lt_trans _ _ _ Hab Hbc) as H.
    apply OrderedTypeEx.String_as_OT.cmp_lt in H.
    unfold OrderedTypeEx.String_as_OT.cmp in H. rewrite H. reflexivity.
Qed.

Section SortedItems.

Context {A : Type}.

Lemma insert_item_perm (kv : string * A) (l : list (string * A)) :
  Permutation (kv :: l) (insert_item kv l).
Proof.
  induction l as [|y l IH]; cbn [insert_item]; [reflexivity|].
  destruct (String.leb (fst kv) (fst y)); [reflexivity|].
  rewrite perm_swap. constructor. exact IH.
Qed.

Lemma sorted_items_perm (d : list (string * A)) : Permutation d (sorted_items d).
Proof.
  induction d as [|kv d IH]; cbn [sorted_items]; [constructor|].
  rewrite <- insert_item_perm. constructor. exact IH.
Qed.

Lemma insert_item_sorted (kv : string * A) (l : list (string * A)) :
  StronglySorted key_le l -> StronglySorted key_le (insert_item kv l).
Proof.
  induction l as [|y l IH]; cbn [insert_item]; intros Hs.
  - repeat constructor.
  - inversion Hs as [|? ? Hl Hy]; subst.
    destruct (String.leb (fst kv) (fst y)) eqn:E.
    + constructor; [exact Hs|]. constructor; [exact E|].
      apply Forall_forall. intros z Hz.
      rewrite Forall_forall in Hy. unfold key_le.
      apply (leb_trans _ (fst y)); [exact E | apply Hy; exact Hz].
    + constructor; [apply IH; exact Hl|].
      apply Forall_forall. intros z Hz.
      apply (Permutation_in _ (Permutation_sym (insert_item_perm kv l))) in Hz.
      destruct Hz as [<- | Hz].
      * unfold key_le. destruct (String.leb_total (fst kv) (fst y)) as [H|H];
          [rewrite H in E; discriminate E | exact H].
      * rewrite Forall_forall in Hy. apply Hy. exact Hz.
Qed.

Lemma sorted_items_sorted (d : list (string * A)) :
  StronglySorted key_le (sorted_items d).
Proof.
  induction d as [|kv d IH]; cbn [sorted_items]; [constructor|].
  apply insert_item_sorted. exact IH.
Qed.

(** Two sorted lists with the same items and distinct keys are the
    same list. *)
Lemma sorted_unique (l1 : list (string * A)) :
  forall l2,
    StronglySorted key_le l1 -> StronglySorted key_le l2 ->
    NoDup (map fst l1) -> Permutation l1 l2 -> l1 = l2.
Proof.
  induction l1 as [|a l1 IH]; intros l2 Hs1 Hs2 Hnd Hp.
  - apply Permutation_nil in Hp. symmetry. exact Hp.
  - destruct l2 as [|b l2].
    { apply Permutation_sym, Permutation_nil in Hp. discriminate Hp. }
    inversion Hs1 as [|? ? Hl1 Ha]; subst.
    inversion Hs2 as [|? ? Hl2 Hb]; subst.
    rewrite Forall_forall in Ha, Hb.
    assert (Hab : a = b).
    { assert (Hina : In a (b :: l2))
        by (apply (Permutation_in _ Hp); left; reflexivity).
      assert (Hinb : In b (a :: l1))
        by (apply (Permutation_in _ (Permutation_sym Hp)); left; reflexivity).
      destruct Hina as [E | Hina]; [symmetry; exact E|].
      destruct Hinb as [E | Hinb]; [exact E|].
      exfalso.
      assert (Hk : fst a = fst b)
        by (apply String.leb_antisym; [apply Ha; exact Hinb | apply Hb; exact Hina]).
      cbn [map] in Hnd. inversion Hnd as [|? ? Hfresh _]; subst.
      apply Hfresh. rewrite Hk. apply in_map. exact Hinb. }
    subst b. f_equal.
    apply IH; [exact Hl1 | exact Hl2 | | exact (Permutation_cons_inv Hp)].
    cbn [map] in Hnd. inversion Hnd; assumption.
Qed.

(** [sorted(d.items())] does not depend on the insertion order of
    the dict. *)
Lemma sorted_items_order_independent (d1 d2 : list (string * A)) :
  NoDup (map fst d1) -> Permutation d1 d2 -> sorted_items d1 = sorted_items d2.
Proof.
  intros Hnd Hp. apply sorted_unique.
  - apply sorted_items_sorted.
  - apply sorted_items_sorted.
  - apply (Permutation_NoDup (Permutation_map fst (sorted_items_perm d1))).
    exact Hnd.
  - rewrite <- (sorted_items_perm d1), <- (sorted_items_perm d2). exact Hp.
Qed.

End SortedItems.

(** The hash of the scraping service does not depend on the order in
    which the fields were put into the payload. *)
Lemma scraping_hash_order_independent (d1 d2 : pydict) :
  NoDup (map fst d1) -> Permutation d1 d2 ->
  ScrapingService._generate_hash d1 = ScrapingService._generate_hash d2.
Proof.
  intros Hnd Hp. unfold ScrapingService._generate_hash.
  rewrite (sorted_items_order_independent d1 d2 Hnd Hp). reflexivity.
Qed.

(** The hash of the social service is a function of the stable fields
    [id] and [platform] alone. *)
Lemma social_hash_stable_fields (d1 d2 : pydict) :
  (forall k, In k SocialService.hash_fields ->
             dict_mem d1 k = dict_mem d2 k /\ dict_get d1 k = dict_get d2 k) ->
  SocialService._generate_hash d1 = SocialService._generate_hash d2.
Proof.
  intros H. unfold SocialService._generate_hash, SocialService.hash_fields in *.
  destruct (H "id" (or_introl eq_refl)) as [Hm1 Hg1].
  destruct (H "platform" (or_intror (or_introl eq_refl))) as [Hm2 Hg2].
  cbn [filter]. rewrite Hm1, Hm2.
  destruct (dict_mem d2 "id"), (dict_mem d2 "platform"); cbn [map];
    rewrite ?Hg1, ?Hg2; reflexivity.
Qed.

(** C7 on the code: two fetches of the same page content, at two
    times. [fetch_web_page] stamps [fetched_at] before it hashes, and
    the hash covers every field, so the two records, which differ in
    nothing but the fetch time, get different hashes, and the dedup
    loop stores both. *)
Theorem C7_web_hash_depends_on_fetch_time :
  ScrapingService.fetch_web_page (Ok [("title", PStr "Example Domain")])
    "https://example.org" "2024-01-01T00:00:00.000001" = Ok Examples.page
  /\ ScrapingService.fetch_web_page (Ok [("title", PStr "Example Domain")])
       "https://example.org" "2024-01-01T00:05:00.000002" = Ok Examples.page_later
  /\ dict_remove (dict_remove Examples.page "fetched_at") "content_hash"
     = dict_remove (dict_remove Examples.page_later "fetched_at") "content_hash"
  /\ opt_str_eqb (Workers.content_hash_of Examples.page)
                 (Workers.content_hash_of Examples.page_later) = false
  /\ Workers.store_loop (mkSessionConfig true) [] 1 "web"
       [Examples.page; Examples.page_later]
     = ([RawEvent.mk_init 1 "web" Examples.page
           (Workers.content_hash_of Examples.page);
         RawEvent.mk_init 1 "web" Examples.page_later
           (Workers.content_hash_of Examples.page_later)], 2).
Proof. vm_compute. repeat split. Qed.

(** The same two fetches through the hash of the social service's
    kind (stable fields only) would collide, as the claim wants: here
    on a tweet fetched twice with changed counters. *)
Example social_hash_ignores_volatile_fields :
  SocialService._generate_hash
    [("id", PStr "tweet_123456"); ("text", PStr "x"); ("likes", PInt 3);
     ("platform", PStr "twitter")]
  = SocialService._generate_hash
      [("id", PStr "tweet_123456"); ("text", PStr "x"); ("likes", PInt 40);
       ("platform", PStr "twitter")]
  /\ SocialService._generate_hash
       [("id", PStr "tweet_123456"); ("text", PStr "x"); ("platform", PStr "twitter")]
     = "ed65e79bbb41d98f59444574f765b48a1b45857eabe69165748775c0826a91c4".
Proof. vm_compute. split; reflexivity. Qed.

(* ------------------------------------------------------------------ *)
(** ** Runs of the scraping worker *)

Lemma job_rows_cons (job_id : Z) (db : DB) (trace : list DB) (j : Job.t) :
  query_job db job_id = Some j ->
  job_rows job_id (db :: trace) = j :: job_rows job_id trace.
Proof. intros H. cbn [job_rows flat_map]. rewrite H. reflexivity. Qed.

Lemma length_commit_events (now : Z) (added : list RawEvent.init) :
  forall db,
    List.length (raw_events (Workers.commit_events now db added))
    = (List.length (raw_events db) + List.length added)%nat.
Proof.
  unfold Workers.commit_events.
  induction added as [|e added IH]; intros db; cbn [fold_left List.length].
  - rewrite Nat.add_0_r. reflexivity.
  - rewrite IH. unfold add_raw_event. cbn [raw_events set_raw_events].
    rewrite length_app. cbn [List.length]. lia.
Qed.

(** The states that [process_scraping_job] commits when the job and
    the source exist and the extraction returns. *)
Lemma process_scraping_job_returns
    (cfg : SessionConfig) (ext : Workers.Extractors) (t0 t1 : Z) (db : DB)
    (job_id source_id : Z) (job : Job.t) (source : Source.t)
    (extracted_data : list pydict) :
  query_job db job_id = Some job ->
  query_source db source_id = Some source ->
  extracted_for ext source = Ok extracted_data ->
  let job1 := Job.set_progress
                (Job.set_started_at (Job.set_status job "running") t0) 0%Q in
  let job2 := Job.set_progress job1 (1 # 2)%Q in
  let out := Workers.store_loop cfg (raw_events db) source_id
               (platform_or_web source) extracted_data in
  let db2 := update_job (update_job db job1) job2 in
  let db3 := Workers.commit_events t1 db2 (fst out) in
  let n := Z.of_nat (List.length extracted_data) in
  let job4 :=
    Job.set_output_data
      (Job.set_completed_at
         (Job.set_status (Job.set_progress job2 1%Q) "completed") t1)
      (PDict [("events_extracted", PInt n);
              ("new_events", PInt (snd out));
              ("duplicates_filtered", PInt (n - snd out))]) in
  Workers.process_scraping_job cfg ext t0 t1 db job_id source_id
  = [update_job db job1; db2; db3; update_job db3 job4].
Proof.
  intros Hq Hs Hext job1 job2 out db2 db3 n job4.
  unfold Workers.process_scraping_job. rewrite Hq. fold job1.
  change (query_source (update_job db job1) source_id)
    with (query_source db source_id).
  rewrite Hs. unfold extracted_for in Hext. rewrite Hext. cbn [bind].
  fold job2. fold db2.
  change (raw_events db2) with (raw_events db).
  change (match Source.platform source with
          | Some p => if String.eqb p "" then "web" else p
          | None => "web"
          end) with (platform_or_web source).
  fold out. destruct out as [added new_events] eqn:Hout.
  reflexivity.
Qed.

(* ------------------------------------------------------------------ *)
(** ** Dedup on insert: the runs of the scraping worker *)

Lemma opt_str_dec (a b : option string) : {a = b} + {a <> b}.
Proof. decide equality. apply string_dec. Qed.

(** The rows that the commit after the loop inserts. *)
Lemma raw_events_commit_events (now : Z) (added : list RawEvent.init) :
  forall db,
    exists rows,
      raw_events (Workers.commit_events now db added)
      = (raw_events db ++ rows)%list
      /\ map init_of_row rows = added.
Proof.
  unfold Workers.commit_events.
  induction added as [|e added IH]; intros db; cbn [fold_left].
  - exists []. rewrite app_nil_r. split; reflexivity.
  - destruct (IH (add_raw_event now db e)) as [rows [Hrows Hinit]].
    eexists (_ :: rows). split.
    + rewrite Hrows. unfold add_raw_event. cbn [raw_events set_raw_events].
      rewrite <- app_assoc. reflexivity.
    + cbn [map]. rewrite Hinit. destruct e. reflexivity.
Qed.

(** Every record of a list has a first record with its hash. *)
Lemma first_with_hash (data : list pydict) (d : pydict) :
  In d data ->
  exists pre d0 post,
    data = (pre ++ d0 :: post)%list
    /\ Workers.content_hash_of d0 = Workers.content_hash_of d
    /\ forall x, In x pre ->
                 Workers.content_hash_of x <> Workers.content_hash_of d0.
Proof.
  induction data as [|y data IH]; intros Hin; [destruct Hin|].
  destruct (opt_str_eqb (Workers.content_hash_of y) (Workers.content_hash_of d))
    eqn:E.
  - apply opt_str_eqb_eq in E. exists [], y, data.
    split; [reflexivity|]. split; [exact E|]. intros x [].
  - assert (Hne : Workers.content_hash_of y <> Workers.content_hash_of d).
    { intros H. apply opt_str_eqb_eq in H. rewrite H in E. discriminate E. }
    destruct Hin as [-> | Hin]; [contradiction Hne; reflexivity|].
    destruct (IH Hin) as [pre [d0 [post [Hdata [Hsame Hpre]]]]].
    exists (y :: pre), d0, post.
    split; [rewrite Hdata; reflexivity|]. split; [exact Hsame|].
    intros x [<- | Hx]; [rewrite Hsame; exact Hne | exact (Hpre x Hx)].
Qed.

(** What the loop adds: rows made from records of the extraction, and
    among them the first record of every hash that neither a
    committed row nor a row added before has. *)
Lemma store_fold_rows (cfg : SessionConfig) (committed : list RawEvent.t)
    (source_id : Z) (platform : string) (data : list pydict) :
  forall st,
    exists more,
      fst (fold_left (Workers.store_step cfg committed source_id platform) data st)
      = (fst st ++ more)%list
      /\ (forall e, In e more ->
            exists d, In d data
                      /\ e = RawEvent.mk_init source_id platform d
                               (Workers.content_hash_of d))
      /\ (forall pre d0 post,
            data = (pre ++ d0 :: post)%list ->
            (forall x, In x pre ->
                       Workers.content_hash_of x <> Workers.content_hash_of d0) ->
            ~ In (Workers.content_hash_of d0)
                 (map RawEvent.content_hash committed) ->
            ~ In (Workers.content_hash_of d0)
                 (map RawEvent.i_content_hash (fst st)) ->
            In (RawEvent.mk_init source_id platform d0 (Workers.content_hash_of d0))
               more).
Proof.
  induction data as [|d data IH]; intros st; cbn [fold_left].
  - exists []. rewrite app_nil_r. split; [reflexivity|].
    split; [intros e []|].
    intros pre d0 post Hdata. destruct pre; discriminate Hdata.
  - destruct (IH (Workers.store_step cfg committed source_id platform st d))
      as [more [Hfst [Hfrom Hfirst]]].
    destruct st as [added n]. unfold Workers.store_step at 2 3 in Hfst.
    unfold Workers.store_step in Hfirst.
    cbn [fst] in *.
    destruct (negb (existsb (Workers.has_hash (Workers.content_hash_of d)) committed
                    || autoflush cfg
                       && existsb (Workers.has_hash_init (Workers.content_hash_of d))
                                  added)) eqn:Hnew.
    + (* the record is added *)
      cbn [fst] in Hfst, Hfirst.
      exists (RawEvent.mk_init source_id platform d (Workers.content_hash_of d)
              :: more).
      split.
      { unfold Workers.store_step at 2. rewrite Hnew. rewrite Hfst.
        rewrite <- app_assoc. reflexivity. }
      split.
      { intros e [<- | He].
        - exists d. split; [left; reflexivity | reflexivity].
        - destruct (Hfrom e He) as [d' [Hd' He']]. exists d'.
          split; [right; exact Hd' | exact He']. }
      intros pre d0 post Hdata Hpre Hc Ha.
      destruct pre as [|x pre]; cbn [app] in Hdata; injection Hdata as Hx Hdata.
      * subst d0. left. reflexivity.
      * subst x. right. apply (Hfirst pre d0 post Hdata).
        -- intros y Hy. apply Hpre. right. exact Hy.
        -- exact Hc.
        -- rewrite map_app. intros Hin. apply in_app_or in Hin.
           destruct Hin as [Hin | [E | []]]; [exact (Ha Hin)|].
           cbn [RawEvent.i_content_hash] in E.
           exact (Hpre d (or_introl eq_refl) E).
    + (* the record is dropped *)
      cbn [fst] in Hfst, Hfirst.
      exists more.
      split.
      { unfold Workers.store_step at 2. rewrite Hnew. exact Hfst. }
      split.
      { intros e He. destruct (Hfrom e He) as [d' [Hd' He']]. exists d'.
        split; [right; exact Hd' | exact He']. }
      intros pre d0 post Hdata Hpre Hc Ha.
      destruct pre as [|x pre]; cbn [app] in Hdata; injection Hdata as Hx Hdata.
      * subst d0. exfalso.
        apply Bool.negb_false_iff in Hnew. apply Bool.orb_true_iff in Hnew.
        destruct Hnew as [Hnew | Hnew].
        -- apply no_row_with_hash in Hc. rewrite Hc in Hnew. discriminate Hnew.
        -- apply Bool.andb_true_iff in Hnew. destruct Hnew as [_ Hnew].
           apply no_added_with_hash in Ha. rewrite Ha in Hnew. discriminate Hnew.
      * subst x. apply (Hfirst pre d0 post Hdata).
        -- intros y Hy. apply Hpre. right. exact Hy.
        -- exact Hc.
        -- exact Ha.
Qed.

(** A run of the scraping worker whose extraction returns: the rows
    it appends to the table of raw events, and its job. *)
Lemma scraping_run_rows
    (cfg : SessionConfig) (ext : Workers.Extractors) (t0 t1 : Z) (db : DB)
    (job_id source_id : Z) (job : Job.t) (source : Source.t)
    (extracted_data : list pydict) :
  query_job db job_id = Some job ->
  query_source db source_id = Some source ->
  extracted_for ext source = Ok extracted_data ->
  let db' := final db (Workers.process_scraping_job cfg ext t0 t1 db job_id
                         source_id) in
  exists rows job',
    raw_events db' = (raw_events db ++ rows)%list
    /\ query_job db' job_id = Some job'
    /\ Job.status job' = "completed"
    /\ Job.error_message job' = Job.error_message job
    /\ Job.output_data job'
       = PDict [("events_extracted", PInt (Z.of_nat (List.length extracted_data)));
                ("new_events", PInt (Z.of_nat (List.length rows)));
                ("duplicates_filtered",
                 PInt (Z.of_nat (List.length extracted_data)
                       - Z.of_nat (List.length rows)))]
    /\ (List.length rows <= List.length extracted_data)%nat
    /\ (forall row, In row rows ->
          ~ In (RawEvent.content_hash row)
               (map RawEvent.content_hash (raw_events db))
          /\ exists d, In d extracted_data
                       /\ RawEvent.raw_json row = d
                       /\ RawEvent.content_hash row = Workers.content_hash_of d
                       /\ RawEvent.source_id row = source_id
                       /\ RawEvent.platform row = platform_or_web source)
    /\ (forall pre d0 post,
          extracted_data = (pre ++ d0 :: post)%list ->
          (forall x, In x pre ->
                     Workers.content_hash_of x <> Workers.content_hash_of d0) ->
          ~ In (Workers.content_hash_of d0)
               (map RawEvent.content_hash (raw_events db)) ->
          exists row, In row rows
                      /\ RawEvent.raw_json row = d0
                      /\ RawEvent.content_hash row = Workers.content_hash_of d0)
    /\ (forall d, In d extracted_data ->
          In (Workers.content_hash_of d) (map RawEvent.content_hash (raw_events db')))
    /\ (autoflush cfg = true -> NoDup (map RawEvent.content_hash rows))
    /\ (autoflush cfg = true ->
        NoDup (map RawEvent.content_hash (raw_events db)) ->
        NoDup (map RawEvent.content_hash (raw_events db'))).
Proof.
  intros Hq Hs Hext db'. subst db'.
  rewrite (process_scraping_job_returns cfg ext t0 t1 db job_id source_id job
             source extracted_data Hq Hs Hext).
  cbv zeta. cbn [final last].
  pose proof (find_key Job.id _ _ _ Hq) as Hid.
  set (job1 := Job.set_progress
                 (Job.set_started_at (Job.set_status job "running") t0) 0%Q).
  set (job2 := Job.set_progress job1 (1 # 2)%Q).
  set (out := Workers.store_loop cfg (raw_events db) source_id
                (platform_or_web source) extracted_data).
  set (db3 := Workers.commit_events t1 (update_job (update_job db job1) job2)
                (fst out)).
  assert (Hinv : loop_invariant cfg (raw_events db)
                   (0 + List.length extracted_data) out).
  { subst out. unfold Workers.store_loop. apply store_fold_invariant.
    split; [reflexivity|]. split; [cbn [fst List.length]; lia|].
    split; [intros e [] | intros _; constructor]. }
  destruct Hinv as [Hn [Hlen [Hnew Hnd]]].
  destruct (store_fold_rows cfg (raw_events db) source_id (platform_or_web source)
              extracted_data ([], 0)) as [more [Hmore [Hfrom Hfirst]]].
  cbn [fst app] in Hmore. fold (Workers.store_loop cfg (raw_events db) source_id
                                  (platform_or_web source) extracted_data) in Hmore.
  fold out in Hmore. subst more.
  destruct (raw_events_commit_events t1 (fst out)
              (update_job (update_job db job1) job2)) as [rows [Hrows Hinit]].
  fold db3 in Hrows. cbn [update_job raw_events set_jobs] in Hrows.
  assert (Hlen_rows : List.length rows = List.length (fst out))
    by (rewrite <- Hinit; symmetry; apply length_map).
  assert (H3 : query_job db3 job_id = Some job2).
  { subst db3.
    rewrite (query_job_same_jobs _ _ _ (jobs_commit_events t1 (fst out) _)).
    apply (query_job_update _ job_id job1); [|exact Hid].
    apply (query_job_update db job_id job); [exact Hq | exact Hid]. }
  assert (Hrow_init : forall row, In row rows -> In (init_of_row row) (fst out)).
  { intros row Hin. rewrite <- Hinit. apply in_map. exact Hin. }
  assert (Hhashes : map RawEvent.content_hash rows
                    = map RawEvent.i_content_hash (fst out)).
  { rewrite <- Hinit, map_map. reflexivity. }
  assert (Hstored : forall pre d0 post,
            extracted_data = (pre ++ d0 :: post)%list ->
            (forall x, In x pre ->
                       Workers.content_hash_of x <> Workers.content_hash_of d0) ->
            ~ In (Workers.content_hash_of d0)
                 (map RawEvent.content_hash (raw_events db)) ->
            exists row, In row rows
                        /\ RawEvent.raw_json row = d0
                        /\ RawEvent.content_hash row = Workers.content_hash_of d0).
  { intros pre d0 post Hdata Hpre Hc.
    pose proof (Hfirst pre d0 post Hdata Hpre Hc (fun H => H)) as Hin.
    rewrite <- Hinit in Hin. apply in_map_iff in Hin.
    destruct Hin as [row [Hrow Hin]]. exists row. split; [exact Hin|].
    unfold init_of_row in Hrow. injection Hrow as _ _ Hjson Hhash.
    split; assumption. }
  exists rows. eexists.
  split; [cbn [update_job raw_events set_jobs]; exact Hrows|].
  split; [apply (query_job_update _ job_id job2); [exact H3 | exact Hid]|].
  split; [reflexivity|]. split; [reflexivity|].
  split.
  { cbn [Job.output_data Job.set_output_data]. rewrite Hlen_rows, Hn.
    reflexivity. }
  split; [rewrite Hlen_rows; lia|].
  split.
  { intros row Hin. pose proof (Hrow_init row Hin) as Hin'. split.
    - exact (Hnew _ Hin').
    - destruct (Hfrom _ Hin') as [d [Hd He]]. exists d. split; [exact Hd|].
      unfold init_of_row in He. injection He as Hsrc Hplat Hjson Hhash.
      repeat split; assumption. }
  split; [exact Hstored|].
  split.
  { intros d Hd. cbn [update_job raw_events set_jobs]. rewrite Hrows, map_app.
    apply in_or_app.
    destruct (in_dec opt_str_dec (Workers.content_hash_of d)
                     (map RawEvent.content_hash (raw_events db)))
      as [Hin | Hnot]; [left; exact Hin | right].
    destruct (first_with_hash extracted_data d Hd)
      as [pre [d0 [post [Hdata [Hsame Hpre]]]]].
    rewrite <- Hsame in Hnot.
    destruct (Hstored pre d0 post Hdata Hpre Hnot) as [row [Hin [_ Hhash]]].
    rewrite <- Hsame, <- Hhash. apply in_map. exact Hin. }
  split; [intros Haf; rewrite Hhashes; exact (Hnd Haf)|].
  intros Haf Hnd0. cbn [update_job raw_events set_jobs].
  rewrite Hrows, map_app, Hhashes.
  apply NoDup_app; [exact Hnd0 | exact (Hnd Haf) |].
  intros h Hin0 Hin. apply in_map_iff in Hin. destruct Hin as [e [<- Hin]].
  exact (Hnew e Hin Hin0).
Qed.

Lemma filter_no_hash (h : option string) (rows : list RawEvent.t) :
  ~ In h (map RawEvent.content_hash rows) ->
  filter (Workers.has_hash h) rows = [].
Proof.
  intros Hnot. apply no_row_with_hash in Hnot.
  induction rows as [|r rows IH]; [reflexivity|].
  cbn [existsb] in Hnot. apply Bool.orb_false_iff in Hnot.
  destruct Hnot as [Hr Hrows]. cbn [filter]. rewrite Hr. exact (IH Hrows).
Qed.

Lemma filter_one_hash (h : option string) (rows : list RawEvent.t) :
  NoDup (map RawEvent.content_hash rows) ->
  In h (map RawEvent.content_hash rows) ->
  List.length (filter (Workers.has_hash h) rows) = 1%nat.
Proof.
  induction rows as [|r rows IH]; intros Hnd Hin; [destruct Hin|].
  cbn [map] in Hnd. inversion Hnd as [|? ? Hr Hrows]; subst.
  cbn [filter]. unfold Workers.has_hash at 1.
  destruct (opt_str_eqb (RawEvent.content_hash r) h) eqn:E.
  - apply opt_str_eqb_eq in E. subst h.
    rewrite (filter_no_hash _ rows Hr). reflexivity.
  - destruct Hin as [Hin | Hin]; [|exact (IH Hrows Hin)].
    cbn in Hin. subst h.
    rewrite (proj2 (opt_str_eqb_eq _ _) eq_refl) in E. discriminate E.
Qed.

(** C1, amended. When the runs of the scraping worker follow one
    another, a run never inserts a record whose [content_hash] equals
    that of a row already stored: the rows it appends are made from
    records of its extraction, each with a hash that no stored row
    had, and the first record of every hash that was not stored is
    inserted. A dropped record is counted, not reported as an error:
    the job is completed, [new_events] is the number of rows appended
    and [duplicates_filtered] the rest of the extracted records. Of
    two records with the same hash handled by successive runs, the
    hash is stored after the first run and the second run appends no
    row with it; when the session flushes before each query and the
    hash was not stored, exactly one row has it in the end, and the
    hashes of the table stay distinct. The check is the worker's own
    query before the insert: the table declares no unique
    constraint. *)
Theorem C1_sequential_dedup
    (cfg : SessionConfig) (ext : Workers.Extractors) (t0 t1 : Z) (db : DB)
    (job_id source_id : Z) (job : Job.t) (source : Source.t)
    (extracted_data : list pydict) :
  query_job db job_id = Some job ->
  query_source db source_id = Some source ->
  extracted_for ext source = Ok extracted_data ->
  let db' := final db (Workers.process_scraping_job cfg ext t0 t1 db job_id
                         source_id) in
  (exists rows job',
     raw_events db' = (raw_events db ++ rows)%list
     /\ query_job db' job_id = Some job'
     /\ Job.status job' = "completed"
     /\ Job.error_message job' = Job.error_message job
     /\ Job.output_data job'
        = PDict [("events_extracted",
                  PInt (Z.of_nat (List.length extracted_data)));
                 ("new_events", PInt (Z.of_nat (List.length rows)));
                 ("duplicates_filtered",
                  PInt (Z.of_nat (List.length extracted_data)
                        - Z.of_nat (List.length rows)))]
     /\ (List.length rows <= List.length extracted_data)%nat
     /\ (forall row, In row rows ->
           ~ In (RawEvent.content_hash row)
                (map RawEvent.content_hash (raw_events db))
           /\ exists d, In d extracted_data
                        /\ RawEvent.raw_json row = d
                        /\ RawEvent.content_hash row = Workers.content_hash_of d
                        /\ RawEvent.source_id row = source_id
                        /\ RawEvent.platform row = platform_or_web source)
     /\ (forall pre d0 post,
           extracted_data = (pre ++ d0 :: post)%list ->
           (forall x, In x pre ->
                      Workers.content_hash_of x <> Workers.content_hash_of d0) ->
           ~ In (Workers.content_hash_of d0)
                (map RawEvent.content_hash (raw_events db)) ->
           exists row, In row rows
                       /\ RawEvent.raw_json row = d0
                       /\ RawEvent.content_hash row = Workers.content_hash_of d0)
     /\ (autoflush cfg = true ->
         NoDup (map RawEvent.content_hash (raw_events db)) ->
         NoDup (map RawEvent.content_hash (raw_events db'))))
  /\ (forall cfg2 ext2 t2 t3 job_id2 source_id2 job2 source2 data2,
        query_job db' job_id2 = Some job2 ->
        query_source db' source_id2 = Some source2 ->
        extracted_for ext2 source2 = Ok data2 ->
        let db'' := final db' (Workers.process_scraping_job cfg2 ext2 t2 t3 db'
                                 job_id2 source_id2) in
        forall d1 d2,
          In d1 extracted_data ->
          In d2 data2 ->
          Workers.content_hash_of d1 = Workers.content_hash_of d2 ->
          In (Workers.content_hash_of d1)
             (map RawEvent.content_hash (raw_events db'))
          /\ (exists rows2 job2',
                raw_events db'' = (raw_events db' ++ rows2)%list
                /\ Forall (fun row => RawEvent.content_hash row
                                      <> Workers.content_hash_of d2) rows2
                /\ query_job db'' job_id2 = Some job2'
                /\ Job.status job2' = "completed")
          /\ (autoflush cfg = true ->
              ~ In (Workers.content_hash_of d1)
                   (map RawEvent.content_hash (raw_events db)) ->
              List.length (filter (Workers.has_hash (Workers.content_hash_of d1))
                                  (raw_events db'')) = 1%nat)).
Proof.
  intros Hq Hs Hext db'.
  destruct (scraping_run_rows cfg ext t0 t1 db job_id source_id job source
              extracted_data Hq Hs Hext)
    as [rows [job' [Hrows [Hjob [Hst [Herr [Hout [Hlen [Hfresh [Hfirst
        [Hstored [Hnd_rows Hnd]]]]]]]]]]]].
  fold db' in Hrows, Hjob, Hstored, Hnd.
  split.
  { exists rows, job'. repeat (split; [assumption|]). exact Hnd. }
  intros cfg2 ext2 t2 t3 job_id2 source_id2 job2 source2 data2 Hq2 Hs2 Hext2 db''
         d1 d2 Hd1 Hd2 Hsame.
  destruct (scraping_run_rows cfg2 ext2 t2 t3 db' job_id2 source_id2 job2 source2
              data2 Hq2 Hs2 Hext2)
    as [rows2 [job2' [Hrows2 [Hjob2 [Hst2 [_ [_ [_ [Hfresh2 _]]]]]]]]].
  fold db'' in Hrows2, Hjob2.
  pose proof (Hstored d1 Hd1) as Hin1.
  assert (Hnone2 : forall row, In row rows2 ->
                     RawEvent.content_hash row <> Workers.content_hash_of d1).
  { intros row Hrow E. destruct (Hfresh2 row Hrow) as [Hnot _].
    apply Hnot. rewrite E. exact Hin1. }
  split; [exact Hin1|]. split.
  { exists rows2, job2'. split; [exact Hrows2|]. split.
    - apply Forall_forall. intros row Hrow. rewrite <- Hsame.
      exact (Hnone2 row Hrow).
    - split; assumption. }
  intros Haf Hnot.
  rewrite Hrows2, Hrows, !filter_app, !length_app.
  rewrite (filter_no_hash _ (raw_events db) Hnot).
  rewrite (filter_no_hash _ rows2).
  2:{ intros Hin. apply in_map_iff in Hin. destruct Hin as [row [E Hrow]].
      exact (Hnone2 row Hrow E). }
  rewrite (filter_one_hash _ rows (Hnd_rows Haf)); [reflexivity|].
  rewrite Hrows, map_app in Hin1. apply in_app_or in Hin1.
  destruct Hin1 as [Hin1 | Hin1]; [contradiction | exact Hin1].
Qed.

Lemma C1_sequential_dedup_witness :
  let db := SamplesRuns.db_two_jobs in
  let db' := final db (Workers.process_scraping_job Samples.flushing
                         SamplesRuns.one_page 400 401 db 1 1) in
  let db'' := final db' (Workers.process_scraping_job Samples.flushing
                           SamplesRuns.page_again 500 501 db' 2 1) in
  In (Workers.content_hash_of Examples.page)
     (map RawEvent.content_hash (raw_events db'))
  /\ List.length (filter (Workers.has_hash (Workers.content_hash_of Examples.page))
                         (raw_events db'')) = 1%nat.
Proof.
  intros db db' db''.
  destruct (C1_sequential_dedup Samples.flushing SamplesRuns.one_page 400 401
              SamplesRuns.db_two_jobs 1 1 Samples.scrape_job Examples.web_source
              [Examples.page] eq_refl eq_refl eq_refl) as [_ Hsecond].
  destruct (Hsecond Samples.flushing SamplesRuns.page_again 500 501 2 1
              SamplesRuns.second_job Examples.web_source
              [Examples.page_later; Examples.page] eq_refl eq_refl eq_refl
              Examples.page Examples.page (or_introl eq_refl)
              (or_intror (or_introl eq_refl)) eq_refl)
    as [Hin [_ Hone]].
  split; [exact Hin|].
  apply Hone; [reflexivity|]. intros [].
Defined.

(** X1. When the job and the source exist and the extraction returns,
    [process_scraping_job] ends with the job completed, at progress 1,
    started at [t0] and completed at [t1]; its output says how many
    items were extracted, how many were new and how many were
    duplicates, the two adding up to the number extracted; and the
    table of raw events has grown by exactly the number of new
    events. *)
Theorem X1_scraping_job_counts
    (cfg : SessionConfig) (ext : Workers.Extractors) (t0 t1 : Z) (db : DB)
    (job_id source_id : Z) (job : Job.t) (source : Source.t)
    (extracted_data : list pydict) :
  query_job db job_id = Some job ->
  query_source db source_id = Some source ->
  extracted_for ext source = Ok extracted_data ->
  let db' := final db (Workers.process_scraping_job cfg ext t0 t1 db job_id
                         source_id) in
  exists job' new_events duplicates,
    query_job db' job_id = Some job'
    /\ Job.status job' = "completed"
    /\ Job.progress job' = 1%Q
    /\ Job.started_at job' = Some t0
    /\ Job.completed_at job' = Some t1
    /\ Job.error_message job' = Job.error_message job
    /\ Job.output_data job'
       = PDict [("events_extracted", PInt (Z.of_nat (List.length extracted_data)));
                ("new_events", PInt new_events);
                ("duplicates_filtered", PInt duplicates)]
    /\ 0 <= new_events
    /\ 0 <= duplicates
    /\ new_events + duplicates = Z.of_nat (List.length extracted_data)
    /\ Z.of_nat (List.length (raw_events db'))
       = Z.of_nat (List.length (raw_events db)) + new_events.
Proof.
  intros Hq Hs Hext db'. subst db'.
  rewrite (process_scraping_job_returns cfg ext t0 t1 db job_id source_id job
             source extracted_data Hq Hs Hext).
  cbv zeta. cbn [final last].
  pose proof (find_key Job.id _ _ _ Hq) as Hid.
  set (job1 := Job.set_progress
                 (Job.set_started_at (Job.set_status job "running") t0) 0%Q).
  set (job2 := Job.set_progress job1 (1 # 2)%Q).
  set (out := Workers.store_loop cfg (raw_events db) source_id
                (platform_or_web source) extracted_data).
  set (db3 := Workers.commit_events t1 (update_job (update_job db job1) job2)
                (fst out)).
  assert (Hinv : loop_invariant cfg (raw_events db)
                   (0 + List.length extracted_data) out).
  { subst out. unfold Workers.store_loop. apply store_fold_invariant.
    split; [reflexivity|]. split; [cbn [fst List.length]; lia|].
    split; [intros e [] | intros _; constructor]. }
  destruct Hinv as [Hn [Hlen _]].
  assert (H3 : query_job db3 job_id = Some job2).
  { subst db3.
    rewrite (query_job_same_jobs _ _ _ (jobs_commit_events t1 (fst out) _)).
    apply (query_job_update _ job_id job1); [|exact Hid].
    apply (query_job_update db job_id job); [exact Hq | exact Hid]. }
  eexists. exists (snd out).
  exists (Z.of_nat (List.length extracted_data) - snd out).
  split; [apply (query_job_update _ job_id job2); [exact H3 | exact Hid]|].
  repeat (split; [reflexivity|]).
  split; [lia|]. split; [lia|]. split; [lia|].
  cbn [update_job raw_events set_jobs]. subst db3.
  rewrite length_commit_events. cbn [update_job raw_events set_jobs].
  rewrite Nat2Z.inj_add, Hn. reflexivity.
Qed.

Lemma X1_scraping_job_counts_witness :
  exists job' new_events duplicates,
    query_job
      (final Samples.db_scrape
         (Workers.process_scraping_job Samples.flushing Samples.three_pages
            400 401 Samples.db_scrape 1 1)) 1 = Some job'
    /\ Job.output_data job'
       = PDict [("events_extracted", PInt 3);
                ("new_events", PInt new_events);
                ("duplicates_filtered", PInt duplicates)]
    /\ new_events + duplicates = 3.
Proof.
  destruct (X1_scraping_job_counts Samples.flushing Samples.three_pages 400 401
              Samples.db_scrape 1 1 Samples.scrape_job Examples.web_source
              [Examples.page; Examples.page_later; Examples.page]
              eq_refl eq_refl eq_refl)
    as [job' [n [d [Hq [_ [_ [_ [_ [_ [Hout [_ [_ [Hsum _]]]]]]]]]]]]].
  exists job', n, d. split; [exact Hq|]. split; [exact Hout | exact Hsum].
Defined.

(** The states that [process_scraping_job] commits when the source is
    missing or the extraction raises. *)
Lemma process_scraping_job_raises
    (cfg : SessionConfig) (ext : Workers.Extractors) (t0 t1 : Z) (db : DB)
    (job_id source_id : Z) (job : Job.t) (msg : string) :
  query_job db job_id = Some job ->
  (query_source db source_id = None
   /\ msg = "Source " ++ str_of_Z source_id ++ " not found")
  \/ (exists source, query_source db source_id = Some source
                     /\ extracted_for ext source = Err msg) ->
  let job1 := Job.set_progress
                (Job.set_started_at (Job.set_status job "running") t0) 0%Q in
  Workers.process_scraping_job cfg ext t0 t1 db job_id source_id
  = [update_job db job1; Workers.fail_job t1 (update_job db job1) job1 msg].
Proof.
  intros Hq Hwhy job1.
  unfold Workers.process_scraping_job. rewrite Hq. fold job1.
  change (query_source (update_job db job1) source_id)
    with (query_source db source_id).
  destruct Hwhy as [[Hs ->] | [source [Hs Hext]]]; rewrite Hs; [reflexivity|].
  unfold extracted_for in Hext. rewrite Hext. reflexivity.
Qed.

(** X2. When the source of a scraping job is missing, or the
    extraction raises, [process_scraping_job] ends with the job
    failed, its error message being the text of the exception
    ("Source N not found" for a missing source), [completed_at] set,
    progress 0 and the output it had; no raw event is stored. *)
Theorem X2_scraping_job_failure
    (cfg : SessionConfig) (ext : Workers.Extractors) (t0 t1 : Z) (db : DB)
    (job_id source_id : Z) (job : Job.t) (msg : string) :
  query_job db job_id = Some job ->
  (query_source db source_id = None
   /\ msg = "Source " ++ str_of_Z source_id ++ " not found")
  \/ (exists source, query_source db source_id = Some source
                     /\ extracted_for ext source = Err msg) ->
  let trace := Workers.process_scraping_job cfg ext t0 t1 db job_id source_id in
  Forall (fun d => raw_events d = raw_events db) trace
  /\ exists job',
       query_job (final db trace) job_id = Some job'
       /\ Job.status job' = "failed"
       /\ Job.error_message job' = Some msg
       /\ Job.completed_at job' = Some t1
       /\ Job.started_at job' = Some t0
       /\ Job.progress job' = 0%Q
       /\ Job.output_data job' = Job.output_data job.
Proof.
  intros Hq Hwhy trace. subst trace.
  rewrite (process_scraping_job_raises cfg ext t0 t1 db job_id source_id job msg
             Hq Hwhy).
  cbv zeta. pose proof (find_key Job.id _ _ _ Hq) as Hid.
  split; [repeat constructor|].
  eexists. split.
  { cbn [final last]. unfold Workers.fail_job.
    apply (query_job_update _ job_id
             (Job.set_progress
                (Job.set_started_at (Job.set_status job "running") t0) 0%Q)).
    - apply (query_job_update db job_id job); [exact Hq | exact Hid].
    - exact Hid. }
  repeat split; reflexivity.
Qed.

Lemma X2_scraping_job_failure_witness :
  exists job',
    query_job
      (final Samples.db_scrape
         (Workers.process_scraping_job Samples.flushing Samples.unreachable
            400 401 Samples.db_scrape 1 1)) 1 = Some job'
    /\ Job.status job' = "failed"
    /\ Job.error_message job' = Some "connection refused".
Proof.
  destruct (X2_scraping_job_failure Samples.flushing Samples.unreachable 400 401
              Samples.db_scrape 1 1 Samples.scrape_job "connection refused"
              eq_refl
              (or_intror (ex_intro _ Examples.web_source (conj eq_refl eq_refl))))
    as [_ [job' [Hq [Hst [Hmsg _]]]]].
  exists job'. split; [exact Hq|]. split; [exact Hst | exact Hmsg].
Defined.

(** X3. A source whose type is neither web nor social is not
    extracted at all: whatever the extraction helpers would do, the
    job completes with nothing extracted, nothing new and no
    duplicate, and no raw event is stored. *)
Theorem X3_unknown_source_type_completes_empty
    (cfg : SessionConfig) (ext : Workers.Extractors) (t0 t1 : Z) (db : DB)
    (job_id source_id : Z) (job : Job.t) (source : Source.t) :
  query_job db job_id = Some job ->
  query_source db source_id = Some source ->
  Source.type source <> "web" ->
  Source.type source <> "social" ->
  let trace := Workers.process_scraping_job cfg ext t0 t1 db job_id source_id in
  (forall ext',
     Workers.process_scraping_job cfg ext' t0 t1 db job_id source_id = trace)
  /\ Forall (fun d => raw_events d = raw_events db) trace
  /\ exists job',
       query_job (final db trace) job_id = Some job'
       /\ Job.status job' = "completed"
       /\ Job.output_data job'
          = PDict [("events_extracted", PInt 0); ("new_events", PInt 0);
                   ("duplicates_filtered", PInt 0)].
Proof.
  intros Hq Hs Hweb Hsocial trace.
  assert (Hext : forall e, extracted_for e source = Ok []).
  { intros e. unfold extracted_for.
    destruct (String.eqb_spec (Source.type source) "web"); [contradiction|].
    destruct (String.eqb_spec (Source.type source) "social"); [contradiction|].
    reflexivity. }
  assert (Htrace : forall e,
            Workers.process_scraping_job cfg e t0 t1 db job_id source_id
            = let job1 := Job.set_progress
                            (Job.set_started_at (Job.set_status job "running") t0)
                            0%Q in
              let job2 := Job.set_progress job1 (1 # 2)%Q in
              let db2 := update_job (update_job db job1) job2 in
              [update_job db job1; db2; db2;
               update_job db2
                 (Job.set_output_data
                    (Job.set_completed_at
                       (Job.set_status (Job.set_progress job2 1%Q) "completed") t1)
                    (PDict [("events_extracted", PInt 0); ("new_events", PInt 0);
                            ("duplicates_filtered", PInt 0)]))]).
  { intros e.
    rewrite (process_scraping_job_returns cfg e t0 t1 db job_id source_id job
               source [] Hq Hs (Hext e)).
    reflexivity. }
  subst trace. split; [intros ext'; rewrite (Htrace ext'), (Htrace ext); reflexivity|].
  rewrite (Htrace ext). cbv zeta.
  pose proof (find_key Job.id _ _ _ Hq) as Hid.
  split; [repeat constructor|].
  eexists. split.
  { cbn [final last].
    apply (query_job_update _ job_id
             (Job.set_progress
                (Job.set_progress
                   (Job.set_started_at (Job.set_status job "running") t0) 0%Q)
                (1 # 2)%Q)); [|exact Hid].
    apply (query_job_update _ job_id
             (Job.set_progress
                (Job.set_started_at (Job.set_status job "running") t0) 0%Q));
      [|exact Hid].
    apply (query_job_update db job_id job); [exact Hq | exact Hid]. }
  split; reflexivity.
Qed.

Lemma X3_unknown_source_type_completes_empty_witness :
  exists job',
    query_job
      (final SamplesCustom.db_custom
         (Workers.process_scraping_job Samples.flushing Samples.unreachable
            400 401 SamplesCustom.db_custom 1 1)) 1 = Some job'
    /\ Job.status job' = "completed".
Proof.
  destruct (X3_unknown_source_type_completes_empty Samples.flushing
              Samples.unreachable 400 401 SamplesCustom.db_custom 1 1
              Samples.scrape_job SamplesCustom.custom_source eq_refl eq_refl
              ltac:(discriminate) ltac:(discriminate))
    as [_ [_ [job' [Hq [Hst _]]]]].
  exists job'. split; [exact Hq | exact Hst].
Defined.

(* ------------------------------------------------------------------ *)
(** ** What a worker leaves alone *)

Lemma same_but_job_refl (job_id : Z) (db : DB) : same_but_job job_id db db.
Proof. repeat split. Qed.

Lemma map_job_id_update (l : list Job.t) (j : Job.t) :
  map Job.id (map (fun x => if Job.id x =? Job.id j then j else x) l)
  = map Job.id l.
Proof.
  induction l as [|y l IH]; cbn [map]; [reflexivity|].
  rewrite IH. destruct (Job.id y =? Job.id j) eqn:E; [|reflexivity].
  apply Z.eqb_eq in E. rewrite E. reflexivity.
Qed.

Lemma same_but_job_update (job_id : Z) (db d : DB) (j : Job.t) :
  Job.id j = job_id ->
  same_but_job job_id db d ->
  same_but_job job_id db (update_job d j).
Proof.
  intros Hid [Hids [Hother [Hsrc [Hsig Hq]]]].
  unfold same_but_job, update_job. cbn [jobs sources oracle_signals oracle_queue
                                        set_jobs].
  split; [rewrite map_job_id_update; exact Hids|].
  split; [|repeat split; assumption].
  intros k Hk. rewrite <- (Hother k Hk). unfold query_job. cbn [jobs].
  apply find_update_other. rewrite Hid. intros E. apply Hk. symmetry. exact E.
Qed.

Lemma same_but_job_tables (job_id : Z) (db d d' : DB) :
  jobs d' = jobs d -> sources d' = sources d ->
  oracle_signals d' = oracle_signals d -> oracle_queue d' = oracle_queue d ->
  same_but_job job_id db d -> same_but_job job_id db d'.
Proof.
  intros Hj Hs Ho Hq [Hids [Hother [Hsrc [Hsig Hqu]]]].
  unfold same_but_job, query_job in *. rewrite Hj, Hs, Ho, Hq.
  repeat split; assumption.
Qed.

Lemma commit_events_keeps (now : Z) (added : list RawEvent.init) :
  forall d,
    jobs (Workers.commit_events now d added) = jobs d
    /\ sources (Workers.commit_events now d added) = sources d
    /\ oracle_signals (Workers.commit_events now d added) = oracle_signals d
    /\ oracle_queue (Workers.commit_events now d added) = oracle_queue d
    /\ datasets (Workers.commit_events now d added) = datasets d
    /\ analysis_results (Workers.commit_events now d added) = analysis_results d.
Proof.
  unfold Workers.commit_events.
  induction added as [|e added IH]; intros d; cbn [fold_left].
  - repeat split.
  - destruct (IH (add_raw_event now d e)) as [H1 [H2 [H3 [H4 [H5 H6]]]]].
    rewrite H1, H2, H3, H4, H5, H6. repeat split.
Qed.

Lemma add_analysis_results_keeps (now : Z) (results : list AnalysisResult.fields) :
  forall d,
    jobs (fold_left (add_analysis_result now) results d) = jobs d
    /\ sources (fold_left (add_analysis_result now) results d) = sources d
    /\ oracle_signals (fold_left (add_analysis_result now) results d)
       = oracle_signals d
    /\ oracle_queue (fold_left (add_analysis_result now) results d) = oracle_queue d
    /\ datasets (fold_left (add_analysis_result now) results d) = datasets d
    /\ raw_events (fold_left (add_analysis_result now) results d) = raw_events d.
Proof.
  induction results as [|r results IH]; intros d; cbn [fold_left].
  - repeat split.
  - destruct (IH (add_analysis_result now d r)) as [H1 [H2 [H3 [H4 [H5 H6]]]]].
    rewrite H1, H2, H3, H4, H5, H6. repeat split.
Qed.

Lemma same_but_job_commit (job_id : Z) (db d : DB) (now : Z)
    (added : list RawEvent.init) :
  same_but_job job_id db d ->
  same_but_job job_id db (Workers.commit_events now d added).
Proof.
  destruct (commit_events_keeps now added d) as [H1 [H2 [H3 [H4 _]]]].
  apply same_but_job_tables; assumption.
Qed.

Lemma same_but_job_results (job_id : Z) (db d : DB) (now : Z)
    (results : list AnalysisResult.fields) (x : Dataset.t) :
  same_but_job job_id db d ->
  same_but_job job_id db
    (update_dataset (fold_left (add_analysis_result now) results d) x).
Proof.
  destruct (add_analysis_results_keeps now results d) as [H1 [H2 [H3 [H4 _]]]].
  apply same_but_job_tables; unfold update_dataset;
    cbn [jobs sources oracle_signals oracle_queue set_datasets]; assumption.
Qed.

Ltac trace_same Hstep Hid :=
  repeat (apply Forall_cons;
          [ repeat first [ apply Hstep; [exact Hid|]
                         | apply same_but_job_commit
                         | apply same_but_job_results ];
            apply same_but_job_refl
          | ]);
  apply Forall_nil.

(** The states that a worker commits differ from the state it found
    in the row of its job only. *)
Lemma worker_run_same_but_job
    (db : DB) (job_id : Z) (trace : list DB) :
  worker_run db job_id trace ->
  Forall (same_but_job job_id db) trace.
Proof.
  intros Hrun.
  destruct (query_job db job_id) as [job|] eqn:Hq.
  2:{ destruct Hrun;
        [unfold Workers.process_scraping_job
        | unfold Workers.process_analysis_job
        | unfold Workers.process_oracle_job];
        rewrite Hq; constructor. }
  pose proof (find_key Job.id _ _ _ Hq) as Hid.
  assert (Hstep : forall d j, Job.id j = job_id -> same_but_job job_id db d ->
                              same_but_job job_id db (update_job d j))
    by (intros d j E H; apply same_but_job_update; assumption).
  destruct Hrun as [cfg ext t0 t1 source_id
                   | analyze t0 t1 dataset_id categories
                   | settings t0 t1 analysis_result_id].
  - unfold Workers.process_scraping_job. rewrite Hq.
    destruct (query_source _ source_id) as [source|].
    2:{ unfold Workers.fail_job.
        trace_same Hstep Hid. }
    match goal with
    | |- context [bind ?r _] => destruct r as [extracted_data | msg]
    end; cbn [bind].
    2:{ unfold Workers.fail_job.
        trace_same Hstep Hid. }
    match goal with
    | |- context [Workers.store_loop ?c ?r ?s ?pl ?d] =>
        destruct (Workers.store_loop c r s pl d) as [added new_events]
    end.
    trace_same Hstep Hid.
  - unfold Workers.process_analysis_job. rewrite Hq.
    destruct (query_dataset _ dataset_id) as [dataset|].
    2:{ cbn [app final last]. unfold Workers.fail_job.
        trace_same Hstep Hid. }
    destruct (filter _ _) as [|ev raw].
    { cbn [app final last]. unfold Workers.fail_job.
      trace_same Hstep Hid. }
    destruct (analyze dataset_id (ev :: raw) categories) as [results | e].
    2:{ cbn [app final last]. unfold Workers.fail_job.
        trace_same Hstep Hid. }
    trace_same Hstep Hid.
  - unfold Workers.process_oracle_job. rewrite Hq.
    destruct (query_analysis _ analysis_result_id); unfold Workers.fail_job;
      trace_same Hstep Hid.
Qed.

(** X4. A worker function writes to no job but its own and to no
    signal: in every state that a run of any of the three workers
    commits, the job ids are those of before (no job is created or
    deleted), the rows of the other jobs are as before, and so are the
    sources, the oracle signals and the oracle queue. *)
Theorem X4_worker_touches_only_its_job
    (db : DB) (job_id : Z) (trace : list DB) :
  worker_run db job_id trace ->
  Forall (same_but_job job_id db) trace.
Proof. exact (worker_run_same_but_job db job_id trace). Qed.

Lemma X4_worker_touches_only_its_job_witness :
  Forall (same_but_job 1 (Examples.db_signal "pending" "pending"))
         (Workers.process_oracle_job Examples.settings_on 400 401
            (Examples.db_signal "pending" "pending") 1 1).
Proof.
  apply X4_worker_touches_only_its_job.
  apply (run_oracle _ _ Examples.settings_on 400 401 1).
Defined.

(* ------------------------------------------------------------------ *)
(** ** Runs of the analysis worker *)

(** The events of a dataset, as the worker selects them. *)
Lemma process_analysis_job_returns
    (analyze : Workers.Analyzer) (t0 t1 : Z) (db : DB) (job_id dataset_id : Z)
    (categories : option (list string)) (job : Job.t) (dataset : Dataset.t)
    (results : list AnalysisResult.fields) :
  query_job db job_id = Some job ->
  query_dataset db dataset_id = Some dataset ->
  let raw := filter (Workers.in_sources (Dataset.source_ids dataset))
                    (raw_events db) in
  raw <> [] ->
  analyze dataset_id raw categories = Ok results ->
  let job1 := Job.set_progress
                (Job.set_started_at (Job.set_status job "running") t0) 0%Q in
  let job2 := Job.set_progress job1 (1 # 5)%Q in
  let job3 := Job.set_progress job2 (4 # 5)%Q in
  let db3 := update_job (update_job (update_job db job1) job2) job3 in
  let db4 := update_dataset (fold_left (add_analysis_result t1) results db3)
               (Dataset.refreshed dataset t1 (Z.of_nat (List.length raw))) in
  let job5 :=
    Job.set_output_data
      (Job.set_completed_at
         (Job.set_status (Job.set_progress job3 1%Q) "completed") t1)
      (PDict [("analyses_created", PInt (Z.of_nat (List.length results)));
              ("categories",
               PList (map (fun r => PStr (AnalysisResult.f_category r)) results))]) in
  Workers.process_analysis_job analyze t0 t1 db job_id dataset_id categories
  = [update_job db job1; update_job (update_job db job1) job2; db3; db4;
     update_job db4 job5].
Proof.
  intros Hq Hd raw Hne Han job1 job2 job3 db3 db4 job5.
  unfold Workers.process_analysis_job. rewrite Hq. fold job1.
  change (query_dataset (update_job db job1) dataset_id)
    with (query_dataset db dataset_id).
  rewrite Hd.
  change (raw_events (update_job db job1)) with (raw_events db). fold raw.
  destruct raw as [|ev rest] eqn:Hraw; [contradiction|].
  rewrite Han. reflexivity.
Qed.

(** The three ways in which [process_analysis_job] fails: no dataset,
    no data, or an exception of the analysis service, which is raised
    after progress 0.2 was committed. *)
Lemma process_analysis_job_raises
    (analyze : Workers.Analyzer) (t0 t1 : Z) (db : DB) (job_id dataset_id : Z)
    (categories : option (list string)) (job : Job.t) :
  query_job db job_id = Some job ->
  let job1 := Job.set_progress
                (Job.set_started_at (Job.set_status job "running") t0) 0%Q in
  let job2 := Job.set_progress job1 (1 # 5)%Q in
  let db1 := update_job db job1 in
  (query_dataset db dataset_id = None ->
   Workers.process_analysis_job analyze t0 t1 db job_id dataset_id categories
   = [db1; Workers.fail_job t1 db1 job1
             ("Dataset " ++ str_of_Z dataset_id ++ " not found")])
  /\ (forall dataset,
        query_dataset db dataset_id = Some dataset ->
        filter (Workers.in_sources (Dataset.source_ids dataset)) (raw_events db)
        = [] ->
        Workers.process_analysis_job analyze t0 t1 db job_id dataset_id categories
        = [db1; Workers.fail_job t1 db1 job1
                  ("No data found for dataset " ++ str_of_Z dataset_id)])
  /\ (forall dataset e,
        query_dataset db dataset_id = Some dataset ->
        filter (Workers.in_sources (Dataset.source_ids dataset)) (raw_events db)
        <> [] ->
        analyze dataset_id
          (filter (Workers.in_sources (Dataset.source_ids dataset)) (raw_events db))
          categories = Err e ->
        Workers.process_analysis_job analyze t0 t1 db job_id dataset_id categories
        = [db1; update_job db1 job2;
           Workers.fail_job t1 (update_job db1 job2) job2 e]).
Proof.
  intros Hq job1 job2 db1.
  unfold Workers.process_analysis_job. rewrite Hq. fold job1. fold db1.
  change (query_dataset db1 dataset_id) with (query_dataset db dataset_id).
  change (raw_events db1) with (raw_events db).
  split; [|split].
  - intros Hd. rewrite Hd. reflexivity.
  - intros dataset Hd Hraw. rewrite Hd, Hraw. reflexivity.
  - intros dataset e Hd Hne Han. rewrite Hd.
    destruct (filter (Workers.in_sources (Dataset.source_ids dataset))
                     (raw_events db)) as [|ev rest] eqn:Hraw; [contradiction|].
    rewrite Han. reflexivity.
Qed.

Lemma analysis_results_added (now : Z) (results : list AnalysisResult.fields) :
  forall d,
    exists rows,
      analysis_results (fold_left (add_analysis_result now) results d)
      = (analysis_results d ++ rows)%list
      /\ map (fun a => (AnalysisResult.dataset_id a, AnalysisResult.category a,
                        AnalysisResult.metrics a, AnalysisResult.quality_score a,
                        AnalysisResult.severity a)) rows
         = map (fun f => (AnalysisResult.f_dataset_id f, AnalysisResult.f_category f,
                          AnalysisResult.f_metrics f,
                          AnalysisResult.f_quality_score f,
                          AnalysisResult.f_severity f)) results
      /\ NoDup (map AnalysisResult.id rows)
      /\ (forall a, In a rows ->
          ~ In (AnalysisResult.id a) (map AnalysisResult.id (analysis_results d))).
Proof.
  induction results as [|r results IH]; intros d; cbn [fold_left].
  - exists []. rewrite app_nil_r. repeat split; [constructor | intros a []].
  - destruct (IH (add_analysis_result now d r)) as [rows [Hrows [Hmap [Hnd Hfresh]]]].
    assert (Hfirst : exists row,
              analysis_results (add_analysis_result now d r)
              = (analysis_results d ++ [row])%list
              /\ AnalysisResult.id row
                 = next_id (map AnalysisResult.id (analysis_results d))
              /\ (AnalysisResult.dataset_id row, AnalysisResult.category row,
                  AnalysisResult.metrics row, AnalysisResult.quality_score row,
                  AnalysisResult.severity row)
                 = (AnalysisResult.f_dataset_id r, AnalysisResult.f_category r,
                    AnalysisResult.f_metrics r, AnalysisResult.f_quality_score r,
                    AnalysisResult.f_severity r)).
    { eexists. split; [reflexivity|]. split; reflexivity. }
    destruct Hfirst as [row [Hfirst [Hrowid Hrow]]].
    rewrite Hfirst in Hrows, Hfresh.
    rewrite <- app_assoc in Hrows. cbn [app] in Hrows.
    exists (row :: rows). split; [exact Hrows|].
    split; [cbn [map]; rewrite Hmap, Hrow; reflexivity|].
    split.
    + cbn [map]. constructor; [|exact Hnd].
      intros Hin. apply in_map_iff in Hin. destruct Hin as [a [Ha Hin]].
      apply (Hfresh a Hin). rewrite Ha, map_app. apply in_or_app. right.
      left. reflexivity.
    + intros a [<- | Hin].
      * rewrite Hrowid. apply next_id_fresh.
      * intros Hold. apply (Hfresh a Hin). rewrite map_app.
        apply in_or_app. left. exact Hold.
Qed.

Lemma query_dataset_update (db : DB) (dataset_id : Z) (old new : Dataset.t) :
  query_dataset db dataset_id = Some old ->
  Dataset.id new = dataset_id ->
  query_dataset (update_dataset db new) dataset_id = Some new.
Proof. intros H E. exact (find_update Dataset.id (datasets db) dataset_id old new H E). Qed.

(** X5. When the job and the dataset exist, the dataset has raw
    events and the analysis service returns, [process_analysis_job]
    ends with the job completed at progress 1 and [analyses_created]
    the number of results; the table of analysis results has grown by
    one row per result, in order, under fresh distinct ids, each with
    the dataset, category, metrics, quality score and severity of its
    result; the dataset's [row_count] is the number of raw events of
    its sources and [last_refreshed_at] is set; the raw events are as
    before. *)
Theorem X5_analysis_job_stores_results
    (analyze : Workers.Analyzer) (t0 t1 : Z) (db : DB) (job_id dataset_id : Z)
    (categories : option (list string)) (job : Job.t) (dataset : Dataset.t)
    (results : list AnalysisResult.fields) :
  query_job db job_id = Some job ->
  query_dataset db dataset_id = Some dataset ->
  let raw := filter (Workers.in_sources (Dataset.source_ids dataset))
                    (raw_events db) in
  raw <> [] ->
  analyze dataset_id raw categories = Ok results ->
  let db' := final db (Workers.process_analysis_job analyze t0 t1 db job_id
                         dataset_id categories) in
  (exists job',
     query_job db' job_id = Some job'
     /\ Job.status job' = "completed"
     /\ Job.progress job' = 1%Q
     /\ Job.completed_at job' = Some t1
     /\ Job.output_data job'
        = PDict [("analyses_created", PInt (Z.of_nat (List.length results)));
                 ("categories",
                  PList (map (fun r => PStr (AnalysisResult.f_category r)) results))])
  /\ (exists rows,
        analysis_results db' = (analysis_results db ++ rows)%list
        /\ map (fun a => (AnalysisResult.dataset_id a, AnalysisResult.category a,
                          AnalysisResult.metrics a, AnalysisResult.quality_score a,
                          AnalysisResult.severity a)) rows
           = map (fun f => (AnalysisResult.f_dataset_id f,
                            AnalysisResult.f_category f,
                            AnalysisResult.f_metrics f,
                            AnalysisResult.f_quality_score f,
                            AnalysisResult.f_severity f)) results
        /\ NoDup (map AnalysisResult.id rows)
        /\ (forall a, In a rows ->
            ~ In (AnalysisResult.id a)
                 (map AnalysisResult.id (analysis_results db))))
  /\ (exists dataset',
        query_dataset db' dataset_id = Some dataset'
        /\ Dataset.row_count dataset' = Z.of_nat (List.length raw)
        /\ Dataset.last_refreshed_at dataset' = Some t1
        /\ Dataset.source_ids dataset' = Dataset.source_ids dataset)
  /\ raw_events db' = raw_events db.
Proof.
  intros Hq Hd raw Hne Han db'. subst db'.
  rewrite (process_analysis_job_returns analyze t0 t1 db job_id dataset_id
             categories job dataset results Hq Hd Hne Han).
  cbv zeta. cbn [final last]. fold raw.
  pose proof (find_key Job.id _ _ _ Hq) as Hid.
  pose proof (find_key Dataset.id _ _ _ Hd) as Hdid.
  set (job1 := Job.set_progress
                 (Job.set_started_at (Job.set_status job "running") t0) 0%Q).
  set (job2 := Job.set_progress job1 (1 # 5)%Q).
  set (job3 := Job.set_progress job2 (4 # 5)%Q).
  set (db3 := update_job (update_job (update_job db job1) job2) job3).
  assert (H3 : query_job db3 job_id = Some job3).
  { apply (query_job_update _ job_id job2); [|exact Hid].
    apply (query_job_update _ job_id job1); [|exact Hid].
    apply (query_job_update db job_id job); [exact Hq | exact Hid]. }
  destruct (add_analysis_results_keeps t1 results db3) as [Kj [_ [_ [_ [Kd Kr]]]]].
  destruct (analysis_results_added t1 results db3) as [rows [Hrows Hprops]].
  set (db4 := update_dataset (fold_left (add_analysis_result t1) results db3)
                (Dataset.refreshed dataset t1 (Z.of_nat (List.length raw)))).
  assert (H4 : query_job db4 job_id = Some job3).
  { rewrite (query_job_same_jobs db3 db4); [exact H3|]. exact Kj. }
  split; [|split; [|split]].
  - eexists. split; [apply (query_job_update _ job_id job3); [exact H4 | exact Hid]|].
    repeat split; reflexivity.
  - exists rows. split; [|exact Hprops].
    cbn [update_job analysis_results set_jobs]. subst db4.
    unfold update_dataset. cbn [analysis_results set_datasets]. exact Hrows.
  - eexists. split.
    { cbn [update_job]. unfold query_dataset. cbn [datasets set_jobs].
      apply (query_dataset_update _ dataset_id dataset); [|exact Hdid].
      unfold query_dataset. rewrite Kd. exact Hd. }
    repeat split; reflexivity.
  - cbn [update_job raw_events set_jobs]. subst db4. unfold update_dataset.
    cbn [raw_events set_datasets]. exact Kr.
Qed.

Lemma X5_analysis_job_stores_results_witness :
  exists dataset',
    query_dataset
      (final SamplesAnalysis.db_dataset
         (Workers.process_analysis_job SamplesAnalysis.two_results 400 401
            SamplesAnalysis.db_dataset 1 1 None)) 1 = Some dataset'
    /\ Dataset.row_count dataset' = 2.
Proof.
  destruct (X5_analysis_job_stores_results SamplesAnalysis.two_results 400 401
              SamplesAnalysis.db_dataset 1 1 None SamplesAnalysis.analyze_job
              SamplesAnalysis.dataset
              [SamplesAnalysis.result "profiling" "critical";
               SamplesAnalysis.result "sentiment" "low"]
              eq_refl eq_refl)
    as [_ [_ [[dataset' [Hq [Hn _]]] _]]].
  - vm_compute. discriminate.
  - reflexivity.
  - exists dataset'. split; [exact Hq | exact Hn].
Defined.

(** X6. When the dataset of an analysis job is missing, or none of
    the raw events belongs to its sources, [process_analysis_job]
    fails the job with "Dataset N not found", respectively "No data
    found for dataset N", at progress 0, without calling the analysis
    service (the run is the same whatever the service is), and stores
    no analysis result. *)
Theorem X6_analysis_job_without_data
    (analyze : Workers.Analyzer) (t0 t1 : Z) (db : DB) (job_id dataset_id : Z)
    (categories : option (list string)) (job : Job.t) (msg : string) :
  query_job db job_id = Some job ->
  (query_dataset db dataset_id = None
   /\ msg = "Dataset " ++ str_of_Z dataset_id ++ " not found")
  \/ (exists dataset,
        query_dataset db dataset_id = Some dataset
        /\ filter (Workers.in_sources (Dataset.source_ids dataset)) (raw_events db)
           = []
        /\ msg = "No data found for dataset " ++ str_of_Z dataset_id) ->
  let trace := Workers.process_analysis_job analyze t0 t1 db job_id dataset_id
                 categories in
  (forall analyze',
     Workers.process_analysis_job analyze' t0 t1 db job_id dataset_id categories
     = trace)
  /\ Forall (fun d => analysis_results d = analysis_results db
                      /\ datasets d = datasets db) trace
  /\ exists job',
       query_job (final db trace) job_id = Some job'
       /\ Job.status job' = "failed"
       /\ Job.error_message job' = Some msg
       /\ Job.progress job' = 0%Q
       /\ Job.completed_at job' = Some t1.
Proof.
  intros Hq Hwhy trace.
  assert (Htrace : forall a,
            Workers.process_analysis_job a t0 t1 db job_id dataset_id categories
            = [update_job db
                 (Job.set_progress
                    (Job.set_started_at (Job.set_status job "running") t0) 0%Q);
               Workers.fail_job t1
                 (update_job db
                    (Job.set_progress
                       (Job.set_started_at (Job.set_status job "running") t0) 0%Q))
                 (Job.set_progress
                    (Job.set_started_at (Job.set_status job "running") t0) 0%Q)
                 msg]).
  { intros a.
    destruct (process_analysis_job_raises a t0 t1 db job_id dataset_id categories
                job Hq) as [Hnone [Hempty _]].
    destruct Hwhy as [[Hd ->] | [dataset [Hd [Hraw ->]]]].
    - exact (Hnone Hd).
    - exact (Hempty dataset Hd Hraw). }
  subst trace. split; [intros a; rewrite (Htrace a), (Htrace analyze); reflexivity|].
  rewrite (Htrace analyze). pose proof (find_key Job.id _ _ _ Hq) as Hid.
  split; [repeat (apply Forall_cons; [split; reflexivity|]); apply Forall_nil|].
  eexists. split.
  { cbn [final last]. unfold Workers.fail_job.
    eapply query_job_update; [|exact Hid].
    apply (query_job_update db job_id job); [exact Hq | exact Hid]. }
  repeat split; reflexivity.
Qed.

Lemma X6_analysis_job_without_data_witness :
  exists job',
    query_job
      (final SamplesAnalysis.db_no_data
         (Workers.process_analysis_job SamplesAnalysis.two_results 400 401
            SamplesAnalysis.db_no_data 1 1 None)) 1 = Some job'
    /\ Job.status job' = "failed"
    /\ Job.error_message job' = Some ("No data found for dataset " ++ str_of_Z 1).
Proof.
  destruct (X6_analysis_job_without_data SamplesAnalysis.two_results 400 401
              SamplesAnalysis.db_no_data 1 1 None SamplesAnalysis.analyze_job
              ("No data found for dataset " ++ str_of_Z 1) eq_refl
              (or_intror (ex_intro _ SamplesAnalysis.dataset
                            (conj eq_refl (conj eq_refl eq_refl)))))
    as [_ [_ [job' [Hq [Hst [Hmsg _]]]]]].
  exists job'. split; [exact Hq|]. split; [exact Hst | exact Hmsg].
Defined.

(** X7. When the analysis service raises, the job fails with the text
    of its exception and stays at progress 0.2, the value committed
    before the call; no analysis result is stored and the dataset is
    not refreshed. *)
Theorem X7_analysis_service_exception
    (analyze : Workers.Analyzer) (t0 t1 : Z) (db : DB) (job_id dataset_id : Z)
    (categories : option (list string)) (job : Job.t) (dataset : Dataset.t)
    (e : string) :
  query_job db job_id = Some job ->
  query_dataset db dataset_id = Some dataset ->
  filter (Workers.in_sources (Dataset.source_ids dataset)) (raw_events db) <> [] ->
  analyze dataset_id
    (filter (Workers.in_sources (Dataset.source_ids dataset)) (raw_events db))
    categories = Err e ->
  let trace := Workers.process_analysis_job analyze t0 t1 db job_id dataset_id
                 categories in
  Forall (fun d => analysis_results d = analysis_results db
                   /\ datasets d = datasets db) trace
  /\ exists job',
       query_job (final db trace) job_id = Some job'
       /\ Job.status job' = "failed"
       /\ Job.error_message job' = Some e
       /\ Job.progress job' = (1 # 5)%Q
       /\ Job.completed_at job' = Some t1.
Proof.
  intros Hq Hd Hne Han trace. subst trace.
  destruct (process_analysis_job_raises analyze t0 t1 db job_id dataset_id
              categories job Hq) as [_ [_ Hraised]].
  rewrite (Hraised dataset e Hd Hne Han).
  pose proof (find_key Job.id _ _ _ Hq) as Hid.
  split; [repeat (apply Forall_cons; [split; reflexivity|]); apply Forall_nil|].
  eexists. split.
  { cbn [final last]. unfold Workers.fail_job.
    eapply query_job_update; [|exact Hid].
    eapply query_job_update; [|exact Hid].
    apply (query_job_update db job_id job); [exact Hq | exact Hid]. }
  repeat split; reflexivity.
Qed.

Lemma X7_analysis_service_exception_witness :
  exists job',
    query_job
      (final SamplesAnalysis.db_dataset
         (Workers.process_analysis_job SamplesAnalysis.crashing 400 401
            SamplesAnalysis.db_dataset 1 1 None)) 1 = Some job'
    /\ Job.error_message job' = Some "division by zero"
    /\ Job.progress job' = (1 # 5)%Q.
Proof.
  destruct (X7_analysis_service_exception SamplesAnalysis.crashing 400 401
              SamplesAnalysis.db_dataset 1 1 None SamplesAnalysis.analyze_job
              SamplesAnalysis.dataset "division by zero" eq_refl eq_refl)
    as [_ [job' [Hq [_ [Hmsg [Hp _]]]]]].
  - vm_compute. discriminate.
  - reflexivity.
  - exists job'. split; [exact Hq|]. split; [exact Hmsg | exact Hp].
Defined.

(* ------------------------------------------------------------------ *)
(** ** Progress *)

Lemma query_job_results (now : Z) (results : list AnalysisResult.fields)
    (d : DB) (x : Dataset.t) (job_id : Z) :
  query_job (update_dataset (fold_left (add_analysis_result now) results d) x) job_id
  = query_job d job_id.
Proof.
  apply query_job_same_jobs. unfold update_dataset. cbn [jobs set_datasets].
  apply jobs_add_analysis_results.
Qed.

Ltac lookup_job Hq Hid :=
  lazymatch goal with
  | |- query_job (update_job _ _) _ = Some _ =>
      eapply query_job_update; [lookup_job Hq Hid | exact Hid]
  | |- query_job (Workers.fail_job _ _ _ _) _ = Some _ =>
      unfold Workers.fail_job; lookup_job Hq Hid
  | |- query_job (Workers.commit_events _ _ _) _ = Some _ =>
      rewrite (query_job_same_jobs _ _ _ (jobs_commit_events _ _ _));
      lookup_job Hq Hid
  | |- query_job (update_dataset (fold_left _ _ _) _) _ = Some _ =>
      rewrite query_job_results; lookup_job Hq Hid
  | |- _ => exact Hq
  end.

Ltac rows_of_trace Hq Hid :=
  repeat (erewrite job_rows_cons by lookup_job Hq Hid);
  change (job_rows _ []) with (@nil Job.t).

Lemma job_progresses_rows (job_id : Z) (trace : list DB) :
  job_progresses job_id trace = map Job.progress (job_rows job_id trace).
Proof.
  induction trace as [|d trace IH]; cbn [job_progresses job_rows flat_map];
    [reflexivity|].
  fold (job_progresses job_id trace). fold (job_rows job_id trace).
  rewrite map_app, IH. destruct (query_job d job_id); reflexivity.
Qed.

(** X8. In the states that the scraping worker or the analysis worker
    commits for its job, the progress never goes down, stays between 0
    and 1, and is 1 exactly in the state where the status is
    completed: a failed job keeps the progress it had reached. *)
Theorem X8_progress_of_a_run
    (db : DB) (job_id : Z) (job : Job.t) (trace : list DB) :
  query_job db job_id = Some job ->
  progress_run db job_id trace ->
  nondecreasing (job_progresses job_id trace) = true
  /\ Forall (fun j => progress_fits_status j = true) (job_rows job_id trace).
Proof.
  intros Hq Hrun. rewrite job_progresses_rows.
  pose proof (find_key Job.id _ _ _ Hq) as Hid.
  destruct Hrun as [cfg ext t0 t1 source_id | analyze t0 t1 dataset_id categories].
  - destruct (query_source db source_id) as [source|] eqn:Hs.
    + destruct (extracted_for ext source) as [extracted_data | msg] eqn:Hext.
      * rewrite (process_scraping_job_returns cfg ext t0 t1 db job_id source_id job
                   source extracted_data Hq Hs Hext).
        cbv zeta. rows_of_trace Hq Hid.
        split; [reflexivity|].
        repeat (apply Forall_cons; [reflexivity|]); apply Forall_nil.
      * rewrite (process_scraping_job_raises cfg ext t0 t1 db job_id source_id job
                   msg Hq
                   (or_intror (ex_intro _ source (conj Hs Hext)))).
        cbv zeta. rows_of_trace Hq Hid.
        split; [reflexivity|].
        repeat (apply Forall_cons; [reflexivity|]); apply Forall_nil.
    + rewrite (process_scraping_job_raises cfg ext t0 t1 db job_id source_id job
                 _ Hq (or_introl (conj Hs eq_refl))).
      cbv zeta. rows_of_trace Hq Hid.
      split; [reflexivity|].
      repeat (apply Forall_cons; [reflexivity|]); apply Forall_nil.
  - destruct (query_dataset db dataset_id) as [dataset|] eqn:Hd.
    + destruct (filter (Workers.in_sources (Dataset.source_ids dataset))
                       (raw_events db)) as [|ev rest] eqn:Hraw.
      * destruct (process_analysis_job_raises analyze t0 t1 db job_id dataset_id
                    categories job Hq) as [_ [Hempty _]].
        rewrite (Hempty dataset Hd Hraw).
        rows_of_trace Hq Hid.
        split; [reflexivity|].
        repeat (apply Forall_cons; [reflexivity|]); apply Forall_nil.
      * destruct (analyze dataset_id (ev :: rest) categories) as [results | e]
          eqn:Han.
        -- rewrite (process_analysis_job_returns analyze t0 t1 db job_id dataset_id
                      categories job dataset results Hq Hd);
             [|rewrite Hraw; discriminate | rewrite Hraw; exact Han].
           cbv zeta. rows_of_trace Hq Hid.
           split; [reflexivity|].
           repeat (apply Forall_cons; [reflexivity|]); apply Forall_nil.
        -- destruct (process_analysis_job_raises analyze t0 t1 db job_id
                       dataset_id categories job Hq) as [_ [_ Hraised]].
           rewrite (Hraised dataset e Hd);
             [|rewrite Hraw; discriminate | rewrite Hraw; exact Han].
           rows_of_trace Hq Hid.
           split; [reflexivity|].
           repeat (apply Forall_cons; [reflexivity|]); apply Forall_nil.
    + destruct (process_analysis_job_raises analyze t0 t1 db job_id dataset_id
                  categories job Hq) as [Hnone _].
      rewrite (Hnone Hd).
      rows_of_trace Hq Hid.
      split; [reflexivity|].
      repeat (apply Forall_cons; [reflexivity|]); apply Forall_nil.
Qed.

Lemma X8_progress_of_a_run_witness :
  nondecreasing
    (job_progresses 1
       (Workers.process_analysis_job SamplesAnalysis.two_results 400 401
          SamplesAnalysis.db_dataset 1 1 None)) = true.
Proof.
  apply (X8_progress_of_a_run SamplesAnalysis.db_dataset 1
           SamplesAnalysis.analyze_job).
  - reflexivity.
  - apply (progress_analysis _ _ SamplesAnalysis.two_results 400 401 1 None).
Defined.

(** X9. The relay worker never sets the progress of its job: the job
    is completed (or failed) at the progress it had, 0.0 for a job
    that was just created. *)
Theorem X9_relay_job_keeps_progress
    (settings : Settings) (t0 t1 : Z) (db : DB) (job_id analysis_result_id : Z)
    (job : Job.t) :
  query_job db job_id = Some job ->
  let trace :=
    Workers.process_oracle_job settings t0 t1 db job_id analysis_result_id in
  job_progresses job_id trace = [Job.progress job; Job.progress job]
  /\ exists job',
       query_job (final db trace) job_id = Some job'
       /\ Job.progress job' = Job.progress job
       /\ (Job.status job' = "completed" \/ Job.status job' = "failed").
Proof.
  intros Hq trace. subst trace. rewrite job_progresses_rows.
  rewrite (process_oracle_job_trace settings t0 t1 db job_id analysis_result_id
             job Hq).
  cbv zeta. pose proof (find_key Job.id _ _ _ Hq) as Hid.
  destruct (query_analysis db analysis_result_id).
  - rows_of_trace Hq Hid. split; [reflexivity|].
    eexists. split; [cbn [final last]; lookup_job Hq Hid|].
    split; [reflexivity | left; reflexivity].
  - rows_of_trace Hq Hid. split; [reflexivity|].
    eexists. split; [cbn [final last]; lookup_job Hq Hid|].
    split; [reflexivity | right; reflexivity].
Qed.

Lemma X9_relay_job_keeps_progress_witness :
  job_progresses 1
    (Workers.process_oracle_job Examples.settings_on 400 401
       (Examples.db_signal "pending" "pending") 1 1)
  = [0%Q; 0%Q].
Proof.
  destruct (X9_relay_job_keeps_progress Examples.settings_on 400 401
              (Examples.db_signal "pending" "pending") 1 1
              (Examples.relay_job "pending") eq_refl) as [H _].
  exact H.
Defined.

(* ------------------------------------------------------------------ *)
(** ** More on the signal gate and on retries *)

Lemma find_fresh {A} (key : A -> Z) (l : list A) :
  find (fun y => key y =? next_id (map key l)) l = None.
Proof.
  destruct (find (fun y => key y =? next_id (map key l)) l) as [x|] eqn:E;
    [|reflexivity].
  exfalso. apply find_some in E. destruct E as [Hin Hk].
  apply Z.eqb_eq in Hk. apply (next_id_fresh (map key l)).
  rewrite <- Hk. apply in_map. exact Hin.
Qed.

(** X10. When [create_oracle_signal] accepts, the ids in its response
    are those of the rows it created, and were not in use before: the
    signal id looks up a pending signal for the analysis result, with
    its severity, no transaction hash, and a payload made of the
    dataset, the category, the quality score and the first five
    metrics of the analysis; the job id looks up a pending job of type
    oracle_signal whose input names the signal and the analysis
    result; and the task (job id, analysis result id) is the last of
    the oracle queue. *)
Theorem X10_create_response_names_created_rows
    (settings : Settings) (now : Z) (db : DB) (analysis_result_id : Z)
    (analysis : AnalysisResult.t) (severity : string) :
  ORACLE_ENABLED settings = true ->
  query_analysis db analysis_result_id = Some analysis ->
  AnalysisResult.severity analysis = Some severity ->
  severity = "high" \/ severity = "critical" ->
  query_signal_for db analysis_result_id = None ->
  let out := RoutesOracle.create_oracle_signal settings now db analysis_result_id in
  let db' := final db (fst out) in
  exists response signal job,
    snd out = RoutesOracle.Return response
    /\ query_signal db (RoutesOracle.r_signal_id response) = None
    /\ query_job db (RoutesOracle.r_job_id response) = None
    /\ query_signal db' (RoutesOracle.r_signal_id response) = Some signal
    /\ OracleSignal.analysis_result_id signal = analysis_result_id
    /\ OracleSignal.severity signal = severity
    /\ OracleSignal.status signal = "pending"
    /\ OracleSignal.tx_hash signal = None
    /\ OracleSignal.payload signal
       = PDict [("dataset_id", PInt (AnalysisResult.dataset_id analysis));
                ("category", PStr (AnalysisResult.category analysis));
                ("quality_score", AnalysisResult.quality_score analysis);
                ("metrics_summary",
                 PDict (firstn 5 (AnalysisResult.metrics analysis)))]
    /\ query_job db' (RoutesOracle.r_job_id response) = Some job
    /\ Job.status job = "pending"
    /\ Job.type job = "oracle_signal"
    /\ Job.input_data job
       = PDict [("oracle_signal_id", PInt (RoutesOracle.r_signal_id response));
                ("analysis_result_id", PInt analysis_result_id)]
    /\ oracle_queue db'
       = (oracle_queue db
          ++ [(RoutesOracle.r_job_id response, analysis_result_id)])%list.
Proof.
  intros Hen Ha Hsev Hhc Hnone out db'. subst db' out.
  assert (Hin : str_in severity ["high"; "critical"] = true)
    by (apply eqb_in_pair; exact Hhc).
  unfold RoutesOracle.create_oracle_signal.
  rewrite Hen, Ha, Hsev, Hin, Hnone. cbn [negb].
  cbn [add_oracle_signal add_job RoutesOracle.enqueue_oracle_job fst snd final last
       OracleSignal.id Job.id oracle_signals jobs set_oracle_signals set_jobs
       set_oracle_queue oracle_queue].
  eexists. eexists. eexists. split; [reflexivity|].
  cbn [RoutesOracle.r_signal_id RoutesOracle.r_job_id].
  split; [apply (find_fresh OracleSignal.id)|].
  split; [apply (find_fresh Job.id)|].
  split.
  { unfold query_signal, RoutesOracle.enqueue_oracle_job.
    cbn [oracle_signals set_oracle_queue set_jobs set_oracle_signals jobs
         oracle_queue sources raw_events datasets analysis_results].
    rewrite find_snoc by apply (find_fresh OracleSignal.id).
    cbn [OracleSignal.id]. rewrite Z.eqb_refl. reflexivity. }
  repeat (split; [reflexivity|]).
  split.
  { unfold query_job, RoutesOracle.enqueue_oracle_job.
    cbn [oracle_signals set_oracle_queue set_jobs set_oracle_signals jobs
         oracle_queue sources raw_events datasets analysis_results].
    rewrite find_snoc by apply (find_fresh Job.id).
    cbn [Job.id]. rewrite Z.eqb_refl. reflexivity. }
  repeat split; reflexivity.
Qed.

Lemma X10_create_response_names_created_rows_witness :
  exists response signal,
    snd (RoutesOracle.create_oracle_signal Examples.settings_on 200
           Examples.db_analyses 1) = RoutesOracle.Return response
    /\ query_signal
         (final Examples.db_analyses
            (fst (RoutesOracle.create_oracle_signal Examples.settings_on 200
                    Examples.db_analyses 1)))
         (RoutesOracle.r_signal_id response) = Some signal
    /\ OracleSignal.status signal = "pending".
Proof.
  destruct (X10_create_response_names_created_rows Examples.settings_on 200
              Examples.db_analyses 1 Examples.critical_analysis "critical"
              eq_refl eq_refl eq_refl (or_intror eq_refl) eq_refl)
    as [response [signal [job [Hr [_ [_ [Hq [_ [_ [Hst _]]]]]]]]]].
  exists response, signal. split; [exact Hr|]. split; [exact Hq | exact Hst].
Defined.

(** X11. A retry can be repeated: after an accepted retry the signal
    is pending, so a second retry is accepted as well, and each of the
    two creates and enqueues a job of its own for the analysis result.
    Nothing tells that a relay job for the signal is already
    waiting. *)
Theorem X11_retry_twice_enqueues_two_jobs
    (settings : Settings) (now1 now2 : Z) (db : DB) (signal_id : Z)
    (signal : OracleSignal.t) :
  ORACLE_ENABLED settings = true ->
  query_signal db signal_id = Some signal ->
  OracleSignal.status signal = "failed" \/ OracleSignal.status signal = "pending" ->
  let first := RoutesOracle.retry_oracle_signal settings now1 db signal_id in
  let db1 := final db (fst first) in
  let second := RoutesOracle.retry_oracle_signal settings now2 db1 signal_id in
  let db2 := final db1 (fst second) in
  exists r1 r2,
    snd first = RoutesOracle.Return r1
    /\ snd second = RoutesOracle.Return r2
    /\ RoutesOracle.r_job_id r1 < RoutesOracle.r_job_id r2
    /\ oracle_queue db2
       = (oracle_queue db
          ++ [(RoutesOracle.r_job_id r1, OracleSignal.analysis_result_id signal);
              (RoutesOracle.r_job_id r2, OracleSignal.analysis_result_id signal)])%list
    /\ List.length (jobs db2) = (List.length (jobs db) + 2)%nat
    /\ query_signal db2 signal_id = Some (RoutesOracle.reset_signal signal).
Proof.
  intros Hen Hq Hst first db1 second db2.
  pose proof (find_key OracleSignal.id _ _ _ Hq) as Hid.
  assert (Hin : str_in (OracleSignal.status signal) ["failed"; "pending"] = true)
    by (apply eqb_in_pair; exact Hst).
  assert (Hfirst : first
            = (let s := RoutesOracle.reset_signal signal in
               let d1 := update_signal db s in
               let j := snd (add_job now1 d1 "oracle_signal"
                               (PDict [("oracle_signal_id", PInt (OracleSignal.id s));
                                       ("analysis_result_id",
                                        PInt (OracleSignal.analysis_result_id s))])) in
               let d2 := fst (add_job now1 d1 "oracle_signal"
                                (PDict [("oracle_signal_id", PInt (OracleSignal.id s));
                                        ("analysis_result_id",
                                         PInt (OracleSignal.analysis_result_id s))])) in
               ([d1; d2;
                 RoutesOracle.enqueue_oracle_job d2 (Job.id j)
                   (OracleSignal.analysis_result_id s)],
                RoutesOracle.Return
                  (RoutesOracle.mkResponse (OracleSignal.id s) (Job.id j) "pending"
                     "Oracle signal retry queued")))).
  { subst first. unfold RoutesOracle.retry_oracle_signal.
    rewrite Hen, Hq, Hin. reflexivity. }
  cbv zeta in Hfirst.
  assert (Hq1 : query_signal db1 signal_id = Some (RoutesOracle.reset_signal signal)).
  { subst db1. rewrite Hfirst. cbn [fst final last].
    change (query_signal (update_signal db (RoutesOracle.reset_signal signal))
              signal_id = Some (RoutesOracle.reset_signal signal)).
    apply (query_signal_update db signal_id signal); [exact Hq | exact Hid]. }
  assert (Hsecond : second
            = (let s := RoutesOracle.reset_signal (RoutesOracle.reset_signal signal) in
               let d1 := update_signal db1 s in
               let j := snd (add_job now2 d1 "oracle_signal"
                               (PDict [("oracle_signal_id", PInt (OracleSignal.id s));
                                       ("analysis_result_id",
                                        PInt (OracleSignal.analysis_result_id s))])) in
               let d2 := fst (add_job now2 d1 "oracle_signal"
                                (PDict [("oracle_signal_id", PInt (OracleSignal.id s));
                                        ("analysis_result_id",
                                         PInt (OracleSignal.analysis_result_id s))])) in
               ([d1; d2;
                 RoutesOracle.enqueue_oracle_job d2 (Job.id j)
                   (OracleSignal.analysis_result_id s)],
                RoutesOracle.Return
                  (RoutesOracle.mkResponse (OracleSignal.id s) (Job.id j) "pending"
                     "Oracle signal retry queued")))).
  { subst second. unfold RoutesOracle.retry_oracle_signal.
    rewrite Hen, Hq1. reflexivity. }
  cbv zeta in Hsecond.
  eexists. eexists.
  split; [rewrite Hfirst; reflexivity|].
  split; [rewrite Hsecond; reflexivity|].
  assert (Hjobs1 : jobs db1
                   = (jobs db
                      ++ [snd (add_job now1
                                 (update_signal db (RoutesOracle.reset_signal signal))
                                 "oracle_signal"
                                 (PDict [("oracle_signal_id",
                                          PInt (OracleSignal.id
                                                  (RoutesOracle.reset_signal signal)));
                                         ("analysis_result_id",
                                          PInt (OracleSignal.analysis_result_id
                                                  (RoutesOracle.reset_signal signal)))]))])%list).
  { subst db1. rewrite Hfirst. reflexivity. }
  assert (Hqueue1 : oracle_queue db1
                    = (oracle_queue db
                       ++ [(next_id (map Job.id (jobs db)),
                            OracleSignal.analysis_result_id signal)])%list).
  { subst db1. rewrite Hfirst. reflexivity. }
  split.
  { cbn [RoutesOracle.r_job_id add_job snd Job.id update_signal jobs
         set_oracle_signals].
    apply next_id_above. rewrite Hjobs1, map_app. apply in_or_app. right.
    left. reflexivity. }
  split.
  { subst db2. rewrite Hsecond. cbn [fst final last].
    cbn [RoutesOracle.enqueue_oracle_job add_job fst snd oracle_queue
         set_oracle_queue set_jobs update_signal set_oracle_signals Job.id jobs
         RoutesOracle.r_job_id RoutesOracle.reset_signal
         OracleSignal.analysis_result_id].
    rewrite Hqueue1, <- app_assoc. reflexivity. }
  split.
  { subst db2. rewrite Hsecond. cbn [fst final last].
    cbn [RoutesOracle.enqueue_oracle_job add_job fst snd jobs set_oracle_queue
         set_jobs update_signal set_oracle_signals].
    rewrite length_app, Hjobs1, length_app. cbn [List.length]. lia. }
  subst db2. rewrite Hsecond. cbn [fst final last].
  change (query_signal
            (update_signal db1
               (RoutesOracle.reset_signal (RoutesOracle.reset_signal signal)))
            signal_id = Some (RoutesOracle.reset_signal signal)).
  change (RoutesOracle.reset_signal (RoutesOracle.reset_signal signal))
    with (RoutesOracle.reset_signal signal).
  apply (query_signal_update db1 signal_id (RoutesOracle.reset_signal signal));
    [exact Hq1 | exact Hid].
Qed.

Lemma X11_retry_twice_enqueues_two_jobs_witness :
  exists r1 r2,
    snd (RoutesOracle.retry_oracle_signal Examples.settings_on 300
           (Examples.db_signal "failed" "failed") 1) = RoutesOracle.Return r1
    /\ snd (RoutesOracle.retry_oracle_signal Examples.settings_on 301
              (final (Examples.db_signal "failed" "failed")
                 (fst (RoutesOracle.retry_oracle_signal Examples.settings_on 300
                         (Examples.db_signal "failed" "failed") 1))) 1)
       = RoutesOracle.Return r2
    /\ RoutesOracle.r_job_id r1 < RoutesOracle.r_job_id r2.
Proof.
  destruct (X11_retry_twice_enqueues_two_jobs Examples.settings_on 300 301
              (Examples.db_signal "failed" "failed") 1
              (Examples.signal_for_critical "failed" None)
              eq_refl eq_refl (or_introl eq_refl))
    as [r1 [r2 [H1 [H2 [Hlt _]]]]].
  exists r1, r2. split; [exact H1|]. split; [exact H2 | exact Hlt].
Defined.

(* ------------------------------------------------------------------ *)
(** ** What the monitor writes *)

Lemma only_signals_changed_refl (db : DB) : only_signals_changed db db.
Proof. repeat split. Qed.

Lemma only_signals_changed_trans (db d1 d2 : DB) :
  only_signals_changed db d1 -> only_signals_changed d1 d2 ->
  only_signals_changed db d2.
Proof.
  intros [A1 [A2 [A3 [A4 [A5 [A6 A7]]]]]] [B1 [B2 [B3 [B4 [B5 [B6 B7]]]]]].
  unfold only_signals_changed.
  rewrite B1, B2, B3, B4, B5, B6, B7. repeat split; assumption.
Qed.

Lemma only_signals_changed_update (db : DB) (s : OracleSignal.t) :
  only_signals_changed db (update_signal db s).
Proof.
  unfold only_signals_changed, update_signal.
  cbn [sources raw_events datasets analysis_results jobs oracle_queue
       oracle_signals set_oracle_signals].
  repeat split. apply map_id_update.
Qed.

(** A run of the loop body over any signals, with any session: only
    signal rows change, ids stay, the log grows, and a signal id is
    left alone when no signal of the list has both this id and an
    analysis result. *)
Lemma monitor_signals_frame
    (self : OracleService.t) (session : OracleService.Session) (now : Z)
    (l : list OracleSignal.t) :
  forall db log,
    exists db' lines raised,
      OracleService.monitor_signals self session now db log l
      = (db', (log ++ lines)%list, raised)
      /\ only_signals_changed db db'
      /\ (forall k,
            (forall s, In s l -> OracleSignal.id s = k ->
                       query_analysis db (OracleSignal.analysis_result_id s) = None) ->
            query_signal db' k = query_signal db k).
Proof.
  induction l as [|s l IH]; intros db log.
  - exists db, [], None. cbn [OracleService.monitor_signals]. rewrite app_nil_r.
    split; [reflexivity|]. split; [apply only_signals_changed_refl|].
    intros k _. reflexivity.
  - cbn [OracleService.monitor_signals].
    destruct (monitor_signal_spec self session now db log s) as [lines1 Hs].
    rewrite Hs.
    destruct (OracleService.raises_on session db s) as [e|].
    { exists db, lines1, (Some e). split; [reflexivity|].
      split; [apply only_signals_changed_refl|]. intros k _. reflexivity. }
    set (db1 := match query_analysis db (OracleSignal.analysis_result_id s) with
                | Some a =>
                    update_signal db
                      (OracleService.settle s
                         (fst (OracleService.send_signal self now
                                 (AnalysisResult.id a) (OracleSignal.severity s)
                                 (AnalysisResult.metrics a))) now)
                | None => db
                end).
    assert (Hch : only_signals_changed db db1).
    { subst db1. destruct (query_analysis db _);
        [apply only_signals_changed_update | apply only_signals_changed_refl]. }
    assert (Hk1 : forall k,
              (OracleSignal.id s = k ->
               query_analysis db (OracleSignal.analysis_result_id s) = None) ->
              query_signal db1 k = query_signal db k).
    { intros k Hk. subst db1.
      destruct (query_analysis db (OracleSignal.analysis_result_id s)) eqn:Ha;
        [|reflexivity].
      unfold query_signal, update_signal. cbn [oracle_signals set_oracle_signals].
      apply find_update_other. rewrite settle_id. intros E.
      specialize (Hk E). discriminate Hk. }
    destruct (IH db1 (log ++ lines1)%list) as [db' [lines2 [raised [Hrun [Hch' Hk']]]]].
    exists db', (lines1 ++ lines2)%list, raised. rewrite app_assoc.
    split; [exact Hrun|].
    split; [exact (only_signals_changed_trans _ _ _ Hch Hch')|].
    intros k Hk. rewrite Hk'.
    + apply Hk1. intros E. apply (Hk s); [left; reflexivity | exact E].
    + intros s' Hin E.
      destruct Hch as [_ [_ [_ [Han _]]]].
      rewrite (query_analysis_same db db1 _ Han).
      apply (Hk s'); [right; exact Hin | exact E].
Qed.

Lemma monitor_pass_frame
    (self : OracleService.t) (session : OracleService.Session) (now : Z)
    (db : DB) (log : list string) :
  exists db' lines,
    OracleService.monitor_pass self session now (db, log) = (db', (log ++ lines)%list)
    /\ only_signals_changed db db'
    /\ (forall k,
          (forall s, In s (oracle_signals db) ->
                     OracleService.is_pending_alert s = true ->
                     OracleSignal.id s = k ->
                     query_analysis db (OracleSignal.analysis_result_id s) = None) ->
          query_signal db' k = query_signal db k).
Proof.
  unfold OracleService.monitor_pass.
  destruct (OracleService.query_signals_raises session) as [e|].
  { exists db, [OracleService.log_loop_error e]. split; [reflexivity|].
    split; [apply only_signals_changed_refl|]. intros k _. reflexivity. }
  destruct (monitor_signals_frame self session now
              (filter OracleService.is_pending_alert (oracle_signals db)) db log)
    as [db' [lines [raised [Hrun [Hch Hk]]]]].
  rewrite Hrun.
  assert (Hk' : forall k,
            (forall s, In s (oracle_signals db) ->
                       OracleService.is_pending_alert s = true ->
                       OracleSignal.id s = k ->
                       query_analysis db (OracleSignal.analysis_result_id s) = None) ->
            query_signal db' k = query_signal db k).
  { intros k H. apply Hk. intros s Hin E. apply filter_In in Hin.
    destruct Hin as [Hin Hp]. exact (H s Hin Hp E). }
  destruct raised as [e|].
  - exists db', (lines ++ [OracleService.log_loop_error e])%list.
    rewrite app_assoc. split; [reflexivity|]. split; assumption.
  - exists db', lines. split; [reflexivity|]. split; assumption.
Qed.

(** X12. Whatever the session and the web3 provider do, and for any
    number of passes, the monitor writes nothing but rows of oracle
    signals: sources, raw events, datasets, analysis results, jobs and
    the oracle queue are as before, no signal is created or deleted,
    and the log only grows. *)
Theorem X12_monitor_writes_only_signal_rows
    (self : OracleService.t) (env : nat -> OracleService.Session * Z)
    (passes i : nat) (db : DB) (log : list string) :
  only_signals_changed db
    (fst (OracleService.monitor_and_send self env passes i (db, log)))
  /\ exists lines,
       snd (OracleService.monitor_and_send self env passes i (db, log))
       = (log ++ lines)%list.
Proof.
  revert i db log. induction passes as [|passes IH]; intros i db log;
    cbn [OracleService.monitor_and_send].
  - split; [apply only_signals_changed_refl|]. exists []. cbn [snd].
    rewrite app_nil_r. reflexivity.
  - destruct (monitor_pass_frame self (fst (env i)) (snd (env i)) db log)
      as [db1 [lines1 [Hpass [Hch _]]]].
    rewrite Hpass.
    destruct (IH (S i) db1 (log ++ lines1)%list) as [Hch' [lines2 Hlog]].
    split; [exact (only_signals_changed_trans _ _ _ Hch Hch')|].
    exists (lines1 ++ lines2)%list. rewrite Hlog, app_assoc. reflexivity.
Qed.

Lemma same_key_same_row {A} (key : A -> Z) (l : list A) (x y : A) :
  NoDup (map key l) -> In x l -> In y l -> key x = key y -> x = y.
Proof.
  intros Hnd Hx Hy E.
  pose proof (find_nodup_key key l x Hnd Hx) as Fx.
  pose proof (find_nodup_key key l y Hnd Hy) as Fy.
  rewrite E in Fx. rewrite Fx in Fy. injection Fy as ->. reflexivity.
Qed.

(** The loop over signals that all lack their analysis result, in a
    session whose queries do not raise: nothing is written, nothing is
    logged, nothing is raised. *)
Lemma monitor_signals_passed_over
    (self : OracleService.t) (session : OracleService.Session) (now : Z)
    (db : DB) (log : list string) (l : list OracleSignal.t) :
  (forall k, OracleService.query_analysis_raises session k = None) ->
  (forall s, In s l ->
             query_analysis db (OracleSignal.analysis_result_id s) = None) ->
  OracleService.monitor_signals self session now db log l = (db, log, None).
Proof.
  intros Hq. induction l as [|s l IH]; intros Hnone;
    cbn [OracleService.monitor_signals]; [reflexivity|].
  unfold OracleService.monitor_signal.
  rewrite (Hq (OracleSignal.id s)), (Hnone s (or_introl eq_refl)).
  apply IH. intros s' Hin. apply Hnone. right. exact Hin.
Qed.

(** X13. The monitor never changes a signal that is not a pending
    alert (one that is sent or failed, or whose severity is not high
    or critical), nor a signal whose analysis result is missing: after
    any number of passes, with any session and provider, its row is
    what it was. In particular a failed signal is never sent again by
    the monitor, and a pending signal without its analysis result
    stays pending. Such a signal is passed over without a log line:
    the loop body, when its query does not raise, leaves the database
    and the log as they are and raises nothing; and when every pending
    alert lacks its analysis result, any number of passes in which
    nothing is raised return the database and the log unchanged. *)
Theorem X13_monitor_leaves_other_signals
    (self : OracleService.t) (env : nat -> OracleService.Session * Z)
    (passes i : nat) (db : DB) (log : list string) (signal : OracleSignal.t) :
  NoDup (map OracleSignal.id (oracle_signals db)) ->
  In signal (oracle_signals db) ->
  OracleService.is_pending_alert signal = false
  \/ query_analysis db (OracleSignal.analysis_result_id signal) = None ->
  query_signal (fst (OracleService.monitor_and_send self env passes i (db, log)))
               (OracleSignal.id signal) = Some signal
  /\ (query_analysis db (OracleSignal.analysis_result_id signal) = None ->
      forall session now log',
        OracleService.query_analysis_raises session (OracleSignal.id signal)
        = None ->
        OracleService.monitor_signal self session now db log' signal
        = (db, log', None))
  /\ ((forall s, In s (oracle_signals db) ->
                 OracleService.is_pending_alert s = true ->
                 query_analysis db (OracleSignal.analysis_result_id s) = None) ->
      (forall j, raises_nothing (fst (env j))) ->
      OracleService.monitor_and_send self env passes i (db, log) = (db, log)).
Proof.
  intros Hnd Hin Hwhy. split; [|split].
  - revert i db log Hnd Hin Hwhy.
    induction passes as [|passes IH]; intros i db log Hnd Hin Hwhy;
      cbn [OracleService.monitor_and_send].
    + cbn [fst]. apply find_nodup_key; assumption.
    + destruct (monitor_pass_frame self (fst (env i)) (snd (env i)) db log)
        as [db1 [lines1 [Hpass [Hch Hk]]]].
      rewrite Hpass.
      assert (Hrow : query_signal db1 (OracleSignal.id signal) = Some signal).
      { rewrite Hk; [apply find_nodup_key; assumption|].
        intros s Hs Hp E.
        assert (s = signal) by (apply (same_key_same_row OracleSignal.id
                                         (oracle_signals db)); assumption).
        subst s. destruct Hwhy as [Hn | Hn]; [|exact Hn].
        rewrite Hn in Hp. discriminate Hp. }
      destruct Hch as [_ [_ [_ [Han [_ [_ Hids]]]]]].
      apply IH.
      * rewrite Hids. exact Hnd.
      * unfold query_signal in Hrow. apply find_some in Hrow. apply Hrow.
      * destruct Hwhy as [Hn | Hn]; [left; exact Hn | right].
        rewrite (query_analysis_same db db1 _ Han). exact Hn.
  - intros Hnone session now log' Hq. unfold OracleService.monitor_signal.
    rewrite Hq, Hnone. reflexivity.
  - intros Hall Hhealthy. clear Hnd Hin Hwhy. revert i.
    induction passes as [|passes IH]; intros i;
      cbn [OracleService.monitor_and_send]; [reflexivity|].
    destruct (Hhealthy i) as [Hqs [Hqa _]].
    unfold OracleService.monitor_pass at 1. rewrite Hqs.
    rewrite (monitor_signals_passed_over self (fst (env i)) (snd (env i)) db log
               _ Hqa).
    + apply IH.
    + intros s Hs. apply filter_In in Hs. destruct Hs as [Hs Hp].
      exact (Hall s Hs Hp).
Qed.

Lemma X13_monitor_leaves_other_signals_witness :
  query_signal
    (fst (OracleService.monitor_and_send (Examples.service (Ok 1))
            (fun _ => (Examples.healthy, 400)) 3 0
            (Examples.db_signal "failed" "failed", [])))
    1 = Some (Examples.signal_for_critical "failed" None)
  /\ OracleService.monitor_and_send (Examples.service (Ok 1))
       (fun _ => (Examples.healthy, 400)) 3 0 (SamplesOrphan.db_orphan, [])
     = (SamplesOrphan.db_orphan, []).
Proof.
  split.
  - apply (X13_monitor_leaves_other_signals (Examples.service (Ok 1))
             (fun _ => (Examples.healthy, 400)) 3 0
             (Examples.db_signal "failed" "failed") []
             (Examples.signal_for_critical "failed" None)).
    + cbn. repeat constructor. intros [].
    + left. reflexivity.
    + left. reflexivity.
  - apply (X13_monitor_leaves_other_signals (Examples.service (Ok 1))
             (fun _ => (Examples.healthy, 400)) 3 0
             SamplesOrphan.db_orphan []
             (Examples.signal_for_critical "pending" None)).
    + cbn. repeat constructor. intros [].
    + left. reflexivity.
    + right. reflexivity.
    + intros s Hs _. destruct Hs as [<- | []]. reflexivity.
    + intros j. repeat split.
Defined.

(** A pass in which nothing is raised, on signals with distinct ids:
    the rows of the pending alerts that have their analysis result are
    the settled signals, the other rows are as before. *)
Lemma healthy_pass_rows
    (self : OracleService.t) (session : OracleService.Session) (now : Z)
    (db : DB) (log : list string) :
  NoDup (map OracleSignal.id (oracle_signals db)) ->
  raises_nothing session ->
  exists db1 lines,
    OracleService.monitor_pass self session now (db, log)
    = (db1, (log ++ lines)%list)
    /\ map OracleSignal.id (oracle_signals db1)
       = map OracleSignal.id (oracle_signals db)
    /\ analysis_results db1 = analysis_results db
    /\ (forall k,
          ~ In k (map OracleSignal.id
                    (filter OracleService.is_pending_alert (oracle_signals db))) ->
          query_signal db1 k = query_signal db k)
    /\ (forall s a,
          In s (filter OracleService.is_pending_alert (oracle_signals db)) ->
          query_analysis db (OracleSignal.analysis_result_id s) = Some a ->
          query_signal db1 (OracleSignal.id s)
          = Some (OracleService.settle s
                    (fst (OracleService.send_signal self now
                            (AnalysisResult.id a) (OracleSignal.severity s)
                            (AnalysisResult.metrics a))) now)).
Proof.
  intros Hnd [Hq [Hqa Hc]].
  destruct (monitor_signals_healthy self session now
              (filter OracleService.is_pending_alert (oracle_signals db)) db log)
    as [db1 [lines [Hrun [Han [_ [Hids [Hother Hdone]]]]]]].
  { intros s _. unfold OracleService.raises_on. rewrite Hqa, Hc.
    destruct (query_analysis db _); reflexivity. }
  exists db1, lines. unfold OracleService.monitor_pass.
  rewrite Hq, Hrun. split; [reflexivity|]. split; [exact Hids|].
  split; [exact Han|]. split; [exact Hother|].
  intros s a Hin Ha.
  apply (Hdone (distinct_keys_filter _ _ _ Hnd) s a Hin Ha).
  apply filter_In in Hin. destruct Hin as [Hin _]. unfold query_signal.
  rewrite (find_nodup_key OracleSignal.id _ s Hnd Hin). discriminate.
Qed.

(** X14. After a pass in which nothing is raised, every signal that
    was a pending alert with its analysis result is settled (sent or
    failed); if every pending alert had its analysis result, none is
    left, and a second pass changes nothing. *)
Theorem X14_healthy_pass_settles_all
    (self : OracleService.t) (session : OracleService.Session) (now : Z)
    (db : DB) (log : list string) :
  NoDup (map OracleSignal.id (oracle_signals db)) ->
  raises_nothing session ->
  let out := OracleService.monitor_pass self session now (db, log) in
  (forall s a,
     In s (oracle_signals db) ->
     OracleService.is_pending_alert s = true ->
     query_analysis db (OracleSignal.analysis_result_id s) = Some a ->
     exists s',
       query_signal (fst out) (OracleSignal.id s) = Some s'
       /\ s' = OracleService.settle s
                 (fst (OracleService.send_signal self now (AnalysisResult.id a)
                         (OracleSignal.severity s) (AnalysisResult.metrics a))) now
       /\ (OracleSignal.status s' = "sent" \/ OracleSignal.status s' = "failed"))
  /\ ((forall s, In s (oracle_signals db) ->
                 OracleService.is_pending_alert s = true ->
                 query_analysis db (OracleSignal.analysis_result_id s) <> None) ->
      filter OracleService.is_pending_alert (oracle_signals (fst out)) = []
      /\ forall session2 now2,
           OracleService.query_signals_raises session2 = None ->
           OracleService.monitor_pass self session2 now2 out = out).
Proof.
  intros Hnd Hhealthy out.
  destruct (healthy_pass_rows self session now db log Hnd Hhealthy)
    as [db1 [lines [Hout [Hids [Han [Hother Hdone]]]]]].
  subst out.
  rewrite Hout. cbn [fst]. split.
  - intros s a Hin Hp Ha. eexists. split; [|split; [reflexivity | apply settle_status]].
    apply (Hdone s a); [|exact Ha]. apply filter_In. split; assumption.
  - intros Hall.
    assert (Hnone : filter OracleService.is_pending_alert (oracle_signals db1) = []).
    { destruct (filter OracleService.is_pending_alert (oracle_signals db1))
        as [|r rest] eqn:Hf; [reflexivity|]. exfalso.
      assert (Hr : In r (filter OracleService.is_pending_alert (oracle_signals db1)))
        by (rewrite Hf; left; reflexivity).
      apply filter_In in Hr. destruct Hr as [Hr Hp].
      assert (Hnd1 : NoDup (map OracleSignal.id (oracle_signals db1)))
        by (rewrite Hids; exact Hnd).
      pose proof (find_nodup_key OracleSignal.id _ r Hnd1 Hr) as Hrow.
      fold (query_signal db1 (OracleSignal.id r)) in Hrow.
      destruct (in_dec Z.eq_dec (OracleSignal.id r)
                  (map OracleSignal.id
                     (filter OracleService.is_pending_alert (oracle_signals db))))
        as [Hin | Hout'].
      - apply in_map_iff in Hin. destruct Hin as [s [Hs Hin]].
        pose proof Hin as Hin'. apply filter_In in Hin'. destruct Hin' as [Hs_in Hs_p].
        destruct (query_analysis db (OracleSignal.analysis_result_id s)) as [a|]
          eqn:Ha; [|exact (Hall s Hs_in Hs_p Ha)].
        pose proof (Hdone s a Hin Ha) as Hsettled.
        rewrite Hs, Hrow in Hsettled. injection Hsettled as ->.
        unfold OracleService.is_pending_alert in Hp.
        apply andb_true_iff in Hp. destruct Hp as [Hp _].
        apply String.eqb_eq in Hp.
        destruct (settle_status s
                    (fst (OracleService.send_signal self now (AnalysisResult.id a)
                            (OracleSignal.severity s) (AnalysisResult.metrics a)))
                    now) as [E | E];
          rewrite E in Hp; discriminate Hp.
      - rewrite (Hother _ Hout') in Hrow.
        unfold query_signal in Hrow. apply find_some in Hrow.
        destruct Hrow as [Hr0 _]. apply Hout'. apply in_map. apply filter_In.
        split; assumption. }
    split; [exact Hnone|].
    intros session2 now2 Hq2. unfold OracleService.monitor_pass.
    rewrite Hq2, Hnone. reflexivity.
Qed.

Lemma X14_healthy_pass_settles_all_witness :
  filter OracleService.is_pending_alert
    (oracle_signals
       (fst (OracleService.monitor_pass (Examples.service (Ok 1)) Examples.healthy
               400 (Examples.db_two_signals, [])))) = [].
Proof.
  destruct (X14_healthy_pass_settles_all (Examples.service (Ok 1)) Examples.healthy
              400 Examples.db_two_signals []) as [_ H].
  - cbn. repeat constructor; cbn; intuition discriminate.
  - repeat split.
  - apply H. intros s [<- | [<- | []]] _; vm_compute; discriminate.
Defined.

(** X15. A signal that [create_oracle_signal] has just created is a
    pending alert for the monitor: in the next pass, if nothing is
    raised, it is settled, sent when [send_signal] returns a
    transaction hash and failed when it returns none, whatever became
    of the relay job that was enqueued with it. *)
Theorem X15_created_signal_is_settled_by_monitor
    (settings : Settings) (now : Z) (db : DB) (analysis_result_id : Z)
    (analysis : AnalysisResult.t) (severity : string)
    (self : OracleService.t) (session : OracleService.Session) (now2 : Z)
    (log : list string) :
  ORACLE_ENABLED settings = true ->
  query_analysis db analysis_result_id = Some analysis ->
  AnalysisResult.severity analysis = Some severity ->
  severity = "high" \/ severity = "critical" ->
  query_signal_for db analysis_result_id = None ->
  NoDup (map OracleSignal.id (oracle_signals db)) ->
  raises_nothing session ->
  let created := RoutesOracle.create_oracle_signal settings now db
                   analysis_result_id in
  let db' := final db (fst created) in
  let out := OracleService.monitor_pass self session now2 (db', log) in
  let sent := fst (OracleService.send_signal self now2 (AnalysisResult.id analysis)
                     severity (AnalysisResult.metrics analysis)) in
  exists response signal signal',
    snd created = RoutesOracle.Return response
    /\ query_signal db' (RoutesOracle.r_signal_id response) = Some signal
    /\ query_signal (fst out) (RoutesOracle.r_signal_id response) = Some signal'
    /\ signal' = OracleService.settle signal sent now2
    /\ (OracleSignal.status signal' = "sent" \/ OracleSignal.status signal' = "failed")
    /\ jobs (fst out) = jobs db'.
Proof.
  intros Hen Ha Hsev Hhc Hnone Hnd Hhealthy created db' out sent.
  assert (Hin : str_in severity ["high"; "critical"] = true)
    by (apply eqb_in_pair; exact Hhc).
  set (signal := OracleSignal.mk (next_id (map OracleSignal.id (oracle_signals db)))
                   analysis_result_id severity (Some "alert")
                   (PDict [("dataset_id", PInt (AnalysisResult.dataset_id analysis));
                           ("category", PStr (AnalysisResult.category analysis));
                           ("quality_score", AnalysisResult.quality_score analysis);
                           ("metrics_summary",
                            PDict (firstn 5 (AnalysisResult.metrics analysis)))])
                   "pending" None None now None).
  assert (Hcreated : exists job_id,
            created = ([fst (add_oracle_signal now db analysis_result_id severity
                               "alert" (OracleSignal.payload signal) "pending");
                        fst (add_job now
                               (fst (add_oracle_signal now db analysis_result_id
                                       severity "alert" (OracleSignal.payload signal)
                                       "pending"))
                               "oracle_signal"
                               (PDict [("oracle_signal_id",
                                        PInt (OracleSignal.id signal));
                                       ("analysis_result_id",
                                        PInt analysis_result_id)]));
                        RoutesOracle.enqueue_oracle_job
                          (fst (add_job now
                                  (fst (add_oracle_signal now db analysis_result_id
                                          severity "alert"
                                          (OracleSignal.payload signal) "pending"))
                                  "oracle_signal"
                                  (PDict [("oracle_signal_id",
                                           PInt (OracleSignal.id signal));
                                          ("analysis_result_id",
                                           PInt analysis_result_id)])))
                          job_id analysis_result_id],
                       RoutesOracle.Return
                         (RoutesOracle.mkResponse (OracleSignal.id signal) job_id
                            "pending"
                            "Oracle signal created and queued for transmission"))).
  { eexists. subst created. unfold RoutesOracle.create_oracle_signal.
    rewrite Hen, Ha, Hsev, Hin, Hnone. reflexivity. }
  destruct Hcreated as [job_id Hcreated].
  assert (Hsig : oracle_signals db' = (oracle_signals db ++ [signal])%list)
    by (subst db'; rewrite Hcreated; reflexivity).
  assert (Han' : analysis_results db' = analysis_results db)
    by (subst db'; rewrite Hcreated; reflexivity).
  assert (Hnd' : NoDup (map OracleSignal.id (oracle_signals db'))).
  { rewrite Hsig, map_app. apply NoDup_snoc; [exact Hnd|]. apply next_id_fresh. }
  assert (Hin' : In signal (oracle_signals db'))
    by (rewrite Hsig; apply in_or_app; right; left; reflexivity).
  destruct (healthy_pass_rows self session now2 db' log Hnd' Hhealthy)
    as [db1 [lines [Hout [_ [_ [_ Hdone]]]]]].
  destruct (monitor_pass_frame self session now2 db' log)
    as [db1' [lines' [Hout' [Hch _]]]].
  exists (RoutesOracle.mkResponse (OracleSignal.id signal) job_id "pending"
            "Oracle signal created and queued for transmission"),
         signal, (OracleService.settle signal sent now2).
  split; [rewrite Hcreated; reflexivity|].
  cbn [RoutesOracle.r_signal_id].
  split; [apply find_nodup_key; assumption|].
  split.
  { subst out. rewrite Hout. cbn [fst]. subst sent.
    apply (Hdone signal analysis).
    - apply filter_In. split; [exact Hin'|].
      unfold OracleService.is_pending_alert. subst signal.
      cbn [OracleSignal.status OracleSignal.severity]. rewrite Hin. reflexivity.
    - rewrite (query_analysis_same db db' _ Han'). exact Ha. }
  split; [reflexivity|].
  split; [apply settle_status|].
  subst out. rewrite Hout'. cbn [fst]. apply Hch.
Qed.

Lemma X15_created_signal_is_settled_by_monitor_witness :
  exists response signal',
    snd (RoutesOracle.create_oracle_signal Examples.settings_on 200
           Examples.db_analyses 1) = RoutesOracle.Return response
    /\ query_signal
         (fst (OracleService.monitor_pass (Examples.service (Ok 1)) Examples.healthy
                 400
                 (final Examples.db_analyses
                    (fst (RoutesOracle.create_oracle_signal Examples.settings_on 200
                            Examples.db_analyses 1)), [])))
         (RoutesOracle.r_signal_id response) = Some signal'
    /\ (OracleSignal.status signal' = "sent" \/ OracleSignal.status signal' = "failed").
Proof.
  destruct (X15_created_signal_is_settled_by_monitor Examples.settings_on 200
              Examples.db_analyses 1 Examples.critical_analysis "critical"
              (Examples.service (Ok 1)) Examples.healthy 400 []
              eq_refl eq_refl eq_refl (or_intror eq_refl) eq_refl)
    as [response [signal [signal' [Hr [_ [Hq [_ [Hst _]]]]]]]].
  - constructor.
  - repeat split.
  - exists response, signal'. split; [exact Hr|]. split; [exact Hq | exact Hst].
Defined.

(* ------------------------------------------------------------------ *)
(** ** The transaction of a signal *)

(** X16. Every transaction that [_build_transaction] builds from a
    prepared signal carries a severity level between 1 and 4, whatever
    the severity string (3 for high, 4 for critical), the analysis id
    and the time of the signal, gas 200000, the chain id and the
    guardian address of the service, the account as sender and the
    nonce that the provider gave for it. *)
Theorem X16_transaction_fields
    (self : OracleService.t) (w : OracleService.Web3) (address : string)
    (now analysis_id : Z) (severity : string) (metrics : pydict)
    (tx : OracleService.Transaction) :
  OracleService._build_transaction self w address
    (OracleService._prepare_signal self now analysis_id severity metrics) = Ok tx ->
  1 <= OracleService.tx_severityLevel tx <= 4
  /\ (severity = "high" -> OracleService.tx_severityLevel tx = 3)
  /\ (severity = "critical" -> OracleService.tx_severityLevel tx = 4)
  /\ OracleService.tx_analysisId tx = analysis_id
  /\ OracleService.tx_timestamp tx = now
  /\ OracleService.tx_gas tx = 200000
  /\ OracleService.tx_chainId tx = OracleService.chain_id self
  /\ OracleService.tx_to tx = OracleService.guardian_address self
  /\ OracleService.tx_from tx = address
  /\ OracleService.get_transaction_count w address = Ok (OracleService.tx_nonce tx)
  /\ OracleService.gas_price w = Ok (OracleService.tx_gasPrice tx).
Proof.
  unfold OracleService._build_transaction.
  destruct (OracleService.contract w _) as [[]|]; [|discriminate].
  destruct (OracleService.get_transaction_count w address) as [nonce|];
    [|discriminate].
  cbn [bind].
  destruct (OracleService.submit_signal w _ _ _ _) as [[]|]; [|discriminate].
  destruct (OracleService.gas_price w) as [price|]; [|discriminate].
  cbn [bind].
  destruct (OracleService.build_transaction w _) as [[]|]; [|discriminate].
  cbn [bind]. intros E. injection E as <-.
  cbn [OracleService.tx_severityLevel OracleService.tx_analysisId
       OracleService.tx_timestamp OracleService.tx_gas OracleService.tx_chainId
       OracleService.tx_to OracleService.tx_from OracleService.tx_nonce
       OracleService.tx_gasPrice OracleService._prepare_signal
       OracleService.severity_level OracleService.analysis_id
       OracleService.timestamp].
  split.
  { repeat match goal with
           | |- context [if ?b then _ else _] => destruct b
           end; lia. }
  split; [intros ->; reflexivity|].
  split; [intros ->; reflexivity|].
  repeat split; reflexivity.
Qed.

Lemma X16_transaction_fields_witness :
  1 <= OracleService.tx_severityLevel
         (OracleService.mkTransaction "0xguardian" 1 1 400 "5f" "0xoracle" 7 200000
            20 1) <= 4.
Proof.
  destruct (X16_transaction_fields (Examples.service (Ok 1))
              (Examples.web3_with_receipt (Ok 1)) "0xoracle" 400 1 "unheard" []
              (OracleService.mkTransaction "0xguardian" 1 1 400 "5f" "0xoracle" 7
                 200000 20 1)
              eq_refl)
    as [Hlevel _].
  exact Hlevel.
Defined.

(** X17. The metrics hash of a signal does not depend on the order in
    which the metrics were put into the dict: [json.dumps] sorts the
    keys. *)
Theorem X17_metrics_hash_order_independent
    (self : OracleService.t) (metrics1 metrics2 : pydict) :
  NoDup (map fst metrics1) ->
  Permutation metrics1 metrics2 ->
  OracleService._hash_metrics self metrics1
  = OracleService._hash_metrics self metrics2.
Proof.
  intros Hnd Hp. unfold OracleService._hash_metrics.
  assert (E : OracleService.json_dumps (PDict metrics1)
              = OracleService.json_dumps (PDict metrics2)).
  { cbn [OracleService.json_dumps].
    rewrite (sorted_items_order_independent
               (map (fun kv => (fst kv, OracleService.json_dumps (snd kv))) metrics1)
               (map (fun kv => (fst kv, OracleService.json_dumps (snd kv))) metrics2)).
    - reflexivity.
    - rewrite map_map. cbn [fst]. exact Hnd.
    - apply Permutation_map. exact Hp. }
  rewrite E. reflexivity.
Qed.

Lemma X17_metrics_hash_order_independent_witness :
  OracleService._hash_metrics (Examples.service (Ok 1))
    [("b", PInt 2); ("a", PInt 1)]
  = OracleService._hash_metrics (Examples.service (Ok 1))
      [("a", PInt 1); ("b", PInt 2)].
Proof.
  apply X17_metrics_hash_order_independent.
  - cbn. repeat constructor; cbn; intuition discriminate.
  - apply perm_swap.
Defined.

(* ------------------------------------------------------------------ *)
(** ** The content hash as a column value *)

Lemma length_hex_of_word (w : Z) : String.length (Sha256.hex_of_word w) = 8%nat.
Proof. reflexivity. Qed.

Lemma length_round (st : list Z) (kw : Z * Z) :
  List.length st = 8%nat -> List.length (Sha256.round st kw) = 8%nat.
Proof.
  intros H.
  destruct st as [|a [|b [|c [|d [|e [|f [|g [|h [|i st]]]]]]]]];
    try discriminate H; reflexivity.
Qed.

Lemma length_rounds (kws : list (Z * Z)) :
  forall st, List.length st = 8%nat ->
             List.length (fold_left Sha256.round kws st) = 8%nat.
Proof.
  induction kws as [|kw kws IH]; intros st H; cbn [fold_left]; [exact H|].
  apply IH. apply length_round. exact H.
Qed.

Lemma length_compress (h block : list Z) :
  List.length h = 8%nat -> List.length (Sha256.compress h block) = 8%nat.
Proof.
  intros H. unfold Sha256.compress.
  rewrite length_map, length_combine, length_rounds by exact H.
  rewrite H. reflexivity.
Qed.

Lemma length_blocks (fuel : nat) :
  forall ws h, List.length h = 8%nat ->
               List.length (Sha256.blocks fuel ws h) = 8%nat.
Proof.
  induction fuel as [|fuel IH]; intros ws h H; cbn [Sha256.blocks]; [exact H|].
  destruct ws as [|w ws]; [exact H|].
  apply IH. apply length_compress. exact H.
Qed.

Lemma length_append (s1 s2 : string) :
  String.length (s1 ++ s2) = (String.length s1 + String.length s2)%nat.
Proof.
  induction s1 as [|c s1 IH]; [reflexivity|].
  change (String c s1 ++ s2) with (String c (s1 ++ s2)).
  cbn [String.length]. rewrite IH. reflexivity.
Qed.

Lemma length_concat_words (ws : list Z) :
  String.length (String.concat "" (map Sha256.hex_of_word ws))
  = (8 * List.length ws)%nat.
Proof.
  induction ws as [|w ws IH]; [reflexivity|].
  cbn [map List.length]. destruct ws as [|w' ws].
  - reflexivity.
  - change (String.concat "" (Sha256.hex_of_word w
                               :: map Sha256.hex_of_word (w' :: ws)))
      with (Sha256.hex_of_word w
            ++ ("" ++ String.concat "" (map Sha256.hex_of_word (w' :: ws)))).
    rewrite length_append, length_append, IH, length_hex_of_word.
    cbn [String.length List.length]. lia.
Qed.

Lemma length_hexdigest (s : string) : String.length (Sha256.hexdigest s) = 64%nat.
Proof.
  unfold Sha256.hexdigest, Sha256.digest_words.
  rewrite length_concat_words, length_blocks; reflexivity.
Qed.

(** X18. The content hash that either extraction service computes is
    64 characters long, whatever the record: it fills the
    [String(64)] column [content_hash] exactly. *)
Theorem X18_content_hash_has_64_characters (data : pydict) :
  String.length (ScrapingService._generate_hash data) = 64%nat
  /\ String.length (SocialService._generate_hash data) = 64%nat.
Proof. split; apply length_hexdigest. Qed.

(* ------------------------------------------------------------------ *)
(** ** The fields of a fetched record *)

Lemma dict_get_set_same (d : pydict) (k : string) (v : pyval) :
  dict_get (dict_set d k v) k = v.
Proof.
  induction d as [|[k' v'] d IH]; cbn [dict_set dict_get].
  - rewrite String.eqb_refl. reflexivity.
  - destruct (String.eqb k' k) eqn:E; cbn [dict_get].
    + rewrite String.eqb_refl. reflexivity.
    + rewrite E. exact IH.
Qed.

Lemma dict_get_set_other (d : pydict) (k k' : string) (v : pyval) :
  k <> k' -> dict_get (dict_set d k v) k' = dict_get d k'.
Proof.
  intros Hne. induction d as [|[k0 v0] d IH]; cbn [dict_set dict_get].
  - destruct (String.eqb_spec k k'); [contradiction | reflexivity].
  - destruct (String.eqb_spec k0 k) as [-> | Hk]; cbn [dict_get].
    + destruct (String.eqb_spec k k'); [contradiction | reflexivity].
    + rewrite IH. reflexivity.
Qed.

Lemma dict_mem_set (d : pydict) (k k' : string) (v : pyval) :
  dict_mem (dict_set d k v) k' = String.eqb k k' || dict_mem d k'.
Proof.
  induction d as [|[k0 v0] d IH]; cbn [dict_set dict_mem].
  - reflexivity.
  - destruct (String.eqb_spec k0 k) as [-> | Hk]; cbn [dict_mem].
    + destruct (String.eqb k k'); reflexivity.
    + rewrite IH. destruct (String.eqb k0 k'), (String.eqb k k'); reflexivity.
Qed.

Lemma dict_remove_absent (d : pydict) (k : string) :
  dict_mem d k = false -> dict_remove d k = d.
Proof.
  induction d as [|[k0 v0] d IH]; cbn [dict_mem dict_remove]; [reflexivity|].
  intros H. apply orb_false_iff in H. destruct H as [H1 H2].
  rewrite H1, (IH H2). reflexivity.
Qed.

Lemma dict_remove_set (d : pydict) (k : string) (v : pyval) :
  dict_remove (dict_set d k v) k = dict_remove d k.
Proof.
  induction d as [|[k0 v0] d IH]; cbn [dict_set dict_remove].
  - rewrite String.eqb_refl. reflexivity.
  - destruct (String.eqb k0 k) eqn:E; cbn [dict_remove].
    + rewrite String.eqb_refl. reflexivity.
    + rewrite E, IH. reflexivity.
Qed.

Lemma keys_dict_set (d : pydict) (k : string) (v : pyval) :
  NoDup (map fst d) -> NoDup (map fst (dict_set d k v)).
Proof.
  intros Hnd.
  assert (Hkeys : forall x, In x (map fst (dict_set d k v)) ->
                            x = k \/ In x (map fst d)).
  { induction d as [|[k0 v0] d IH]; cbn [dict_set map fst In].
    - intros x [E | []]. left. symmetry. exact E.
    - destruct (String.eqb_spec k0 k) as [-> | Hk]; cbn [map fst In].
      + intros x [E | H]; [left; symmetry; exact E | right; right; exact H].
      + inversion Hnd; subst.
        intros x [E | H]; [right; left; exact E|].
        destruct (IH ltac:(assumption) x H) as [E | H'];
          [left; exact E | right; right; exact H']. }
  clear Hkeys. induction d as [|[k0 v0] d IH]; cbn [dict_set map fst].
  - constructor; [intros [] | constructor].
  - inversion Hnd as [|? ? Hk0 Hd]; subst.
    destruct (String.eqb_spec k0 k) as [-> | Hk]; cbn [map fst].
    + constructor; assumption.
    + constructor; [|exact (IH Hd)].
      intros Hin. apply Hk0. clear IH Hnd Hk0 Hd.
      induction d as [|[k1 v1] d IH]; cbn [dict_set map fst In] in *.
      * destruct Hin as [E | []]. exfalso. apply Hk. symmetry. exact E.
      * destruct (String.eqb_spec k1 k) as [-> | Hk1]; cbn [map fst In] in Hin.
        -- destruct Hin as [E | H]; [exfalso; apply Hk; symmetry; exact E|].
           right. exact H.
        -- destruct Hin as [E | H]; [left; exact E | right; exact (IH H)].
Qed.

(** X19. A record that [fetch_web_page] returns has the url and the
    fetch time of this fetch in [url] and [fetched_at], whatever the
    extraction put under these names, and keeps distinct keys. Its
    [content_hash] is the hash of the record taken when the hash field
    was not yet written: when the extraction produced no field named
    [content_hash], it is the hash of the record without its
    [content_hash] field, so it can be checked against the stored
    record. *)
Theorem X19_fetched_record_fields
    (extracted : pydict) (url utcnow : string) :
  exists record,
    ScrapingService.fetch_web_page (Ok extracted) url utcnow = Ok record
    /\ dict_get record "url" = PStr url
    /\ dict_get record "fetched_at" = PStr utcnow
    /\ (NoDup (map fst extracted) -> NoDup (map fst record))
    /\ (forall k, k <> "url" -> k <> "fetched_at" -> k <> "content_hash" ->
                  dict_get record k = dict_get extracted k)
    /\ (dict_mem extracted "content_hash" = false ->
        Workers.content_hash_of record
        = Some (ScrapingService._generate_hash (dict_remove record "content_hash"))).
Proof.
  eexists. split; [reflexivity|].
  split.
  { rewrite dict_get_set_other by discriminate.
    rewrite dict_get_set_other by discriminate.
    apply dict_get_set_same. }
  split.
  { rewrite dict_get_set_other by discriminate. apply dict_get_set_same. }
  split; [intros Hnd; repeat apply keys_dict_set; exact Hnd|].
  split.
  { intros k H1 H2 H3.
    rewrite !dict_get_set_other by (intros E; symmetry in E; contradiction).
    reflexivity. }
  intros Hno. unfold Workers.content_hash_of.
  rewrite dict_get_set_same, dict_remove_set, dict_remove_absent; [reflexivity|].
  rewrite !dict_mem_set, Hno. reflexivity.
Qed.

Lemma X19_fetched_record_fields_witness :
  Workers.content_hash_of Examples.page
  = Some (ScrapingService._generate_hash (dict_remove Examples.page "content_hash")).
Proof.
  destruct (X19_fetched_record_fields [("title", PStr "Example Domain")]
              "https://example.org" "2024-01-01T00:00:00.000001")
    as [record [Hrec [_ [_ [_ [_ H]]]]]].
  assert (E : Ok record = Ok Examples.page)
    by (rewrite <- Hrec; vm_compute; reflexivity).
  injection E as E. rewrite <- E. apply H. reflexivity.
Defined.

(** X20. Two records of the social service that agree on [id] and
    [platform] get the same content hash, whatever their other fields
    (text, counters, dates). Hence the loop that stores raw events
    drops the second when the first is stored already, as it is when
    the two come in successive runs, whatever the session and the
    table; when the two come in one extraction and no row has the
    hash, it keeps the first and drops the second if the session
    flushes before a query, and stores both if it does not. *)
Theorem X20_social_records_dedup_by_id
    (item1 item2 : pydict) :
  (forall k, In k SocialService.hash_fields ->
             dict_mem item1 k = dict_mem item2 k
             /\ dict_get item1 k = dict_get item2 k) ->
  let record1 := SocialRecords.with_content_hash item1 in
  let record2 := SocialRecords.with_content_hash item2 in
  let h := Some (SocialService._generate_hash item1) in
  Workers.content_hash_of record1 = h
  /\ Workers.content_hash_of record2 = h
  /\ (forall cfg committed source_id platform,
        In h (map RawEvent.content_hash committed) ->
        Workers.store_loop cfg committed source_id platform [record2] = ([], 0))
  /\ (forall cfg committed source_id platform,
        ~ In h (map RawEvent.content_hash committed) ->
        Workers.store_loop cfg committed source_id platform [record1; record2]
        = if autoflush cfg
          then ([RawEvent.mk_init source_id platform record1 h], 1)
          else ([RawEvent.mk_init source_id platform record1 h;
                 RawEvent.mk_init source_id platform record2 h], 2)).
Proof.
  intros Hsame record1 record2 h.
  pose proof (social_hash_stable_fields item1 item2 Hsame) as Hhash.
  assert (H1 : Workers.content_hash_of record1 = h).
  { unfold Workers.content_hash_of, record1, SocialRecords.with_content_hash.
    rewrite dict_get_set_same. reflexivity. }
  assert (H2 : Workers.content_hash_of record2 = h).
  { unfold Workers.content_hash_of, record2, SocialRecords.with_content_hash, h.
    rewrite dict_get_set_same, Hhash. reflexivity. }
  split; [exact H1|]. split; [exact H2|]. split.
  - intros cfg committed source_id platform Hin.
    unfold Workers.store_loop, Workers.store_step. cbn [fold_left].
    rewrite H2.
    destruct (existsb (Workers.has_hash h) committed) eqn:E; [reflexivity|].
    apply no_row_with_hash in E. contradiction.
  - intros cfg committed source_id platform Hfresh.
    apply no_row_with_hash in Hfresh.
    unfold Workers.store_loop, Workers.store_step. cbn [fold_left existsb].
    rewrite H1, H2, Hfresh. cbn [orb andb negb app existsb].
    rewrite Bool.andb_false_r. cbn [negb app].
    unfold Workers.has_hash_init, h.
    cbn [existsb RawEvent.i_content_hash opt_str_eqb].
    rewrite String.eqb_refl.
    destruct (autoflush cfg); reflexivity.
Qed.

Lemma X20_social_records_dedup_by_id_witness :
  let record1 :=
    SocialRecords.with_content_hash
      [("id", PStr "tweet_123456"); ("text", PStr "first");
       ("platform", PStr "twitter")] in
  let record2 :=
    SocialRecords.with_content_hash
      [("id", PStr "tweet_123456"); ("text", PStr "second");
       ("likes", PInt 7); ("platform", PStr "twitter")] in
  Workers.content_hash_of record1 = Workers.content_hash_of record2
  /\ Workers.store_loop (mkSessionConfig false) [] 1 "twitter" [record1; record2]
     = ([RawEvent.mk_init 1 "twitter" record1 (Workers.content_hash_of record1);
         RawEvent.mk_init 1 "twitter" record2 (Workers.content_hash_of record1)],
        2)
  /\ Workers.store_loop (mkSessionConfig true) [] 1 "twitter" [record1; record2]
     = ([RawEvent.mk_init 1 "twitter" record1 (Workers.content_hash_of record1)],
        1).
Proof.
  intros record1 record2.
  destruct (X20_social_records_dedup_by_id
              [("id", PStr "tweet_123456"); ("text", PStr "first");
               ("platform", PStr "twitter")]
              [("id", PStr "tweet_123456"); ("text", PStr "second");
               ("likes", PInt 7); ("platform", PStr "twitter")])
    as [H1 [H2 [_ Hloop]]].
  - intros k [<- | [<- | []]]; split; reflexivity.
  - fold record1 in H1, Hloop. fold record2 in H2, Hloop.
    split; [rewrite H1, H2; reflexivity|].
    rewrite H1. split.
    + apply (Hloop (mkSessionConfig false) [] 1 "twitter"). intros [].
    + apply (Hloop (mkSessionConfig true) [] 1 "twitter"). intros [].
Defined.

(* ------------------------------------------------------------------ *)
(** ** Requests with retries *)

(** [request_from] stops at the first request that is not an HTTP
    error, or when the retries are used up. *)
Lemma request_from_spec (client : nat -> ScrapingHttp.Attempt) (left : nat) :
  forall retries,
    exists k,
      (k <= left)%nat
      /\ ScrapingHttp.requests_made
           (snd (ScrapingHttp.request_from client left retries)) = S k
      /\ ScrapingHttp.backoff_seconds
           (snd (ScrapingHttp.request_from client left retries))
         = 2 ^ Z.of_nat (retries + k) - 2 ^ Z.of_nat retries
      /\ (forall j, (j < k)%nat ->
                    exists e, client (retries + j)%nat = ScrapingHttp.HTTPError e)
      /\ match client (retries + k)%nat with
         | ScrapingHttp.Response text =>
             fst (ScrapingHttp.request_from client left retries) = Ok text
         | ScrapingHttp.OtherError e =>
             fst (ScrapingHttp.request_from client left retries) = Err e
         | ScrapingHttp.HTTPError e =>
             k = left
             /\ fst (ScrapingHttp.request_from client left retries) = Err e
         end.
Proof.
  induction left as [|left IH]; intros retries; cbn [ScrapingHttp.request_from].
  - exists 0%nat. rewrite Nat.add_0_r.
    destruct (client retries) as [text | e | e]; cbn [fst snd];
      (split; [lia|]); (split; [reflexivity|]);
      (split; [cbn; lia|]); (split; [intros j Hj; lia|]); auto.
  - destruct (client retries) as [text | e | e] eqn:Hc.
    + exists 0%nat. rewrite Nat.add_0_r, Hc. cbn [fst snd].
      split; [lia|]. split; [reflexivity|]. split; [cbn; lia|].
      split; [intros j Hj; lia | reflexivity].
    + destruct (IH (S retries)) as [k [Hk [Hreq [Hback [Hbefore Hat]]]]].
      destruct (ScrapingHttp.request_from client left (S retries)) as [r sleeps].
      cbn [fst snd] in *. exists (S k).
      split; [lia|].
      split.
      { unfold ScrapingHttp.requests_made in *. simpl. rewrite Hreq.
        reflexivity. }
      split.
      { unfold ScrapingHttp.backoff_seconds in *. cbn [fold_right].
        rewrite Hback.
        replace (retries + S k)%nat with (S retries + k)%nat by lia.
        rewrite (Nat2Z.inj_succ retries), Z.pow_succ_r by lia. lia. }
      split.
      { intros j Hj. destruct j as [|j].
        - rewrite Nat.add_0_r. exists e. exact Hc.
        - replace (retries + S j)%nat with (S retries + j)%nat by lia.
          apply Hbefore. lia. }
      replace (retries + S k)%nat with (S retries + k)%nat by lia.
      destruct (client (S retries + k)%nat); [exact Hat | | exact Hat].
      destruct Hat as [-> Hr]. split; [reflexivity | exact Hr].
    + exists 0%nat. rewrite Nat.add_0_r, Hc. cbn [fst snd].
      split; [lia|]. split; [reflexivity|]. split; [cbn; lia|].
      split; [intros j Hj; lia | reflexivity].
Qed.

(** X21. [_make_request] returns the page exactly when one of the
    first [MAX_RETRIES + 1] requests answers and every request before
    it failed with an HTTP error: an HTTP error is retried, any other
    exception is not. *)
Theorem X21_request_succeeds_on_first_answer
    (settings : Settings) (client : nat -> ScrapingHttp.Attempt) (text : string) :
  fst (ScrapingHttp._make_request settings client) = Ok text
  <-> exists k,
        Z.of_nat k <= Z.max 0 (MAX_RETRIES settings)
        /\ client k = ScrapingHttp.Response text
        /\ forall j, (j < k)%nat -> exists e, client j = ScrapingHttp.HTTPError e.
Proof.
  unfold ScrapingHttp._make_request.
  destruct (request_from_spec client (Z.to_nat (MAX_RETRIES settings)) 0)
    as [k [Hk [_ [_ [Hbefore Hat]]]]].
  cbn [Nat.add] in Hbefore, Hat.
  split.
  - intros Hok. exists k. split; [lia|]. split; [|exact Hbefore].
    destruct (client k) as [t | e | e].
    + rewrite Hat in Hok. injection Hok as ->. reflexivity.
    + destruct Hat as [_ Hat]. rewrite Hat in Hok. discriminate Hok.
    + rewrite Hat in Hok. discriminate Hok.
  - intros [k' [Hk' [Hresp Hbefore']]].
    assert (k = k').
    { destruct (Nat.lt_trichotomy k k') as [Hlt | [E | Hgt]]; [|exact E|].
      - destruct (Hbefore' k Hlt) as [e He]. rewrite He in Hat.
        destruct Hat as [E _]. lia.
      - destruct (Hbefore k' Hgt) as [e He]. rewrite He in Hresp.
        discriminate Hresp. }
    subst k'. rewrite Hresp in Hat. exact Hat.
Qed.

(** X22. [_make_request] makes at most [MAX_RETRIES + 1] requests,
    each after the rate limit delay, and between them sleeps 1, 2, 4,
    ... seconds: after [n] requests it has slept [2^(n-1) - 1] seconds
    of backoff. An exception that is not an HTTP error ends it at the
    request where it occurs, the first or a later one, and is raised
    without another request; when every allowed request fails with an
    HTTP error, the error of the last one is raised; an answer ends it
    as well, and the page that is returned is the answer of the last
    request made. *)
Theorem X22_request_attempts_and_backoff
    (settings : Settings) (client : nat -> ScrapingHttp.Attempt) :
  let out := ScrapingHttp._make_request settings client in
  let n := ScrapingHttp.requests_made (snd out) in
  (1 <= n)%nat
  /\ Z.of_nat n <= Z.max 0 (MAX_RETRIES settings) + 1
  /\ ScrapingHttp.backoff_seconds (snd out) = 2 ^ (Z.of_nat n - 1) - 1
  /\ (forall k e,
        Z.of_nat k <= Z.max 0 (MAX_RETRIES settings) ->
        (forall j, (j < k)%nat ->
                   exists e', client j = ScrapingHttp.HTTPError e') ->
        client k = ScrapingHttp.OtherError e ->
        fst out = Err e /\ n = S k)
  /\ (forall e,
        (forall j, (j < Z.to_nat (MAX_RETRIES settings))%nat ->
                   exists e', client j = ScrapingHttp.HTTPError e') ->
        client (Z.to_nat (MAX_RETRIES settings)) = ScrapingHttp.HTTPError e ->
        fst out = Err e /\ n = S (Z.to_nat (MAX_RETRIES settings)))
  /\ (forall k result,
        Z.of_nat k <= Z.max 0 (MAX_RETRIES settings) ->
        (forall j, (j < k)%nat ->
                   exists e', client j = ScrapingHttp.HTTPError e') ->
        client k = ScrapingHttp.Response result ->
        fst out = Ok result /\ n = S k)
  /\ (forall result, fst out = Ok result ->
                     client (n - 1)%nat = ScrapingHttp.Response result).
Proof.
  intros out n. subst n out. unfold ScrapingHttp._make_request.
  destruct (request_from_spec client (Z.to_nat (MAX_RETRIES settings)) 0)
    as [k0 [Hk [Hreq [Hback [Hbefore Hat]]]]].
  cbn [Nat.add] in Hback, Hat, Hbefore. rewrite Hreq.
  split; [lia|]. split; [lia|].
  split.
  { rewrite Hback. replace (Z.of_nat (S k0) - 1) with (Z.of_nat k0) by lia.
    reflexivity. }
  split.
  { intros k e Hle Hbefore' Hother.
    assert (k0 = k).
    { destruct (Nat.lt_trichotomy k0 k) as [Hlt | [E | Hgt]]; [|exact E|].
      - destruct (Hbefore' k0 Hlt) as [e' He']. rewrite He' in Hat.
        destruct Hat as [E _]. lia.
      - destruct (Hbefore k Hgt) as [e' He']. rewrite He' in Hother.
        discriminate Hother. }
    subst k0. rewrite Hother in Hat. split; [exact Hat | reflexivity]. }
  split.
  { intros e Hbefore' Hlast.
    assert (k0 = Z.to_nat (MAX_RETRIES settings)).
    { destruct (Nat.eq_dec k0 (Z.to_nat (MAX_RETRIES settings))) as [E | Hne];
        [exact E|].
      assert (Hlt : (k0 < Z.to_nat (MAX_RETRIES settings))%nat) by lia.
      destruct (Hbefore' k0 Hlt) as [e' He']. rewrite He' in Hat.
      destruct Hat as [E _]. exact E. }
    subst k0. rewrite Hlast in Hat. destruct Hat as [_ Hat].
    split; [exact Hat | reflexivity]. }
  split.
  { intros k result Hle Hbefore' Hresp.
    assert (k0 = k).
    { destruct (Nat.lt_trichotomy k0 k) as [Hlt | [E | Hgt]]; [|exact E|].
      - destruct (Hbefore' k0 Hlt) as [e' He']. rewrite He' in Hat.
        destruct Hat as [E _]. lia.
      - destruct (Hbefore k Hgt) as [e' He']. rewrite He' in Hresp.
        discriminate Hresp. }
    subst k0. rewrite Hresp in Hat. split; [exact Hat | reflexivity]. }
  intros result Hok. replace (S k0 - 1)%nat with k0 by lia.
  destruct (client k0) as [t | e | e].
  - rewrite Hat in Hok. injection Hok as ->. reflexivity.
  - destruct Hat as [_ Hat]. rewrite Hat in Hok. discriminate Hok.
  - rewrite Hat in Hok. discriminate Hok.
Qed.


(* ------------------------------------------------------------------ *)
(** ** Extraction over several urls *)

Lemma make_request_all_http_errors
    (settings : Settings) (client : nat -> ScrapingHttp.Attempt) (msg : string) :
  (forall n, client n = ScrapingHttp.HTTPError msg) ->
  fst (ScrapingHttp._make_request settings client) = Err msg.
Proof.
  intros Hdown. unfold ScrapingHttp._make_request.
  destruct (request_from_spec client (Z.to_nat (MAX_RETRIES settings)) 0)
    as [k [_ [_ [_ [_ Hat]]]]].
  rewrite (Hdown (0 + k)%nat) in Hat. exact (proj2 Hat).
Qed.

Lemma fetch_web_page_down
    (settings : Settings) (web : ScrapingHttp.Web) (url msg : string)
    (selectors : pyval) :
  (forall n, ScrapingHttp.client_get web url n = ScrapingHttp.HTTPError msg) ->
  ScrapingHttp.fetch_web_page settings web (PStr url) selectors = Err msg.
Proof.
  intros Hdown. unfold ScrapingHttp.fetch_web_page.
  rewrite (make_request_all_http_errors settings _ msg Hdown). reflexivity.
Qed.

Lemma in_bulk_fetch
    (settings : Settings) (web : ScrapingHttp.Web) (urls : list pyval)
    (record : pydict) :
  In record (ScrapingHttp.bulk_fetch settings web urls)
  <-> exists url,
        In url urls
        /\ ScrapingHttp.fetch_web_page settings web url PNone = Ok record.
Proof.
  unfold ScrapingHttp.bulk_fetch. rewrite in_flat_map.
  split; intros [url [Hin H]]; exists url; (split; [exact Hin|]).
  - destruct (ScrapingHttp.fetch_web_page settings web url PNone) as [r | e].
    + destruct H as [<- | []]. reflexivity.
    + destruct H.
  - rewrite H. left. reflexivity.
Qed.

Lemma length_bulk_fetch
    (settings : Settings) (web : ScrapingHttp.Web) (urls : list pyval) :
  (List.length (ScrapingHttp.bulk_fetch settings web urls) <= List.length urls)%nat.
Proof.
  unfold ScrapingHttp.bulk_fetch.
  induction urls as [|url urls IH]; [apply le_n|].
  cbn [flat_map]. rewrite List.length_app. cbn [List.length].
  destruct (ScrapingHttp.fetch_web_page settings web url PNone);
    cbn [List.length]; lia.
Qed.

Lemma bulk_fetch_all_down
    (settings : Settings) (web : ScrapingHttp.Web) (urls : list string)
    (msg : string) :
  (forall url n, In url urls ->
                 ScrapingHttp.client_get web url n = ScrapingHttp.HTTPError msg) ->
  ScrapingHttp.bulk_fetch settings web (map PStr urls) = [].
Proof.
  intros Hdown. unfold ScrapingHttp.bulk_fetch.
  induction urls as [|url urls IH]; [reflexivity|].
  cbn [map flat_map].
  rewrite (fetch_web_page_down settings web url msg PNone)
    by (intros n; apply Hdown; left; reflexivity).
  apply IH. intros u n Hin. apply Hdown. right. exact Hin.
Qed.

(** X23. With two or more urls in its config, the web extraction of
    the workers never raises: through [bulk_fetch] it returns the
    records of exactly the urls whose fetch succeeded, each fetched
    without the selectors of the source, so there are at most as many
    records as urls. *)
Theorem X23_several_urls_never_raise
    (settings : Settings) (web : ScrapingHttp.Web) (urls : list pyval)
    (selectors : pyval) :
  (2 <= List.length urls)%nat ->
  exists results,
    ScrapingHttp._extract_web_data settings web (PList urls) selectors = Ok results
    /\ (List.length results <= List.length urls)%nat
    /\ forall record,
         In record results
         <-> exists url,
               In url urls
               /\ ScrapingHttp.fetch_web_page settings web url PNone = Ok record.
Proof.
  intros Hlen. exists (ScrapingHttp.bulk_fetch settings web urls).
  split.
  { destruct urls as [|u [|u' rest]]; cbn [List.length] in Hlen; try lia.
    reflexivity. }
  split; [apply length_bulk_fetch|].
  intros record. apply in_bulk_fetch.
Qed.

Lemma X23_several_urls_never_raise_witness :
  exists results,
    ScrapingHttp._extract_web_data Examples.settings_on SamplesWeb.flaky
      (PList [PStr "https://a.example"; PStr "https://b.example"]) PNone
    = Ok results
    /\ (List.length results <= 2)%nat.
Proof.
  destruct (X23_several_urls_never_raise Examples.settings_on SamplesWeb.flaky
              [PStr "https://a.example"; PStr "https://b.example"] PNone (le_n 2))
    as [results [Hok [Hlen _]]].
  exists results. split; [exact Hok | exact Hlen].
Defined.

(** The final row of a scraping job whose extraction returned
    nothing. *)
Lemma scraping_job_nothing_extracted
    (cfg : SessionConfig) (ext : Workers.Extractors) (t0 t1 : Z) (db : DB)
    (job_id source_id : Z) (job : Job.t) (source : Source.t) :
  query_job db job_id = Some job ->
  query_source db source_id = Some source ->
  extracted_for ext source = Ok [] ->
  let trace := Workers.process_scraping_job cfg ext t0 t1 db job_id source_id in
  Forall (fun d => raw_events d = raw_events db) trace
  /\ exists job',
       query_job (final db trace) job_id = Some job'
       /\ Job.status job' = "completed"
       /\ Job.error_message job' = Job.error_message job
       /\ Job.output_data job'
          = PDict [("events_extracted", PInt 0); ("new_events", PInt 0);
                   ("duplicates_filtered", PInt 0)].
Proof.
  intros Hq Hs Hext trace. subst trace.
  rewrite (process_scraping_job_returns cfg ext t0 t1 db job_id source_id job
             source [] Hq Hs Hext).
  cbv zeta. cbn [Workers.store_loop fold_left fst snd Workers.commit_events
                 List.length Z.of_nat Z.sub Z.opp Z.add].
  pose proof (find_key Job.id _ _ _ Hq) as Hid.
  split; [repeat constructor|].
  eexists. split.
  { cbn [final last].
    apply (query_job_update _ job_id
             (Job.set_progress
                (Job.set_progress
                   (Job.set_started_at (Job.set_status job "running") t0) 0%Q)
                (1 # 2)%Q)); [|exact Hid].
    apply (query_job_update _ job_id
             (Job.set_progress
                (Job.set_started_at (Job.set_status job "running") t0) 0%Q));
      [|exact Hid].
    apply (query_job_update db job_id job); [exact Hq | exact Hid]. }
  repeat split; reflexivity.
Qed.

(** The final row of a scraping job whose extraction raised. *)
Lemma scraping_job_extraction_raised
    (cfg : SessionConfig) (ext : Workers.Extractors) (t0 t1 : Z) (db : DB)
    (job_id source_id : Z) (job : Job.t) (source : Source.t) (msg : string) :
  query_job db job_id = Some job ->
  query_source db source_id = Some source ->
  extracted_for ext source = Err msg ->
  let trace := Workers.process_scraping_job cfg ext t0 t1 db job_id source_id in
  Forall (fun d => raw_events d = raw_events db) trace
  /\ exists job',
       query_job (final db trace) job_id = Some job'
       /\ Job.status job' = "failed"
       /\ Job.error_message job' = Some msg
       /\ Job.output_data job' = Job.output_data job.
Proof.
  intros Hq Hs Hext trace. subst trace.
  rewrite (process_scraping_job_raises cfg ext t0 t1 db job_id source_id job msg
             Hq (or_intror (ex_intro _ source (conj Hs Hext)))).
  cbv zeta. pose proof (find_key Job.id _ _ _ Hq) as Hid.
  split; [repeat constructor|].
  eexists. split.
  { cbn [final last]. unfold Workers.fail_job.
    apply (query_job_update _ job_id
             (Job.set_progress
                (Job.set_started_at (Job.set_status job "running") t0) 0%Q)).
    - apply (query_job_update db job_id job); [exact Hq | exact Hid].
    - exact Hid. }
  repeat split; reflexivity.
Qed.

(** X24. A web source whose site fails every request with an HTTP
    error: with one url in its config the scraping job ends failed,
    with the message of the error; with several urls (or none) the
    errors are swallowed by [bulk_fetch] and the job ends completed,
    reporting zero events extracted and no error. In both cases no raw
    event is stored. *)
Theorem X24_site_down_fails_only_single_url_jobs
    (settings : Settings) (web : ScrapingHttp.Web)
    (social : Source.t -> Result (list pydict))
    (cfg : SessionConfig) (t0 t1 : Z) (db : DB) (job_id source_id : Z)
    (job : Job.t) (source : Source.t) (urls : list string) (msg : string) :
  query_job db job_id = Some job ->
  query_source db source_id = Some source ->
  Source.type source = "web" ->
  dict_get (Source.config source) "urls" = PList (map PStr urls) ->
  (forall url n, In url urls ->
                 ScrapingHttp.client_get web url n = ScrapingHttp.HTTPError msg) ->
  let trace :=
    Workers.process_scraping_job cfg (ScrapingHttp.extractors settings web social)
      t0 t1 db job_id source_id in
  Forall (fun d => raw_events d = raw_events db) trace
  /\ exists job',
       query_job (final db trace) job_id = Some job'
       /\ if (List.length urls =? 1)%nat
          then Job.status job' = "failed" /\ Job.error_message job' = Some msg
          else Job.status job' = "completed"
               /\ Job.error_message job' = Job.error_message job
               /\ Job.output_data job'
                  = PDict [("events_extracted", PInt 0); ("new_events", PInt 0);
                           ("duplicates_filtered", PInt 0)].
Proof.
  intros Hq Hs Hweb Hcfg Hdown trace. subst trace.
  assert (Hext : extracted_for (ScrapingHttp.extractors settings web social) source
                 = ScrapingHttp._extract_web_data settings web
                     (PList (map PStr urls))
                     (dict_get (Source.config source) "selectors")).
  { unfold extracted_for. rewrite Hweb.
    cbn [ScrapingHttp.extractors Workers._extract_web_data].
    rewrite Hcfg. reflexivity. }
  destruct urls as [|u [|u' rest]].
  - cbn [List.length Nat.eqb].
    destruct (scraping_job_nothing_extracted cfg _ t0 t1 db job_id source_id job
                source Hq Hs Hext) as [Hraw [job' [Hj [Hst [Herr Hout]]]]].
    split; [exact Hraw|]. exists job'. auto.
  - cbn [List.length Nat.eqb].
    assert (Hfail : extracted_for (ScrapingHttp.extractors settings web social)
                      source = Err msg).
    { rewrite Hext. unfold ScrapingHttp._extract_web_data.
      cbn [map truthy negb elements bind].
      rewrite (fetch_web_page_down settings web u msg)
        by (intros n; apply Hdown; left; reflexivity).
      reflexivity. }
    destruct (scraping_job_extraction_raised cfg _ t0 t1 db job_id source_id job
                source msg Hq Hs Hfail) as [Hraw [job' [Hj [Hst [Herr _]]]]].
    split; [exact Hraw|]. exists job'. auto.
  - cbn [List.length Nat.eqb].
    assert (Hnone : extracted_for (ScrapingHttp.extractors settings web social)
                      source = Ok []).
    { rewrite Hext. unfold ScrapingHttp._extract_web_data.
      cbn [map truthy negb elements bind].
      change (PStr u :: PStr u' :: map PStr rest)
        with (map PStr (u :: u' :: rest)).
      rewrite (bulk_fetch_all_down settings web (u :: u' :: rest) msg Hdown).
      reflexivity. }
    destruct (scraping_job_nothing_extracted cfg _ t0 t1 db job_id source_id job
                source Hq Hs Hnone) as [Hraw [job' [Hj [Hst [Herr Hout]]]]].
    split; [exact Hraw|]. exists job'. auto.
Qed.

Lemma X24_site_down_fails_only_single_url_jobs_witness :
  exists job',
    query_job
      (final SamplesWeb.db_two_urls
         (Workers.process_scraping_job Samples.flushing
            (ScrapingHttp.extractors Examples.settings_on SamplesWeb.down
               (fun _ => Ok []))
            400 401 SamplesWeb.db_two_urls 1 1)) 1 = Some job'
    /\ Job.status job' = "completed".
Proof.
  destruct (X24_site_down_fails_only_single_url_jobs Examples.settings_on
              SamplesWeb.down (fun _ => Ok []) Samples.flushing 400 401
              SamplesWeb.db_two_urls 1 1 Samples.scrape_job
              SamplesWeb.two_urls_source
              ["https://a.example"; "https://b.example"]
              "503 Service Unavailable"
              eq_refl eq_refl eq_refl eq_refl (fun _ _ _ => eq_refl))
    as [_ [job' [Hq Hrest]]].
  exists job'. split; [exact Hq | exact (proj1 Hrest)].
Defined.


(* ------------------------------------------------------------------ *)
(** ** Deleting jobs *)

Lemma find_filter_other {A} (key : A -> Z) (l : list A) (k gone : Z) :
  k <> gone ->
  find (fun y => key y =? k) (filter (fun y => negb (key y =? gone)) l)
  = find (fun y => key y =? k) l.
Proof.
  intros Hne. induction l as [|y l IH]; cbn [find filter]; [reflexivity|].
  destruct (Z.eqb_spec (key y) gone) as [E | E]; cbn [negb].
  - destruct (Z.eqb_spec (key y) k) as [E' | _]; [lia | exact IH].
  - cbn [find]. destruct (key y =? k); [reflexivity | exact IH].
Qed.

Lemma find_filter_gone {A} (key : A -> Z) (l : list A) (gone : Z) :
  find (fun y => key y =? gone) (filter (fun y => negb (key y =? gone)) l) = None.
Proof.
  induction l as [|y l IH]; cbn [find filter]; [reflexivity|].
  destruct (key y =? gone) eqn:E; cbn [negb]; [exact IH|].
  cbn [find]. rewrite E. exact IH.
Qed.

(** X25. [delete_job] deletes a job only when it exists and is
    neither running nor pending: then a lookup of its id finds
    nothing, and every other job, and every other table, is as
    before. Else it raises, 404 for a missing job and 400 for a
    running or pending one, and the database is untouched. *)
Theorem X25_delete_job_outcomes (db : DB) (job_id : Z) :
  let out := RoutesJobs.delete_job db job_id in
  match snd out with
  | RoutesOracle.Return _ =>
      (exists job, query_job db job_id = Some job
                   /\ Job.status job <> "running"
                   /\ Job.status job <> "pending")
      /\ query_job (fst out) job_id = None
      /\ (forall k, k <> job_id -> query_job (fst out) k = query_job db k)
      /\ sources (fst out) = sources db
      /\ raw_events (fst out) = raw_events db
      /\ datasets (fst out) = datasets db
      /\ analysis_results (fst out) = analysis_results db
      /\ oracle_signals (fst out) = oracle_signals db
      /\ oracle_queue (fst out) = oracle_queue db
  | RoutesOracle.HTTPException code _ =>
      fst out = db
      /\ ((code = 404 /\ query_job db job_id = None)
          \/ (code = 400
              /\ exists job, query_job db job_id = Some job
                             /\ (Job.status job = "running"
                                 \/ Job.status job = "pending")))
  end.
Proof.
  intros out. subst out. unfold RoutesJobs.delete_job.
  destruct (query_job db job_id) as [job|] eqn:Hq; cbn [fst snd].
  2: { split; [reflexivity|]. left. split; reflexivity. }
  pose proof (find_key Job.id _ _ _ Hq) as Hid.
  unfold str_in. cbn [existsb].
  destruct (String.eqb_spec (Job.status job) "running") as [Hr | Hr];
    cbn [orb fst snd].
  { split; [reflexivity|]. right. split; [reflexivity|]. exists job. auto. }
  destruct (String.eqb_spec (Job.status job) "pending") as [Hp | Hp];
    cbn [orb fst snd].
  { split; [reflexivity|]. right. split; [reflexivity|]. exists job. auto. }
  rewrite Hid. split; [exists job; auto|].
  split; [apply (find_filter_gone Job.id)|].
  split; [intros k Hk; apply (find_filter_other Job.id); exact Hk|].
  repeat split; reflexivity.
Qed.

(* ------------------------------------------------------------------ *)
(** ** Cleaning up old jobs *)

Lemma length_filter_split {A} (f : A -> bool) (l : list A) :
  (List.length (filter f l) + List.length (filter (fun x => negb (f x)) l)
   = List.length l)%nat.
Proof.
  induction l as [|y l IH]; cbn [filter]; [reflexivity|].
  destruct (f y); cbn [negb List.length]; lia.
Qed.

Lemma is_old_terminal_spec (cutoff : Z) (j : Job.t) :
  RoutesJobs.is_old_terminal cutoff j = true
  <-> (Job.status j = "completed" \/ Job.status j = "failed")
      /\ Job.created_at j < cutoff.
Proof.
  unfold RoutesJobs.is_old_terminal, str_in. cbn [existsb].
  rewrite Bool.andb_true_iff, Z.ltb_lt, Bool.orb_false_r, Bool.orb_true_iff.
  rewrite !String.eqb_eq. reflexivity.
Qed.

(** X26. [cleanup_old_jobs], called with [days_old] in its range of 1
    to 90, deletes exactly the completed and failed jobs created
    before the cutoff of [days_old] days ago, and reports their
    number: the count and the jobs that remain add up to the jobs
    there were. A pending or running job is never deleted, however
    old, and no job created within the last day is, whatever
    [days_old]. The other tables are untouched. *)
Theorem X26_cleanup_deletes_old_terminal_jobs (now : Z) (db : DB) (days_old : Z) :
  1 <= days_old <= 90 ->
  exists db' deleted_count,
    RoutesJobs.cleanup_old_jobs now db days_old
    = Some (db', deleted_count, now - days_old * 86400)
    /\ deleted_count + Z.of_nat (List.length (jobs db'))
       = Z.of_nat (List.length (jobs db))
    /\ (forall j,
          In j (jobs db')
          <-> In j (jobs db)
              /\ ~ ((Job.status j = "completed" \/ Job.status j = "failed")
                    /\ Job.created_at j < now - days_old * 86400))
    /\ (forall j,
          In j (jobs db) ->
          Job.status j = "pending" \/ Job.status j = "running"
          \/ now - 86400 <= Job.created_at j ->
          In j (jobs db'))
    /\ sources db' = sources db
    /\ raw_events db' = raw_events db
    /\ datasets db' = datasets db
    /\ analysis_results db' = analysis_results db
    /\ oracle_signals db' = oracle_signals db
    /\ oracle_queue db' = oracle_queue db.
Proof.
  intros Hrange. unfold RoutesJobs.cleanup_old_jobs.
  assert (Hin : (1 <=? days_old) && (days_old <=? 90) = true).
  { apply Bool.andb_true_iff. split; apply Z.leb_le; lia. }
  rewrite Hin. unfold RoutesJobs.seconds_per_day.
  set (cutoff := now - days_old * 86400).
  eexists. eexists. split; [reflexivity|].
  assert (Hkept : forall j,
            In j (filter (fun j => negb (RoutesJobs.is_old_terminal cutoff j))
                         (jobs db))
            <-> In j (jobs db)
                /\ ~ ((Job.status j = "completed" \/ Job.status j = "failed")
                      /\ Job.created_at j < cutoff)).
  { intros j. rewrite filter_In, Bool.negb_true_iff.
    rewrite <- is_old_terminal_spec.
    destruct (RoutesJobs.is_old_terminal cutoff j); intuition congruence. }
  split.
  { cbn [jobs set_jobs].
    pose proof (length_filter_split (RoutesJobs.is_old_terminal cutoff) (jobs db)).
    lia. }
  split; [exact Hkept|].
  split.
  { intros j Hj Hwhy. apply Hkept. split; [exact Hj|].
    intros [Hst Hold].
    destruct Hwhy as [Hp | [Hr | Hrecent]].
    - rewrite Hp in Hst. destruct Hst as [H | H]; discriminate H.
    - rewrite Hr in Hst. destruct Hst as [H | H]; discriminate H.
    - subst cutoff. lia. }
  repeat split; reflexivity.
Qed.

Lemma X26_cleanup_deletes_old_terminal_jobs_witness :
  exists db' deleted_count,
    RoutesJobs.cleanup_old_jobs 950000 SamplesJobs.db_jobs 7
    = Some (db', deleted_count, 950000 - 7 * 86400)
    /\ deleted_count + Z.of_nat (List.length (jobs db')) = 3.
Proof.
  destruct (X26_cleanup_deletes_old_terminal_jobs 950000 SamplesJobs.db_jobs 7
              ltac:(lia))
    as [db' [n [Hrun [Hcount _]]]].
  exists db', n. split; [exact Hrun | exact Hcount].
Defined.


(* ------------------------------------------------------------------ *)
(** ** Triggers *)

Lemma find_app_found {A} (f : A -> bool) (l l' : list A) (x : A) :
  find f l = Some x -> find f (l ++ l') = Some x.
Proof.
  induction l as [|y l IH]; cbn [find app]; intros H.
  - discriminate H.
  - destruct (f y); [exact H | apply IH; exact H].
Qed.

(** The row that [add_job] adds: found under its id, which was not in
    use; the other lookups are unchanged. *)
Lemma add_job_row (now : Z) (db : DB) (type : string) (input_data : pyval) :
  let db1 := fst (add_job now db type input_data) in
  let job := snd (add_job now db type input_data) in
  query_job db (Job.id job) = None
  /\ query_job db1 (Job.id job) = Some job
  /\ (forall k, k <> Job.id job -> query_job db1 k = query_job db k).
Proof.
  cbv zeta. unfold add_job, query_job. cbn [fst snd jobs set_jobs Job.id].
  pose proof (find_fresh Job.id (jobs db)) as Hfresh.
  split; [exact Hfresh|].
  split.
  - rewrite (find_snoc _ _ _ Hfresh). cbn [Job.id]. rewrite Z.eqb_refl. reflexivity.
  - intros k Hk.
    destruct (find (fun j => Job.id j =? k) (jobs db)) as [j|] eqn:E.
    + rewrite (find_app_found _ _ _ _ E). reflexivity.
    + rewrite (find_snoc _ _ _ E). cbn [Job.id].
      destruct (Z.eqb_spec (next_id (map Job.id (jobs db))) k) as [E' | _];
        [congruence | reflexivity].
Qed.

Lemma collapse_pending_running (k : nat) (x : string) :
  x = "completed" \/ x = "failed" ->
  collapse ("pending" :: repeat "running" (S k) ++ [x])
  = ["pending"; "running"; x].
Proof.
  intros Hx.
  change (collapse ("pending" :: repeat "running" (S k) ++ [x]))
    with (match collapse (repeat "running" (S k) ++ [x]) with
          | [] => ["pending"]
          | y :: r => if String.eqb "pending" y then y :: r else "pending" :: y :: r
          end).
  rewrite (collapse_running k x Hx). reflexivity.
Qed.

(** X27. [trigger_extraction] on an enabled source commits one new
    job, pending, of type scrape, under an id that was not in use,
    returns it, and enqueues one task with that id and the source; the
    other jobs are as before. When the worker runs the task on the
    committed state, the job is seen pending, then running, then
    completed or failed. *)
Theorem X27_triggered_extraction_runs_to_an_end
    (now : Z) (db : DB) (source_id : Z) (source : Source.t)
    (cfg : SessionConfig) (ext : Workers.Extractors) (t0 t1 : Z) :
  query_source db source_id = Some source ->
  Source.enabled source = true ->
  exists db1 job,
    RoutesTriggers.trigger_extraction now db source_id
    = ([db1], [(Job.id job, source_id)], RoutesOracle.Return job)
    /\ query_job db (Job.id job) = None
    /\ query_job db1 (Job.id job) = Some job
    /\ (forall k, k <> Job.id job -> query_job db1 k = query_job db k)
    /\ Job.type job = "scrape"
    /\ Job.status job = "pending"
    /\ Job.input_data job = PDict [("source_id", PInt source_id)]
    /\ exists last_status,
         (last_status = "completed" \/ last_status = "failed")
         /\ collapse
              (job_statuses (Job.id job)
                 (db1 :: Workers.process_scraping_job cfg ext t0 t1 db1
                           (Job.id job) source_id))
            = ["pending"; "running"; last_status].
Proof.
  intros Hs Hen. unfold RoutesTriggers.trigger_extraction.
  rewrite Hs, Hen. cbn [negb].
  pose proof (add_job_row now db "scrape" (PDict [("source_id", PInt source_id)]))
    as Hrow.
  destruct (add_job now db "scrape" (PDict [("source_id", PInt source_id)]))
    as [db1 job] eqn:Hadd.
  cbv zeta in Hrow. cbn [fst snd] in Hrow.
  destruct Hrow as [Hfresh [Hq Hothers]].
  exists db1, job.
  unfold add_job in Hadd. injection Hadd as Hdb1 Hjob.
  split; [reflexivity|]. split; [exact Hfresh|]. split; [exact Hq|].
  split; [exact Hothers|].
  split; [rewrite <- Hjob; reflexivity|].
  split; [rewrite <- Hjob; reflexivity|].
  split; [rewrite <- Hjob; reflexivity|].
  destruct (worker_statuses db1 (Job.id job) job _ Hq
              (run_scraping db1 (Job.id job) cfg ext t0 t1 source_id))
    as [k [last_status [Hst Hlast]]].
  exists last_status. split; [exact Hlast|].
  rewrite (job_statuses_cons _ _ _ job Hq), Hst.
  assert (Hpending : Job.status job = "pending") by (rewrite <- Hjob; reflexivity).
  rewrite Hpending.
  apply (collapse_pending_running k last_status Hlast).
Qed.

Lemma X27_triggered_extraction_runs_to_an_end_witness :
  exists db1 job,
    RoutesTriggers.trigger_extraction 500 SamplesJobs.db_jobs 1
    = ([db1], [(Job.id job, 1)], RoutesOracle.Return job)
    /\ query_job db1 (Job.id job) = Some job.
Proof.
  destruct (X27_triggered_extraction_runs_to_an_end 500 SamplesJobs.db_jobs 1
              Examples.web_source Samples.flushing Samples.three_pages 600 601
              eq_refl eq_refl)
    as [db1 [job [Hrun [_ [Hq _]]]]].
  exists db1, job. split; [exact Hrun | exact Hq].
Defined.

(** X28. A trigger that refuses leaves no trace. [trigger_extraction]
    refuses exactly a missing source, with 404, and a disabled one,
    with 400; [trigger_analysis] refuses exactly a missing dataset,
    with 404. When they refuse they have committed nothing and
    enqueued nothing; when they return they have committed once and
    enqueued one task, for the job they answer with. *)
Theorem X28_refused_trigger_leaves_no_trace
    (now : Z) (db : DB) (source_id dataset_id : Z)
    (categories : option (list string)) :
  match RoutesTriggers.trigger_extraction now db source_id with
  | (commits, tasks, RoutesOracle.HTTPException code _) =>
      commits = [] /\ tasks = []
      /\ ((code = 404 /\ query_source db source_id = None)
          \/ (code = 400
              /\ exists source, query_source db source_id = Some source
                                /\ Source.enabled source = false))
  | (commits, tasks, RoutesOracle.Return job) =>
      List.length commits = 1%nat
      /\ tasks = [(Job.id job, source_id)]
      /\ exists source, query_source db source_id = Some source
                        /\ Source.enabled source = true
  end
  /\ match RoutesTriggers.trigger_analysis now db dataset_id categories with
     | (commits, tasks, RoutesOracle.HTTPException code _) =>
         commits = [] /\ tasks = [] /\ code = 404
         /\ query_dataset db dataset_id = None
     | (commits, tasks, RoutesOracle.Return job_id) =>
         List.length commits = 1%nat
         /\ tasks = [(job_id, dataset_id, categories)]
         /\ exists dataset, query_dataset db dataset_id = Some dataset
     end.
Proof.
  split.
  - unfold RoutesTriggers.trigger_extraction.
    destruct (query_source db source_id) as [source|] eqn:Hs.
    2: { split; [reflexivity|]. split; [reflexivity|]. left. split; reflexivity. }
    destruct (Source.enabled source) eqn:Hen; cbn [negb].
    + unfold add_job. split; [reflexivity|]. split; [reflexivity|].
      exists source. split; [reflexivity | exact Hen].
    + split; [reflexivity|]. split; [reflexivity|]. right.
      split; [reflexivity|]. exists source. split; [reflexivity | exact Hen].
  - unfold RoutesTriggers.trigger_analysis.
    destruct (query_dataset db dataset_id) as [dataset|] eqn:Hd.
    + unfold add_job. split; [reflexivity|]. split; [reflexivity|].
      exists dataset. reflexivity.
    + repeat split; reflexivity.
Qed.

(** The loop of [trigger_all_extractions] over the enabled sources. *)
Lemma trigger_all_loop (now : Z) (enabled : list Source.t) :
  forall (db : DB) (js : list (Job.t * Z)),
    exists new,
      fold_left
        (fun st source =>
           let '(d, js) := st in
           let '(d', j) :=
             add_job now d "scrape" (PDict [("source_id", PInt (Source.id source))]) in
           (d', (js ++ [(j, Source.id source)])%list))
        enabled (db, js)
      = (set_jobs db (jobs db ++ map fst new), js ++ new)%list
      /\ map snd new = map Source.id enabled
      /\ Forall (fun jt => Job.type (fst jt) = "scrape"
                           /\ Job.status (fst jt) = "pending"
                           /\ Job.input_data (fst jt)
                              = PDict [("source_id", PInt (snd jt))]
                           /\ Job.created_at (fst jt) = now) new
      /\ Forall (fun jt => ~ In (Job.id (fst jt)) (map Job.id (jobs db))) new
      /\ NoDup (map (fun jt => Job.id (fst jt)) new).
Proof.
  induction enabled as [|source enabled IH]; intros db js.
  - exists []. cbn [fold_left map]. rewrite !app_nil_r.
    split; [destruct db; reflexivity|].
    split; [reflexivity|].
    split; [constructor|]. split; constructor.
  - cbn [fold_left].
    pose (j := Job.mk (next_id (map Job.id (jobs db))) "scrape" "pending"
                 (PDict [("source_id", PInt (Source.id source))]) PNone 0%Q None now
                 None None).
    match goal with
    | |- context [fold_left _ enabled ?st] =>
        change st with (set_jobs db (jobs db ++ [j])%list,
                        (js ++ [(j, Source.id source)])%list)
    end.
    destruct (IH (set_jobs db (jobs db ++ [j])%list)
                 (js ++ [(j, Source.id source)])%list)
      as [new [Hfold [Hsrc [Hrows [Hfresh Hdistinct]]]]].
    exists ((j, Source.id source) :: new).
    split.
    { rewrite Hfold. cbn [jobs set_jobs map fst].
      rewrite <- !app_assoc. reflexivity. }
    split; [cbn [map snd]; rewrite Hsrc; reflexivity|].
    split.
    { apply Forall_cons; [|exact Hrows]. repeat split. }
    assert (Hj : ~ In (Job.id j) (map Job.id (jobs db)))
      by apply next_id_fresh.
    cbn [jobs set_jobs] in Hfresh. rewrite map_app in Hfresh.
    split.
    { apply Forall_cons; [exact Hj|].
      apply (Forall_impl _ (P := fun jt =>
               ~ In (Job.id (fst jt)) (map Job.id (jobs db) ++ map Job.id [j]))).
      - intros jt Hjt Hin. apply Hjt. apply in_or_app. left. exact Hin.
      - exact Hfresh. }
    cbn [map fst]. apply NoDup_cons; [|exact Hdistinct].
    intros Hin. apply in_map_iff in Hin. destruct Hin as [jt [Hid Hjt]].
    rewrite Forall_forall in Hfresh. apply (Hfresh jt Hjt).
    apply in_or_app. right. left. symmetry. exact Hid.
Qed.

Lemma tasks_of_created (new : list (Job.t * Z)) :
  map (fun js => (Job.id (fst js), snd js)) new
  = combine (map Job.id (map fst new)) (map snd new).
Proof.
  induction new as [|[j k] new IH]; [reflexivity|].
  cbn [map fst snd combine]. rewrite IH. reflexivity.
Qed.

Lemma rows_with_sources (P : Job.t -> Z -> Prop) (new : list (Job.t * Z)) :
  forall enabled : list Source.t,
    map snd new = map Source.id enabled ->
    Forall (fun jt => P (fst jt) (snd jt)) new ->
    Forall2 (fun job source => P job (Source.id source)) (map fst new) enabled.
Proof.
  induction new as [|[j k] new IH]; intros [|s enabled] Hsrc Hrows;
    try discriminate Hsrc.
  - constructor.
  - cbn [map fst snd] in *. injection Hsrc as Hk Hsrc.
    apply Forall_cons_iff in Hrows. destruct Hrows as [Hrow Hrows].
    cbn [fst snd] in Hrow. constructor.
    + rewrite <- Hk. exact Hrow.
    + apply IH; [exact Hsrc | exact Hrows].
Qed.

(** X29. [trigger_all_extractions] raises 404, and commits and
    enqueues nothing, when no source is enabled. Else it commits once:
    one new job per enabled source, pending, of type scrape, naming
    the source in its input, appended to the jobs there were; the new
    ids are distinct and none was in use; the tasks enqueued are those
    jobs with their sources, and the jobs are returned. *)
Theorem X29_trigger_all_extractions
    (now : Z) (db : DB) :
  let enabled := filter Source.enabled (sources db) in
  match enabled with
  | [] =>
      RoutesTriggers.trigger_all_extractions now db
      = ([], [], RoutesOracle.HTTPException 404 "No enabled sources found")
  | _ =>
      exists created,
        RoutesTriggers.trigger_all_extractions now db
        = ([set_jobs db (jobs db ++ created)],
           combine (map Job.id created) (map Source.id enabled),
           RoutesOracle.Return created)
        /\ List.length created = List.length enabled
        /\ Forall2 (fun job source =>
                      Job.type job = "scrape"
                      /\ Job.status job = "pending"
                      /\ Job.input_data job
                         = PDict [("source_id", PInt (Source.id source))])
                   created enabled
        /\ Forall (fun job => query_job db (Job.id job) = None) created
        /\ NoDup (map Job.id created)
  end.
Proof.
  intros enabled. subst enabled. unfold RoutesTriggers.trigger_all_extractions.
  destruct (trigger_all_loop now (filter Source.enabled (sources db)) db [])
    as [new [Hfold [Hsrc [Hrows [Hfresh Hdistinct]]]]].
  destruct (filter Source.enabled (sources db)) as [|s rest] eqn:Hen;
    [reflexivity|].
  exists (map fst new).
  split.
  { rewrite Hfold. cbn [app]. rewrite <- Hsrc, tasks_of_created. reflexivity. }
  split.
  { apply (f_equal (@List.length Z)) in Hsrc. rewrite !length_map in *.
    exact Hsrc. }
  split.
  { apply (rows_with_sources
             (fun job source_id =>
                Job.type job = "scrape"
                /\ Job.status job = "pending"
                /\ Job.input_data job = PDict [("source_id", PInt source_id)])
             new (s :: rest) Hsrc).
    apply (Forall_impl _ (P := fun jt =>
             Job.type (fst jt) = "scrape"
             /\ Job.status (fst jt) = "pending"
             /\ Job.input_data (fst jt) = PDict [("source_id", PInt (snd jt))]
             /\ Job.created_at (fst jt) = now)); [|exact Hrows].
    intros jt [Ht [Hp [Hi _]]]. auto. }
  split.
  { rewrite Forall_map. apply (Forall_impl _ (P := fun jt =>
      ~ In (Job.id (fst jt)) (map Job.id (jobs db)))); [|exact Hfresh].
    intros jt Hjt. unfold query_job.
    destruct (find (fun j => Job.id j =? Job.id (fst jt)) (jobs db)) as [x|] eqn:E;
      [|reflexivity].
    exfalso. apply Hjt. apply find_some in E. destruct E as [Hin Hid].
    apply Z.eqb_eq in Hid. rewrite <- Hid. apply in_map. exact Hin. }
  rewrite map_map. exact Hdistinct.
Qed.


(** X30. [trigger_analysis] on a dataset that exists commits one new
    job, pending, of type analyze, under an id that was not in use,
    with the dataset and the categories as its input; it answers with
    that id and enqueues one task with it; the other jobs are as
    before. When the worker runs the task on the committed state, the
    job is seen pending, then running, then completed or failed. *)
Theorem X30_triggered_analysis_runs_to_an_end
    (now : Z) (db : DB) (dataset_id : Z) (dataset : Dataset.t)
    (categories : option (list string))
    (analyze : Workers.Analyzer) (t0 t1 : Z) :
  query_dataset db dataset_id = Some dataset ->
  exists db1 job,
    RoutesTriggers.trigger_analysis now db dataset_id categories
    = ([db1], [(Job.id job, dataset_id, categories)],
       RoutesOracle.Return (Job.id job))
    /\ query_job db (Job.id job) = None
    /\ query_job db1 (Job.id job) = Some job
    /\ (forall k, k <> Job.id job -> query_job db1 k = query_job db k)
    /\ Job.type job = "analyze"
    /\ Job.status job = "pending"
    /\ Job.input_data job
       = PDict [("dataset_id", PInt dataset_id);
                ("categories", match categories with
                               | Some cs => PList (map PStr cs)
                               | None => PNone
                               end)]
    /\ exists last_status,
         (last_status = "completed" \/ last_status = "failed")
         /\ collapse
              (job_statuses (Job.id job)
                 (db1 :: Workers.process_analysis_job analyze t0 t1 db1
                           (Job.id job) dataset_id categories))
            = ["pending"; "running"; last_status].
Proof.
  intros Hd. unfold RoutesTriggers.trigger_analysis. rewrite Hd.
  set (input_data :=
         PDict [("dataset_id", PInt dataset_id);
                ("categories",
                 match categories with
                 | Some cs => PList (map PStr cs)
                 | None => PNone
                 end)]).
  pose proof (add_job_row now db "analyze" input_data) as Hrow.
  destruct (add_job now db "analyze" input_data) as [db1 job] eqn:Hadd.
  cbv zeta in Hrow. cbn [fst snd] in Hrow.
  destruct Hrow as [Hfresh [Hq Hothers]].
  exists db1, job.
  unfold add_job in Hadd. injection Hadd as Hdb1 Hjob.
  split; [reflexivity|]. split; [exact Hfresh|]. split; [exact Hq|].
  split; [exact Hothers|].
  split; [rewrite <- Hjob; reflexivity|].
  split; [rewrite <- Hjob; reflexivity|].
  split; [rewrite <- Hjob; reflexivity|].
  destruct (worker_statuses db1 (Job.id job) job _ Hq
              (run_analysis db1 (Job.id job) analyze t0 t1 dataset_id categories))
    as [k [last_status [Hst Hlast]]].
  exists last_status. split; [exact Hlast|].
  rewrite (job_statuses_cons _ _ _ job Hq), Hst.
  assert (Hpending : Job.status job = "pending") by (rewrite <- Hjob; reflexivity).
  rewrite Hpending.
  apply (collapse_pending_running k last_status Hlast).
Qed.

Lemma X30_triggered_analysis_runs_to_an_end_witness :
  exists db1 job,
    RoutesTriggers.trigger_analysis 500 SamplesAnalysis.db_dataset 1 None
    = ([db1], [(Job.id job, 1, None)], RoutesOracle.Return (Job.id job))
    /\ query_job db1 (Job.id job) = Some job.
Proof.
  destruct (X30_triggered_analysis_runs_to_an_end 500 SamplesAnalysis.db_dataset 1
              SamplesAnalysis.dataset None SamplesAnalysis.crashing 600 601
              eq_refl)
    as [db1 [job [Hrun [_ [Hq _]]]]].
  exists db1, job. split; [exact Hrun | exact Hq].
Defined.


(* ------------------------------------------------------------------ *)
(** ** The lifetime of a job *)

(** *** Sequences of observations *)

Lemma last_default {A} (l : list A) (x a b : A) :
  last (x :: l) a = last (x :: l) b.
Proof.
  revert x. induction l as [|y l IH]; intros x; [reflexivity|].
  exact (IH y).
Qed.

Lemma moves_allowed_app (l1 l2 : list (option string)) :
  forall a,
    moves_allowed (a :: l1) ->
    moves_allowed (last l1 a :: l2) ->
    moves_allowed (a :: l1 ++ l2).
Proof.
  induction l1 as [|b l1 IH]; intros a H1 H2.
  - exact H2.
  - destruct H1 as [Hab H1]. split; [exact Hab|].
    apply IH; [exact H1|].
    destruct l1 as [|c l1]; [exact H2|].
    rewrite (last_default l1 c b a). exact H2.
Qed.

Lemma moves_allowed_firstn (n : nat) (l : list (option string)) :
  forall a, moves_allowed (a :: l) -> moves_allowed (a :: firstn n l).
Proof.
  revert n. induction l as [|b l IH]; intros n a H.
  - rewrite firstn_nil. exact I.
  - destruct n as [|n]; [exact I|].
    destruct H as [Hab H]. split; [exact Hab | exact (IH n b H)].
Qed.

Lemma moves_allowed_two_phases (a b : option string) (n m : nat) :
  may_follow a b ->
  moves_allowed (a :: repeat a n ++ repeat b m).
Proof.
  intros Hab. induction n as [|n IH].
  - cbn [repeat app]. revert a Hab. induction m as [|m IHm]; intros a Hab.
    + exact I.
    + split; [exact Hab|]. apply IHm. left. reflexivity.
  - split; [left; reflexivity | exact IH].
Qed.

Lemma last_map {A B} (f : A -> B) (l : list A) (d : A) :
  last (map f l) (f d) = f (last l d).
Proof.
  induction l as [|x l IH]; [reflexivity|].
  destruct l as [|y l]; [reflexivity|]. exact IH.
Qed.

Lemma last_app_cons {A} (l1 l2 : list A) (z a b : A) :
  last (l1 ++ z :: l2) a = last (z :: l2) b.
Proof.
  induction l1 as [|x l1 IH]; [apply last_default|].
  destruct l1 as [|y l1]; exact IH.
Qed.

Lemma final_app (db : DB) (l1 l2 : list DB) :
  final db (l1 ++ l2) = final (final db l1) l2.
Proof.
  unfold final. destruct l2 as [|z l2].
  - rewrite app_nil_r. reflexivity.
  - apply last_app_cons.
Qed.

Lemma final_in (db : DB) (l : list DB) :
  final db l = db /\ l = [] \/ In (final db l) l.
Proof.
  unfold final. destruct l as [|x l]; [left; split; reflexivity | right].
  revert x. induction l as [|y l IH]; intros x; [left; reflexivity|].
  right. exact (IH y).
Qed.

(** *** From the moves to the lifetimes *)

Lemma known_cases (s : string) (P : string -> Prop) :
  known_status s ->
  P "pending" -> P "running" -> P "completed" -> P "failed" -> P s.
Proof. intros [-> | [-> | [-> | ->]]]; auto. Qed.

(** The statuses of a lifetime that makes allowed moves only, from
    its first status on. *)
Lemma lifetime_collapse (l : list string) :
  forall s,
    known_status s ->
    moves_allowed (map Some (s :: l)) ->
    (s = "pending" ->
     collapse (s :: l) = ["pending"]
     \/ collapse (s :: l) = ["pending"; "running"]
     \/ collapse (s :: l) = ["pending"; "running"; "completed"]
     \/ collapse (s :: l) = ["pending"; "running"; "failed"])
    /\ (s = "running" ->
        collapse (s :: l) = ["running"]
        \/ collapse (s :: l) = ["running"; "completed"]
        \/ collapse (s :: l) = ["running"; "failed"])
    /\ (s = "completed" -> collapse (s :: l) = ["completed"])
    /\ (s = "failed" -> collapse (s :: l) = ["failed"]).
Proof.
  induction l as [|b l IH]; intros s Hs Hmoves.
  - repeat split; intros ->; auto.
  - cbn [map] in Hmoves. destruct Hmoves as [Hsb Hmoves].
    assert (Hb : known_status b /\
                 (s = b
                  \/ (s = "pending" /\ b = "running")
                  \/ (s = "running" /\ (b = "completed" \/ b = "failed")))).
    { destruct Hsb as [E | [[E _] | [[E1 E2] | [[E1 E2] | [_ E]]]]];
        try discriminate E.
      - injection E as <-. split; [exact Hs | left; reflexivity].
      - injection E1 as ->. injection E2 as ->.
        split; [right; left; reflexivity | right; left; split; reflexivity].
      - injection E1 as ->.
        destruct E2 as [E2 | E2]; injection E2 as ->;
          (split; [unfold known_status; auto | right; right; split; auto]). }
    destruct Hb as [Hb Hstep].
    destruct (IH b Hb Hmoves) as [Hp [Hr [Hc Hf]]].
    change (collapse (s :: b :: l))
      with (match collapse (b :: l) with
            | [] => [s]
            | y :: r => if String.eqb s y then y :: r else s :: y :: r
            end).
    destruct Hstep as [<- | [[-> ->] | [-> [-> | ->]]]].
    + (* the same status again *)
      repeat split; intros ->.
      * destruct (Hp eq_refl) as [E | [E | [E | E]]]; rewrite E; cbv; auto.
      * destruct (Hr eq_refl) as [E | [E | E]]; rewrite E; cbv; auto.
      * rewrite (Hc eq_refl). reflexivity.
      * rewrite (Hf eq_refl). reflexivity.
    + (* pending, then running *)
      repeat split; intros E; try discriminate E.
      destruct (Hr eq_refl) as [E' | [E' | E']]; rewrite E'; cbv; auto.
    + (* running, then completed *)
      repeat split; intros E; try discriminate E.
      rewrite (Hc eq_refl). cbv. auto.
    + (* running, then failed *)
      repeat split; intros E; try discriminate E.
      rewrite (Hf eq_refl). cbv. auto.
Qed.

Lemma lifetime_lawful (l : list string) :
  (forall s, hd_error l = Some s -> known_status s) ->
  moves_allowed (map Some l) ->
  lawful l = true.
Proof.
  destruct l as [|s l]; intros Hs Hmoves; [reflexivity|].
  pose proof (Hs s eq_refl) as Hk.
  destruct (lifetime_collapse l s Hk Hmoves) as [Hp [Hr [Hc Hf]]].
  unfold lawful.
  destruct Hk as [E | [E | [E | E]]].
  - destruct (Hp E) as [H | [H | [H | H]]]; rewrite H; reflexivity.
  - destruct (Hr E) as [H | [H | H]]; rewrite H; reflexivity.
  - rewrite (Hc E). reflexivity.
  - rewrite (Hf E). reflexivity.
Qed.

(** The first lifetime of a sequence of observations is made of its
    leading statuses. *)
Lemma lifetimes_first (obs : list (option string)) :
  moves_allowed obs ->
  exists life others,
    lifetimes obs = life :: others
    /\ moves_allowed (map Some life)
    /\ match obs with
       | Some s :: _ => hd_error life = Some s
       | _ => life = []
       end
    /\ Forall (fun l => lawful l = true) others.
Proof.
  induction obs as [|a obs IH]; intros Hmoves.
  - exists [], []. repeat split. constructor.
  - assert (Hrest : moves_allowed obs).
    { destruct obs as [|b obs]; [exact I | exact (proj2 Hmoves)]. }
    destruct (IH Hrest) as [life [others [Hl [Hm [Hhd Hothers]]]]].
    destruct a as [s|].
    + exists (s :: life), others. cbn [lifetimes]. rewrite Hl.
      split; [reflexivity|]. split; [|split; [reflexivity | exact Hothers]].
      destruct obs as [|[t|] obs].
      * subst life. exact I.
      * destruct life as [|t' life]; [discriminate Hhd|].
        injection Hhd as ->. cbn [map]. split; [|exact Hm].
        destruct Hmoves as [Hst _]. exact Hst.
      * subst life. exact I.
    + exists [], (life :: others). cbn [lifetimes]. rewrite Hl.
      split; [reflexivity|]. split; [exact I|]. split; [reflexivity|].
      constructor; [|exact Hothers].
      apply lifetime_lawful; [|exact Hm].
      intros s Hs. destruct obs as [|[t|] obs].
      * subst life. discriminate Hs.
      * rewrite Hhd in Hs. injection Hs as <-.
        destruct Hmoves as [Hnt _].
        destruct Hnt as [E | [[_ E] | [[E _] | [[E _] | [[E | E] _]]]]];
          try discriminate E.
        injection E as ->. left. reflexivity.
      * subst life. discriminate Hs.
Qed.

Lemma lifetimes_lawful (obs : list (option string)) :
  (forall s, hd_error obs = Some (Some s) -> known_status s) ->
  moves_allowed obs ->
  Forall (fun l => lawful l = true) (lifetimes obs).
Proof.
  intros Hfirst Hmoves.
  destruct (lifetimes_first obs Hmoves) as [life [others [Hl [Hm [Hhd Hothers]]]]].
  rewrite Hl. constructor; [|exact Hothers].
  apply lifetime_lawful; [|exact Hm].
  intros s Hs. destruct obs as [|[t|] obs].
  - subst life. discriminate Hs.
  - rewrite Hhd in Hs. injection Hs as <-. apply Hfirst. reflexivity.
  - subst life. discriminate Hs.
Qed.


(** *** What an operation may do to the rows of the jobs *)

Lemma status_at_same_jobs (k : Z) (db d : DB) :
  jobs d = jobs db -> status_at k d = status_at k db.
Proof. unfold status_at, query_job. intros ->. reflexivity. Qed.

(** States that all show one status for a job. *)
Lemma moves_allowed_constant (k : Z) (db : DB) (commits : list DB) :
  Forall (fun d => status_at k d = status_at k db) commits ->
  moves_allowed (map (status_at k) (db :: commits)).
Proof.
  revert db. induction commits as [|d commits IH]; intros db Hall; [exact I|].
  inversion Hall as [|? ? Hd Hrest]; subst. cbn [map]. split.
  - left. symmetry. exact Hd.
  - apply IH. apply (Forall_impl _ (P := fun d' => status_at k d' = status_at k db));
      [|exact Hrest].
    intros d' E. rewrite E. symmetry. exact Hd.
Qed.

Lemma find_app_none {A} (f : A -> bool) (l l' : list A) :
  find f l = None -> find f (l ++ l') = find f l'.
Proof.
  induction l as [|y l IH]; cbn [find app]; intros H; [reflexivity|].
  destruct (f y); [discriminate H | exact (IH H)].
Qed.

(** New pending rows. *)
Lemma may_follow_new_jobs (k : Z) (db d : DB) (new : list Job.t) :
  jobs d = (jobs db ++ new)%list ->
  Forall (fun j => Job.status j = "pending") new ->
  may_follow (status_at k db) (status_at k d).
Proof.
  intros Hjobs Hpending. unfold status_at, query_job. rewrite Hjobs.
  destruct (find (fun j => Job.id j =? k) (jobs db)) as [j|] eqn:E.
  - rewrite (find_app_found _ _ new _ E). left. reflexivity.
  - rewrite (find_app_none _ _ new E).
    destruct (find (fun j => Job.id j =? k) new) as [j|] eqn:E'.
    + right. left. split; [reflexivity|]. cbn [option_map].
      apply find_some in E'. destruct E' as [Hin _].
      rewrite Forall_forall in Hpending. rewrite (Hpending j Hin). reflexivity.
    + left. reflexivity.
Qed.

Lemma find_filter_kept {A} (f keep : A -> bool) (l : list A) (x : A) :
  find f l = Some x -> keep x = true -> find f (filter keep l) = Some x.
Proof.
  induction l as [|y l IH]; cbn [find filter]; intros Hf Hk; [discriminate Hf|].
  destruct (f y) eqn:Ef.
  - injection Hf as ->. rewrite Hk. cbn [find]. rewrite Ef. reflexivity.
  - destruct (keep y); [cbn [find]; rewrite Ef|]; exact (IH Hf Hk).
Qed.

Lemma find_filter_dropped {A} (key : A -> Z) (keep : A -> bool) (l : list A)
    (k : Z) (x : A) :
  NoDup (map key l) ->
  find (fun y => key y =? k) l = Some x ->
  keep x = false ->
  find (fun y => key y =? k) (filter keep l) = None.
Proof.
  intros Hnd Hf Hk.
  destruct (find (fun y => key y =? k) (filter keep l)) as [y|] eqn:E;
    [|reflexivity].
  exfalso. apply find_some in E. destruct E as [Hin Hy].
  apply filter_In in Hin. destruct Hin as [Hin Hkeep].
  apply Z.eqb_eq in Hy.
  pose proof (find_key key _ _ _ Hf) as Hx.
  apply find_some in Hf. destruct Hf as [Hinx _].
  assert (y = x).
  { apply (same_key_same_row key l); try assumption. congruence. }
  subst y. rewrite Hk in Hkeep. discriminate Hkeep.
Qed.

Lemma find_filter_absent {A} (f keep : A -> bool) (l : list A) :
  find f l = None -> find f (filter keep l) = None.
Proof.
  induction l as [|y l IH]; cbn [find filter]; intros Hf; [reflexivity|].
  destruct (f y) eqn:Ef; [discriminate Hf|].
  destruct (keep y); [cbn [find]; rewrite Ef|]; exact (IH Hf).
Qed.

(** Rows deleted, all of them completed or failed. *)
Lemma may_follow_deleted (k : Z) (db d : DB) (keep : Job.t -> bool) :
  NoDup (map Job.id (jobs db)) ->
  jobs d = filter keep (jobs db) ->
  (forall j, In j (jobs db) -> keep j = false ->
             Job.status j = "completed" \/ Job.status j = "failed") ->
  may_follow (status_at k db) (status_at k d).
Proof.
  intros Hnd Hjobs Hgone. unfold status_at, query_job. rewrite Hjobs.
  destruct (find (fun j => Job.id j =? k) (jobs db)) as [j|] eqn:E.
  - destruct (keep j) eqn:Hk.
    + rewrite (find_filter_kept _ keep _ _ E Hk). left. reflexivity.
    + rewrite (find_filter_dropped Job.id keep _ _ _ Hnd E Hk).
      right. right. right. right. split; [|reflexivity]. cbn [option_map].
      apply find_some in E. destruct E as [Hin _].
      destruct (Hgone j Hin Hk) as [-> | ->]; auto.
  - rewrite (find_filter_absent _ keep _ E). left. reflexivity.
Qed.

(** *** States that stay consistent *)

Lemma queued_exists (sys : System) (k : Z) :
  consistent sys -> In k (queued_ids sys) ->
  exists j, query_job (store sys) k = Some j /\ Job.status j = "pending".
Proof.
  intros [_ [_ [_ Hpending]]] Hin. specialize (Hpending k Hin).
  unfold status_at in Hpending.
  destruct (query_job (store sys) k) as [j|]; [|discriminate Hpending].
  exists j. split; [reflexivity|]. cbn in Hpending. injection Hpending. auto.
Qed.

(** An operation that leaves the jobs and the queues as they are. *)
Lemma consistent_same (sys : System) (db' : DB) :
  consistent sys ->
  jobs db' = jobs (store sys) ->
  oracle_queue db' = oracle_queue (store sys) ->
  consistent (mkSystem db' (scraping_queue sys) (analysis_queue sys)).
Proof.
  intros [Hnd [Hknown [Hq Hpending]]] Hjobs Hqueue.
  unfold consistent, queued_ids in *. cbn [store scraping_queue analysis_queue].
  rewrite Hjobs, Hqueue. repeat split; try assumption.
  intros k Hk. rewrite (status_at_same_jobs k _ _ Hjobs). exact (Hpending k Hk).
Qed.

(** An operation that adds pending jobs under fresh ids and enqueues
    their tasks. *)
Lemma consistent_created (sys sys' : System) (new : list Job.t) :
  consistent sys ->
  jobs (store sys') = (jobs (store sys) ++ new)%list ->
  Forall (fun j => Job.status j = "pending") new ->
  NoDup (map Job.id new) ->
  (forall j, In j new -> ~ In (Job.id j) (map Job.id (jobs (store sys)))) ->
  Permutation (queued_ids sys') (queued_ids sys ++ map Job.id new) ->
  consistent sys'.
Proof.
  intros Hc Hjobs Hpending Hnd_new Hfresh Hperm.
  pose proof Hc as [Hnd [Hknown [Hq Hqp]]].
  assert (Hnew_status : forall k, In k (map Job.id new) ->
                                  status_at k (store sys') = Some "pending").
  { intros k Hk. apply in_map_iff in Hk. destruct Hk as [j [<- Hj]].
    unfold status_at, query_job. rewrite Hjobs.
    rewrite find_app_none.
    - rewrite (find_nodup_key Job.id new j Hnd_new Hj). cbn [option_map].
      rewrite Forall_forall in Hpending. rewrite (Hpending j Hj). reflexivity.
    - destruct (find (fun y => Job.id y =? Job.id j) (jobs (store sys)))
        as [y|] eqn:E; [|reflexivity].
      exfalso. apply (Hfresh j Hj). pose proof (find_key Job.id _ _ _ E) as Hy.
      apply find_some in E. rewrite <- Hy. apply in_map. apply E. }
  unfold consistent. split; [|split; [|split]].
  - rewrite Hjobs, map_app. apply NoDup_app; [exact Hnd | exact Hnd_new |].
    intros k Hk Hk'. apply in_map_iff in Hk'. destruct Hk' as [j [<- Hj]].
    exact (Hfresh j Hj Hk).
  - rewrite Hjobs. apply Forall_app. split; [exact Hknown|].
    apply (Forall_impl _ (P := fun j => Job.status j = "pending"));
      [|exact Hpending].
    intros j ->. left. reflexivity.
  - apply (Permutation_NoDup (Permutation_sym Hperm)).
    apply NoDup_app; [exact Hq | exact Hnd_new |].
    intros k Hk Hk'. apply in_map_iff in Hk'. destruct Hk' as [j [<- Hj]].
    destruct (queued_exists sys (Job.id j) Hc Hk) as [y [Hy _]].
    apply (Hfresh j Hj). pose proof (find_key Job.id _ _ _ Hy) as E.
    unfold query_job in Hy. apply find_some in Hy. rewrite <- E.
    apply in_map. apply Hy.
  - intros k Hk. apply (Permutation_in _ Hperm) in Hk. apply in_app_or in Hk.
    destruct Hk as [Hk | Hk]; [|exact (Hnew_status k Hk)].
    destruct (queued_exists sys k Hc Hk) as [y [Hy Hst]].
    unfold status_at, query_job. rewrite Hjobs.
    unfold query_job in Hy. rewrite (find_app_found _ _ new _ Hy).
    cbn [option_map]. rewrite Hst. reflexivity.
Qed.

(** An operation that deletes completed or failed jobs. *)
Lemma consistent_deleted (sys : System) (db' : DB) (keep : Job.t -> bool) :
  consistent sys ->
  jobs db' = filter keep (jobs (store sys)) ->
  oracle_queue db' = oracle_queue (store sys) ->
  (forall j, In j (jobs (store sys)) -> keep j = false ->
             Job.status j = "completed" \/ Job.status j = "failed") ->
  consistent (mkSystem db' (scraping_queue sys) (analysis_queue sys)).
Proof.
  intros Hc Hjobs Hqueue Hgone.
  pose proof Hc as [Hnd [Hknown [Hq Hqp]]].
  unfold consistent, queued_ids in *. cbn [store scraping_queue analysis_queue].
  rewrite Hjobs, Hqueue. split; [|split; [|split]].
  - apply distinct_keys_filter. exact Hnd.
  - rewrite Forall_forall in *. intros j Hj. apply filter_In in Hj.
    apply Hknown. apply Hj.
  - exact Hq.
  - intros k Hk.
    destruct (queued_exists sys k Hc Hk) as [y [Hy Hst]].
    unfold status_at, query_job. rewrite Hjobs.
    assert (Hkeep : keep y = true).
    { destruct (keep y) eqn:E; [reflexivity|]. exfalso.
      unfold query_job in Hy. apply find_some in Hy.
      destruct (Hgone y (proj1 Hy) E) as [H | H]; rewrite H in Hst;
        discriminate Hst. }
    unfold query_job in Hy. rewrite (find_filter_kept _ keep _ _ Hy Hkeep).
    cbn [option_map]. rewrite Hst. reflexivity.
Qed.


(** *** The run of a worker on the task of a pending job *)

Lemma in_firstn {A} (n : nat) (l : list A) (x : A) :
  In x (firstn n l) -> In x l.
Proof.
  intros Hin. rewrite <- (firstn_skipn n l). apply in_or_app. left. exact Hin.
Qed.

Lemma job_stays (db d : DB) (job_id : Z) (job : Job.t) :
  query_job db job_id = Some job ->
  map Job.id (jobs d) = map Job.id (jobs db) ->
  query_job d job_id <> None.
Proof.
  intros Hq Hids Hnone. pose proof (find_key Job.id _ _ _ Hq) as Hid.
  unfold query_job in Hq. apply find_some in Hq. destruct Hq as [Hin _].
  apply (in_map Job.id) in Hin. rewrite <- Hids in Hin.
  apply in_map_iff in Hin. destruct Hin as [j [Hj Hin]].
  pose proof (find_none _ _ Hnone j Hin) as Hf. cbn beta in Hf.
  rewrite Hj, Hid, Z.eqb_refl in Hf. discriminate Hf.
Qed.

Lemma statuses_of_trace (k : Z) (trace : list DB) :
  Forall (fun d => query_job d k <> None) trace ->
  map (status_at k) trace = map Some (job_statuses k trace).
Proof.
  induction trace as [|d trace IH]; intros Hall; [reflexivity|].
  inversion Hall as [|? ? Hd Hrest]; subst.
  cbn [map job_statuses flat_map]. unfold status_at at 1.
  destruct (query_job d k) as [j|]; [|contradiction].
  cbn [option_map app map]. f_equal. exact (IH Hrest).
Qed.

Lemma moves_allowed_running (m : nat) (x : string) :
  x = "completed" \/ x = "failed" ->
  moves_allowed (map Some ("running" :: repeat "running" m ++ [x])).
Proof.
  intros Hx. induction m as [|m IH].
  - cbn. split; [|exact I]. right. right. right. left.
    split; [reflexivity|]. destruct Hx as [-> | ->]; auto.
  - cbn [repeat app map]. split; [left; reflexivity | exact IH].
Qed.

(** The statuses that the states of a worker show for each job: for
    its own job, which it found pending, running and then completed or
    failed; for the others, what they were. *)
Lemma worker_moves (db : DB) (job_id : Z) (job : Job.t) (trace : list DB) :
  query_job db job_id = Some job ->
  Job.status job = "pending" ->
  worker_run db job_id trace ->
  (forall k, moves_allowed (map (status_at k) (db :: trace)))
  /\ Forall (fun d =>
               map Job.id (jobs d) = map Job.id (jobs db)
               /\ oracle_queue d = oracle_queue db
               /\ (forall k, k <> job_id -> query_job d k = query_job db k)
               /\ exists j, query_job d job_id = Some j
                            /\ known_status (Job.status j)) trace.
Proof.
  intros Hq Hpending Hrun.
  pose proof (worker_run_same_but_job db job_id trace Hrun) as Hsame.
  destruct (worker_statuses db job_id job trace Hq Hrun) as [m [x [Hst Hx]]].
  assert (Hhas : Forall (fun d => query_job d job_id <> None) trace).
  { apply (Forall_impl _ (P := same_but_job job_id db)); [|exact Hsame].
    intros d [Hids _]. exact (job_stays db d job_id job Hq Hids). }
  pose proof (statuses_of_trace job_id trace Hhas) as Hobs. rewrite Hst in Hobs.
  split.
  - intros k. destruct (Z.eq_dec k job_id) as [-> | Hne].
    + cbn [map]. unfold status_at at 1. rewrite Hq. cbn [option_map].
      rewrite Hpending, Hobs.
      change (repeat "running" (S m) ++ [x])%list
        with ("running" :: repeat "running" m ++ [x])%list.
      split; [|exact (moves_allowed_running m x Hx)].
      right. right. left. split; reflexivity.
    + apply moves_allowed_constant.
      apply (Forall_impl _ (P := same_but_job job_id db)); [|exact Hsame].
      intros d [_ [Hother _]]. unfold status_at. rewrite (Hother k Hne).
      reflexivity.
  - rewrite Forall_forall in *. intros d Hd.
    destruct (Hsame d Hd) as [Hids [Hother [_ [_ Hqueue]]]].
    split; [exact Hids|]. split; [exact Hqueue|]. split; [exact Hother|].
    destruct (query_job d job_id) as [j|] eqn:Hj; [|destruct (Hhas d Hd Hj)].
    exists j. split; [reflexivity|].
    assert (Hin : In (Some (Job.status j)) (map (status_at job_id) trace)).
    { apply in_map_iff. exists d. split; [|exact Hd].
      unfold status_at. rewrite Hj. reflexivity. }
    rewrite Hobs in Hin. apply in_map_iff in Hin.
    destruct Hin as [s [Hs Hin]]. injection Hs as Hs. rewrite <- Hs.
    apply in_app_or in Hin. destruct Hin as [Hin | [<- | []]].
    + apply repeat_spec in Hin. rewrite Hin. right. left. reflexivity.
    + destruct Hx as [-> | ->]; unfold known_status; auto.
Qed.

(** The system after a worker has run, to its end or not, on a task
    taken from a queue. *)
Lemma consistent_worked (sys : System) (db0 d : DB) (job_id : Z)
    (sq : list (Z * Z)) (aq : list (Z * Z * option (list string))) :
  consistent sys ->
  jobs db0 = jobs (store sys) ->
  map Job.id (jobs d) = map Job.id (jobs db0) ->
  (forall k, k <> job_id -> query_job d k = query_job db0 k) ->
  (forall j, query_job d job_id = Some j -> known_status (Job.status j)) ->
  (forall k, In k (queued_ids (mkSystem d sq aq)) ->
             In k (queued_ids sys) /\ k <> job_id) ->
  NoDup (queued_ids (mkSystem d sq aq)) ->
  consistent (mkSystem d sq aq).
Proof.
  intros Hc Hjobs0 Hids Hother Hown Hqueued Hnd_q.
  pose proof Hc as [Hnd [Hknown [_ Hqp]]].
  assert (Hnd_d : NoDup (map Job.id (jobs d)))
    by (rewrite Hids, Hjobs0; exact Hnd).
  unfold consistent. cbn [store]. split; [exact Hnd_d|].
  split; [|split; [exact Hnd_q|]].
  - rewrite Forall_forall. intros j Hj.
    pose proof (find_nodup_key Job.id (jobs d) j Hnd_d Hj) as Hfind.
    destruct (Z.eq_dec (Job.id j) job_id) as [E | Hne].
    + apply Hown. unfold query_job. rewrite <- E. exact Hfind.
    + pose proof (Hother (Job.id j) Hne) as Hsame. unfold query_job in Hsame.
      rewrite Hfind, Hjobs0 in Hsame. symmetry in Hsame.
      apply find_some in Hsame. rewrite Forall_forall in Hknown.
      apply Hknown. apply Hsame.
  - intros k Hk. destruct (Hqueued k Hk) as [Hin Hne].
    unfold status_at. rewrite (Hother k Hne).
    pose proof (Hqp k Hin) as Hp. unfold status_at, query_job in *.
    rewrite Hjobs0. exact Hp.
Qed.

Lemma worker_step_sound (sys : System) (db0 : DB) (job_id : Z)
    (trace : list DB) (cut : nat)
    (sq : list (Z * Z)) (aq : list (Z * Z * option (list string))) :
  consistent sys ->
  jobs db0 = jobs (store sys) ->
  In job_id (queued_ids sys) ->
  worker_run db0 job_id trace ->
  (forall d, oracle_queue d = oracle_queue db0 ->
             (forall k, In k (queued_ids (mkSystem d sq aq)) ->
                        In k (queued_ids sys) /\ k <> job_id)
             /\ NoDup (queued_ids (mkSystem d sq aq))) ->
  consistent (mkSystem (final db0 (firstn cut trace)) sq aq)
  /\ forall k, moves_allowed (map (status_at k) (db0 :: firstn cut trace)).
Proof.
  intros Hc Hjobs0 Hin Hrun Hqueue.
  destruct (queued_exists sys job_id Hc Hin) as [job [Hq Hpending]].
  assert (Hq0 : query_job db0 job_id = Some job)
    by (unfold query_job in *; rewrite Hjobs0; exact Hq).
  destruct (worker_moves db0 job_id job trace Hq0 Hpending Hrun)
    as [Hmoves Hstates].
  split.
  - destruct (final_in db0 (firstn cut trace)) as [[E _] | Hfin].
    + rewrite E. destruct (Hqueue db0 eq_refl) as [Hsub Hnd].
      apply (consistent_worked sys db0 db0 job_id); try assumption;
        try reflexivity.
      intros j Hj. rewrite Hq0 in Hj. injection Hj as <-.
      rewrite Hpending. left. reflexivity.
    + apply in_firstn in Hfin. rewrite Forall_forall in Hstates.
      destruct (Hstates _ Hfin) as [Hids [Hoq [Hother [j [Hj Hknown]]]]].
      destruct (Hqueue _ Hoq) as [Hsub Hnd].
      apply (consistent_worked sys db0 _ job_id); try assumption.
      intros j' Hj'. rewrite Hj in Hj'. injection Hj' as <-. exact Hknown.
  - intros k. specialize (Hmoves k). cbn [map] in *.
    rewrite <- firstn_map. apply moves_allowed_firstn. exact Hmoves.
Qed.


(** *** Every operation *)

Lemma map_constant {A B} (f : A -> B) (c : B) (l : list A) :
  Forall (fun x => f x = c) l -> map f l = repeat c (List.length l).
Proof.
  induction l as [|x l IH]; intros Hall; [reflexivity|].
  inversion Hall as [|? ? Hx Hl]; subst. cbn [map List.length repeat].
  rewrite IH by exact Hl. reflexivity.
Qed.

Lemma final_cons (db x : DB) (l : list DB) : final db (x :: l) = final x l.
Proof.
  unfold final. destruct l as [|y l]; [reflexivity|].
  change (last (y :: l) db = last (y :: l) x). apply last_default.
Qed.

Lemma consistent_eta (sys : System) :
  consistent sys ->
  consistent (mkSystem (store sys) (scraping_queue sys) (analysis_queue sys)).
Proof. destruct sys. intros H. exact H. Qed.

(** The states of an operation that adds jobs: first states with the
    jobs as they were, then states with the new jobs. *)
Lemma created_step (sys sys' : System) (pre post : list DB) (new : list Job.t) :
  consistent sys ->
  Forall (fun d => jobs d = jobs (store sys)) pre ->
  Forall (fun d => jobs d = (jobs (store sys) ++ new)%list) post ->
  (post = [] -> new = []) ->
  Forall (fun j => Job.status j = "pending") new ->
  NoDup (map Job.id new) ->
  (forall j, In j new -> ~ In (Job.id j) (map Job.id (jobs (store sys)))) ->
  store sys' = final (store sys) (pre ++ post) ->
  Permutation (queued_ids sys') (queued_ids sys ++ map Job.id new) ->
  consistent sys'
  /\ forall k, moves_allowed (map (status_at k) (store sys :: pre ++ post)).
Proof.
  intros Hc Hpre Hpost Hempty Hpending Hnd Hfresh Hstore Hperm. split.
  - apply (consistent_created sys sys' new); try assumption.
    rewrite Hstore, final_app.
    destruct (final_in (final (store sys) pre) post) as [[E Hnil] | Hin].
    + rewrite E, (Hempty Hnil), app_nil_r.
      destruct (final_in (store sys) pre) as [[E' _] | Hin'].
      * rewrite E'. reflexivity.
      * rewrite Forall_forall in Hpre. exact (Hpre _ Hin').
    + rewrite Forall_forall in Hpost. exact (Hpost _ Hin).
  - intros k. cbn [map]. rewrite map_app.
    set (d := set_jobs (store sys) (jobs (store sys) ++ new)).
    rewrite (map_constant (status_at k) (status_at k (store sys)) pre).
    2:{ apply (Forall_impl _ (P := fun d => jobs d = jobs (store sys)));
          [|exact Hpre].
        intros d' H. apply status_at_same_jobs. exact H. }
    rewrite (map_constant (status_at k) (status_at k d) post).
    2:{ apply (Forall_impl _ (P := fun d => jobs d = (jobs (store sys) ++ new)%list));
          [|exact Hpost].
        intros d' H. apply status_at_same_jobs. rewrite H. reflexivity. }
    apply moves_allowed_two_phases.
    apply (may_follow_new_jobs k (store sys) d new); [reflexivity | exact Hpending].
Qed.

Lemma queue_taken (ids ids' l1 l2 : list Z) (x : Z) :
  ids = (l1 ++ x :: l2)%list ->
  ids' = (l1 ++ l2)%list ->
  NoDup ids ->
  In x ids
  /\ (forall k, In k ids' -> In k ids /\ k <> x)
  /\ NoDup ids'.
Proof.
  intros -> -> Hnd. split; [apply in_or_app; right; left; reflexivity|].
  pose proof (NoDup_remove_1 _ _ _ Hnd) as H1.
  pose proof (NoDup_remove_2 _ _ _ Hnd) as H2.
  split; [|exact H1].
  intros k Hk. split.
  - apply in_app_or in Hk. apply in_or_app.
    destruct Hk as [Hk | Hk]; [left | right; right]; exact Hk.
  - intros ->. exact (H2 Hk).
Qed.

Lemma perm_first (a t b c : list Z) :
  Permutation ((a ++ t) ++ b ++ c) ((a ++ b ++ c) ++ t).
Proof.
  rewrite <- !app_assoc. apply Permutation_app_head.
  rewrite (app_assoc b c t). apply Permutation_app_comm.
Qed.

Lemma perm_second (a b t c : list Z) :
  Permutation (a ++ (b ++ t) ++ c) ((a ++ b ++ c) ++ t).
Proof.
  rewrite <- !app_assoc. apply Permutation_app_head. apply Permutation_app_head.
  apply Permutation_app_comm.
Qed.

Lemma perm_third (a b c t : list Z) :
  Permutation (a ++ b ++ (c ++ t)) ((a ++ b ++ c) ++ t).
Proof. rewrite <- !app_assoc. apply Permutation_refl. Qed.

Lemma step_store (sys sys' : System) (commits : list DB) :
  step sys commits sys' -> store sys' = final (store sys) commits.
Proof. intros Hstep. destruct Hstep; reflexivity. Qed.

(** An operation leaves the system consistent, and in the states it
    commits every job makes allowed moves only. *)
Lemma step_sound (sys sys' : System) (commits : list DB) :
  consistent sys ->
  step sys commits sys' ->
  consistent sys'
  /\ forall k, moves_allowed (map (status_at k) (store sys :: commits)).
Proof.
  intros Hc Hstep. pose proof Hc as [Hnd [Hknown [Hq Hqp]]].
  destruct Hstep as
    [ now source_id commits tasks outcome H
    | now commits tasks outcome H
    | now dataset_id categories commits tasks outcome H
    | settings now analysis_result_id
    | settings now signal_id
    | cfg ext t0 t1 job_id source_id before after cut Hqueue
    | analyze t0 t1 job_id dataset_id categories before after cut Hqueue
    | settings t0 t1 job_id analysis_result_id before after cut Hqueue
    | job_id
    | now days_old db' deleted_count cutoff H
    | self session now log
    | db' Hjobs Hqueue ].
  - (* trigger_extraction *)
    unfold RoutesTriggers.trigger_extraction in H.
    destruct (query_source (store sys) source_id) as [source|].
    2:{ injection H as <- <- <-. rewrite app_nil_r.
        split; [exact (consistent_eta sys Hc) | intros k; exact I]. }
    destruct (Source.enabled source); cbn [negb] in H.
    2:{ injection H as <- <- <-. rewrite app_nil_r.
        split; [exact (consistent_eta sys Hc) | intros k; exact I]. }
    unfold add_job in H. injection H as <- <- <-.
    eapply (created_step sys _ [] [_] [_]); try reflexivity; try assumption.
    + constructor.
    + repeat constructor.
    + intros E. discriminate E.
    + repeat constructor.
    + repeat constructor. intros [].
    + intros j [<- | []]. apply next_id_fresh.
    + unfold queued_ids. cbn [store scraping_queue analysis_queue final last
                              oracle_queue set_jobs map Job.id].
      rewrite map_app. cbn [map fst]. apply perm_first.
  - (* trigger_all_extractions *)
    unfold RoutesTriggers.trigger_all_extractions in H.
    destruct (filter Source.enabled (sources (store sys))) as [|s rest] eqn:Hen.
    { injection H as <- <- <-. rewrite app_nil_r.
      split; [exact (consistent_eta sys Hc) | intros k; exact I]. }
    destruct (trigger_all_loop now (s :: rest) (store sys) [])
      as [new [Hfold [_ [Hrows [Hfresh Hdistinct]]]]].
    rewrite Hfold in H. cbn [app] in H. injection H as <- <- <-.
    eapply (created_step sys _ [] [_] (map fst new)); try reflexivity;
      try assumption.
    + constructor.
    + repeat constructor.
    + intros E. discriminate E.
    + rewrite Forall_map.
      apply (Forall_impl _ (P := fun jt =>
               Job.type (fst jt) = "scrape"
               /\ Job.status (fst jt) = "pending"
               /\ Job.input_data (fst jt) = PDict [("source_id", PInt (snd jt))]
               /\ Job.created_at (fst jt) = now)); [|exact Hrows].
      intros jt [_ [Hp _]]. exact Hp.
    + rewrite map_map. exact Hdistinct.
    + intros j Hj. apply in_map_iff in Hj. destruct Hj as [jt [<- Hjt]].
      rewrite Forall_forall in Hfresh. exact (Hfresh jt Hjt).
    + unfold queued_ids. cbn [store scraping_queue analysis_queue final last
                              oracle_queue set_jobs].
      rewrite map_app, !map_map. cbn [fst]. apply perm_first.
  - (* trigger_analysis *)
    unfold RoutesTriggers.trigger_analysis in H.
    destruct (query_dataset (store sys) dataset_id) as [dataset|].
    2:{ injection H as <- <- <-. rewrite app_nil_r.
        split; [exact (consistent_eta sys Hc) | intros k; exact I]. }
    unfold add_job in H. injection H as <- <- <-.
    eapply (created_step sys _ [] [_] [_]); try reflexivity; try assumption.
    + constructor.
    + repeat constructor.
    + intros E. discriminate E.
    + repeat constructor.
    + repeat constructor. intros [].
    + intros j [<- | []]. apply next_id_fresh.
    + unfold queued_ids. cbn [store scraping_queue analysis_queue final last
                              oracle_queue set_jobs map Job.id].
      rewrite map_app. cbn [map fst]. apply perm_second.
  - (* create_oracle_signal *)
    subst commits. unfold RoutesOracle.create_oracle_signal.
    destruct (ORACLE_ENABLED settings); cbn [negb fst].
    2:{ split; [exact (consistent_eta sys Hc) | intros k; exact I]. }
    destruct (query_analysis (store sys) analysis_result_id) as [analysis|];
      cbn [fst].
    2:{ split; [exact (consistent_eta sys Hc) | intros k; exact I]. }
    destruct (AnalysisResult.severity analysis) as [severity|]; cbn [fst].
    2:{ split; [exact (consistent_eta sys Hc) | intros k; exact I]. }
    destruct (str_in severity ["high"; "critical"]); cbn [negb fst].
    2:{ split; [exact (consistent_eta sys Hc) | intros k; exact I]. }
    destruct (query_signal_for (store sys) analysis_result_id); cbn [fst].
    { split; [exact (consistent_eta sys Hc) | intros k; exact I]. }
    unfold add_oracle_signal, add_job, RoutesOracle.enqueue_oracle_job.
    cbn [fst snd jobs set_oracle_signals set_jobs set_oracle_queue oracle_queue].
    eapply (created_step sys _ [_] [_; _] [_]); try reflexivity; try assumption.
    + repeat constructor.
    + repeat constructor.
    + intros E. discriminate E.
    + repeat constructor.
    + repeat constructor. intros [].
    + intros j [<- | []]. apply next_id_fresh.
    + unfold queued_ids. cbn [store scraping_queue analysis_queue final last
                              oracle_queue set_jobs set_oracle_queue map Job.id].
      rewrite map_app. cbn [map fst]. apply perm_third.
  - (* retry_oracle_signal *)
    subst commits. unfold RoutesOracle.retry_oracle_signal.
    destruct (ORACLE_ENABLED settings); cbn [negb fst].
    2:{ split; [exact (consistent_eta sys Hc) | intros k; exact I]. }
    destruct (query_signal (store sys) signal_id) as [signal|]; cbn [fst].
    2:{ split; [exact (consistent_eta sys Hc) | intros k; exact I]. }
    destruct (str_in (OracleSignal.status signal) ["failed"; "pending"]);
      cbn [negb fst].
    2:{ split; [exact (consistent_eta sys Hc) | intros k; exact I]. }
    unfold update_signal, add_job, RoutesOracle.enqueue_oracle_job.
    cbn [fst snd jobs set_oracle_signals set_jobs set_oracle_queue oracle_queue].
    eapply (created_step sys _ [_] [_; _] [_]); try reflexivity; try assumption.
    + repeat constructor.
    + repeat constructor.
    + intros E. discriminate E.
    + repeat constructor.
    + repeat constructor. intros [].
    + intros j [<- | []]. apply next_id_fresh.
    + unfold queued_ids. cbn [store scraping_queue analysis_queue final last
                              oracle_queue set_jobs set_oracle_queue map Job.id].
      rewrite map_app. cbn [map fst]. apply perm_third.
  - (* the scraping worker *)
    subst commits.
    destruct (queue_taken (queued_ids sys)
                (map fst (before ++ after)
                 ++ map (fun task => fst (fst task)) (analysis_queue sys)
                 ++ map fst (oracle_queue (store sys)))
                (map fst before)
                (map fst after
                 ++ map (fun task => fst (fst task)) (analysis_queue sys)
                 ++ map fst (oracle_queue (store sys))) job_id)
      as [Hin [Hsub Hnd']]; [| |exact Hq|].
    { unfold queued_ids. rewrite Hqueue, map_app. cbn [map fst].
      rewrite <- app_assoc. reflexivity. }
    { rewrite map_app, <- app_assoc. reflexivity. }
    apply (worker_step_sound sys (store sys) job_id _ cut (before ++ after)
             (analysis_queue sys) Hc eq_refl Hin
             (run_scraping _ _ cfg ext t0 t1 source_id)).
    intros d Hd. unfold queued_ids. cbn [store scraping_queue analysis_queue].
    rewrite Hd. split; assumption.
  - (* the analysis worker *)
    subst commits.
    destruct (queue_taken (queued_ids sys)
                (map fst (scraping_queue sys)
                 ++ map (fun task => fst (fst task)) (before ++ after)
                 ++ map fst (oracle_queue (store sys)))
                (map fst (scraping_queue sys)
                 ++ map (fun task => fst (fst task)) before)
                (map (fun task => fst (fst task)) after
                 ++ map fst (oracle_queue (store sys))) job_id)
      as [Hin [Hsub Hnd']]; [| |exact Hq|].
    { unfold queued_ids. rewrite Hqueue, map_app. cbn [map fst].
      rewrite <- !app_assoc. reflexivity. }
    { rewrite map_app, <- !app_assoc. reflexivity. }
    apply (worker_step_sound sys (store sys) job_id _ cut (scraping_queue sys)
             (before ++ after) Hc eq_refl Hin
             (run_analysis _ _ analyze t0 t1 dataset_id categories)).
    intros d Hd. unfold queued_ids. cbn [store scraping_queue analysis_queue].
    rewrite Hd. split; assumption.
  - (* the relay worker *)
    subst commits taken.
    set (taken := set_oracle_queue (store sys) (before ++ after)).
    destruct (queue_taken (queued_ids sys)
                (map fst (scraping_queue sys)
                 ++ map (fun task => fst (fst task)) (analysis_queue sys)
                 ++ map fst (before ++ after))
                (map fst (scraping_queue sys)
                 ++ map (fun task => fst (fst task)) (analysis_queue sys)
                 ++ map fst before)
                (map fst after) job_id)
      as [Hin [Hsub Hnd']]; [| |exact Hq|].
    { unfold queued_ids. rewrite Hqueue, map_app. cbn [map fst].
      rewrite <- !app_assoc. reflexivity. }
    { rewrite map_app, <- !app_assoc. reflexivity. }
    destruct (worker_step_sound sys taken job_id _ cut (scraping_queue sys)
                (analysis_queue sys) Hc eq_refl Hin
                (run_oracle _ _ settings t0 t1 analysis_result_id))
      as [Hc' Hmoves].
    { intros d Hd. unfold queued_ids. cbn [store scraping_queue analysis_queue].
      rewrite Hd. split; assumption. }
    rewrite final_cons. split; [exact Hc'|].
    intros k. cbn [map]. split; [|exact (Hmoves k)].
    left. reflexivity.
  - (* delete_job *)
    subst db'. unfold RoutesJobs.delete_job.
    destruct (query_job (store sys) job_id) as [job|] eqn:Hjob; cbn [fst].
    2:{ split; [exact (consistent_eta sys Hc)|].
        intros k. split; [left; reflexivity | exact I]. }
    destruct (str_in (Job.status job) ["running"; "pending"]) eqn:Hin; cbn [fst].
    { split; [exact (consistent_eta sys Hc)|].
      intros k. split; [left; reflexivity | exact I]. }
    assert (Hgone : forall j, In j (jobs (store sys)) ->
                      negb (Job.id j =? Job.id job) = false ->
                      Job.status j = "completed" \/ Job.status j = "failed").
    { intros j Hj Hk. apply Bool.negb_false_iff, Z.eqb_eq in Hk.
      assert (j = job).
      { apply (same_key_same_row Job.id (jobs (store sys))); try assumption.
        unfold query_job in Hjob. apply find_some in Hjob. apply Hjob. }
      subst j. rewrite Forall_forall in Hknown.
      destruct (Hknown job Hj) as [E | [E | [E | E]]]; auto;
        rewrite E in Hin; discriminate Hin. }
    split.
    + apply (consistent_deleted sys _ (fun j => negb (Job.id j =? Job.id job)));
        try assumption; reflexivity.
    + intros k. split; [|exact I].
      apply (may_follow_deleted k (store sys) _
               (fun j => negb (Job.id j =? Job.id job))); try assumption.
      reflexivity.
  - (* cleanup_old_jobs *)
    unfold RoutesJobs.cleanup_old_jobs in H.
    destruct ((1 <=? days_old) && (days_old <=? 90)); [|discriminate H].
    injection H as <- _ _.
    assert (Hgone : forall j, In j (jobs (store sys)) ->
                      negb (RoutesJobs.is_old_terminal
                              (now - days_old * RoutesJobs.seconds_per_day) j)
                      = false ->
                      Job.status j = "completed" \/ Job.status j = "failed").
    { intros j _ Hk. apply Bool.negb_false_iff in Hk.
      apply is_old_terminal_spec in Hk. apply Hk. }
    split.
    + apply (consistent_deleted sys _
               (fun j => negb (RoutesJobs.is_old_terminal
                                 (now - days_old * RoutesJobs.seconds_per_day) j)));
        try assumption; reflexivity.
    + intros k. split; [|exact I].
      apply (may_follow_deleted k (store sys) _
               (fun j => negb (RoutesJobs.is_old_terminal
                                 (now - days_old * RoutesJobs.seconds_per_day) j)));
        try assumption.
      reflexivity.
  - (* a pass of the monitor *)
    subst db'.
    destruct (monitor_pass_frame self session now (store sys) log)
      as [db' [lines [Hpass [Hch _]]]].
    rewrite Hpass. cbn [fst].
    destruct Hch as [_ [_ [_ [_ [Hjobs [Hqueue _]]]]]].
    split; [exact (consistent_same sys db' Hc Hjobs Hqueue)|].
    intros k. split; [|exact I].
    left. symmetry. apply status_at_same_jobs. exact Hjobs.
  - (* the other operations *)
    split; [exact (consistent_same sys db' Hc Hjobs Hqueue)|].
    intros k. split; [|exact I].
    left. symmetry. apply status_at_same_jobs. exact Hjobs.
Qed.


(** *** Every sequence of operations *)

Lemma run_sound (sys sys' : System) (history : list DB) :
  run sys history sys' ->
  consistent sys ->
  consistent sys'
  /\ store sys' = final (store sys) history
  /\ forall k, moves_allowed (map (status_at k) (store sys :: history)).
Proof.
  intros Hrun. induction Hrun as [sys | sys sys' sys'' commits more Hstep Hrun IH];
    intros Hc.
  - split; [exact Hc|]. split; [reflexivity | intros k; exact I].
  - destruct (step_sound sys sys' commits Hc Hstep) as [Hc' Hmoves].
    pose proof (step_store sys sys' commits Hstep) as Hstore.
    destruct (IH Hc') as [Hc'' [Hstore' Hmoves']].
    split; [exact Hc''|]. split.
    + rewrite final_app, <- Hstore. exact Hstore'.
    + intros k. cbn [map]. rewrite map_app.
      apply moves_allowed_app; [exact (Hmoves k)|].
      change (status_at k (store sys)) with ((status_at k) (store sys)).
      rewrite last_map. fold (final (store sys) commits). rewrite <- Hstore.
      exact (Hmoves' k).
Qed.

(** C4. In every sequence of operations of the system, from a
    consistent state (the empty system is one), every job makes
    allowed moves only from one committed state to the next: a new row
    is pending, a pending row becomes running, a running row becomes
    completed or failed, and a completed or failed row stays as it is
    until it is deleted; so no operation moves a job out of a terminal
    status, and a job becomes running from pending only. Hence in each
    lifetime of a job id, the statuses it shows are, without their
    repetitions, a subsequence of pending, running, completed or of
    pending, running, failed. The worker functions themselves do not
    check the status: the jobs they are run on are pending because a
    task is enqueued once, for a job that was just created. *)
Theorem C4_worker_status_sequence
    (sys sys' : System) (history : list DB) (job_id : Z) :
  consistent sys ->
  run sys history sys' ->
  let observed := map (status_at job_id) (store sys :: history) in
  moves_allowed observed
  /\ Forall (fun statuses => lawful statuses = true) (lifetimes observed)
  /\ consistent sys'.
Proof.
  intros Hc Hrun observed.
  destruct (run_sound sys sys' history Hrun Hc) as [Hc' [_ Hmoves]].
  split; [exact (Hmoves job_id)|]. split; [|exact Hc'].
  apply lifetimes_lawful; [|exact (Hmoves job_id)].
  intros s Hs. subst observed. cbn [map hd_error] in Hs. injection Hs as Hs.
  unfold status_at in Hs.
  destruct (query_job (store sys) job_id) as [j|] eqn:Hj; [|discriminate Hs].
  injection Hs as <-. destruct Hc as [_ [Hknown _]].
  rewrite Forall_forall in Hknown. apply Hknown.
  unfold query_job in Hj. apply find_some in Hj. apply Hj.
Qed.

Lemma C4_worker_status_sequence_witness :
  let sys := SamplesSystem.fresh in
  let triggered :=
    fst (fst (RoutesTriggers.trigger_extraction 100 (store sys) 1)) in
  let db1 := final (store sys) triggered in
  let worked :=
    firstn 4 (Workers.process_scraping_job Samples.flushing Samples.three_pages
                400 401 db1 1 1) in
  lifetimes (map (status_at 1) (store sys :: triggered ++ worked ++ []))
  = [[]; ["pending"; "running"; "running"; "running"; "completed"]]
  /\ Forall (fun statuses => lawful statuses = true)
            (lifetimes (map (status_at 1)
                            (store sys :: triggered ++ worked ++ []))).
Proof.
  intros sys triggered db1 worked.
  split; [vm_compute; reflexivity|].
  assert (Hc : consistent sys).
  { unfold consistent. cbn. repeat split; try constructor. intros k []. }
  pose (sys1 := mkSystem db1 (scraping_queue sys ++ [(1, 1)]) (analysis_queue sys)).
  pose (sys2 := mkSystem (final (store sys1) worked) ([] ++ [])
                         (analysis_queue sys1)).
  assert (Hrun : run sys (triggered ++ worked ++ []) sys2).
  { apply (run_step sys sys1 sys2).
    - apply (step_trigger_extraction sys 100 1 triggered [(1, 1)]
               (snd (RoutesTriggers.trigger_extraction 100 (store sys) 1))).
      vm_compute. reflexivity.
    - apply (run_step sys1 sys2 sys2).
      + exact (step_scraping_worker sys1 Samples.flushing Samples.three_pages
                 400 401 1 1 [] [] 4 eq_refl).
      + apply run_done. }
  exact (proj1 (proj2 (C4_worker_status_sequence sys sys2 _ 1 Hc Hrun))).
Defined.
